(** * A shallow embedding of the Stata dta reader (src/test_files/gendata.go)

    The embedding follows package [datareader]: the [StataReader] struct,
    the one-time initialisation pass [init] with its header and metadata
    section readers, the row decoder [Read] and the date pass
    [do_convert_dates].

    Conventions.
    - Go's [int], [int64] and [uint64] are 64 bits wide; every integer is
      a [Z] and the wrap-around of the source's arithmetic is written out.
    - A byte slice is a [list byte]; a Go string is a [string] made of the
      same bytes.
    - The [io.ReadSeeker] is an in-memory byte sequence with a cursor,
      as [bytes.Reader] (and a regular file) behaves.  The source drops the
      error of every read and seek, so a failed read is visible only through
      the bytes and variables it did not overwrite.
    - A panic, a returned [error] and the exhaustion of the fuel of an
      unbounded loop are the three ways of not returning a value. *)

From Stdlib Require Import ZArith String Ascii Strings.Byte DecimalString SpecFloat.
From stdpp Require Import base option list gmap strings.

Open Scope Z_scope.

(** ** Outcomes *)

Inductive result (A : Type) : Type :=
| Ok (a : A)
| Err (e : string)
| Panic (msg : string)
| OutOfFuel.

Arguments Ok {A} a.
Arguments Err {A} e.
Arguments Panic {A} msg.
Arguments OutOfFuel {A}.

#[global] Instance result_ret : MRet result := λ A a, Ok a.

#[global] Instance result_bind : MBind result := λ A B f c,
  match c with
  | Ok a => f a
  | Err e => Err e
  | Panic msg => Panic msg
  | OutOfFuel => OutOfFuel
  end.

Definition is_Ok {A} (c : result A) : bool :=
  match c with Ok _ => true | _ => false end.

(** ** Machine integers *)

Definition wrap_uint (w : Z) (x : Z) : Z := x mod 2 ^ w.

Definition wrap_int (w : Z) (x : Z) : Z :=
  (x + 2 ^ (w - 1)) mod 2 ^ w - 2 ^ (w - 1).

Definition byte_Z (b : byte) : Z := Z.of_N (Byte.to_N b).

Fixpoint le_uint (bs : list byte) : Z :=
  match bs with
  | [] => 0
  | b :: bs' => byte_Z b + 256 * le_uint bs'
  end.

Inductive Endian := LittleEndian | BigEndian.

Definition order_uint (o : Endian) (bs : list byte) : Z :=
  match o with
  | LittleEndian => le_uint bs
  | BigEndian => le_uint (rev bs)
  end.

(** [fmt.Sprintf("%v", x)] of an integer. *)
Definition Sprint_int (x : Z) : string := NilZero.string_of_int (Z.to_int x).

(** [strings.Index(s, sub)] through the library's [index]; -1 when absent. *)
Definition strings_Index (s sub : string) : Z :=
  match String.index 0 sub s with
  | Some i => Z.of_nat i
  | None => -1
  end.

(** [make([]T, n)]: a negative length panics. *)
Definition make {A} (zero : A) (n : Z) : result (list A) :=
  if n <? 0 then Panic "makeslice: len out of range"
  else Ok (replicate (Z.to_nat n) zero).

(** ** The byte source *)

Record ReadSeeker := mkReadSeeker { content : list byte; pos : Z }.

Definition remaining (r : ReadSeeker) : list byte :=
  if pos r <? 0 then [] else drop (Z.to_nat (pos r)) (content r).

Definition advance (n : nat) (r : ReadSeeker) : ReadSeeker :=
  mkReadSeeker (content r) (pos r + Z.of_nat n).

(** [r.Read(p)]: copies what is left of the source, at most [len(p)] bytes,
    over the front of [p]; the rest of [p] keeps its bytes. *)
Definition Reader_Read (p : list byte) (r : ReadSeeker) : list byte * ReadSeeker :=
  let got := take (length p) (remaining r) in
  (got ++ drop (length got) p, advance (length got) r).

(** [r.Read(buf[0:n])] for [n <= len(buf)], as seen from [buf]. *)
Definition Read_prefix (n : nat) (buf : list byte) (r : ReadSeeker)
  : list byte * ReadSeeker :=
  let (p, r') := Reader_Read (take n buf) r in (p ++ drop n buf, r').

(** [r.Seek(offset, whence)] for whence 0 (start) and 1 (current); a negative
    target is refused and leaves the cursor where it was. *)
Definition Reader_Seek (offset whence : Z) (r : ReadSeeker) : ReadSeeker :=
  let abs := if whence =? 0 then offset else wrap_int 64 (pos r + offset) in
  if abs <? 0 then r else mkReadSeeker (content r) abs.

(** [binary.Read(r, order, &x)] for a fixed-size [x] of [size] bytes: the
    bytes are consumed, and [x] is assigned only when all of them were there. *)
Definition binary_Read (o : Endian) (size : nat) (r : ReadSeeker)
  : option Z * ReadSeeker :=
  let got := take size (remaining r) in
  (if decide (length got = size) then Some (order_uint o got) else None,
   advance (length got) r).

(** [partition] returns everything before the first null byte. *)
Fixpoint partition (b : list byte) : list byte :=
  match b with
  | [] => []
  | v :: b' => if Byte.eqb v x00 then [] else v :: partition b'
  end.

(** ** The reader state *)

Record StataReader := mkStataReader {
  InsertStrls : bool;
  InsertCategoryLabels : bool;
  ConvertDates : bool;
  DatasetLabel : string;
  TimeStamp : string;
  Nvar : Z;
  RowCount : Z;
  VarTypes : list Z;
  column_names : list string;
  ColumnNamesLong : list string;
  ValueLabels : gmap string (gmap Z string);
  ValueLabelNames : list string;
  Formats : list string;
  Strls : gmap Z string;
  StrlsBytes : gmap Z (list byte);
  FormatVersion : Z;
  ByteOrder : Endian;
  rows_read : Z;
  seek_vartypes : Z;
  seek_varnames : Z;
  seek_sortlist : Z;
  seek_formats : Z;
  seek_value_label_names : Z;
  seek_variable_labels : Z;
  seek_characteristics : Z;
  seek_data : Z;
  seek_strls : Z;
  seek_value_labels : Z;
  is_date : list bool;
  reader : ReadSeeker
}.

Definition set_DatasetLabel (v : string) (r : StataReader) : StataReader :=
  mkStataReader (InsertStrls r) (InsertCategoryLabels r) (ConvertDates r) v
  (TimeStamp r) (Nvar r) (RowCount r) (VarTypes r) (column_names r)
  (ColumnNamesLong r) (ValueLabels r) (ValueLabelNames r) (Formats r) (Strls
  r) (StrlsBytes r) (FormatVersion r) (ByteOrder r) (rows_read r)
  (seek_vartypes r) (seek_varnames r) (seek_sortlist r) (seek_formats r)
  (seek_value_label_names r) (seek_variable_labels r) (seek_characteristics r)
  (seek_data r) (seek_strls r) (seek_value_labels r) (is_date r) (reader r).
Definition set_TimeStamp (v : string) (r : StataReader) : StataReader :=
  mkStataReader (InsertStrls r) (InsertCategoryLabels r) (ConvertDates r)
  (DatasetLabel r) v (Nvar r) (RowCount r) (VarTypes r) (column_names r)
  (ColumnNamesLong r) (ValueLabels r) (ValueLabelNames r) (Formats r) (Strls
  r) (StrlsBytes r) (FormatVersion r) (ByteOrder r) (rows_read r)
  (seek_vartypes r) (seek_varnames r) (seek_sortlist r) (seek_formats r)
  (seek_value_label_names r) (seek_variable_labels r) (seek_characteristics r)
  (seek_data r) (seek_strls r) (seek_value_labels r) (is_date r) (reader r).
Definition set_Nvar (v : Z) (r : StataReader) : StataReader :=
  mkStataReader (InsertStrls r) (InsertCategoryLabels r) (ConvertDates r)
  (DatasetLabel r) (TimeStamp r) v (RowCount r) (VarTypes r) (column_names r)
  (ColumnNamesLong r) (ValueLabels r) (ValueLabelNames r) (Formats r) (Strls
  r) (StrlsBytes r) (FormatVersion r) (ByteOrder r) (rows_read r)
  (seek_vartypes r) (seek_varnames r) (seek_sortlist r) (seek_formats r)
  (seek_value_label_names r) (seek_variable_labels r) (seek_characteristics r)
  (seek_data r) (seek_strls r) (seek_value_labels r) (is_date r) (reader r).
Definition set_RowCount (v : Z) (r : StataReader) : StataReader :=
  mkStataReader (InsertStrls r) (InsertCategoryLabels r) (ConvertDates r)
  (DatasetLabel r) (TimeStamp r) (Nvar r) v (VarTypes r) (column_names r)
  (ColumnNamesLong r) (ValueLabels r) (ValueLabelNames r) (Formats r) (Strls
  r) (StrlsBytes r) (FormatVersion r) (ByteOrder r) (rows_read r)
  (seek_vartypes r) (seek_varnames r) (seek_sortlist r) (seek_formats r)
  (seek_value_label_names r) (seek_variable_labels r) (seek_characteristics r)
  (seek_data r) (seek_strls r) (seek_value_labels r) (is_date r) (reader r).
Definition set_VarTypes (v : list Z) (r : StataReader) : StataReader :=
  mkStataReader (InsertStrls r) (InsertCategoryLabels r) (ConvertDates r)
  (DatasetLabel r) (TimeStamp r) (Nvar r) (RowCount r) v (column_names r)
  (ColumnNamesLong r) (ValueLabels r) (ValueLabelNames r) (Formats r) (Strls
  r) (StrlsBytes r) (FormatVersion r) (ByteOrder r) (rows_read r)
  (seek_vartypes r) (seek_varnames r) (seek_sortlist r) (seek_formats r)
  (seek_value_label_names r) (seek_variable_labels r) (seek_characteristics r)
  (seek_data r) (seek_strls r) (seek_value_labels r) (is_date r) (reader r).
Definition set_column_names (v : list string) (r : StataReader) : StataReader :=
  mkStataReader (InsertStrls r) (InsertCategoryLabels r) (ConvertDates r)
  (DatasetLabel r) (TimeStamp r) (Nvar r) (RowCount r) (VarTypes r) v
  (ColumnNamesLong r) (ValueLabels r) (ValueLabelNames r) (Formats r) (Strls
  r) (StrlsBytes r) (FormatVersion r) (ByteOrder r) (rows_read r)
  (seek_vartypes r) (seek_varnames r) (seek_sortlist r) (seek_formats r)
  (seek_value_label_names r) (seek_variable_labels r) (seek_characteristics r)
  (seek_data r) (seek_strls r) (seek_value_labels r) (is_date r) (reader r).
Definition set_ColumnNamesLong (v : list string) (r : StataReader) : StataReader :=
  mkStataReader (InsertStrls r) (InsertCategoryLabels r) (ConvertDates r)
  (DatasetLabel r) (TimeStamp r) (Nvar r) (RowCount r) (VarTypes r)
  (column_names r) v (ValueLabels r) (ValueLabelNames r) (Formats r) (Strls r)
  (StrlsBytes r) (FormatVersion r) (ByteOrder r) (rows_read r) (seek_vartypes
  r) (seek_varnames r) (seek_sortlist r) (seek_formats r)
  (seek_value_label_names r) (seek_variable_labels r) (seek_characteristics r)
  (seek_data r) (seek_strls r) (seek_value_labels r) (is_date r) (reader r).
Definition set_ValueLabels (v : gmap string (gmap Z string)) (r : StataReader) : StataReader :=
  mkStataReader (InsertStrls r) (InsertCategoryLabels r) (ConvertDates r)
  (DatasetLabel r) (TimeStamp r) (Nvar r) (RowCount r) (VarTypes r)
  (column_names r) (ColumnNamesLong r) v (ValueLabelNames r) (Formats r)
  (Strls r) (StrlsBytes r) (FormatVersion r) (ByteOrder r) (rows_read r)
  (seek_vartypes r) (seek_varnames r) (seek_sortlist r) (seek_formats r)
  (seek_value_label_names r) (seek_variable_labels r) (seek_characteristics r)
  (seek_data r) (seek_strls r) (seek_value_labels r) (is_date r) (reader r).
Definition set_ValueLabelNames (v : list string) (r : StataReader) : StataReader :=
  mkStataReader (InsertStrls r) (InsertCategoryLabels r) (ConvertDates r)
  (DatasetLabel r) (TimeStamp r) (Nvar r) (RowCount r) (VarTypes r)
  (column_names r) (ColumnNamesLong r) (ValueLabels r) v (Formats r) (Strls r)
  (StrlsBytes r) (FormatVersion r) (ByteOrder r) (rows_read r) (seek_vartypes
  r) (seek_varnames r) (seek_sortlist r) (seek_formats r)
  (seek_value_label_names r) (seek_variable_labels r) (seek_characteristics r)
  (seek_data r) (seek_strls r) (seek_value_labels r) (is_date r) (reader r).
Definition set_Formats (v : list string) (r : StataReader) : StataReader :=
  mkStataReader (InsertStrls r) (InsertCategoryLabels r) (ConvertDates r)
  (DatasetLabel r) (TimeStamp r) (Nvar r) (RowCount r) (VarTypes r)
  (column_names r) (ColumnNamesLong r) (ValueLabels r) (ValueLabelNames r) v
  (Strls r) (StrlsBytes r) (FormatVersion r) (ByteOrder r) (rows_read r)
  (seek_vartypes r) (seek_varnames r) (seek_sortlist r) (seek_formats r)
  (seek_value_label_names r) (seek_variable_labels r) (seek_characteristics r)
  (seek_data r) (seek_strls r) (seek_value_labels r) (is_date r) (reader r).
Definition set_Strls (v : gmap Z string) (r : StataReader) : StataReader :=
  mkStataReader (InsertStrls r) (InsertCategoryLabels r) (ConvertDates r)
  (DatasetLabel r) (TimeStamp r) (Nvar r) (RowCount r) (VarTypes r)
  (column_names r) (ColumnNamesLong r) (ValueLabels r) (ValueLabelNames r)
  (Formats r) v (StrlsBytes r) (FormatVersion r) (ByteOrder r) (rows_read r)
  (seek_vartypes r) (seek_varnames r) (seek_sortlist r) (seek_formats r)
  (seek_value_label_names r) (seek_variable_labels r) (seek_characteristics r)
  (seek_data r) (seek_strls r) (seek_value_labels r) (is_date r) (reader r).
Definition set_StrlsBytes (v : gmap Z (list byte)) (r : StataReader) : StataReader :=
  mkStataReader (InsertStrls r) (InsertCategoryLabels r) (ConvertDates r)
  (DatasetLabel r) (TimeStamp r) (Nvar r) (RowCount r) (VarTypes r)
  (column_names r) (ColumnNamesLong r) (ValueLabels r) (ValueLabelNames r)
  (Formats r) (Strls r) v (FormatVersion r) (ByteOrder r) (rows_read r)
  (seek_vartypes r) (seek_varnames r) (seek_sortlist r) (seek_formats r)
  (seek_value_label_names r) (seek_variable_labels r) (seek_characteristics r)
  (seek_data r) (seek_strls r) (seek_value_labels r) (is_date r) (reader r).
Definition set_FormatVersion (v : Z) (r : StataReader) : StataReader :=
  mkStataReader (InsertStrls r) (InsertCategoryLabels r) (ConvertDates r)
  (DatasetLabel r) (TimeStamp r) (Nvar r) (RowCount r) (VarTypes r)
  (column_names r) (ColumnNamesLong r) (ValueLabels r) (ValueLabelNames r)
  (Formats r) (Strls r) (StrlsBytes r) v (ByteOrder r) (rows_read r)
  (seek_vartypes r) (seek_varnames r) (seek_sortlist r) (seek_formats r)
  (seek_value_label_names r) (seek_variable_labels r) (seek_characteristics r)
  (seek_data r) (seek_strls r) (seek_value_labels r) (is_date r) (reader r).
Definition set_ByteOrder (v : Endian) (r : StataReader) : StataReader :=
  mkStataReader (InsertStrls r) (InsertCategoryLabels r) (ConvertDates r)
  (DatasetLabel r) (TimeStamp r) (Nvar r) (RowCount r) (VarTypes r)
  (column_names r) (ColumnNamesLong r) (ValueLabels r) (ValueLabelNames r)
  (Formats r) (Strls r) (StrlsBytes r) (FormatVersion r) v (rows_read r)
  (seek_vartypes r) (seek_varnames r) (seek_sortlist r) (seek_formats r)
  (seek_value_label_names r) (seek_variable_labels r) (seek_characteristics r)
  (seek_data r) (seek_strls r) (seek_value_labels r) (is_date r) (reader r).
Definition set_rows_read (v : Z) (r : StataReader) : StataReader :=
  mkStataReader (InsertStrls r) (InsertCategoryLabels r) (ConvertDates r)
  (DatasetLabel r) (TimeStamp r) (Nvar r) (RowCount r) (VarTypes r)
  (column_names r) (ColumnNamesLong r) (ValueLabels r) (ValueLabelNames r)
  (Formats r) (Strls r) (StrlsBytes r) (FormatVersion r) (ByteOrder r) v
  (seek_vartypes r) (seek_varnames r) (seek_sortlist r) (seek_formats r)
  (seek_value_label_names r) (seek_variable_labels r) (seek_characteristics r)
  (seek_data r) (seek_strls r) (seek_value_labels r) (is_date r) (reader r).
Definition set_seek_vartypes (v : Z) (r : StataReader) : StataReader :=
  mkStataReader (InsertStrls r) (InsertCategoryLabels r) (ConvertDates r)
  (DatasetLabel r) (TimeStamp r) (Nvar r) (RowCount r) (VarTypes r)
  (column_names r) (ColumnNamesLong r) (ValueLabels r) (ValueLabelNames r)
  (Formats r) (Strls r) (StrlsBytes r) (FormatVersion r) (ByteOrder r)
  (rows_read r) v (seek_varnames r) (seek_sortlist r) (seek_formats r)
  (seek_value_label_names r) (seek_variable_labels r) (seek_characteristics r)
  (seek_data r) (seek_strls r) (seek_value_labels r) (is_date r) (reader r).
Definition set_seek_varnames (v : Z) (r : StataReader) : StataReader :=
  mkStataReader (InsertStrls r) (InsertCategoryLabels r) (ConvertDates r)
  (DatasetLabel r) (TimeStamp r) (Nvar r) (RowCount r) (VarTypes r)
  (column_names r) (ColumnNamesLong r) (ValueLabels r) (ValueLabelNames r)
  (Formats r) (Strls r) (StrlsBytes r) (FormatVersion r) (ByteOrder r)
  (rows_read r) (seek_vartypes r) v (seek_sortlist r) (seek_formats r)
  (seek_value_label_names r) (seek_variable_labels r) (seek_characteristics r)
  (seek_data r) (seek_strls r) (seek_value_labels r) (is_date r) (reader r).
Definition set_seek_sortlist (v : Z) (r : StataReader) : StataReader :=
  mkStataReader (InsertStrls r) (InsertCategoryLabels r) (ConvertDates r)
  (DatasetLabel r) (TimeStamp r) (Nvar r) (RowCount r) (VarTypes r)
  (column_names r) (ColumnNamesLong r) (ValueLabels r) (ValueLabelNames r)
  (Formats r) (Strls r) (StrlsBytes r) (FormatVersion r) (ByteOrder r)
  (rows_read r) (seek_vartypes r) (seek_varnames r) v (seek_formats r)
  (seek_value_label_names r) (seek_variable_labels r) (seek_characteristics r)
  (seek_data r) (seek_strls r) (seek_value_labels r) (is_date r) (reader r).
Definition set_seek_formats (v : Z) (r : StataReader) : StataReader :=
  mkStataReader (InsertStrls r) (InsertCategoryLabels r) (ConvertDates r)
  (DatasetLabel r) (TimeStamp r) (Nvar r) (RowCount r) (VarTypes r)
  (column_names r) (ColumnNamesLong r) (ValueLabels r) (ValueLabelNames r)
  (Formats r) (Strls r) (StrlsBytes r) (FormatVersion r) (ByteOrder r)
  (rows_read r) (seek_vartypes r) (seek_varnames r) (seek_sortlist r) v
  (seek_value_label_names r) (seek_variable_labels r) (seek_characteristics r)
  (seek_data r) (seek_strls r) (seek_value_labels r) (is_date r) (reader r).
Definition set_seek_value_label_names (v : Z) (r : StataReader) : StataReader :=
  mkStataReader (InsertStrls r) (InsertCategoryLabels r) (ConvertDates r)
  (DatasetLabel r) (TimeStamp r) (Nvar r) (RowCount r) (VarTypes r)
  (column_names r) (ColumnNamesLong r) (ValueLabels r) (ValueLabelNames r)
  (Formats r) (Strls r) (StrlsBytes r) (FormatVersion r) (ByteOrder r)
  (rows_read r) (seek_vartypes r) (seek_varnames r) (seek_sortlist r)
  (seek_formats r) v (seek_variable_labels r) (seek_characteristics r)
  (seek_data r) (seek_strls r) (seek_value_labels r) (is_date r) (reader r).
Definition set_seek_variable_labels (v : Z) (r : StataReader) : StataReader :=
  mkStataReader (InsertStrls r) (InsertCategoryLabels r) (ConvertDates r)
  (DatasetLabel r) (TimeStamp r) (Nvar r) (RowCount r) (VarTypes r)
  (column_names r) (ColumnNamesLong r) (ValueLabels r) (ValueLabelNames r)
  (Formats r) (Strls r) (StrlsBytes r) (FormatVersion r) (ByteOrder r)
  (rows_read r) (seek_vartypes r) (seek_varnames r) (seek_sortlist r)
  (seek_formats r) (seek_value_label_names r) v (seek_characteristics r)
  (seek_data r) (seek_strls r) (seek_value_labels r) (is_date r) (reader r).
Definition set_seek_characteristics (v : Z) (r : StataReader) : StataReader :=
  mkStataReader (InsertStrls r) (InsertCategoryLabels r) (ConvertDates r)
  (DatasetLabel r) (TimeStamp r) (Nvar r) (RowCount r) (VarTypes r)
  (column_names r) (ColumnNamesLong r) (ValueLabels r) (ValueLabelNames r)
  (Formats r) (Strls r) (StrlsBytes r) (FormatVersion r) (ByteOrder r)
  (rows_read r) (seek_vartypes r) (seek_varnames r) (seek_sortlist r)
  (seek_formats r) (seek_value_label_names r) (seek_variable_labels r) v
  (seek_data r) (seek_strls r) (seek_value_labels r) (is_date r) (reader r).
Definition set_seek_data (v : Z) (r : StataReader) : StataReader :=
  mkStataReader (InsertStrls r) (InsertCategoryLabels r) (ConvertDates r)
  (DatasetLabel r) (TimeStamp r) (Nvar r) (RowCount r) (VarTypes r)
  (column_names r) (ColumnNamesLong r) (ValueLabels r) (ValueLabelNames r)
  (Formats r) (Strls r) (StrlsBytes r) (FormatVersion r) (ByteOrder r)
  (rows_read r) (seek_vartypes r) (seek_varnames r) (seek_sortlist r)
  (seek_formats r) (seek_value_label_names r) (seek_variable_labels r)
  (seek_characteristics r) v (seek_strls r) (seek_value_labels r) (is_date r)
  (reader r).
Definition set_seek_strls (v : Z) (r : StataReader) : StataReader :=
  mkStataReader (InsertStrls r) (InsertCategoryLabels r) (ConvertDates r)
  (DatasetLabel r) (TimeStamp r) (Nvar r) (RowCount r) (VarTypes r)
  (column_names r) (ColumnNamesLong r) (ValueLabels r) (ValueLabelNames r)
  (Formats r) (Strls r) (StrlsBytes r) (FormatVersion r) (ByteOrder r)
  (rows_read r) (seek_vartypes r) (seek_varnames r) (seek_sortlist r)
  (seek_formats r) (seek_value_label_names r) (seek_variable_labels r)
  (seek_characteristics r) (seek_data r) v (seek_value_labels r) (is_date r)
  (reader r).
Definition set_seek_value_labels (v : Z) (r : StataReader) : StataReader :=
  mkStataReader (InsertStrls r) (InsertCategoryLabels r) (ConvertDates r)
  (DatasetLabel r) (TimeStamp r) (Nvar r) (RowCount r) (VarTypes r)
  (column_names r) (ColumnNamesLong r) (ValueLabels r) (ValueLabelNames r)
  (Formats r) (Strls r) (StrlsBytes r) (FormatVersion r) (ByteOrder r)
  (rows_read r) (seek_vartypes r) (seek_varnames r) (seek_sortlist r)
  (seek_formats r) (seek_value_label_names r) (seek_variable_labels r)
  (seek_characteristics r) (seek_data r) (seek_strls r) v (is_date r) (reader
  r).
Definition set_is_date (v : list bool) (r : StataReader) : StataReader :=
  mkStataReader (InsertStrls r) (InsertCategoryLabels r) (ConvertDates r)
  (DatasetLabel r) (TimeStamp r) (Nvar r) (RowCount r) (VarTypes r)
  (column_names r) (ColumnNamesLong r) (ValueLabels r) (ValueLabelNames r)
  (Formats r) (Strls r) (StrlsBytes r) (FormatVersion r) (ByteOrder r)
  (rows_read r) (seek_vartypes r) (seek_varnames r) (seek_sortlist r)
  (seek_formats r) (seek_value_label_names r) (seek_variable_labels r)
  (seek_characteristics r) (seek_data r) (seek_strls r) (seek_value_labels r)
  v (reader r).
Definition set_reader (v : ReadSeeker) (r : StataReader) : StataReader :=
  mkStataReader (InsertStrls r) (InsertCategoryLabels r) (ConvertDates r)
  (DatasetLabel r) (TimeStamp r) (Nvar r) (RowCount r) (VarTypes r)
  (column_names r) (ColumnNamesLong r) (ValueLabels r) (ValueLabelNames r)
  (Formats r) (Strls r) (StrlsBytes r) (FormatVersion r) (ByteOrder r)
  (rows_read r) (seek_vartypes r) (seek_varnames r) (seek_sortlist r)
  (seek_formats r) (seek_value_label_names r) (seek_variable_labels r)
  (seek_characteristics r) (seek_data r) (seek_strls r) (seek_value_labels r)
  (is_date r) v.

(** ** Loops and reads on the reader *)

(** [for k := 0; k < n; k++ { body }] over a state. *)
Fixpoint for_range {St : Type} (n : nat) (k : nat) (body : nat → St → St) (s : St)
  : St :=
  match n with
  | O => s
  | S n' => for_range n' (S k) body (body k s)
  end.

(** The same loop when an iteration can panic. *)
Fixpoint for_rangeM {St : Type} (n : nat) (k : nat) (body : nat → St → result St)
  (s : St) : result St :=
  match n with
  | O => Ok s
  | S n' => s' ← body k s; for_rangeM n' (S k) body s'
  end.

(** [binary.Read(rdr.reader, order, &x)] into an unsigned variable holding
    [old]. *)
Definition read_uvar (o : Endian) (size : nat) (old : Z) (rdr : StataReader)
  : Z * StataReader :=
  let (v, r') := binary_Read o size (reader rdr) in
  (default old v, set_reader r' rdr).

(** The same into a signed variable of [size] bytes. *)
Definition read_ivar (o : Endian) (size : nat) (old : Z) (rdr : StataReader)
  : Z * StataReader :=
  let (v, r') := binary_Read o size (reader rdr) in
  (default old (wrap_int (8 * Z.of_nat size) <$> v), set_reader r' rdr).

Definition Seek (offset whence : Z) (rdr : StataReader) : StataReader :=
  set_reader (Reader_Seek offset whence (reader rdr)) rdr.

(** [rdr.reader.Read(buf[0:n])], [n <= len(buf)]. *)
Definition ReadBuf (n : nat) (buf : list byte) (rdr : StataReader)
  : list byte * StataReader :=
  let (buf', r') := Read_prefix n buf (reader rdr) in (buf', set_reader r' rdr).

(** The bound check of [buf[0:n]] on a buffer whose capacity is its length. *)
Definition slice_to (n : Z) (buf : list byte) : result nat :=
  if (n <? 0) || (Z.of_nat (length buf) <? n)
  then Panic "slice bounds out of range"
  else Ok (Z.to_nat n).

(** ** Version tables *)

Definition supported_dta_versions : list Z := [114; 115; 117; 118].

Definition row_count_width : gmap Z Z :=
  list_to_map [(114, 4); (115, 4); (117, 4); (118, 8)].

Definition nvar_width : gmap Z Z :=
  list_to_map [(114, 2); (115, 2); (117, 2); (118, 2)].

Definition dataset_label_width : gmap Z Z :=
  list_to_map [(117, 1); (118, 2)].

(** Indexing a Go map of integers: an absent key reads as zero. *)
Definition index0 (m : gmap Z Z) (k : Z) : Z := default 0 (m !! k).

(** ** Integer fields *)

Definition read_int (width : Z) (rdr : StataReader) : result (Z * StataReader) :=
  if width =? 1 then Ok (read_ivar (ByteOrder rdr) 1 0 rdr)
  else if width =? 2 then Ok (read_ivar (ByteOrder rdr) 2 0 rdr)
  else if width =? 4 then Ok (read_ivar (ByteOrder rdr) 4 0 rdr)
  else if width =? 8 then Ok (read_ivar (ByteOrder rdr) 8 0 rdr)
  else Panic "".

Definition read_uint (width : Z) (rdr : StataReader) : result (Z * StataReader) :=
  if width =? 1 then Ok (read_uvar (ByteOrder rdr) 1 0 rdr)
  else if width =? 2 then Ok (read_uvar (ByteOrder rdr) 2 0 rdr)
  else if width =? 4 then Ok (read_uvar (ByteOrder rdr) 4 0 rdr)
  else if width =? 8 then
    let (x, rdr') := read_uvar (ByteOrder rdr) 8 0 rdr in Ok (wrap_int 64 x, rdr')
  else Panic "unsupported width in read_int".

(** ** Headers *)

Definition supported_version (rdr : StataReader) : bool :=
  foldl (λ supported v, if FormatVersion rdr =? v then true else supported)
        false supported_dta_versions.

(** read_old_header reads the pre version 117 header. *)
Definition read_old_header (rdr : StataReader) : result StataReader :=
  let buf := replicate 81 x00 in
  let (format, rdr) := read_uvar LittleEndian 1 0 rdr in
  let rdr := set_FormatVersion format rdr in
  if negb (supported_version rdr) then Err "Invalid Stata dta format version" else
  let (bo, rdr) := read_uvar LittleEndian 1 0 rdr in
  let rdr := set_ByteOrder (if bo =? 1 then BigEndian else LittleEndian) rdr in
  let rdr := Seek 2 1 rdr in
  '(n, rdr) ← read_int (index0 nvar_width (FormatVersion rdr)) rdr;
  let rdr := set_Nvar n rdr in
  '(n, rdr) ← read_int (index0 row_count_width (FormatVersion rdr)) rdr;
  let rdr := set_RowCount n rdr in
  let (buf, rdr) := ReadBuf 81 buf rdr in
  let rdr := set_DatasetLabel (string_of_list_byte (partition (take 81 buf))) rdr in
  let (buf, rdr) := ReadBuf 18 buf rdr in
  let rdr := set_TimeStamp (string_of_list_byte (partition (take 18 buf))) rdr in
  Ok rdr.

Definition digit_of (a : ascii) : option Z :=
  let n := Z.of_N (N_of_ascii a) in
  if (48 <=? n) && (n <=? 57) then Some (n - 48) else None.

Fixpoint decimal_of (acc : Z) (s : string) : option Z :=
  match s with
  | EmptyString => Some acc
  | String a s' => d ← digit_of a; decimal_of (10 * acc + d) s'
  end.

(** [strconv.ParseUint(s, 0, 64)] on the three bytes of the release field.
    The decimal spelling is read as it is.  Every other spelling that the
    base-0 syntax accepts in three bytes (a leading 0 for octal, a 0b, 0o or
    0x prefix, an underscore) denotes a number below 114, which
    [supported_version] rejects with a returned error; here those spellings
    are a parse error, a returned error as well. *)
Definition ParseUint (s : string) : option Z :=
  match s with
  | EmptyString => None
  | String a _ => if Ascii.eqb a "0" then None else decimal_of 0 s
  end.

(** read_new_header reads a new-style xml header (versions 117+). *)
Definition read_new_header (rdr : StataReader) : result StataReader :=
  let buf := replicate 500 x00 in
  let (buf, rdr) := ReadBuf 28 buf rdr in
  if negb (String.eqb (string_of_list_byte (take 11 buf)) "<stata_dta>")
  then Err "Invalid Stata file" else
  let (buf, rdr) := ReadBuf 3 buf rdr in
  match ParseUint (string_of_list_byte (take 3 buf)) with
  | None => Err "strconv.ParseUint: invalid syntax"
  | Some x =>
    let rdr := set_FormatVersion (wrap_int 64 x) rdr in
    if negb (supported_version rdr) then Err "Invalid Stata dta format version" else
    let rdr := Seek 21 1 rdr in
    let (buf, rdr) := ReadBuf 3 buf rdr in
    let rdr := set_ByteOrder
      (if String.eqb (string_of_list_byte (take 3 buf)) "MSF"
       then BigEndian else LittleEndian) rdr in
    let rdr := Seek 15 1 rdr in
    '(n, rdr) ← read_int (index0 nvar_width (FormatVersion rdr)) rdr;
    let rdr := set_Nvar n rdr in
    let rdr := Seek 7 1 rdr in
    '(n, rdr) ← read_int (index0 row_count_width (FormatVersion rdr)) rdr;
    let rdr := set_RowCount n rdr in
    let rdr := Seek 11 1 rdr in
    '(w, rdr) ← read_uint (index0 dataset_label_width (FormatVersion rdr)) rdr;
    w' ← slice_to w buf;
    let (buf, rdr) := ReadBuf w' buf rdr in
    let rdr := set_DatasetLabel (string_of_list_byte (take w' buf)) rdr in
    let rdr := Seek 19 1 rdr in
    let (n8, rdr) := read_uvar (ByteOrder rdr) 1 0 rdr in
    let (buf, rdr) := ReadBuf (Z.to_nat n8) buf rdr in
    let rdr := set_TimeStamp (string_of_list_byte (take (Z.to_nat n8) buf)) rdr in
    let rdr := Seek 42 1 rdr in
    let (x, rdr) := read_ivar (ByteOrder rdr) 8 (seek_vartypes rdr) rdr in
    let rdr := set_seek_vartypes x rdr in
    let (x, rdr) := read_ivar (ByteOrder rdr) 8 (seek_varnames rdr) rdr in
    let rdr := set_seek_varnames x rdr in
    let (x, rdr) := read_ivar (ByteOrder rdr) 8 (seek_sortlist rdr) rdr in
    let rdr := set_seek_sortlist x rdr in
    let (x, rdr) := read_ivar (ByteOrder rdr) 8 (seek_formats rdr) rdr in
    let rdr := set_seek_formats x rdr in
    let (x, rdr) := read_ivar (ByteOrder rdr) 8 (seek_value_label_names rdr) rdr in
    let rdr := set_seek_value_label_names x rdr in
    let (x, rdr) := read_ivar (ByteOrder rdr) 8 (seek_variable_labels rdr) rdr in
    let rdr := set_seek_variable_labels x rdr in
    let (x, rdr) := read_ivar (ByteOrder rdr) 8 (seek_characteristics rdr) rdr in
    let rdr := set_seek_characteristics x rdr in
    let (x, rdr) := read_ivar (ByteOrder rdr) 8 (seek_data rdr) rdr in
    let rdr := set_seek_data x rdr in
    let (x, rdr) := read_ivar (ByteOrder rdr) 8 (seek_strls rdr) rdr in
    let rdr := set_seek_strls x rdr in
    let (x, rdr) := read_ivar (ByteOrder rdr) 8 (seek_value_labels rdr) rdr in
    let rdr := set_seek_value_labels x rdr in
    Ok rdr
  end.

(** ** Variable types *)

Definition read_vartypes_16 (rdr : StataReader) : result StataReader :=
  let rdr := Seek (wrap_int 64 (seek_vartypes rdr + 16)) 0 rdr in
  vt ← make 0 (Nvar rdr);
  let rdr := set_VarTypes vt rdr in
  Ok (for_range (Z.to_nat (Nvar rdr)) 0 (λ k rdr,
        let (x, rdr) := read_uvar (ByteOrder rdr) 2 (VarTypes rdr !!! k) rdr in
        set_VarTypes (<[k := x]> (VarTypes rdr)) rdr) rdr).

(** The one-byte buffer [b] is shared by all iterations: a read that fails
    leaves the byte of the iteration before. *)
Definition read_vartypes_8 (rdr : StataReader) : result StataReader :=
  vt ← make 0 (Nvar rdr);
  let rdr := set_VarTypes vt rdr in
  let b := 0 in
  Ok (for_range (Z.to_nat (Nvar rdr)) 0 (λ k '(b, rdr),
        let (b, rdr) := read_uvar (ByteOrder rdr) 1 b rdr in
        (b, set_VarTypes (<[k := b]> (VarTypes rdr)) rdr)) (b, rdr)).2.

Definition read_vartypes (rdr : StataReader) : result StataReader :=
  if FormatVersion rdr =? 118 then read_vartypes_16 rdr
  else if FormatVersion rdr =? 117 then read_vartypes_16 rdr
  else if FormatVersion rdr =? 115 then read_vartypes_8 rdr
  else if FormatVersion rdr =? 114 then read_vartypes_8 rdr
  else Panic ("unknown format version " +:+ Sprint_int (FormatVersion rdr)
              +:+ " in read_vartypes").

(** The body of the switch of translate_vartypes on one type code: the new
    code, or the panic of the default case. *)
Definition translate_vartype (t : Z) : result Z :=
  if t <=? 244 then Ok t
  else if t =? 251 then Ok 65530
  else if t =? 252 then Ok 65529
  else if t =? 253 then Ok 65528
  else if t =? 254 then Ok 65527
  else if t =? 255 then Ok 65526
  else Panic "unknown variable type %v in translate_vartypes".

(** One iteration of its loop, on [rdr.VarTypes[k]]. *)
Definition translate_step (k : nat) (rdr : StataReader) : result StataReader :=
  match VarTypes rdr !! k with
  | None => Panic "index out of range"
  | Some t =>
    t' ← translate_vartype t;
    Ok (set_VarTypes (<[k := t']> (VarTypes rdr)) rdr)
  end.

Definition translate_vartypes (rdr : StataReader) : result StataReader :=
  for_rangeM (Z.to_nat (Nvar rdr)) 0 translate_step rdr.

(** ** Fixed-width string sections *)

(** The loop shared by the four string sections: [n] reads of the whole of
    [buf], each stored null-truncated at index [k] by [store]. *)
Definition read_strings (store : nat → string → StataReader → StataReader)
  (buf : list byte) (rdr : StataReader) : StataReader :=
  (for_range (Z.to_nat (Nvar rdr)) 0 (λ k '(buf, rdr),
     let (buf, rdr) := ReadBuf (length buf) buf rdr in
     (buf, store k (string_of_list_byte (partition buf)) rdr)) (buf, rdr)).2.

Definition do_read_varnames (bufsize : Z) (seek : bool) (rdr : StataReader)
  : result StataReader :=
  buf ← make x00 bufsize;
  let rdr := if seek then Seek (wrap_int 64 (seek_varnames rdr + 10)) 0 rdr else rdr in
  names ← make EmptyString (Nvar rdr);
  let rdr := set_column_names names rdr in
  Ok (read_strings (λ k s rdr, set_column_names (<[k := s]> (column_names rdr)) rdr)
        buf rdr).

(** read_varnames dispatches to the correct function for reading variable
    names for the dta file format. *)
Definition read_varnames (rdr : StataReader) : result StataReader :=
  if FormatVersion rdr =? 118 then do_read_varnames 129 true rdr
  else if FormatVersion rdr =? 117 then do_read_varnames 129 true rdr
  else if FormatVersion rdr =? 115 then do_read_varnames 33 false rdr
  else if FormatVersion rdr =? 114 then do_read_varnames 33 false rdr
  else Panic ("unknown format version " +:+ Sprint_int (FormatVersion rdr)
              +:+ " in read_varnames").

(** The flag of one column: its format begins with %td or with %tc. *)
Definition date_format (format : string) : bool :=
  if strings_Index format "%td" =? 0 then true
  else if strings_Index format "%tc" =? 0 then true
  else false.

(** One iteration of the second loop of do_read_formats. *)
Definition flag_date (k : nat) (rdr : StataReader) : result StataReader :=
  match Formats rdr !! k with
  | None => Panic "index out of range"
  | Some f =>
    Ok (if date_format f then set_is_date (<[k := true]> (is_date rdr)) rdr else rdr)
  end.

Definition do_read_formats (bufsize : Z) (seek : bool) (rdr : StataReader)
  : result StataReader :=
  buf ← make x00 bufsize;
  let rdr := if seek then Seek (wrap_int 64 (seek_formats rdr + 9)) 0 rdr else rdr in
  formats ← make EmptyString (Nvar rdr);
  let rdr := set_Formats formats rdr in
  let rdr :=
    read_strings (λ k s rdr, set_Formats (<[k := s]> (Formats rdr)) rdr) buf rdr in
  dates ← make false (Nvar rdr);
  let rdr := set_is_date dates rdr in
  for_rangeM (Z.to_nat (Nvar rdr)) 0 flag_date rdr.

Definition read_formats (rdr : StataReader) : result StataReader :=
  if FormatVersion rdr =? 118 then do_read_formats 57 true rdr
  else if FormatVersion rdr =? 117 then do_read_formats 57 true rdr
  else if FormatVersion rdr =? 115 then do_read_formats 49 false rdr
  else if FormatVersion rdr =? 114 then do_read_formats 49 false rdr
  else Panic ("unknown format version " +:+ Sprint_int (FormatVersion rdr)
              +:+ " in read_varnames").

Definition do_read_value_label_names (bufsize : Z) (seek : bool) (rdr : StataReader)
  : result StataReader :=
  buf ← make x00 bufsize;
  let rdr :=
    if seek then Seek (wrap_int 64 (seek_value_label_names rdr + 19)) 0 rdr else rdr in
  names ← make EmptyString (Nvar rdr);
  let rdr := set_ValueLabelNames names rdr in
  Ok (read_strings
        (λ k s rdr, set_ValueLabelNames (<[k := s]> (ValueLabelNames rdr)) rdr)
        buf rdr).

Definition read_value_label_names (rdr : StataReader) : result StataReader :=
  if FormatVersion rdr =? 118 then do_read_value_label_names 129 true rdr
  else if FormatVersion rdr =? 117 then do_read_value_label_names 129 true rdr
  else if FormatVersion rdr =? 116 then do_read_value_label_names 33 false rdr
  else if FormatVersion rdr =? 115 then do_read_value_label_names 33 false rdr
  else Panic ("unknown format version " +:+ Sprint_int (FormatVersion rdr)
              +:+ " in read_value_label_names").

Definition do_read_variable_labels (bufsize : Z) (seek : bool) (rdr : StataReader)
  : result StataReader :=
  buf ← make x00 bufsize;
  let rdr :=
    if seek then Seek (wrap_int 64 (seek_variable_labels rdr + 17)) 0 rdr else rdr in
  names ← make EmptyString (Nvar rdr);
  let rdr := set_ColumnNamesLong names rdr in
  Ok (read_strings
        (λ k s rdr, set_ColumnNamesLong (<[k := s]> (ColumnNamesLong rdr)) rdr)
        buf rdr).

Definition read_variable_labels (rdr : StataReader) : result StataReader :=
  if FormatVersion rdr =? 118 then do_read_variable_labels 321 true rdr
  else if FormatVersion rdr =? 117 then do_read_variable_labels 321 true rdr
  else if FormatVersion rdr =? 115 then do_read_variable_labels 81 false rdr
  else if FormatVersion rdr =? 114 then do_read_variable_labels 81 false rdr
  else Ok rdr.

(** ** Sentinel-terminated sections

    The three scans have no bound of their own in the source; [fuel] counts
    their iterations here.  Their variables are declared outside the loop,
    so a read that fails leaves the value of the iteration before. *)

Fixpoint read_expansion_fields_loop (fuel : nat) (b i : Z) (rdr : StataReader)
  : result StataReader :=
  match fuel with
  | O => OutOfFuel
  | S fuel' =>
    let (b, rdr) := read_uvar (ByteOrder rdr) 1 b rdr in
    let (i, rdr) := read_ivar (ByteOrder rdr) 4 i rdr in
    if (b =? 0) && (i =? 0) then Ok rdr
    else read_expansion_fields_loop fuel' b i (Seek i 1 rdr)
  end.

Definition read_expansion_fields (fuel : nat) (rdr : StataReader)
  : result StataReader :=
  read_expansion_fields_loop fuel 0 0 rdr.

(** The key of a GSO record, in 64-bit unsigned arithmetic:
    [ky = uint64(v) | (o << 16)]. *)
Definition strl_key (v o : Z) : Z := Z.lor v (wrap_uint 64 (Z.shiftl o 16)).

(** What one GSO record adds to the two dictionaries. *)
Definition store_strl (ky t : Z) (buf : list byte) (rdr : StataReader) : StataReader :=
  if t =? 130 then
    set_Strls (<[ky := string_of_list_byte (partition buf)]> (Strls rdr)) rdr
  else if t =? 129 then set_StrlsBytes (<[ky := buf]> (StrlsBytes rdr)) rdr
  else rdr.

Fixpoint read_strls_loop (fuel : nat) (buf3 : list byte) (v o t len : Z)
  (rdr : StataReader) : result StataReader :=
  match fuel with
  | O => OutOfFuel
  | S fuel' =>
    let (buf3, rdr) := ReadBuf 3 buf3 rdr in
    if negb (String.eqb (string_of_list_byte buf3) "GSO") then Ok rdr else
    let (v, rdr) := read_uvar (ByteOrder rdr) 4 v rdr in
    let (o, rdr) := read_uvar (ByteOrder rdr) 8 o rdr in
    let (t, rdr) := read_uvar (ByteOrder rdr) 1 t rdr in
    let (len, rdr) := read_uvar (ByteOrder rdr) 4 len rdr in
    let ky := strl_key v o in
    let buf := replicate (Z.to_nat len) x00 in
    let (buf, rdr) := ReadBuf (length buf) buf rdr in
    read_strls_loop fuel' buf3 v o t len (store_strl ky t buf rdr)
  end.

Definition read_strls (fuel : nat) (rdr : StataReader) : result StataReader :=
  let rdr := Seek (wrap_int 64 (seek_strls rdr + 7)) 0 rdr in
  let rdr := set_Strls ∅ rdr in
  let rdr := set_StrlsBytes ∅ rdr in
  let rdr := set_Strls (<[0 := EmptyString]> (Strls rdr)) rdr in
  read_strls_loop fuel (replicate 3 x00) 0 0 0 0 rdr.

(** [binary.Read] into each element of a fresh [[]int32] of length [n]. *)
Definition read_int32s (n : Z) (rdr : StataReader) : result (list Z * StataReader) :=
  xs ← make 0 n;
  Ok (for_range (Z.to_nat n) 0 (λ j '(xs, rdr),
        let (x, rdr) := read_ivar (ByteOrder rdr) 4 (xs !!! j) rdr in
        (<[j := x]> xs, rdr)) (xs, rdr)).

(** The labels of one set: [vk[val[j]] = string(partition(buf[off[j]:]))]. *)
Definition label_entries (n : Z) (off val : list Z) (buf : list byte)
  : result (gmap Z string) :=
  for_rangeM (Z.to_nat n) 0 (λ j vk,
    let o := off !!! j in
    if (o <? 0) || (Z.of_nat (length buf) <? o)
    then Panic "slice bounds out of range"
    else Ok (<[val !!! j := string_of_list_byte (partition (drop (Z.to_nat o) buf))]> vk))
    ∅.

(** The text block replaces [buf], so the next record's marker and name are
    read into slices of the block of the record before. *)
Fixpoint read_value_labels_loop (fuel : nat) (buf : list byte) (n textlen : Z)
  (vl : gmap string (gmap Z string)) (rdr : StataReader)
  : result (gmap string (gmap Z string) * StataReader) :=
  match fuel with
  | O => OutOfFuel
  | S fuel' =>
    _ ← slice_to 5 buf;
    let (buf, rdr) := ReadBuf 5 buf rdr in
    if negb (String.eqb (string_of_list_byte (take 5 buf)) "<lbl>")
    then Ok (vl, rdr) else
    let rdr := Seek 4 1 rdr in
    _ ← slice_to 129 buf;
    let (buf, rdr) := ReadBuf 129 buf rdr in
    let labname := string_of_list_byte (partition (take 129 buf)) in
    let rdr := Seek 3 1 rdr in
    let (n, rdr) := read_ivar (ByteOrder rdr) 4 n rdr in
    let (textlen, rdr) := read_ivar (ByteOrder rdr) 4 textlen rdr in
    '(off, rdr) ← read_int32s n rdr;
    '(val, rdr) ← read_int32s n rdr;
    buf ← make x00 textlen;
    let (buf, rdr) := ReadBuf (length buf) buf rdr in
    vk ← label_entries n off val buf;
    let vl := <[labname := vk]> vl in
    let rdr := Seek 6 1 rdr in
    read_value_labels_loop fuel' buf n textlen vl rdr
  end.

Definition read_value_labels (fuel : nat) (rdr : StataReader) : result StataReader :=
  let vl : gmap string (gmap Z string) := ∅ in
  let buf := replicate 321 x00 in
  let rdr := Seek (wrap_int 64 (seek_value_labels rdr + 14)) 0 rdr in
  '(vl, rdr) ← read_value_labels_loop fuel buf 0 0 vl rdr;
  Ok (set_ValueLabels vl rdr).

(** ** Initialisation *)

Definition init (fuel : nat) (rdr : StataReader) : result StataReader :=
  (* Determine if we have <117 or >=117 dta version. *)
  let (c, rdr) := ReadBuf 1 (replicate 1 x00) rdr in
  let rdr := Seek 0 0 rdr in
  rdr ← (if String.eqb (string_of_list_byte c) "<"
         then read_new_header rdr else read_old_header rdr);
  rdr ← read_vartypes rdr;
  rdr ← (if FormatVersion rdr <? 117 then translate_vartypes rdr else Ok rdr);
  rdr ← read_varnames rdr;
  (* Skip over srtlist *)
  let rdr :=
    if FormatVersion rdr <? 117
    then Seek (wrap_int 64 (2 * (Nvar rdr + 1))) 1 rdr else rdr in
  rdr ← read_formats rdr;
  rdr ← read_value_label_names rdr;
  rdr ← read_variable_labels rdr;
  rdr ← (if FormatVersion rdr <? 117 then read_expansion_fields fuel rdr else Ok rdr);
  if 117 <=? FormatVersion rdr then
    rdr ← read_strls fuel rdr;
    (* Must be called manually for older format < 117. *)
    read_value_labels fuel rdr
  else Ok rdr.

(** [new(StataReader)] with the defaults of NewStataReader, on a byte source
    positioned at its start.  The byte order is nil until a header sets it,
    which both headers do before any read that uses it; LittleEndian stands
    in for nil. *)
Definition new_reader (file : list byte) : StataReader :=
  mkStataReader true true true EmptyString EmptyString 0 0 [] [] [] ∅ [] [] ∅ ∅
    0 LittleEndian 0 0 0 0 0 0 0 0 0 0 0 [] (mkReadSeeker file 0).

(** NewStataReader returns a StataReader for reading from the given io
    channel. *)
Definition NewStataReader (fuel : nat) (file : list byte) : result StataReader :=
  init fuel (new_reader file).

(** ColumnNames returns the names of the columns. *)
Definition ColumnNames (rdr : StataReader) : list string := column_names rdr.

(** ** Column values *)

(** [time.Time] for UTC instants: nanoseconds since 0001-01-01T00:00:00. *)
Record Time := mkTime { since_year1 : Z }.

Definition leap_year (y : Z) : bool :=
  (y mod 4 =? 0) && (negb (y mod 100 =? 0) || (y mod 400 =? 0)).

Definition days_before_year (y : Z) : Z :=
  365 * (y - 1) + (y - 1) / 4 - (y - 1) / 100 + (y - 1) / 400.

Definition days_before_month (y m : Z) : Z :=
  nth (Z.to_nat (m - 1)) [0; 31; 59; 90; 120; 151; 181; 212; 243; 273; 304; 334] 0
  + (if leap_year y && (2 <? m) then 1 else 0).

(** [time.Date(year, month, day, hour, min, sec, nsec, time.UTC)] for
    arguments inside their calendar ranges. *)
Definition time_Date (year month day hour min sec nsec : Z) : Time :=
  let days := days_before_year year + days_before_month year month + (day - 1) in
  mkTime ((((days * 24 + hour) * 60 + min) * 60 + sec) * 1000000000 + nsec).

(** [time.Duration] is a signed 64-bit count of nanoseconds. *)
Definition Millisecond : Z := 1000000.
Definition Hour : Z := 3600000000000.

(** [t.Add(d)]. *)
Definition time_Add (t : Time) (d : Z) : Time := mkTime (since_year1 t + d).

(** The dynamic type and value of one entry of [data []interface{}].
    Floats are kept as their IEEE 754 bit patterns. *)
Inductive column :=
| NilColumn
| Strings (l : list string)
| Uint64s (l : list Z)
| Float64s (l : list Z)
| Float32s (l : list Z)
| Int32s (l : list Z)
| Int16s (l : list Z)
| Int8s (l : list Z)
| Times (l : list Time).

Definition column_len (c : column) : nat :=
  match c with
  | NilColumn => 0
  | Strings l => length l
  | Uint64s l | Float64s l | Float32s l | Int32s l | Int16s l | Int8s l => length l
  | Times l => length l
  end.

(** ** Floating-point comparisons *)

(** The value of a bit pattern with [mw] fraction bits and [ew] exponent
    bits. *)
Definition SF_of_bits (mw ew : Z) (bits : Z) : spec_float :=
  let frac := bits mod 2 ^ mw in
  let e := (bits / 2 ^ mw) mod 2 ^ ew in
  let s := Z.testbit bits (mw + ew) in
  let bias := 2 ^ (ew - 1) - 1 in
  if e =? 2 ^ ew - 1 then (if frac =? 0 then S754_infinity s else S754_nan)
  else if e =? 0 then
    match frac with
    | Z.pos m => S754_finite s m (1 - bias - mw)
    | _ => S754_zero s
    end
  else
    match frac + 2 ^ mw with
    | Z.pos m => S754_finite s m (e - bias - mw)
    | _ => S754_nan
    end.

Definition SF64 (bits : Z) : spec_float := SF_of_bits 52 11 bits.
Definition SF32 (bits : Z) : spec_float := SF_of_bits 23 8 bits.

(** The float64 nearest to the constant 8.988e307 and the float32 nearest to
    1.701e38, as mantissa and exponent. *)
Definition f64_8_988e307 : spec_float := S754_finite false 9006732609880324 970.
Definition f32_1_701e38 : spec_float := S754_finite false 16773155 103.

(** [(x > c) || (x < -c)] on floats. *)
Definition float_missing (c x : spec_float) : bool :=
  SFltb c x || SFltb x (SFopp c).

(** ** Missing-value rules of the integer types *)

Definition int32_missing (x : Z) : bool := (2147483620 <? x) || (x <? -2147483647).
Definition int16_missing (x : Z) : bool := (32740 <? x) || (x <? -32767).
Definition int8_missing (x : Z) : bool := (x <? -127) || (100 <? x).

(** ** Date conversion *)

Definition do_convert_dates (v : column) (format : string) : result column :=
  match v with
  | Int32s vec =>
    let bt := time_Date 1960 1 1 0 0 0 0 in
    tq ← (if strings_Index format "%td" =? 0 then Ok (wrap_int 64 (Hour * 24))
          else if strings_Index format "%tc" =? 0 then Ok Millisecond
          else Panic "unable to handle format in date vector");
    Ok (Times ((λ v, time_Add bt (wrap_int 64 (v * tq))) <$> vec))
  | _ => Panic "unable to handle raw type in date vector"
  end.

(** ** The row decoder *)

(** The locals of Read that its loops update. *)
Record frame := mkFrame {
  fr_data : list column;
  fr_missing : list (list bool);
  fr_buf : list byte;
  fr_rdr : StataReader
}.

(** [missing[j][i] = true]. *)
Definition flag (j i : nat) (missing : list (list bool)) : result (list (list bool)) :=
  match missing !! j with
  | None => Panic "index out of range"
  | Some m =>
    if decide (i < length m)%nat then Ok (<[j := <[i := true]> m]> missing)
    else Panic "index out of range"
  end.

Definition flag_if (b : bool) (j i : nat) (missing : list (list bool))
  : result (list (list bool)) :=
  if b then flag j i missing else Ok missing.

(** [data[j].(T)[i] = x]: [proj] is the type assertion and [inj] rebuilds the
    column around the updated slice. *)
Definition assign {A} (proj : column → option (list A)) (inj : list A → column)
  (j i : nat) (x : A) (data : list column) : result (list column) :=
  match data !! j with
  | None => Panic "index out of range"
  | Some c =>
    match proj c with
    | None => Panic "interface conversion"
    | Some l =>
      if decide (i < length l)%nat then Ok (<[j := inj (<[i := x]> l)]> data)
      else Panic "index out of range"
    end
  end.

(** [data[j].(T)[i]] when the assertion and both indices are in order. *)
Definition element {A} (proj : column → option (list A)) (j i : nat)
  (data : list column) : option A :=
  match data !! j with
  | Some c => match proj c with Some l => l !! i | None => None end
  | None => None
  end.

Definition as_strings (c : column) := match c with Strings l => Some l | _ => None end.
Definition as_uint64s (c : column) := match c with Uint64s l => Some l | _ => None end.
Definition as_float64s (c : column) := match c with Float64s l => Some l | _ => None end.
Definition as_float32s (c : column) := match c with Float32s l => Some l | _ => None end.
Definition as_int32s (c : column) := match c with Int32s l => Some l | _ => None end.
Definition as_int16s (c : column) := match c with Int16s l => Some l | _ => None end.
Definition as_int8s (c : column) := match c with Int8s l => Some l | _ => None end.

(** The string of a byte cell under category-label substitution. *)
Definition category_label (rdr : StataReader) (labname : string) (x : Z) : string :=
  match ValueLabels rdr !! labname with
  | None => Sprint_int x
  | Some mp =>
    match mp !! x with
    | Some v => v
    | None => Sprint_int x
    end
  end.

(** The body of the column loop: cell [j] of row [i]. *)
Definition Read_cell (i j : nat) (fr : frame) : result frame :=
  let rdr := fr_rdr fr in
  match VarTypes rdr !! j with
  | None => Panic "index out of range"
  | Some t =>
    if t <=? 2045 then
      (* strf *)
      let (buf, rdr) := ReadBuf (Z.to_nat t) (fr_buf fr) rdr in
      data ← assign as_strings Strings j i
                (string_of_list_byte (partition (take (Z.to_nat t) buf))) (fr_data fr);
      Ok (mkFrame data (fr_missing fr) buf rdr)
    else if t =? 32768 then
      if InsertStrls rdr then
        let (ptr, rdr) := read_uvar (ByteOrder rdr) 8 0 rdr in
        data ← assign as_strings Strings j i (default EmptyString (Strls rdr !! ptr))
                 (fr_data fr);
        Ok (mkFrame data (fr_missing fr) (fr_buf fr) rdr)
      else
        match element as_uint64s j i (fr_data fr) with
        | None => Panic "interface conversion or index out of range"
        | Some old =>
          let (x, rdr) := read_uvar (ByteOrder rdr) 8 old rdr in
          data ← assign as_uint64s Uint64s j i x (fr_data fr);
          Ok (mkFrame data (fr_missing fr) (fr_buf fr) rdr)
        end
    else if t =? 65526 then
      let (x, rdr) := read_uvar (ByteOrder rdr) 8 0 rdr in
      data ← assign as_float64s Float64s j i x (fr_data fr);
      (* Lower bound in dta spec is out of range. *)
      missing ← flag_if (float_missing f64_8_988e307 (SF64 x)) j i (fr_missing fr);
      Ok (mkFrame data missing (fr_buf fr) rdr)
    else if t =? 65527 then
      let (x, rdr) := read_uvar (ByteOrder rdr) 4 0 rdr in
      data ← assign as_float32s Float32s j i x (fr_data fr);
      missing ← flag_if (float_missing f32_1_701e38 (SF32 x)) j i (fr_missing fr);
      Ok (mkFrame data missing (fr_buf fr) rdr)
    else if t =? 65528 then
      let (x, rdr) := read_ivar (ByteOrder rdr) 4 0 rdr in
      data ← assign as_int32s Int32s j i x (fr_data fr);
      missing ← flag_if (int32_missing x) j i (fr_missing fr);
      Ok (mkFrame data missing (fr_buf fr) rdr)
    else if t =? 65529 then
      let (x, rdr) := read_ivar (ByteOrder rdr) 2 0 rdr in
      data ← assign as_int16s Int16s j i x (fr_data fr);
      missing ← flag_if (int16_missing x) j i (fr_missing fr);
      Ok (mkFrame data missing (fr_buf fr) rdr)
    else if t =? 65530 then
      let (x, rdr) := read_ivar (ByteOrder rdr) 1 0 rdr in
      missing ← flag_if (int8_missing x) j i (fr_missing fr);
      if negb (InsertCategoryLabels rdr) then
        data ← assign as_int8s Int8s j i x (fr_data fr);
        Ok (mkFrame data missing (fr_buf fr) rdr)
      else
        (* bytes are converted to categorical.  We attempt to replace the
           value with its appropriate category label.  If this is not
           possible, we just convert the byte value to a string. *)
        match ValueLabelNames rdr !! j with
        | None => Panic "index out of range"
        | Some labname =>
          data ← assign as_strings Strings j i (category_label rdr labname x) (fr_data fr);
          Ok (mkFrame data missing (fr_buf fr) rdr)
        end
    else Ok fr
  end.

(** The row loop: [n] iterations are left and [i] is the row index. *)
Fixpoint Read_rows (n : nat) (i : nat) (fr : frame) : result frame :=
  match n with
  | O => Ok fr
  | S n' =>
    let rdr := fr_rdr fr in
    let rdr := set_rows_read (wrap_int 64 (rows_read rdr + 1)) rdr in
    let fr := mkFrame (fr_data fr) (fr_missing fr) (fr_buf fr) rdr in
    if RowCount rdr <? rows_read rdr then Ok fr
    else
      fr ← for_rangeM (Z.to_nat (Nvar rdr)) 0 (Read_cell i) fr;
      Read_rows n' (S i) fr
  end.

(** The slice that Read allocates for a column of type [t]; [None] when no
    case of the switch matches and [data[j]] stays nil. *)
Definition alloc_column (rdr : StataReader) (nval : Z) (t : Z)
  : result (option column) :=
  if t <=? 2045 then l ← make EmptyString nval; Ok (Some (Strings l))
  else if t =? 32768 then
    if InsertStrls rdr then l ← make EmptyString nval; Ok (Some (Strings l))
    else l ← make 0 nval; Ok (Some (Uint64s l))
  else if t =? 65526 then l ← make 0 nval; Ok (Some (Float64s l))
  else if t =? 65527 then l ← make 0 nval; Ok (Some (Float32s l))
  else if t =? 65528 then l ← make 0 nval; Ok (Some (Int32s l))
  else if t =? 65529 then l ← make 0 nval; Ok (Some (Int16s l))
  else if t =? 65530 then
    if InsertCategoryLabels rdr then l ← make EmptyString nval; Ok (Some (Strings l))
    else l ← make 0 nval; Ok (Some (Int8s l))
  else Ok None.

(** The number of observations the call decodes. *)
Definition Read_nval (rows : Z) (rdr : StataReader) : Z :=
  let nval := wrap_int 64 (RowCount rdr - rows_read rdr) in
  if (0 <=? rows) && (rows <? nval) then rows else nval.

(** [missing[j] = make([]bool, nval)]. *)
Definition alloc_mask (nval : Z) (j : nat) (missing : list (list bool))
  : result (list (list bool)) :=
  m ← make false nval; Ok (<[j := m]> missing).

(** One iteration of the loop over [rdr.VarTypes] that allocates [data[j]]. *)
Definition alloc_data (rdr : StataReader) (nval : Z) (j : nat) (data : list column)
  : result (list column) :=
  c ← alloc_column rdr nval (VarTypes rdr !!! j);
  match c with
  | None => Ok data
  | Some c =>
    if decide (j < length data)%nat then Ok (<[j := c]> data)
    else Panic "index out of range"
  end.

(** One iteration of the date pass. *)
Definition convert_column (rdr : StataReader) (j : nat) (data : list column)
  : result (list column) :=
  match is_date rdr !! j with
  | None => Panic "index out of range"
  | Some false => Ok data
  | Some true =>
    match data !! j, Formats rdr !! j with
    | Some v, Some f => v' ← do_convert_dates v f; Ok (<[j := v']> data)
    | _, _ => Panic "index out of range"
    end
  end.

(** Read up to the conversion to Series: the columns, their missing masks and
    the reader afterwards. *)
Definition Read_columns (rows : Z) (rdr : StataReader)
  : result (list column * list (list bool) * StataReader) :=
  data ← make NilColumn (Nvar rdr);
  missing ← make [] (Nvar rdr);
  let nval := Read_nval rows rdr in
  missing ← for_rangeM (Z.to_nat (Nvar rdr)) 0 (alloc_mask nval) missing;
  data ← for_rangeM (length (VarTypes rdr)) 0 (alloc_data rdr nval) data;
  let rdr :=
    if 117 <=? FormatVersion rdr
    then Seek (wrap_int 64 (seek_data rdr + 6)) 0 rdr else rdr in
  fr ← Read_rows (Z.to_nat nval) 0 (mkFrame data missing (replicate 2045 x00) rdr);
  let rdr := fr_rdr fr in
  data ← (if ConvertDates rdr
          then for_rangeM (length (fr_data fr)) 0 (convert_column rdr) (fr_data fr)
          else Ok (fr_data fr));
  Ok (data, fr_missing fr, rdr).

(** ** The result container

    NewSeries and the Series type belong to another file of the package;
    Read is stated over any implementation of them. *)

Section Series.
Context {Series : Type}.
Variable NewSeries : string → column → list bool → result Series.

(** Read returns the given number of rows of data from the Stata data file.
    The data are returned as an array of Series objects.  If rows is
    negative, the remainder of the file is read. *)
(** [rdata[j], err = NewSeries(rdr.column_names[j], v, missing[j])]. *)
Definition to_series (rdr : StataReader) (data : list column)
  (missing : list (list bool)) (j : nat) (rdata : list Series)
  : result (list Series) :=
  match data !! j, column_names rdr !! j, missing !! j with
  | Some v, Some name, Some m => s ← NewSeries name v m; Ok (rdata ++ [s])
  | _, _, _ => Panic "index out of range"
  end.

Definition Read (rows : Z) (rdr : StataReader) : result (list Series * StataReader) :=
  '(data, missing, rdr) ← Read_columns rows rdr;
  (* Now that we have the raw data, convert it to a series. *)
  rdata ← for_rangeM (length data) 0 (to_series rdr data missing) [];
  Ok (rdata, rdr).

End Series.

(** Modelled from the spec: the Series container and NewSeries are in a file
    of the package that is not part of the sources at hand.  The spec has
    each column carry its name and its data together with a parallel
    missing-value flag vector. *)
Record Series := mkSeries {
  Name : string;
  Data : column;
  Missing : list bool
}.

Definition NewSeries (name : string) (data : column) (missing : list bool)
  : result Series :=
  Ok (mkSeries name data missing).

(** ** Synthetic files

    Byte-level builders of minimal files in the layout the reader expects,
    little-endian throughout. *)

Module Fixture.

Definition byte_of_Z (z : Z) : byte := default x00 (Byte.of_N (Z.to_N (z mod 256))).

Fixpoint le_bytes (n : nat) (z : Z) : list byte :=
  match n with
  | O => []
  | S n' => byte_of_Z z :: le_bytes n' (z / 256)
  end.

(** The [n] bytes of [z] in the byte order [o]. *)
Definition enc (o : Endian) (n : nat) (z : Z) : list byte :=
  match o with
  | LittleEndian => le_bytes n z
  | BigEndian => rev (le_bytes n z)
  end.

Definition text (s : string) : list byte := list_byte_of_string s.

Definition padded (n : nat) (s : string) : list byte :=
  take n (text s ++ replicate n x00).

(** A legacy file (114, 115): header, type codes, names, sort list, formats,
    label-set names, long labels, an empty expansion field, rows. *)
Definition old_file (version nvar nobs : Z) (types : list Z)
  (names formats lblnames : list string) (rows : list byte) : list byte :=
  [byte_of_Z version; byte_of_Z 2; byte_of_Z 1; x00]
  ++ le_bytes 2 nvar ++ le_bytes 4 nobs
  ++ padded 81 "label" ++ padded 18 "30 Oct 2015 10:00"
  ++ (byte_of_Z <$> types)
  ++ mjoin (padded 33 <$> names)
  ++ replicate (2 * (Z.to_nat nvar + 1)) x00
  ++ mjoin (padded 49 <$> formats)
  ++ mjoin (padded 33 <$> lblnames)
  ++ mjoin (padded 81 <$> names)
  ++ replicate 5 x00
  ++ rows.

Definition tagged (tag : string) (body : list byte) : list byte :=
  text ("<" +:+ tag +:+ ">") ++ body ++ text ("</" +:+ tag +:+ ">").

Fixpoint offsets (start : Z) (sections : list (list byte)) : list Z :=
  match sections with
  | [] => [start]
  | s :: ss => start :: offsets (start + Z.of_nat (length s)) ss
  end.

(** A tagged file (117, 118) with its map of section offsets. *)
Definition new_file (version : string) (nobs_width label_width : nat)
  (nvar nobs : Z) (types : list Z) (names formats lblnames : list string)
  (rows strls labels : list byte) : list byte :=
  let header :=
    text "<stata_dta>" ++
    tagged "header"
      (tagged "release" (text version) ++ tagged "byteorder" (text "LSF")
       ++ tagged "K" (le_bytes 2 nvar) ++ tagged "N" (le_bytes nobs_width nobs)
       ++ tagged "label" (le_bytes label_width 5 ++ text "label")
       ++ tagged "timestamp" (le_bytes 1 17 ++ text "30 Oct 2015 10:00")) in
  let sections :=
    [ tagged "variable_types" (mjoin (le_bytes 2 <$> types));
      tagged "varnames" (mjoin (padded 129 <$> names));
      tagged "sortlist" (replicate (2 * (Z.to_nat nvar + 1)) x00);
      tagged "formats" (mjoin (padded 57 <$> formats));
      tagged "value_label_names" (mjoin (padded 129 <$> lblnames));
      tagged "variable_labels" (mjoin (padded 321 <$> names));
      tagged "characteristics" [];
      tagged "data" rows;
      tagged "strls" strls;
      tagged "value_labels" labels;
      text "</stata_dta>" ] in
  let map_start := Z.of_nat (length header) in
  let first := map_start + 5 + 14 * 8 + 6 in
  let map := [0; map_start] ++ offsets first sections in
  header ++ tagged "map" (mjoin (le_bytes 8 <$> map)) ++ mjoin sections.

(** One GSO record of the strl section, in a byte order. *)
Definition gso_in (ord : Endian) (v o t : Z) (body : list byte) : list byte :=
  text "GSO" ++ enc ord 4 v ++ enc ord 8 o ++ enc ord 1 t
  ++ enc ord 4 (Z.of_nat (length body)) ++ body.

Definition gso : Z → Z → Z → list byte → list byte := gso_in LittleEndian.

(** One label set of the value-label section. *)
Definition lbl (name : string) (entries : list (Z * string)) : list byte :=
  let texts := (λ e, text e.2 ++ [x00]) <$> entries in
  let offs := take (length entries) (offsets 0 texts) in
  let body :=
    le_bytes 4 (Z.of_nat (length entries))
    ++ le_bytes 4 (Z.of_nat (length (mjoin texts)))
    ++ mjoin (le_bytes 4 <$> offs)
    ++ mjoin ((λ e, le_bytes 4 e.1) <$> entries)
    ++ mjoin texts in
  text "<lbl>" ++ le_bytes 4 (Z.of_nat (length body) + 132)
  ++ padded 129 name ++ replicate 3 x00 ++ body ++ text "</lbl>".

(** Ten rows of one byte column holding 0..9, in each format version. *)
Definition ten_rows : list byte := byte_of_Z <$> [0; 1; 2; 3; 4; 5; 6; 7; 8; 9].

Definition ten_114 : list byte :=
  old_file 114 1 10 [251] ["x"] ["%8.0g"] [""] ten_rows.
Definition ten_115 : list byte :=
  old_file 115 1 10 [251] ["x"] ["%8.0g"] [""] ten_rows.
Definition ten_117 : list byte :=
  new_file "117" 4 1 1 10 [65530] ["x"] ["%8.0g"] [""] ten_rows [] [].
Definition ten_118 : list byte :=
  new_file "118" 8 2 1 10 [65530] ["x"] ["%8.0g"] [""] ten_rows [] [].

(** Successive calls of Read on one reader, with the series of each call. *)
Fixpoint read_calls (calls : list Z) (rdr : StataReader)
  : result (list (list Series)) :=
  match calls with
  | [] => Ok []
  | rows :: rest =>
    '(rdata, rdr) ← Read NewSeries rows rdr;
    more ← read_calls rest rdr;
    Ok (rdata :: more)
  end.

(** Opening a file and calling Read with each of the row counts in turn. *)
Definition session (file : list byte) (calls : list Z)
  : result (list (list Series)) :=
  rdr ← NewStataReader (length file) file; read_calls calls rdr.

(** The reader that NewStataReader returns on a file it accepts. *)
Definition opened (file : list byte) : StataReader :=
  match NewStataReader (length file) file with
  | Ok rdr => rdr
  | _ => new_reader file
  end.

End Fixture.

(** * Vocabulary of the properties *)

(** ** The type translator *)

(** The table of the spec: 251→65530, 252→65529, 253→65528, 254→65527,
    255→65526, and a code up to 244 stays as it is. *)
Definition spec_translate (c : Z) : Z :=
  if c =? 251 then 65530
  else if c =? 252 then 65529
  else if c =? 253 then 65528
  else if c =? 254 then 65527
  else if c =? 255 then 65526
  else c.

(** ** Date conversion *)

(** The epoch of Stata dates. *)
Definition epoch_1960 : Time := time_Date 1960 1 1 0 0 0 0.

(** ** Kinds of columns *)

Inductive kind :=
| KNil | KStrings | KUint64s | KFloat64s | KFloat32s | KInt32s | KInt16s | KInt8s
| KTimes.

Definition kind_of (c : column) : kind :=
  match c with
  | NilColumn => KNil
  | Strings _ => KStrings
  | Uint64s _ => KUint64s
  | Float64s _ => KFloat64s
  | Float32s _ => KFloat32s
  | Int32s _ => KInt32s
  | Int16s _ => KInt16s
  | Int8s _ => KInt8s
  | Times _ => KTimes
  end.

(** The kind of slice that Read allocates for a type tag. *)
Definition kind_for (rdr : StataReader) (t : Z) : kind :=
  if t <=? 2045 then KStrings
  else if t =? 32768 then (if InsertStrls rdr then KStrings else KUint64s)
  else if t =? 65526 then KFloat64s
  else if t =? 65527 then KFloat32s
  else if t =? 65528 then KInt32s
  else if t =? 65529 then KInt16s
  else if t =? 65530 then (if InsertCategoryLabels rdr then KStrings else KInt8s)
  else KNil.

(** The tags of the type switch. *)
Definition valid_tag (t : Z) : Prop :=
  t ≤ 2045 ∨ t = 32768 ∨ 65526 ≤ t ≤ 65530.

(** The missing-value rule of the kind, on the value at row [i] of a numeric
    column; a raw strl key is never missing. *)
Definition cell_flag (c : column) (i : nat) : option bool :=
  match c with
  | Float64s l => (λ x, float_missing f64_8_988e307 (SF64 x)) <$> l !! i
  | Float32s l => (λ x, float_missing f32_1_701e38 (SF32 x)) <$> l !! i
  | Int32s l => int32_missing <$> l !! i
  | Int16s l => int16_missing <$> l !! i
  | Int8s l => int8_missing <$> l !! i
  | Uint64s l => (λ _ : Z, false) <$> (l !! i)
  | _ => None
  end.

(** Two readers that differ in their byte source and row cursor only. *)
Definition static (a b : StataReader) : Prop :=
  set_rows_read 0 (set_reader (mkReadSeeker [] 0) a)
  = set_rows_read 0 (set_reader (mkReadSeeker [] 0) b).

(** ** Readers on which the row decoder runs *)

(** What the initialisation pass leaves on a file whose tags are those of
    the type switch and whose date formats sit on int32 columns. *)
Record ready (rdr : StataReader) : Prop := mkReady {
  ready_Nvar : 0 ≤ Nvar rdr;
  ready_types : length (VarTypes rdr) = Z.to_nat (Nvar rdr);
  ready_tags : Forall valid_tag (VarTypes rdr);
  ready_names : length (column_names rdr) = Z.to_nat (Nvar rdr);
  ready_labels : length (ValueLabelNames rdr) = Z.to_nat (Nvar rdr);
  ready_dates : length (is_date rdr) = Z.to_nat (Nvar rdr);
  ready_cursor : 0 ≤ rows_read rdr ≤ RowCount rdr;
  ready_count : RowCount rdr < 2 ^ 63;
  ready_date_columns :
    ConvertDates rdr = true →
    ∀ j, is_date rdr !! j = Some true →
         VarTypes rdr !! j = Some 65528
         ∧ ∃ f, Formats rdr !! j = Some f ∧ date_format f = true
}.

(** The number of observations left, and the number that the contract of
    the row decoder asks of a call: all that are left for a negative count,
    the smaller of the count and what is left otherwise. *)
Definition rows_left (rdr : StataReader) : Z := RowCount rdr - rows_read rdr.

Definition rows_due (rows : Z) (rdr : StataReader) : Z :=
  if rows <? 0 then rows_left rdr else Z.min rows (rows_left rdr).

(** ** The invariant of the row loop *)

(** Cell [(i', j')] is decoded before cell [(i, j)], rows outer and columns
    inner. *)
Definition done_before (i j i' j' : nat) : Prop :=
  (i' < i ∨ (i' = i ∧ j' < j))%nat.

(** The frame when the decoder is about to read cell [(i, j)] of a call that
    decodes [N] rows: the columns have the kinds of their tags and [N] rows,
    and so have the masks; a mask entry of a decoded numeric cell is the rule
    of its kind on the value, and the entries of the cells to come are
    clear. *)
Record Inv (rdr0 : StataReader) (N i j : nat) (fr : frame) : Prop := mkInv {
  inv_static : static rdr0 (fr_rdr fr);
  inv_len_data : length (fr_data fr) = length (VarTypes rdr0);
  inv_len_missing : length (fr_missing fr) = length (VarTypes rdr0);
  inv_columns :
    ∀ j' t, VarTypes rdr0 !! j' = Some t →
      ∃ c, fr_data fr !! j' = Some c ∧ kind_of c = kind_for rdr0 t ∧ column_len c = N;
  inv_masks : ∀ j' m, fr_missing fr !! j' = Some m → length m = N;
  inv_flags :
    ∀ j' i' c m, fr_data fr !! j' = Some c → fr_missing fr !! j' = Some m →
      (i' < N)%nat →
      (done_before i j i' j' → ∀ b, cell_flag c i' = Some b → m !! i' = Some b)
      ∧ (¬ done_before i j i' j' → m !! i' = Some false)
}.

(** ** Missing-value masks *)

(** Three rows of one int16 column: 32739, 32740 and 32741. *)
Definition int16_boundary_file : list byte :=
  Fixture.old_file 115 1 3 [252] ["h"] ["%8.0g"] [""]
    (Fixture.le_bytes 2 32739 ++ Fixture.le_bytes 2 32740 ++ Fixture.le_bytes 2 32741).

(** ** Category labels *)

(** Two rows of a byte column labelled by the set "lab", a strl column and an
    int16 column, in format 118; the strl section holds a text record under
    v=7, o=3 and a binary record under v=1, o=1. *)
Definition labelled_118 : list byte :=
  Fixture.new_file "118" 8 2 3 2 [65530; 32768; 65529] ["x"; "s"; "h"]
    ["%8.0g"; "%9s"; "%8.0g"] ["lab"; ""; ""]
    (Fixture.le_bytes 1 1 ++ Fixture.le_bytes 8 196615 ++ Fixture.le_bytes 2 32740
     ++ Fixture.le_bytes 1 5 ++ Fixture.le_bytes 8 77 ++ Fixture.le_bytes 2 (-32768))
    (Fixture.gso 7 3 130 (Fixture.text "hello" ++ [x00])
     ++ Fixture.gso 1 1 129 (Fixture.text "bin"))
    (Fixture.lbl "lab" [(1, "one"); (2, "two")]).

(** ** The byte source under reads *)

(** The reader after [n] more bytes. *)
Definition skip (n : nat) (rdr : StataReader) : StataReader :=
  set_reader (advance n (reader rdr)) rdr.

(** ** The strl section *)

(** The reader stands before the bytes [bs]. *)
Definition at_bytes (rdr : StataReader) (bs : list byte) : Prop :=
  0 ≤ pos (reader rdr) ∧ remaining (reader rdr) = bs.

(** A record whose fields fit their widths. *)
Definition gso_fits (rec : Z * Z * Z * list byte) : Prop :=
  let '(v, o, t, body) := rec in
  0 ≤ v < 2 ^ 32 ∧ 0 ≤ o < 2 ^ 64 ∧ 0 ≤ t < 2 ^ 8 ∧ Z.of_nat (length body) < 2 ^ 32.

Definition gso_bytes (ord : Endian) (rec : Z * Z * Z * list byte) : list byte :=
  let '(v, o, t, body) := rec in Fixture.gso_in ord v o t body.

(** What the records add to the dictionaries, first to last. *)
Definition store_records (records : list (Z * Z * Z * list byte)) (rdr : StataReader)
  : StataReader :=
  foldl (λ rdr '(v, o, t, body), store_strl (strl_key v o) t body rdr) rdr records.

(** The reader when read_strls enters its loop: at the section, with the
    two dictionaries fresh and the empty string under the key 0. *)
Definition strls_start (rdr : StataReader) : StataReader :=
  set_Strls {[0 := EmptyString]}
    (set_StrlsBytes ∅ (Seek (wrap_int 64 (seek_strls rdr + 7)) 0 rdr)).

(** Records that do not write the text entry of the key [k]. *)
Definition leaves_key (k : Z) (rec : Z * Z * Z * list byte) : Prop :=
  let '(v, o, t, _) := rec in t = 130 → strl_key v o ≠ k.

(** Records that do not write the binary entry of the key [k]. *)
Definition leaves_blob (k : Z) (rec : Z * Z * Z * list byte) : Prop :=
  let '(v, o, t, _) := rec in t = 129 → strl_key v o ≠ k.

(** ** Outcomes of the row decoder *)

(** A value or a panic: neither a returned error nor an exhausted loop. *)
Definition no_error {A} (c : result A) : Prop :=
  match c with
  | Ok _ | Panic _ => True
  | _ => False
  end.

(** ** Date flags *)

(** A string column of width 10 whose format is %td. *)
Definition date_on_string_file : list byte :=
  Fixture.old_file 115 1 1 [10] ["d"] ["%td"] [""] (Fixture.padded 10 "1jan1960").

(** ** Every file of format 114 *)

(** A stage of the initialisation pass that panics or returns a reader of
    the same format version. *)
Definition keeps_version (f : StataReader → result StataReader) : Prop :=
  ∀ rdr, (∃ msg, f rdr = Panic msg)
         ∨ (∃ rdr', f rdr = Ok rdr' ∧ FormatVersion rdr' = FormatVersion rdr).

(** ** The reader apart from its byte source *)

(** The reader without its byte source. *)
Definition erase (rdr : StataReader) : StataReader :=
  set_reader (mkReadSeeker [] 0) rdr.

(** The fields that a header reader assigns, taken from [h]. *)
Definition header_fields (h a : StataReader) : StataReader :=
  set_seek_value_labels (seek_value_labels h)
  (set_seek_strls (seek_strls h)
  (set_seek_data (seek_data h)
  (set_seek_characteristics (seek_characteristics h)
  (set_seek_variable_labels (seek_variable_labels h)
  (set_seek_value_label_names (seek_value_label_names h)
  (set_seek_formats (seek_formats h)
  (set_seek_sortlist (seek_sortlist h)
  (set_seek_varnames (seek_varnames h)
  (set_seek_vartypes (seek_vartypes h)
  (set_TimeStamp (TimeStamp h)
  (set_DatasetLabel (DatasetLabel h)
  (set_RowCount (RowCount h)
  (set_Nvar (Nvar h)
  (set_ByteOrder (ByteOrder h)
  (set_FormatVersion (FormatVersion h) a))))))))))))))).

(** What a header reader leaves: the header fields are its own, every other
    field is that of the reader it started from, the source is the same, the
    format version is a supported one and the row count is that of an int. *)
Definition header_read (a b : StataReader) : Prop :=
  erase b = header_fields b (erase a)
  ∧ content (reader b) = content (reader a)
  ∧ FormatVersion b ∈ supported_dta_versions
  ∧ - 2 ^ 63 ≤ RowCount b < 2 ^ 63.

(** What a section reader leaves: the field [set] holds [v], every other
    field is as before and the source has the same content. *)
Definition section_read {A} (set : A → StataReader → StataReader) (v : A)
  (a b : StataReader) : Prop :=
  erase b = set v (erase a) ∧ content (reader b) = content (reader a).

(** What every reader that NewStataReader returns on [file] satisfies. *)
Record opened_shape (file : list byte) (rdr : StataReader) : Prop := mkShape {
  shape_version : FormatVersion rdr ∈ [115; 117; 118];
  shape_Nvar : 0 ≤ Nvar rdr;
  shape_count : - 2 ^ 63 ≤ RowCount rdr < 2 ^ 63;
  shape_types : length (VarTypes rdr) = Z.to_nat (Nvar rdr);
  shape_names : length (ColumnNames rdr) = Z.to_nat (Nvar rdr);
  shape_long : length (ColumnNamesLong rdr) = Z.to_nat (Nvar rdr);
  shape_formats : length (Formats rdr) = Z.to_nat (Nvar rdr);
  shape_labels : length (ValueLabelNames rdr) = Z.to_nat (Nvar rdr);
  shape_dates : is_date rdr = date_format <$> Formats rdr;
  shape_options :
    InsertStrls rdr = true ∧ InsertCategoryLabels rdr = true ∧ ConvertDates rdr = true;
  shape_cursor : rows_read rdr = 0;
  shape_source : content (reader rdr) = file;
  shape_legacy :
    FormatVersion rdr < 117 →
    Forall valid_tag (VarTypes rdr) ∧ ValueLabels rdr = ∅ ∧ Strls rdr = ∅
}.

(** ** Expansion fields *)

(** One expansion field: its type byte, the length of its payload in four
    bytes and the payload. *)
Definition expansion_field (ord : Endian) (f : Z * list byte) : list byte :=
  Fixture.enc ord 1 f.1 ++ Fixture.enc ord 4 (Z.of_nat (length f.2)) ++ f.2.

(** A field whose type and length fit their widths and that is not the
    terminator (type 0 with an empty payload). *)
Definition field_fits (f : Z * list byte) : Prop :=
  0 ≤ f.1 < 2 ^ 8 ∧ Z.of_nat (length f.2) < 2 ^ 31 ∧ (f.1 ≠ 0 ∨ f.2 ≠ []).

(** The source is exhausted. *)
Definition at_end (rdr : StataReader) : Prop :=
  at_bytes rdr [] ∧ pos (reader rdr) < 2 ^ 63.

(** ** Value labels *)

(** A label set: its name, the length written in its first field, the
    offsets and the values of its entries and its text block. *)
Record label_set := mkLabelSet {
  ls_name : string;
  ls_len : Z;
  ls_off : list Z;
  ls_val : list Z;
  ls_txt : list byte
}.

(** The bytes of a label set in a byte order: the marker, the length field
    (which the reader skips), the name padded to 129 bytes, three bytes of padding,
    the number of entries, the length of the text block, the offsets, the
    values, the text block, and six bytes for the closing marker. *)
Definition lbl_bytes (ord : Endian) (s : label_set) : list byte :=
  Fixture.text "<lbl>" ++ Fixture.enc ord 4 (ls_len s)
  ++ Fixture.padded 129 (ls_name s) ++ replicate 3 x00
  ++ Fixture.enc ord 4 (Z.of_nat (length (ls_off s)))
  ++ Fixture.enc ord 4 (Z.of_nat (length (ls_txt s)))
  ++ mjoin (Fixture.enc ord 4 <$> ls_off s)
  ++ mjoin (Fixture.enc ord 4 <$> ls_val s)
  ++ ls_txt s ++ Fixture.text "</lbl>".

(** A set whose fields fit their widths: a name of at most 129 bytes
    without a null byte, as many values as offsets, offsets inside the text
    block and values of 32 bits. *)
Definition lbl_fits (s : label_set) : Prop :=
  (length (Fixture.text (ls_name s)) ≤ 129)%nat
  ∧ (x00 ∉ Fixture.text (ls_name s))
  ∧ length (ls_val s) = length (ls_off s)
  ∧ Z.of_nat (length (ls_off s)) < 2 ^ 31
  ∧ Z.of_nat (length (ls_txt s)) < 2 ^ 31
  ∧ Forall (λ o, 0 ≤ o ≤ Z.of_nat (length (ls_txt s))) (ls_off s)
  ∧ Forall (λ v, - 2 ^ 31 ≤ v < 2 ^ 31) (ls_val s).

(** The labels of a set: each value with the text at its offset, a later
    entry replacing an earlier one with the same value. *)
Definition lbl_map (s : label_set) : gmap Z string :=
  foldl (λ vk '(o, v),
           <[v := string_of_list_byte (partition (drop (Z.to_nat o) (ls_txt s)))]> vk)
        ∅ (zip (ls_off s) (ls_val s)).

(** The dictionary of a list of sets, a later set replacing an earlier one
    with the same name. *)
Definition lbl_dict (sets : list label_set) (vl : gmap string (gmap Z string))
  : gmap string (gmap Z string) :=
  foldl (λ vl s, <[ls_name s := lbl_map s]> vl) vl sets.

(** The text block of each set is the buffer of the iteration after it: it
    holds the five bytes of the next marker, and the 129 bytes of a name
    when another set follows. *)
Fixpoint texts_hold (sets : list label_set) : Prop :=
  match sets with
  | [] => True
  | s :: rest =>
    (5 ≤ length (ls_txt s))%nat ∧ (rest ≠ [] → (129 ≤ length (ls_txt s))%nat)
    ∧ texts_hold rest
  end.

(** A set with the one label "yes": a text block of four bytes. *)
Definition yes_set : label_set :=
  mkLabelSet "yesno" 142 [0] [1] (Fixture.text "yes" ++ [x00]).

(** A set whose text block is padded to 129 bytes, so that another set can
    follow it. *)
Definition long_set : label_set :=
  mkLabelSet "long" 0 [0; 4] [1; 2]
    (Fixture.text "one" ++ [x00] ++ Fixture.text "two" ++ replicate 122 x00).

(** The set of [Fixture.lbl "lab" [(1, "one"); (2, "two")]]. *)
Definition one_two_set : label_set :=
  mkLabelSet "lab" 164 [0; 4] [1; 2]
    (Fixture.text "one" ++ [x00] ++ Fixture.text "two" ++ [x00]).

(** ** Sequences of calls *)


(** A legacy file whose header announces -1 observations. *)
Definition negative_count_file : list byte :=
  Fixture.old_file 115 1 (-1) [251] ["x"] ["%8.0g"] [""] [].

(** ** Values of the cells *)

(** The bytes that a cell of type [t] takes in a row. *)
Definition cell_width (t : Z) : nat :=
  if t <=? 2045 then Z.to_nat t
  else if t =? 32768 then 8
  else if t =? 65526 then 8
  else if t =? 65527 then 4
  else if t =? 65528 then 4
  else if t =? 65529 then 2
  else if t =? 65530 then 1
  else 0.

(** The bytes of a row. *)
Definition row_width (types : list Z) : nat := sum_list_with cell_width types.

(** The bytes of cell [(i, j)] in the rows [src] of a table with the given
    column types. *)
Definition cell_bytes (types : list Z) (src : list byte) (i j : nat) : list byte :=
  take (cell_width (types !!! j))
       (drop (i * row_width types + row_width (take j types)) src).

(** One entry of a column. *)
Inductive entry :=
| Text (s : string)
| Number (x : Z)
| Instant (t : Time).

(** Entry [i] of a column. *)
Definition column_entry (c : column) (i : nat) : option entry :=
  match c with
  | NilColumn => None
  | Strings l => Text <$> l !! i
  | Uint64s l | Float64s l | Float32s l | Int32s l | Int16s l | Int8s l =>
    Number <$> l !! i
  | Times l => Instant <$> l !! i
  end.

(** The entry that the bytes [bs] of a cell of column [j] stand for: the
    text before the first null byte for a fixed-width string, the text of
    the key or the key itself for a strl, the bit pattern for a float, the
    two's complement value for an integer, and the label or the decimal
    digits for a byte column read as a category. *)
Definition decode_cell (rdr : StataReader) (j : nat) (t : Z) (bs : list byte) : entry :=
  let u := order_uint (ByteOrder rdr) bs in
  if t <=? 2045 then Text (string_of_list_byte (partition bs))
  else if t =? 32768 then
    if InsertStrls rdr then Text (default EmptyString (Strls rdr !! u)) else Number u
  else if t =? 65526 then Number u
  else if t =? 65527 then Number u
  else if t =? 65528 then Number (wrap_int 32 u)
  else if t =? 65529 then Number (wrap_int 16 u)
  else if InsertCategoryLabels rdr
       then Text (category_label rdr (ValueLabelNames rdr !!! j) (wrap_int 8 u))
       else Number (wrap_int 8 u).

(** The reader where the row loop starts: at the data section of a tagged
    file, where it stands in a legacy file. *)
Definition data_start (rdr : StataReader) : StataReader :=
  if 117 <=? FormatVersion rdr
  then Seek (wrap_int 64 (seek_data rdr + 6)) 0 rdr else rdr.

(** The values of the frame when the decoder is about to read cell
    [(i, j)] of the rows [src]: the reader stands before the bytes of that
    cell, and every cell decoded so far holds the entry of its bytes. *)
Record Vals (rdr0 : StataReader) (src : list byte) (i j : nat) (fr : frame)
  : Prop := mkVals {
  vals_at :
    at_bytes (fr_rdr fr)
      (drop (i * row_width (VarTypes rdr0) + row_width (take j (VarTypes rdr0))) src);
  vals_buf : length (fr_buf fr) = 2045%nat;
  vals_done :
    ∀ j' i' c t, fr_data fr !! j' = Some c → VarTypes rdr0 !! j' = Some t →
      done_before i j i' j' →
      column_entry c i'
      = Some (decode_cell rdr0 j' t (cell_bytes (VarTypes rdr0) src i' j'))
}.

(** The raw column behind a returned one: the returned column itself, or
    the column that the date pass converted. *)
Definition raw_of (rdr : StataReader) (j : nat) (raw c : column) : Prop :=
  if ConvertDates rdr && default false (is_date rdr !! j)
  then ∃ f, Formats rdr !! j = Some f ∧ do_convert_dates raw f = Ok c
  else c = raw.



(** ** Fields of fixed width *)

(** A text that a field of [w] bytes holds: at most [w] bytes, none of them
    null. *)
Definition fits (w : nat) (s : string) : Prop :=
  (length (Fixture.text s) ≤ w)%nat ∧ x00 ∉ Fixture.text s.

(** ** Tagged files *)










(** ** Masks of the cells *)

(** The missing-value rule on the bytes [bs] that the source holds for a
    cell of type [t], in the byte order [ord]: the rule of the numeric type
    on the value that the bytes stand for.  A text is never flagged, and
    neither is a cell that the end of the source cuts short, whose variable
    keeps its zero. *)
Definition cell_missing (ord : Endian) (t : Z) (bs : list byte) : bool :=
  let u := order_uint ord bs in
  if decide (length bs = cell_width t) then
    if t =? 65526 then float_missing f64_8_988e307 (SF64 u)
    else if t =? 65527 then float_missing f32_1_701e38 (SF32 u)
    else if t =? 65528 then int32_missing (wrap_int 32 u)
    else if t =? 65529 then int16_missing (wrap_int 16 u)
    else if t =? 65530 then int8_missing (wrap_int 8 u)
    else false
  else false.

(** The masks of the frame when the decoder is about to read cell [(i, j)],
    the source holding [src] where the row loop starts: the reader has
    consumed the cells before, and the entry of every cell decoded so far is
    the rule on the bytes of that cell. *)
Record Masks (rdr0 : StataReader) (src : list byte) (i j : nat) (fr : frame)
  : Prop := mkMasks {
  masks_at :
    at_bytes (fr_rdr fr)
      (drop (i * row_width (VarTypes rdr0) + row_width (take j (VarTypes rdr0))) src);
  masks_buf : length (fr_buf fr) = 2045%nat;
  masks_done :
    ∀ j' i' m t, fr_missing fr !! j' = Some m → VarTypes rdr0 !! j' = Some t →
      done_before i j i' j' →
      m !! i'
      = Some (cell_missing (ByteOrder rdr0) t (cell_bytes (VarTypes rdr0) src i' j'))
}.

(** Three rows of one byte column: 99, 100 and 101. *)
Definition int8_boundary_file : list byte :=
  Fixture.old_file 115 1 3 [251] ["b"] ["%8.0g"] [""]
    (Fixture.le_bytes 1 99 ++ Fixture.le_bytes 1 100 ++ Fixture.le_bytes 1 101).

(** ** Legacy files *)

(** The byte order that the second byte of a legacy header announces. *)
Definition legacy_order (bo : Z) : Endian :=
  if bo =? 1 then BigEndian else LittleEndian.

(** A file of format 115 in the byte order of its second byte [bo]: the
    header with its two unused bytes [gap], the type codes, the names, the
    sort list, the formats, the names of the label sets, the long labels, a
    chain of expansion fields with its terminator, and the rows. *)
Definition legacy_file (bo : Z) (gap : list byte) (nvar nobs : Z)
  (label stamp : string) (types : list Z) (names : list string)
  (sortlist : list byte) (formats lblnames longs : list string)
  (fields : list (Z * list byte)) (rows : list byte) : list byte :=
  [Fixture.byte_of_Z 115; Fixture.byte_of_Z bo] ++ gap
  ++ Fixture.enc (legacy_order bo) 2 nvar ++ Fixture.enc (legacy_order bo) 4 nobs
  ++ Fixture.padded 81 label ++ Fixture.padded 18 stamp
  ++ (Fixture.byte_of_Z <$> types)
  ++ mjoin (Fixture.padded 33 <$> names)
  ++ sortlist
  ++ mjoin (Fixture.padded 49 <$> formats)
  ++ mjoin (Fixture.padded 33 <$> lblnames)
  ++ mjoin (Fixture.padded 81 <$> longs)
  ++ mjoin (expansion_field (legacy_order bo) <$> fields)
  ++ replicate 5 x00
  ++ rows.

(** * Properties *)

(** ** Records and outcomes *)

Lemma set_reader_set_reader r1 r2 rdr :
  set_reader r2 (set_reader r1 rdr) = set_reader r2 rdr.
Proof. reflexivity. Qed.

Lemma set_VarTypes_set_VarTypes v1 v2 rdr :
  set_VarTypes v2 (set_VarTypes v1 rdr) = set_VarTypes v2 rdr.
Proof. reflexivity. Qed.

Lemma set_VarTypes_id rdr : set_VarTypes (VarTypes rdr) rdr = rdr.
Proof. by destruct rdr. Qed.

Lemma bind_Ok {A B} (c : result A) (f : A → result B) (b : B) :
  c ≫= f = Ok b → ∃ a, c = Ok a ∧ f a = Ok b.
Proof. destruct c; try discriminate. intros H. by exists a. Qed.

Lemma for_rangeM_S {St} n k (body : nat → St → result St) s :
  for_rangeM (S n) k body s = body k s ≫= for_rangeM n (S k) body.
Proof. reflexivity. Qed.

Lemma for_range_S {St} n k (body : nat → St → St) s :
  for_range (S n) k body s = for_range n (S k) body (body k s).
Proof. reflexivity. Qed.

(** ** The type translator *)

Lemma translate_vartype_ok c :
  0 ≤ c ≤ 255 → c ≤ 244 ∨ 251 ≤ c → translate_vartype c = Ok (spec_translate c).
Proof.
  intros Hc Hok. unfold translate_vartype, spec_translate.
  destruct (Z.leb_spec c 244) as [Hle|Hgt].
  - repeat (case_match; try lia). done.
  - assert (c = 251 ∨ c = 252 ∨ c = 253 ∨ c = 254 ∨ c = 255) as Hcases by lia.
    destruct Hcases as [->|[->|[->|[->| ->]]]]; reflexivity.
Qed.

Lemma translate_vartype_panic c :
  245 ≤ c ≤ 250 → translate_vartype c = Panic "unknown variable type %v in translate_vartypes".
Proof.
  intros Hc. unfold translate_vartype.
  repeat (case_match; try lia). done.
Qed.

Lemma translate_step_at k rdr t :
  VarTypes rdr !! k = Some t →
  translate_step k rdr
  = translate_vartype t ≫= λ t', Ok (set_VarTypes (<[k := t']> (VarTypes rdr)) rdr).
Proof. unfold translate_step. by intros ->. Qed.

Lemma translate_loop_ok n : ∀ k rdr,
  (k + n)%nat = length (VarTypes rdr) →
  Forall (λ c, 0 ≤ c ≤ 255 ∧ (c ≤ 244 ∨ 251 ≤ c)) (drop k (VarTypes rdr)) →
  for_rangeM n k translate_step rdr
  = Ok (set_VarTypes (take k (VarTypes rdr) ++ (spec_translate <$> drop k (VarTypes rdr)))
          rdr).
Proof.
  induction n as [|n IH]; intros k rdr Hlen Hall.
  - simpl. rewrite drop_ge, take_ge by lia. simpl. rewrite app_nil_r.
    by rewrite set_VarTypes_id.
  - rewrite for_rangeM_S.
    destruct (VarTypes rdr !! k) as [t|] eqn:Hk.
    2:{ apply lookup_ge_None in Hk. lia. }
    rewrite (translate_step_at _ _ _ Hk).
    rewrite (drop_S _ _ _ Hk) in Hall. apply Forall_cons in Hall as [[Ht Hok] Hall].
    rewrite (translate_vartype_ok t Ht Hok). simpl.
    rewrite IH; simpl.
    + rewrite set_VarTypes_set_VarTypes. f_equal. f_equal.
      rewrite (drop_S _ _ _ Hk). simpl.
      rewrite (take_S_r _ _ (spec_translate t)).
      2:{ apply list_lookup_insert_eq. apply lookup_lt_Some in Hk. done. }
      rewrite take_insert_ge by lia.
      rewrite drop_insert_lt by lia.
      by rewrite <- app_assoc.
    + rewrite length_insert. lia.
    + rewrite drop_insert_lt by lia. done.
Qed.

Lemma translate_loop_panic n : ∀ k rdr,
  (k + n)%nat = length (VarTypes rdr) →
  Forall (λ c, 0 ≤ c ≤ 255) (drop k (VarTypes rdr)) →
  Exists (λ c, 245 ≤ c ≤ 250) (drop k (VarTypes rdr)) →
  ∃ msg, for_rangeM n k translate_step rdr = Panic msg.
Proof.
  induction n as [|n IH]; intros k rdr Hlen Hall Hbad.
  - rewrite drop_ge in Hbad by lia. by apply Exists_nil in Hbad.
  - rewrite for_rangeM_S.
    destruct (VarTypes rdr !! k) as [t|] eqn:Hk.
    2:{ apply lookup_ge_None in Hk. lia. }
    rewrite (translate_step_at _ _ _ Hk).
    rewrite (drop_S _ _ _ Hk) in Hall, Hbad.
    apply Forall_cons in Hall as [Ht Hall].
    apply Exists_cons in Hbad as [Hbad|Hbad].
    + rewrite (translate_vartype_panic t Hbad). simpl. eauto.
    + assert (t ≤ 244 ∨ 251 ≤ t ∨ 245 ≤ t ≤ 250) as [Hok|[Hok|Hno]] by lia.
      3:{ rewrite (translate_vartype_panic t Hno). simpl. eauto. }
      all: rewrite (translate_vartype_ok t Ht) by lia; simpl.
      all: apply IH; simpl; rewrite ?length_insert, ?drop_insert_lt by lia;
        done || lia.
Qed.

(** C5: on the type codes of a legacy file (one byte each, one per variable),
    translate_vartypes replaces 251, 252, 253, 254, 255 by 65530, 65529,
    65528, 65527, 65526 and leaves every code up to 244 as it is; when a code
    from 245 to 250 occurs, it panics. *)
Theorem translate_vartypes_table (rdr : StataReader) :
  length (VarTypes rdr) = Z.to_nat (Nvar rdr) →
  Forall (λ c, 0 ≤ c ≤ 255) (VarTypes rdr) →
  (Forall (λ c, c ≤ 244 ∨ 251 ≤ c) (VarTypes rdr) →
   translate_vartypes rdr = Ok (set_VarTypes (spec_translate <$> VarTypes rdr) rdr))
  ∧ (Exists (λ c, 245 ≤ c ≤ 250) (VarTypes rdr) →
     ∃ msg, translate_vartypes rdr = Panic msg)
  ∧ spec_translate 251 = 65530 ∧ spec_translate 252 = 65529
  ∧ spec_translate 253 = 65528 ∧ spec_translate 254 = 65527
  ∧ spec_translate 255 = 65526 ∧ (∀ c, c ≤ 244 → spec_translate c = c).
Proof.
  intros Hlen Hbytes. split; [|split].
  - intros Hok. unfold translate_vartypes. rewrite translate_loop_ok; simpl; [done|lia|].
    rewrite drop_0. rewrite Forall_forall in *. intros c Hin. split; auto.
  - intros Hbad. unfold translate_vartypes.
    apply translate_loop_panic; rewrite ?drop_0; done || (simpl; lia).
  - repeat split. intros c Hc. unfold spec_translate.
    repeat (case_match; try lia).
Qed.

Lemma translate_vartypes_table_witness :
  let rdr := set_Nvar 3 (set_VarTypes [20; 251; 255] (new_reader [])) in
  translate_vartypes rdr = Ok (set_VarTypes [20; 65530; 65526] rdr).
Proof.
  intros rdr.
  apply (proj1 (translate_vartypes_table rdr eq_refl
                  ltac:(repeat constructor; lia))).
  repeat constructor; lia.
Defined.

(** ** Date conversion *)

(** [strings.Index(format, p) == 0] says that [format] begins with [p]. *)
Lemma strings_Index_prefix (format p : string) :
  p ≠ EmptyString →
  strings_Index format p = 0 ↔ String.prefix p format = true.
Proof.
  intros Hne. unfold strings_Index. split.
  - destruct (String.index 0 p format) as [n|] eqn:Hn; [|done].
    intros Hz. assert (n = 0%nat) as -> by lia.
    apply String.index_correct1 in Hn. by apply String.prefix_correct.
  - intros Hp. destruct p as [|a p]; [done|].
    destruct format as [|b format]; [done|].
    unfold String.index; fold String.index. by rewrite Hp.
Qed.

(** The three conversions that the spec lists. *)
Lemma do_convert_dates_examples :
  do_convert_dates (Int32s [0]) "%tdXXXX" = Ok (Times [time_Date 1960 1 1 0 0 0 0])
  ∧ do_convert_dates (Int32s [1]) "%tdXXXX" = Ok (Times [time_Date 1960 1 2 0 0 0 0])
  ∧ do_convert_dates (Int32s [1000]) "%tc" = Ok (Times [time_Date 1960 1 1 0 0 1 0]).
Proof. by vm_compute. Qed.

(** X9: On an int32 column do_convert_dates is exact inside the range of a
    Duration: under a format beginning with %td every offset between -106751
    and 106751 days becomes 1 January 1960 plus that many days, and under a
    format beginning with %tc (and not with %td) every int32 offset becomes 1
    January 1960 plus that many milliseconds. *)
Lemma do_convert_dates_in_range (vec : list Z) (format : string) :
  Forall (λ v, -2147483648 ≤ v ≤ 2147483647) vec →
  (strings_Index format "%td" = 0 →
   Forall (λ v, -106751 ≤ v ≤ 106751) vec →
   do_convert_dates (Int32s vec) format
   = Ok (Times ((λ v, time_Add epoch_1960 (v * 86400 * 1000000000)) <$> vec)))
  ∧ (strings_Index format "%td" ≠ 0 → strings_Index format "%tc" = 0 →
     do_convert_dates (Int32s vec) format
     = Ok (Times ((λ v, time_Add epoch_1960 (v * 1000000)) <$> vec))).
Proof.
  intros Hvec. split.
  - intros Htd Hdays. unfold do_convert_dates. rewrite Htd. simpl.
    do 2 f_equal. apply Forall_fmap_ext_1.
    eapply Forall_impl; [exact Hdays|]. intros v Hv. simpl in Hv |- *. f_equal.
    change (wrap_int 64 (Hour * 24)) with 86400000000000.
    unfold wrap_int. change (2 ^ (64 - 1)) with 9223372036854775808.
    change (2 ^ 64) with 18446744073709551616.
    rewrite Z.mod_small by lia. lia.
  - intros Htd Htc. unfold do_convert_dates.
    destruct (strings_Index format "%td" =? 0) eqn:E; [lia|].
    rewrite Htc. simpl. do 2 f_equal. apply Forall_fmap_ext_1.
    eapply Forall_impl; [exact Hvec|]. intros v Hv. simpl in Hv |- *. f_equal.
    unfold wrap_int, Millisecond. change (2 ^ (64 - 1)) with 9223372036854775808.
    change (2 ^ 64) with 18446744073709551616.
    rewrite Z.mod_small by lia. lia.
Qed.

(** The day offset -106752 (a date in the year 1667) wraps the other way,
    into the year 2252. *)
Lemma do_convert_dates_td_wraps_back :
  do_convert_dates (Int32s [-106752]) "%td"
  = Ok (Times [time_Date 2252 4 10 23 34 33 709551616]).
Proof. by vm_compute. Qed.

(** C9: the day offset 106752 (a date in the year 2252) under %td.  The
    product of the offset and the 24 hours in nanoseconds leaves the 64 bits of
    a Duration, and the result is an instant of the year 1667 in place of the
    epoch plus 106752 days. *)
Theorem do_convert_dates_td_wraps :
  do_convert_dates (Int32s [106752]) "%td"
  = Ok (Times [time_Date 1667 9 21 0 25 26 290448384])
  ∧ time_Add epoch_1960 (106752 * 86400 * 1000000000)
    = time_Date 2252 4 11 0 0 0 0
  ∧ time_Date 1667 9 21 0 25 26 290448384 ≠ time_Date 2252 4 11 0 0 0 0.
Proof. by vm_compute. Qed.

(** ** Reads on the reader state *)

Lemma read_uvar_eq o n old rdr :
  read_uvar o n old rdr
  = (default old (binary_Read o n (reader rdr)).1,
     set_reader (binary_Read o n (reader rdr)).2 rdr).
Proof. unfold read_uvar. by destruct (binary_Read o n (reader rdr)). Qed.

Lemma read_ivar_eq o n old rdr :
  read_ivar o n old rdr
  = (default old (wrap_int (8 * Z.of_nat n) <$> (binary_Read o n (reader rdr)).1),
     set_reader (binary_Read o n (reader rdr)).2 rdr).
Proof. unfold read_ivar. by destruct (binary_Read o n (reader rdr)). Qed.

Lemma ReadBuf_eq n buf rdr :
  ReadBuf n buf rdr
  = ((Read_prefix n buf (reader rdr)).1,
     set_reader (Read_prefix n buf (reader rdr)).2 rdr).
Proof. unfold ReadBuf. by destruct (Read_prefix n buf (reader rdr)). Qed.

Lemma Read_prefix_length n buf r :
  length (Read_prefix n buf r).1 = length buf.
Proof.
  unfold Read_prefix, Reader_Read. simpl.
  rewrite !length_app, !length_drop, !length_take. lia.
Qed.

(** ** One cell of the row decoder *)

(** Decides the comparisons of the type switch once the tag is known. *)
Ltac switch_tag :=
  repeat match goal with
  | |- context [Z.leb ?a ?b] =>
    let v := eval vm_compute in (Z.leb a b) in
    lazymatch v with
    | true => change (Z.leb a b) with true
    | false => change (Z.leb a b) with false
    end
  | |- context [Z.eqb ?a ?b] =>
    let v := eval vm_compute in (Z.eqb a b) in
    lazymatch v with
    | true => change (Z.eqb a b) with true
    | false => change (Z.eqb a b) with false
    end
  end; cbv iota.

(** A read changes the byte source of the reader and nothing else. *)
Ltac past_reader :=
  repeat match goal with
  | |- context [InsertStrls (set_reader ?r ?x)] =>
    change (InsertStrls (set_reader r x)) with (InsertStrls x)
  | |- context [InsertCategoryLabels (set_reader ?r ?x)] =>
    change (InsertCategoryLabels (set_reader r x)) with (InsertCategoryLabels x)
  | |- context [ValueLabelNames (set_reader ?r ?x)] =>
    change (ValueLabelNames (set_reader r x)) with (ValueLabelNames x)
  | |- context [Strls (set_reader ?r ?x)] =>
    change (Strls (set_reader r x)) with (Strls x)
  | |- context [category_label (set_reader ?r ?x)] =>
    change (category_label (set_reader r x)) with (category_label x)
  | |- context [Z.of_nat ?n] =>
    let v := eval vm_compute in (Z.of_nat n) in
    lazymatch v with
    | Z0 => idtac
    | Zpos _ => idtac
    end;
    change (Z.of_nat n) with v
  | |- context [8 * 1] => change (8 * 1) with 8
  | |- context [8 * 2] => change (8 * 2) with 16
  | |- context [8 * 4] => change (8 * 4) with 32
  | |- context [8 * 8] => change (8 * 8) with 64
  end.

Ltac open_cell Ht :=
  unfold Read_cell; cbn [fr_rdr fr_data fr_missing fr_buf]; rewrite Ht; switch_tag.

Lemma assign_at {A} (proj : column → option (list A)) inj j i x data c l :
  data !! j = Some c → proj c = Some l → (i < length l)%nat →
  assign proj inj j i x data = Ok (<[j := inj (<[i := x]> l)]> data).
Proof.
  intros Hj Hc Hi. unfold assign. rewrite Hj, Hc.
  by rewrite decide_True.
Qed.

Lemma flag_if_at b j i missing m :
  missing !! j = Some m → (i < length m)%nat →
  flag_if b j i missing
  = Ok (if b then <[j := <[i := true]> m]> missing else missing).
Proof.
  intros Hj Hi. unfold flag_if, flag. destruct b; [|done].
  rewrite Hj. by rewrite decide_True.
Qed.

Section cell.

Variables (i j : nat) (data : list column) (missing : list (list bool)).
Variables (buf : list byte) (rdr : StataReader).
Variable m : list bool.
Hypothesis Hmask : missing !! j = Some m.
Hypothesis Hrow : (i < length m)%nat.

(** The bytes of the cell and the reader after them. *)
Let cell (n : nat) := binary_Read (ByteOrder rdr) n (reader rdr).
Let after (n : nat) := set_reader (cell n).2 rdr.

Lemma Read_cell_strf t l :
  VarTypes rdr !! j = Some t → t ≤ 2045 →
  data !! j = Some (Strings l) → (i < length l)%nat →
  let rb := Read_prefix (Z.to_nat t) buf (reader rdr) in
  Read_cell i j (mkFrame data missing buf rdr)
  = Ok (mkFrame
          (<[j := Strings (<[i := string_of_list_byte
                                    (partition (take (Z.to_nat t) rb.1))]> l)]> data)
          missing rb.1 (set_reader rb.2 rdr)).
Proof.
  intros Ht Hle Hj Hi.
  unfold Read_cell; cbn [fr_rdr fr_data fr_missing fr_buf]; rewrite Ht.
  apply Z.leb_le in Hle. rewrite Hle. rewrite ReadBuf_eq.
  by erewrite assign_at.
Qed.

Lemma Read_cell_strl_text l :
  VarTypes rdr !! j = Some 32768 → InsertStrls rdr = true →
  data !! j = Some (Strings l) → (i < length l)%nat →
  Read_cell i j (mkFrame data missing buf rdr)
  = Ok (mkFrame
          (<[j := Strings (<[i := default EmptyString
                                    (Strls rdr !! default 0 (cell 8).1)]> l)]> data)
          missing buf (after 8)).
Proof.
  intros Ht Hins Hj Hi. open_cell Ht.
  rewrite Hins, read_uvar_eq. past_reader. by erewrite assign_at.
Qed.

Lemma Read_cell_strl_key l :
  VarTypes rdr !! j = Some 32768 → InsertStrls rdr = false →
  data !! j = Some (Uint64s l) → (i < length l)%nat →
  Read_cell i j (mkFrame data missing buf rdr)
  = Ok (mkFrame
          (<[j := Uint64s (<[i := default (l !!! i) (cell 8).1]> l)]> data)
          missing buf (after 8)).
Proof.
  intros Ht Hins Hj Hi. open_cell Ht.
  rewrite Hins. unfold element. rewrite Hj. cbn [as_uint64s].
  destruct (lookup_lt_is_Some_2 l i Hi) as [old Hold]. rewrite Hold.
  rewrite read_uvar_eq. erewrite assign_at by done.
  by rewrite (list_lookup_total_correct _ _ _ Hold).
Qed.

Lemma Read_cell_float64 l :
  VarTypes rdr !! j = Some 65526 →
  data !! j = Some (Float64s l) → (i < length l)%nat →
  let x := default 0 (cell 8).1 in
  Read_cell i j (mkFrame data missing buf rdr)
  = Ok (mkFrame (<[j := Float64s (<[i := x]> l)]> data)
          (if float_missing f64_8_988e307 (SF64 x)
           then <[j := <[i := true]> m]> missing else missing)
          buf (after 8)).
Proof.
  intros Ht Hj Hi. open_cell Ht.
  rewrite read_uvar_eq. erewrite assign_at by done. cbn [mbind result_bind].
  by erewrite flag_if_at.
Qed.

Lemma Read_cell_float32 l :
  VarTypes rdr !! j = Some 65527 →
  data !! j = Some (Float32s l) → (i < length l)%nat →
  let x := default 0 (cell 4).1 in
  Read_cell i j (mkFrame data missing buf rdr)
  = Ok (mkFrame (<[j := Float32s (<[i := x]> l)]> data)
          (if float_missing f32_1_701e38 (SF32 x)
           then <[j := <[i := true]> m]> missing else missing)
          buf (after 4)).
Proof.
  intros Ht Hj Hi. open_cell Ht.
  rewrite read_uvar_eq. erewrite assign_at by done. cbn [mbind result_bind].
  by erewrite flag_if_at.
Qed.

Lemma Read_cell_int32 l :
  VarTypes rdr !! j = Some 65528 →
  data !! j = Some (Int32s l) → (i < length l)%nat →
  let x := default 0 (wrap_int 32 <$> (cell 4).1) in
  Read_cell i j (mkFrame data missing buf rdr)
  = Ok (mkFrame (<[j := Int32s (<[i := x]> l)]> data)
          (if int32_missing x then <[j := <[i := true]> m]> missing else missing)
          buf (after 4)).
Proof.
  intros Ht Hj Hi. open_cell Ht.
  rewrite read_ivar_eq. past_reader.
  erewrite assign_at by done. cbn [mbind result_bind].
  by erewrite flag_if_at.
Qed.

Lemma Read_cell_int16 l :
  VarTypes rdr !! j = Some 65529 →
  data !! j = Some (Int16s l) → (i < length l)%nat →
  let x := default 0 (wrap_int 16 <$> (cell 2).1) in
  Read_cell i j (mkFrame data missing buf rdr)
  = Ok (mkFrame (<[j := Int16s (<[i := x]> l)]> data)
          (if int16_missing x then <[j := <[i := true]> m]> missing else missing)
          buf (after 2)).
Proof.
  intros Ht Hj Hi. open_cell Ht.
  rewrite read_ivar_eq. past_reader.
  erewrite assign_at by done. cbn [mbind result_bind].
  by erewrite flag_if_at.
Qed.

Lemma Read_cell_int8 l :
  VarTypes rdr !! j = Some 65530 → InsertCategoryLabels rdr = false →
  data !! j = Some (Int8s l) → (i < length l)%nat →
  let x := default 0 (wrap_int 8 <$> (cell 1).1) in
  Read_cell i j (mkFrame data missing buf rdr)
  = Ok (mkFrame (<[j := Int8s (<[i := x]> l)]> data)
          (if int8_missing x then <[j := <[i := true]> m]> missing else missing)
          buf (after 1)).
Proof.
  intros Ht Hins Hj Hi. open_cell Ht.
  rewrite read_ivar_eq. past_reader.
  erewrite flag_if_at by done. cbn [mbind result_bind].
  rewrite Hins. cbn [negb]. by erewrite assign_at.
Qed.

Lemma Read_cell_category l labname :
  VarTypes rdr !! j = Some 65530 → InsertCategoryLabels rdr = true →
  ValueLabelNames rdr !! j = Some labname →
  data !! j = Some (Strings l) → (i < length l)%nat →
  let x := default 0 (wrap_int 8 <$> (cell 1).1) in
  Read_cell i j (mkFrame data missing buf rdr)
  = Ok (mkFrame (<[j := Strings (<[i := category_label rdr labname x]> l)]> data)
          (if int8_missing x then <[j := <[i := true]> m]> missing else missing)
          buf (after 1)).
Proof.
  intros Ht Hins Hname Hj Hi. open_cell Ht.
  rewrite read_ivar_eq. past_reader.
  erewrite flag_if_at by done. cbn [mbind result_bind].
  rewrite Hins, Hname. cbn [negb]. by erewrite assign_at.
Qed.

End cell.

(** ** Kinds of columns *)

Lemma alloc_column_kind rdr nval t :
  0 ≤ nval → valid_tag t →
  ∃ c, alloc_column rdr nval t = Ok (Some c)
       ∧ kind_of c = kind_for rdr t ∧ column_len c = Z.to_nat nval
       ∧ ∀ i, (i < Z.to_nat nval)%nat → cell_flag c i = None ∨ cell_flag c i = Some false.
Proof.
  intros Hn Ht. unfold alloc_column, kind_for, make.
  assert ((nval <? 0) = false) as -> by lia.
  repeat case_match; simpl; try (exfalso; unfold valid_tag in Ht; lia);
    eexists; (split; [reflexivity|]); simpl; rewrite ?length_replicate;
    (split; [done|]); (split; [done|]); intros i Hi;
    rewrite ?lookup_replicate_2 by done; auto.
Qed.

Lemma static_field {A} (f : StataReader → A) a b :
  (∀ x, f (set_rows_read 0 (set_reader (mkReadSeeker [] 0) x)) = f x) →
  static a b → f b = f a.
Proof. intros Hf H. rewrite <- (Hf a), <- (Hf b). by rewrite H. Qed.

Ltac use_static H :=
  pose proof (static_field VarTypes _ _ (λ _, eq_refl) H);
  pose proof (static_field InsertStrls _ _ (λ _, eq_refl) H);
  pose proof (static_field InsertCategoryLabels _ _ (λ _, eq_refl) H);
  pose proof (static_field ValueLabelNames _ _ (λ _, eq_refl) H);
  pose proof (static_field Nvar _ _ (λ _, eq_refl) H);
  pose proof (static_field RowCount _ _ (λ _, eq_refl) H).

Lemma kind_for_static a b t : static a b → kind_for b t = kind_for a t.
Proof.
  intros H. use_static H. unfold kind_for.
  repeat match goal with E : _ b = _ a |- _ => rewrite E; clear E end. done.
Qed.

(** What a cell does to a well-formed frame: column [j] keeps its kind and
    length, only row [i] of it and of its mask can change, and for a numeric
    kind the flag that is raised is the rule of the kind on the value stored. *)
Lemma Read_cell_step i j data missing buf rdr t c m :
  VarTypes rdr !! j = Some t → valid_tag t →
  data !! j = Some c → kind_of c = kind_for rdr t → (i < column_len c)%nat →
  missing !! j = Some m → (i < length m)%nat →
  (j < length (ValueLabelNames rdr))%nat →
  ∃ c' (b : bool) buf' r',
    Read_cell i j (mkFrame data missing buf rdr)
    = Ok (mkFrame (<[j := c']> data)
            (if b then <[j := <[i := true]> m]> missing else missing)
            buf' (set_reader r' rdr))
    ∧ kind_of c' = kind_of c ∧ column_len c' = column_len c
    ∧ length buf' = length buf
    ∧ (∀ b', cell_flag c' i = Some b' → b = b')
    ∧ (∀ i', i' ≠ i → cell_flag c' i' = cell_flag c i').
Proof.
  intros Ht Hvalid Hj Hkind Hi Hm Him Hname.
  destruct (lookup_lt_is_Some_2 _ _ Hname) as [labname Hlab].
  unfold kind_for in Hkind.
  destruct (Z.leb_spec t 2045) as [Hle|Hgt].
  { destruct c; try discriminate. simpl in Hi.
    eexists _, false, _, _. split; [by eapply Read_cell_strf|].
    cbn [kind_of column_len cell_flag]. rewrite length_insert, Read_prefix_length. done. }
  assert (t = 32768 ∨ t = 65526 ∨ t = 65527 ∨ t = 65528 ∨ t = 65529 ∨ t = 65530)
    as Hcases by (unfold valid_tag in Hvalid; lia).
  destruct Hcases as [->|[->|[->|[->|[->| ->]]]]]; simpl in Hkind.
  - destruct (InsertStrls rdr) eqn:Hins; destruct c; try discriminate; simpl in Hi.
    + eexists _, false, _, _. split; [by eapply Read_cell_strl_text|].
      cbn [kind_of column_len cell_flag]. rewrite length_insert. done.
    + eexists _, false, _, _. split; [by eapply Read_cell_strl_key|].
      cbn [kind_of column_len cell_flag]. rewrite length_insert. repeat split; try done.
      * intros b'. rewrite list_lookup_insert_eq by done. simpl. congruence.
      * intros i' Hne. by rewrite list_lookup_insert_ne.
  - destruct c; try discriminate; simpl in Hi.
    eexists _, _, _, _. split; [by eapply Read_cell_float64|].
    cbn [kind_of column_len cell_flag]. rewrite length_insert. repeat split; try done.
    + intros b'. rewrite list_lookup_insert_eq by done. simpl. congruence.
    + intros i' Hne. by rewrite list_lookup_insert_ne.
  - destruct c; try discriminate; simpl in Hi.
    eexists _, _, _, _. split; [by eapply Read_cell_float32|].
    cbn [kind_of column_len cell_flag]. rewrite length_insert. repeat split; try done.
    + intros b'. rewrite list_lookup_insert_eq by done. simpl. congruence.
    + intros i' Hne. by rewrite list_lookup_insert_ne.
  - destruct c; try discriminate; simpl in Hi.
    eexists _, _, _, _. split; [by eapply Read_cell_int32|].
    cbn [kind_of column_len cell_flag]. rewrite length_insert. repeat split; try done.
    + intros b'. rewrite list_lookup_insert_eq by done. simpl. congruence.
    + intros i' Hne. by rewrite list_lookup_insert_ne.
  - destruct c; try discriminate; simpl in Hi.
    eexists _, _, _, _. split; [by eapply Read_cell_int16|].
    cbn [kind_of column_len cell_flag]. rewrite length_insert. repeat split; try done.
    + intros b'. rewrite list_lookup_insert_eq by done. simpl. congruence.
    + intros i' Hne. by rewrite list_lookup_insert_ne.
  - destruct (InsertCategoryLabels rdr) eqn:Hins; destruct c; try discriminate;
      simpl in Hi.
    + eexists _, _, _, _. split; [by eapply Read_cell_category|].
      cbn [kind_of column_len cell_flag]. rewrite length_insert. done.
    + eexists _, _, _, _. split; [by eapply Read_cell_int8|].
      cbn [kind_of column_len cell_flag]. rewrite length_insert. repeat split; try done.
      * intros b'. rewrite list_lookup_insert_eq by done. simpl. congruence.
      * intros i' Hne. by rewrite list_lookup_insert_ne.
Qed.

(** ** Loops that cannot fail *)

Lemma for_rangeM_ok {St} (P : nat → St → Prop) (body : nat → St → result St) n :
  ∀ k s,
  P k s →
  (∀ k' s', (k ≤ k' < k + n)%nat → P k' s' → ∃ s'', body k' s' = Ok s'' ∧ P (S k') s'') →
  ∃ s', for_rangeM n k body s = Ok s' ∧ P (k + n)%nat s'.
Proof.
  induction n as [|n IH]; intros k s HP Hbody.
  - exists s. rewrite Nat.add_0_r. done.
  - destruct (Hbody k s ltac:(lia) HP) as (s1 & Hs1 & HP1).
    rewrite for_rangeM_S, Hs1. cbn [mbind result_bind].
    destruct (IH (S k) s1 HP1) as (s' & Hs' & HP').
    { intros k' s'' Hk'. apply Hbody. lia. }
    exists s'. split; [done|]. by replace (k + S n)%nat with (S k + n)%nat by lia.
Qed.

(** ** Readers on which the row decoder runs *)

Lemma Read_nval_due rows rdr :
  0 ≤ rows_read rdr ≤ RowCount rdr → RowCount rdr < 2 ^ 63 →
  Read_nval rows rdr = rows_due rows rdr ∧ 0 ≤ rows_due rows rdr ≤ rows_left rdr.
Proof.
  intros Hc Hn. unfold Read_nval, rows_due, rows_left, wrap_int.
  change (2 ^ (64 - 1)) with 9223372036854775808.
  change (2 ^ 63) with 9223372036854775808 in Hn.
  change (2 ^ 64) with 18446744073709551616.
  rewrite Z.mod_small by lia.
  replace (RowCount rdr - rows_read rdr + 9223372036854775808 - 9223372036854775808)
    with (RowCount rdr - rows_read rdr) by lia.
  destruct (Z.ltb_spec rows 0), (Z.leb_spec 0 rows),
    (Z.ltb_spec rows (RowCount rdr - rows_read rdr)); simpl; lia.
Qed.

(** ** Allocation of the masks and of the columns *)

Lemma alloc_mask_at nval j (missing : list (list bool)) :
  0 ≤ nval →
  alloc_mask nval j missing = Ok (<[j := replicate (Z.to_nat nval) false]> missing).
Proof.
  intros Hn. unfold alloc_mask, make.
  by assert ((nval <? 0) = false) as -> by lia.
Qed.

Lemma alloc_mask_loop nval n : ∀ k (missing : list (list bool)),
  0 ≤ nval → length missing = (k + n)%nat →
  for_rangeM n k (alloc_mask nval) missing
  = Ok (take k missing ++ replicate n (replicate (Z.to_nat nval) false)).
Proof.
  induction n as [|n IH]; intros k missing Hn Hlen.
  - simpl. rewrite take_ge by lia. by rewrite app_nil_r.
  - rewrite for_rangeM_S, alloc_mask_at by done. cbn [mbind result_bind].
    rewrite IH by (rewrite ?length_insert; lia).
    f_equal. destruct (lookup_lt_is_Some_2 missing k ltac:(lia)) as [m0 Hm0].
    erewrite take_S_r by (apply list_lookup_insert_eq; lia).
    rewrite take_insert_ge by lia. rewrite <- app_assoc. done.
Qed.

Lemma alloc_data_loop rdr nval :
  0 ≤ nval → Forall valid_tag (VarTypes rdr) →
  ∀ data : list column, length data = length (VarTypes rdr) →
  ∃ data', for_rangeM (length (VarTypes rdr)) 0 (alloc_data rdr nval) data = Ok data'
    ∧ length data' = length (VarTypes rdr)
    ∧ ∀ j t, VarTypes rdr !! j = Some t →
        ∃ c, data' !! j = Some c ∧ kind_of c = kind_for rdr t
             ∧ column_len c = Z.to_nat nval
             ∧ ∀ i, (i < Z.to_nat nval)%nat →
                    cell_flag c i = None ∨ cell_flag c i = Some false.
Proof.
  intros Hn Htags data Hlen.
  destruct (for_rangeM_ok
    (λ k (data' : list column),
       length data' = length (VarTypes rdr)
       ∧ ∀ j t, (j < k)%nat → VarTypes rdr !! j = Some t →
           ∃ c, data' !! j = Some c ∧ kind_of c = kind_for rdr t
                ∧ column_len c = Z.to_nat nval
                ∧ ∀ i, (i < Z.to_nat nval)%nat →
                       cell_flag c i = None ∨ cell_flag c i = Some false)
    (alloc_data rdr nval) (length (VarTypes rdr)) 0%nat data) as (data' & Hrun & Hl & Hall).
  - split; [done|]. intros j t Hj. lia.
  - intros k d Hk [Hd Hdone].
    destruct (lookup_lt_is_Some_2 (VarTypes rdr) k ltac:(lia)) as [t Ht].
    pose proof (Forall_lookup_1 _ _ _ _ Htags Ht) as Hvalid.
    destruct (alloc_column_kind rdr nval t Hn Hvalid) as (c & Hc & Hkind & Hclen & Hflag).
    exists (<[k := c]> d). unfold alloc_data.
    rewrite (list_lookup_total_correct _ _ _ Ht), Hc. cbn [mbind result_bind].
    rewrite decide_True by lia. split; [done|].
    rewrite length_insert. split; [done|].
    intros j t' Hj Ht'. destruct (decide (j = k)) as [->|Hne].
    + exists c. rewrite list_lookup_insert_eq by lia.
      assert (t' = t) as -> by congruence. done.
    + rewrite list_lookup_insert_ne by done. apply Hdone; [lia|done].
  - exists data'. split; [done|]. split; [done|].
    intros j t Ht. apply Hall; [|done]. apply lookup_lt_Some in Ht. lia.
Qed.

(** ** The invariant of the row loop *)

Lemma Inv_cell rdr0 N i j fr :
  Forall valid_tag (VarTypes rdr0) →
  length (ValueLabelNames rdr0) = length (VarTypes rdr0) →
  Inv rdr0 N i j fr → (i < N)%nat → (j < length (VarTypes rdr0))%nat →
  ∃ fr', Read_cell i j fr = Ok fr' ∧ Inv rdr0 N i (S j) fr'
         ∧ rows_read (fr_rdr fr') = rows_read (fr_rdr fr).
Proof.
  intros Htags Hnames [Hst Hld Hlm Hcols Hmasks Hflags] Hi Hj.
  destruct fr as [data missing buf rdr]. cbn [fr_data fr_missing fr_rdr fr_buf] in *.
  use_static Hst.
  destruct (lookup_lt_is_Some_2 (VarTypes rdr0) j Hj) as [t Ht].
  destruct (Hcols j t Ht) as (c & Hc & Hkind & Hclen).
  destruct (lookup_lt_is_Some_2 missing j ltac:(lia)) as [m Hm].
  pose proof (Hmasks j m Hm) as Hmlen.
  destruct (Read_cell_step i j data missing buf rdr t c m) as
    (c' & b & buf' & r' & Hrun & Hk' & Hl' & _ & Hb & Hother); try done || lia || congruence.
  { by eapply Forall_lookup_1. }
  { rewrite Hkind. symmetry. by apply kind_for_static. }
  exists (mkFrame (<[j := c']> data)
            (if b then <[j := <[i := true]> m]> missing else missing)
            buf' (set_reader r' rdr)).
  split; [done|]. split; [|done].
  set (m' := if b then <[i := true]> m else m).
  assert ((if b then <[j := <[i := true]> m]> missing else missing) = <[j := m']> missing)
    as ->.
  { unfold m'. destruct b; [done|]. by rewrite list_insert_id. }
  assert (length m' = N) as Hm'len.
  { unfold m'. destruct b; rewrite ?length_insert; done. }
  constructor; cbn [fr_data fr_missing fr_rdr fr_buf].
  - done.
  - by rewrite length_insert.
  - by rewrite length_insert.
  - intros j' t' Ht'. destruct (decide (j' = j)) as [->|Hne].
    + exists c'. rewrite list_lookup_insert_eq by lia.
      assert (t' = t) as -> by congruence. repeat split; congruence.
    + rewrite list_lookup_insert_ne by done. by apply Hcols.
  - intros j' m0. destruct (decide (j' = j)) as [->|Hne].
    + rewrite list_lookup_insert_eq by lia. congruence.
    + rewrite list_lookup_insert_ne by done. by apply Hmasks.
  - intros j' i' c0 m0. destruct (decide (j' = j)) as [->|Hne].
    + rewrite !list_lookup_insert_eq by lia. intros [= <-] [= <-] Hi'.
      destruct (Hflags j i' c m Hc Hm Hi') as [Hdone Htodo].
      destruct (decide (i' = i)) as [->|Hnei].
      * split; [|unfold done_before; lia].
        intros _ b' Hb'. apply Hb in Hb' as <-.
        unfold m'. destruct b.
        -- apply list_lookup_insert_eq. lia.
        -- apply Htodo. unfold done_before. lia.
      * rewrite (Hother i' Hnei).
        assert (m' !! i' = m !! i') as ->.
        { unfold m'. destruct b; [|done]. by rewrite list_lookup_insert_ne. }
        unfold done_before in *. split; intros Hd; [apply Hdone|apply Htodo]; lia.
    + rewrite !list_lookup_insert_ne by done. intros Hc0 Hm0 Hi'.
      destruct (Hflags j' i' c0 m0 Hc0 Hm0 Hi') as [Hdone Htodo].
      unfold done_before in *. split; intros Hd; [apply Hdone|apply Htodo]; lia.
Qed.

Lemma Inv_row rdr0 N i fr :
  Forall valid_tag (VarTypes rdr0) →
  length (ValueLabelNames rdr0) = length (VarTypes rdr0) →
  Inv rdr0 N i 0 fr → (i < N)%nat →
  ∃ fr', for_rangeM (length (VarTypes rdr0)) 0 (Read_cell i) fr = Ok fr'
         ∧ Inv rdr0 N (S i) 0 fr'
         ∧ rows_read (fr_rdr fr') = rows_read (fr_rdr fr).
Proof.
  intros Htags Hnames Hinv Hi.
  destruct (for_rangeM_ok
    (λ j fr', Inv rdr0 N i j fr' ∧ rows_read (fr_rdr fr') = rows_read (fr_rdr fr))
    (Read_cell i) (length (VarTypes rdr0)) 0%nat fr) as (fr' & Hrun & Hinv' & Hrr).
  - done.
  - intros j fr1 Hj [Hinv1 Hrr1].
    destruct (Inv_cell rdr0 N i j fr1 Htags Hnames Hinv1 Hi ltac:(lia))
      as (fr2 & Hrun2 & Hinv2 & Hrr2).
    exists fr2. split; [done|]. split; [done|]. congruence.
  - exists fr'. split; [done|]. split; [|done].
    destruct Hinv' as [Hst Hld Hlm Hcols Hmasks Hflags].
    constructor; try done.
    intros j' i' c m Hc Hm Hi'.
    destruct (Hflags j' i' c m Hc Hm Hi') as [Hdone Htodo].
    apply lookup_lt_Some in Hc. rewrite Hld in Hc.
    unfold done_before in *. split; intros Hd; [apply Hdone|apply Htodo]; lia.
Qed.

Lemma wrap_int_64_small x : - 2 ^ 63 ≤ x < 2 ^ 63 → wrap_int 64 x = x.
Proof.
  intros Hx. unfold wrap_int.
  change (2 ^ (64 - 1)) with 9223372036854775808.
  change (2 ^ 63) with 9223372036854775808 in Hx.
  change (2 ^ 64) with 18446744073709551616.
  rewrite Z.mod_small by lia. lia.
Qed.

Lemma Read_rows_ok rdr0 N n : ∀ i fr,
  Forall valid_tag (VarTypes rdr0) →
  length (ValueLabelNames rdr0) = length (VarTypes rdr0) →
  length (VarTypes rdr0) = Z.to_nat (Nvar rdr0) →
  RowCount rdr0 < 2 ^ 63 →
  Inv rdr0 N i 0 fr → (i + n ≤ N)%nat →
  0 ≤ rows_read (fr_rdr fr) → rows_read (fr_rdr fr) + Z.of_nat n ≤ RowCount rdr0 →
  ∃ fr', Read_rows n i fr = Ok fr' ∧ Inv rdr0 N (i + n) 0 fr'
         ∧ rows_read (fr_rdr fr') = rows_read (fr_rdr fr) + Z.of_nat n.
Proof.
  induction n as [|n IH]; intros i fr Htags Hnames Hlen Hcount Hinv Hin Hr0 Hr.
  - exists fr. simpl. rewrite Nat.add_0_r, Z.add_0_r. done.
  - destruct fr as [data missing buf rdr]. cbn [fr_rdr] in *.
    pose proof (inv_static _ _ _ _ _ Hinv) as Hst. cbn [fr_rdr] in Hst.
    use_static Hst.
    cbn [Read_rows fr_rdr fr_data fr_missing fr_buf].
    change (RowCount (set_rows_read ?x rdr)) with (RowCount rdr).
    change (Nvar (set_rows_read ?x rdr)) with (Nvar rdr).
    change (rows_read (set_rows_read ?x rdr)) with x.
    rewrite wrap_int_64_small by lia.
    assert ((RowCount rdr <? rows_read rdr + 1) = false) as -> by lia.
    replace (Z.to_nat (Nvar rdr)) with (length (VarTypes rdr0)) by congruence.
    destruct (Inv_row rdr0 N i
                (mkFrame data missing buf (set_rows_read (rows_read rdr + 1) rdr)))
      as (fr1 & Hrun1 & Hinv1 & Hrr1); try done || lia.
    { destruct Hinv. constructor; done. }
    rewrite Hrun1. cbn [mbind result_bind]. cbn [fr_rdr] in Hrr1.
    change (rows_read (set_rows_read ?x rdr)) with x in Hrr1.
    destruct (IH (S i) fr1) as (fr' & Hrun & Hinv' & Hrr); try done || lia.
    exists fr'. split; [done|]. split.
    + by replace (i + S n)%nat with (S i + n)%nat by lia.
    + lia.
Qed.

(** ** The date pass *)

Lemma do_convert_dates_date_format vec f :
  date_format f = true →
  ∃ tq, do_convert_dates (Int32s vec) f
        = Ok (Times ((λ v, time_Add (time_Date 1960 1 1 0 0 0 0) (wrap_int 64 (v * tq)))
                       <$> vec)).
Proof.
  unfold date_format, do_convert_dates. intros Hf.
  destruct (strings_Index f "%td" =? 0); [by eexists|].
  destruct (strings_Index f "%tc" =? 0); [by eexists|done].
Qed.

Lemma date_pass_ok rdr N (data : list column) (missing : list (list bool)) :
  length data = length (is_date rdr) →
  (∀ j, is_date rdr !! j = Some true →
     (∃ vec, data !! j = Some (Int32s vec))
     ∧ ∃ f, Formats rdr !! j = Some f ∧ date_format f = true) →
  (∀ j c, data !! j = Some c → column_len c = N) →
  (∀ j i c m b, data !! j = Some c → missing !! j = Some m →
     cell_flag c i = Some b → m !! i = Some b) →
  ∃ data', for_rangeM (length data) 0 (convert_column rdr) data = Ok data'
    ∧ length data' = length data
    ∧ (∀ j c, data' !! j = Some c → column_len c = N)
    ∧ (∀ j i c m b, data' !! j = Some c → missing !! j = Some m →
         cell_flag c i = Some b → m !! i = Some b)
    ∧ (∀ j, is_date rdr !! j = Some false → data' !! j = data !! j).
Proof.
  intros Hlen Hdates Hcols Hflags.
  destruct (for_rangeM_ok
    (λ k (d : list column),
       length d = length data
       ∧ (∀ j, (k ≤ j)%nat → d !! j = data !! j)
       ∧ (∀ j c, d !! j = Some c → column_len c = N)
       ∧ (∀ j i c m b, d !! j = Some c → missing !! j = Some m →
            cell_flag c i = Some b → m !! i = Some b)
       ∧ (∀ j, is_date rdr !! j = Some false → d !! j = data !! j))
    (convert_column rdr) (length data) 0%nat data) as (d & Hrun & Hd).
  - done.
  - intros k d Hk (Hl & Hrest & Hc & Hf & Hsame).
    destruct (lookup_lt_is_Some_2 (is_date rdr) k ltac:(lia)) as [[|] Hdate].
    + destruct (Hdates k Hdate) as [[vec Hvec] (f & Hfmt & Hdf)].
      destruct (do_convert_dates_date_format vec f Hdf) as [tq Hconv].
      unfold convert_column. rewrite Hdate, (Hrest k ltac:(lia)), Hvec, Hfmt, Hconv.
      cbn [mbind result_bind]. eexists. split; [done|].
      rewrite length_insert. split; [done|]. split; [|split; [|split]].
      * intros j Hj. rewrite list_lookup_insert_ne by lia. apply Hrest. lia.
      * intros j c. destruct (decide (j = k)) as [->|Hne].
        -- rewrite list_lookup_insert_eq by lia. intros [= <-].
           cbn [column_len]. rewrite length_fmap.
           by apply (Hcols k (Int32s vec)).
        -- rewrite list_lookup_insert_ne by done. apply Hc.
      * intros j i c m b. destruct (decide (j = k)) as [->|Hne].
        -- rewrite list_lookup_insert_eq by lia. by intros [= <-].
        -- rewrite list_lookup_insert_ne by done. apply Hf.
      * intros j Hj. destruct (decide (j = k)) as [->|Hne]; [congruence|].
        rewrite list_lookup_insert_ne by done. by apply Hsame.
    + unfold convert_column. rewrite Hdate. exists d. split; [done|].
      repeat split; try done. intros j Hj. apply Hrest. lia.
  - exists d. destruct Hd as (Hl & _ & Hc & Hf & Hsame). done.
Qed.

(** ** A call of the row decoder on a ready reader *)

Lemma ready_static a b :
  ready a → static a b → 0 ≤ rows_read b ≤ RowCount a → ready b.
Proof.
  intros [] Hst Hr.
  pose proof (static_field VarTypes _ _ (λ _, eq_refl) Hst).
  pose proof (static_field Nvar _ _ (λ _, eq_refl) Hst).
  pose proof (static_field column_names _ _ (λ _, eq_refl) Hst).
  pose proof (static_field ValueLabelNames _ _ (λ _, eq_refl) Hst).
  pose proof (static_field is_date _ _ (λ _, eq_refl) Hst).
  pose proof (static_field RowCount _ _ (λ _, eq_refl) Hst).
  pose proof (static_field ConvertDates _ _ (λ _, eq_refl) Hst).
  pose proof (static_field Formats _ _ (λ _, eq_refl) Hst).
  constructor;
    repeat match goal with E : _ b = _ a |- _ => rewrite E; clear E end;
    done.
Qed.

Lemma Read_columns_ok rows rdr :
  ready rdr →
  ∃ data missing rdr',
    Read_columns rows rdr = Ok (data, missing, rdr')
    ∧ static rdr rdr'
    ∧ rows_read rdr' = rows_read rdr + rows_due rows rdr
    ∧ length data = Z.to_nat (Nvar rdr)
    ∧ length missing = Z.to_nat (Nvar rdr)
    ∧ (∀ j c, data !! j = Some c → column_len c = Z.to_nat (rows_due rows rdr))
    ∧ (∀ j m, missing !! j = Some m → length m = Z.to_nat (rows_due rows rdr))
    ∧ (∀ j i c m b, data !! j = Some c → missing !! j = Some m →
         cell_flag c i = Some b → m !! i = Some b).
Proof.
  intros Hready. pose proof Hready as [HN Hty Htags Hnames Hlabels Hdates Hcur Hcnt Hdc].
  destruct (Read_nval_due rows rdr Hcur Hcnt) as [Hnval [Hdue0 Hdue]].
  unfold rows_left in Hdue.
  set (N := Z.to_nat (rows_due rows rdr)).
  unfold Read_columns, make. assert ((Nvar rdr <? 0) = false) as -> by lia.
  cbn [mbind result_bind]. rewrite Hnval.
  rewrite alloc_mask_loop by (rewrite ?length_replicate; lia).
  cbn [mbind result_bind]. rewrite take_0, app_nil_l. fold N.
  destruct (alloc_data_loop rdr (rows_due rows rdr) Hdue0 Htags
              (replicate (Z.to_nat (Nvar rdr)) NilColumn))
    as (data0 & Halloc & Hlen0 & Hcols0).
  { rewrite length_replicate. lia. }
  rewrite Halloc. cbn [mbind result_bind].
  set (rdr1 := if 117 <=? FormatVersion rdr
               then Seek (wrap_int 64 (seek_data rdr + 6)) 0 rdr else rdr).
  assert (static rdr rdr1) as Hst1 by (unfold rdr1; by destruct (117 <=? _)).
  assert (rows_read rdr1 = rows_read rdr) as Hrr1 by (unfold rdr1; by destruct (117 <=? _)).
  destruct (Read_rows_ok rdr N N 0
              (mkFrame data0 (replicate (Z.to_nat (Nvar rdr)) (replicate N false))
                 (replicate 2045 x00) rdr1))
    as (fr & Hrows & Hinv & Hrr); cbn [fr_rdr]; try done || lia.
  { constructor; cbn [fr_data fr_missing fr_rdr]; try done.
    - rewrite length_replicate. lia.
    - intros j t Ht. destruct (Hcols0 j t Ht) as (c & ? & ? & ? & _). by exists c.
    - intros j m [-> _]%lookup_replicate. apply length_replicate.
    - intros j i c m _ [-> _]%lookup_replicate Hi. unfold done_before.
      split; [lia|]. intros _. by apply lookup_replicate_2. }
  rewrite Hrows. cbn [mbind result_bind]. cbn [fr_rdr] in Hrr.
  destruct Hinv as [Hst Hld Hlm Hcols Hmasks Hflags].
  pose proof (static_field ConvertDates _ _ (λ _, eq_refl) Hst) as HCD.
  pose proof (static_field is_date _ _ (λ _, eq_refl) Hst) as Hisd.
  pose proof (static_field Formats _ _ (λ _, eq_refl) Hst) as Hfmt.
  assert (∀ j c, fr_data fr !! j = Some c → column_len c = N) as Hclen.
  { intros j c Hc. destruct (lookup_lt_is_Some_2 (VarTypes rdr) j) as [t Ht].
    { apply lookup_lt_Some in Hc. lia. }
    destruct (Hcols j t Ht) as (c' & Hc' & _ & Hl). congruence. }
  assert (∀ j i c m b, fr_data fr !! j = Some c → fr_missing fr !! j = Some m →
            cell_flag c i = Some b → m !! i = Some b) as Hfl.
  { intros j i c m b Hc Hm Hb.
    assert (i < N)%nat as Hi.
    { rewrite <- (Hclen j c Hc). destruct c; try discriminate; simpl in Hb |- *;
        apply fmap_Some in Hb as (x & Hx & _); by apply lookup_lt_Some in Hx. }
    destruct (Hflags j i c m Hc Hm Hi) as [Hdone _]. apply Hdone; [|done].
    unfold done_before. lia. }
  destruct (ConvertDates (fr_rdr fr)) eqn:Hconv.
  - destruct (date_pass_ok (fr_rdr fr) N (fr_data fr) (fr_missing fr))
      as (data' & Hpass & Hl' & Hc' & Hf' & _); try done.
    { rewrite Hisd. lia. }
    { intros j Hj. rewrite Hisd in Hj.
      destruct (Hdc (eq_sym HCD) j Hj) as [Ht Hf]. rewrite Hfmt. split; [|done].
      destruct (Hcols j _ Ht) as (c & Hc & Hk & _).
      destruct c; try discriminate. by eexists. }
    rewrite Hpass. cbn [mbind result_bind].
    eexists _, _, _. split; [done|]. unfold N in *. repeat split; try done; lia.
  - cbn [mbind result_bind].
    eexists _, _, _. split; [done|]. unfold N in *. repeat split; try done; lia.
Qed.

(** ** Read with the container of the spec *)

Lemma Read_ok rows rdr :
  ready rdr →
  ∃ rdata rdr',
    Read NewSeries rows rdr = Ok (rdata, rdr')
    ∧ ready rdr'
    ∧ static rdr rdr'
    ∧ rows_read rdr' = rows_read rdr + rows_due rows rdr
    ∧ length rdata = Z.to_nat (Nvar rdr)
    ∧ Name <$> rdata = column_names rdr
    ∧ (∀ s, s ∈ rdata →
         column_len (Data s) = Z.to_nat (rows_due rows rdr)
         ∧ length (Missing s) = Z.to_nat (rows_due rows rdr)
         ∧ ∀ i b, cell_flag (Data s) i = Some b → Missing s !! i = Some b).
Proof.
  intros Hready.
  destruct (Read_columns_ok rows rdr Hready)
    as (data & missing & rdr' & Hrun & Hst & Hrr & Hld & Hlm & Hcl & Hml & Hfl).
  pose proof Hready as [HN Hty Htags Hnames Hlabels Hdates Hcur Hcnt Hdc].
  destruct (Read_nval_due rows rdr Hcur Hcnt) as [_ [Hdue0 Hdue]].
  unfold rows_left in Hdue.
  pose proof (static_field column_names _ _ (λ _, eq_refl) Hst) as Hcn.
  unfold Read. rewrite Hrun. cbn [mbind result_bind].
  destruct (for_rangeM_ok
    (λ k (rdata : list Series),
       length rdata = k
       ∧ ∀ j s, rdata !! j = Some s →
           data !! j = Some (Data s) ∧ missing !! j = Some (Missing s)
           ∧ column_names rdr !! j = Some (Name s))
    (to_series NewSeries rdr' data missing) (length data) 0%nat [])
    as (rdata & Hloop & Hlr & Hser).
  - split; [done|]. intros j s. by rewrite lookup_nil.
  - intros k rd Hk [Hl Hs].
    destruct (lookup_lt_is_Some_2 data k ltac:(lia)) as [v Hv].
    destruct (lookup_lt_is_Some_2 missing k ltac:(lia)) as [m Hm].
    destruct (lookup_lt_is_Some_2 (column_names rdr) k ltac:(lia)) as [name Hname].
    unfold to_series, NewSeries. rewrite Hv, Hcn, Hname, Hm. cbn [mbind result_bind].
    eexists. split; [done|]. rewrite length_app. simpl. split; [lia|].
    intros j s. destruct (decide (j < k)%nat) as [Hlt|Hge].
    + rewrite lookup_app_l by lia. apply Hs.
    + intros Hj. assert (j = k) as ->.
      { apply lookup_lt_Some in Hj. rewrite length_app in Hj. simpl in Hj. lia. }
      rewrite lookup_app_r in Hj by lia. rewrite Hl, Nat.sub_diag in Hj.
      by injection Hj as <-.
  - rewrite Hloop. cbn [mbind result_bind]. exists rdata, rdr'.
    split; [done|]. split; [|split; [done|split; [done|split; [simpl in Hlr; lia|]]]].
    { eapply ready_static; [done|done|lia]. }
    split.
    + apply list_eq_same_length with (length rdata); [lia|by rewrite length_fmap|].
      intros j x y Hj. rewrite list_lookup_fmap.
      destruct (rdata !! j) as [s|] eqn:Hs; [|done]. simpl. intros [= <-] Hy.
      destruct (Hser j s Hs) as (_ & _ & Hn). congruence.
    + intros s [j Hj]%list_elem_of_lookup.
      destruct (Hser j s Hj) as (Hd & Hm & _).
      split; [by eapply Hcl|]. split; [by eapply Hml|].
      intros i b. by eapply Hfl.
Qed.

(** ** Row counts *)

Lemma ready_ten_115 : ready (Fixture.opened Fixture.ten_115).
Proof.
  constructor; try (vm_compute; done).
  - set (l := VarTypes _). vm_compute in l. subst l.
    repeat (apply List.Forall_cons; [unfold valid_tag; lia|]). apply List.Forall_nil.
  - intros _ j. set (l := is_date _). vm_compute in l. subst l.
    by destruct j as [|[|j]].
Qed.

(** ** Repeated calls *)

(** On a legacy file the second call continues where the first stopped. *)
Lemma Read_twice_115 :
  Fixture.session Fixture.ten_115 [3; -1; -1]
  = Ok [ [mkSeries "x" (Strings ["0"; "1"; "2"]) [false; false; false]];
         [mkSeries "x" (Strings ["3"; "4"; "5"; "6"; "7"; "8"; "9"])
            [false; false; false; false; false; false; false]];
         [mkSeries "x" (Strings []) []] ].
Proof. by vm_compute. Qed.

(** C1: a file of format 117 (and of format 118) with the ten rows 0..9,
    read with counts 3, -1 and -1.  The second call seeks back to the first
    row and returns the seven rows 0..6 in place of the rows 3..9. *)
Theorem Read_twice_117_rereads :
  Fixture.session Fixture.ten_117 [3; -1; -1]
  = Ok [ [mkSeries "x" (Strings ["0"; "1"; "2"]) [false; false; false]];
         [mkSeries "x" (Strings ["0"; "1"; "2"; "3"; "4"; "5"; "6"])
            [false; false; false; false; false; false; false]];
         [mkSeries "x" (Strings []) []] ]
  ∧ Fixture.session Fixture.ten_118 [3; -1; -1]
    = Fixture.session Fixture.ten_117 [3; -1; -1].
Proof. by vm_compute. Qed.

(** ** Format 114 *)

(** C2: the initialisation pass on a minimal well-formed file of format 114.
    The header, the type codes, the names and the formats are read, and the
    pass panics in read_value_label_names, which has no case for 114. *)
Theorem init_114_panics :
  NewStataReader 1 Fixture.ten_114
  = Panic "unknown format version 114 in read_value_label_names"
  ∧ is_Ok (NewStataReader 1 Fixture.ten_115) = true.
Proof. by vm_compute. Qed.

(** ** Missing-value masks *)

(** The two constants are the floats nearest to the decimal literals of the
    source: the distance to the literal is at most half a unit in the last
    place, and the mantissas have 53 and 24 bits. *)
Lemma float_constants_nearest :
  2 * Z.abs (9006732609880324 * 2 ^ 970 - 8988 * 10 ^ 304) ≤ 2 ^ 970
  ∧ 2 ^ 52 ≤ 9006732609880324 < 2 ^ 53
  ∧ 2 * Z.abs (16773155 * 2 ^ 103 - 1701 * 10 ^ 35) ≤ 2 ^ 103
  ∧ 2 ^ 23 ≤ 16773155 < 2 ^ 24.
Proof. vm_compute. repeat split; discriminate. Qed.

(** The rule on floats is strict as well: the constant itself is not
    flagged, the next float above it is, and so are the first missing value
    of Stata and an infinity; a NaN is not. *)
Lemma float_missing_examples :
  float_missing f64_8_988e307 (SF64 0x7fdfff9359cc8104) = false
  ∧ float_missing f64_8_988e307 (SF64 0x7fdfff9359cc8105) = true
  ∧ float_missing f64_8_988e307 (SF64 0x7fe0000000000000) = true
  ∧ float_missing f64_8_988e307 (SF64 0xfff0000000000000) = true
  ∧ float_missing f64_8_988e307 (SF64 0x7ff8000000000000) = false
  ∧ float_missing f32_1_701e38 (SF32 0x7efff023) = false
  ∧ float_missing f32_1_701e38 (SF32 0x7efff024) = true
  ∧ float_missing f32_1_701e38 (SF32 0x7f000000) = true.
Proof. by vm_compute. Qed.

Lemma int16_missing_iff x : int16_missing x = bool_decide (32740 < x ∨ x < -32767).
Proof.
  unfold int16_missing.
  destruct (Z.ltb_spec 32740 x), (Z.ltb_spec x (-32767)); simpl;
    symmetry; (apply bool_decide_eq_true_2 || apply bool_decide_eq_false_2); lia.
Qed.

Lemma int32_missing_iff x :
  int32_missing x = bool_decide (2147483620 < x ∨ x < -2147483647).
Proof.
  unfold int32_missing.
  destruct (Z.ltb_spec 2147483620 x), (Z.ltb_spec x (-2147483647)); simpl;
    symmetry; (apply bool_decide_eq_true_2 || apply bool_decide_eq_false_2); lia.
Qed.

Lemma int8_missing_iff x : int8_missing x = bool_decide (100 < x ∨ x < -127).
Proof.
  unfold int8_missing.
  destruct (Z.ltb_spec x (-127)), (Z.ltb_spec 100 x); simpl;
    symmetry; (apply bool_decide_eq_true_2 || apply bool_decide_eq_false_2); lia.
Qed.

(** C3, as stated, fails: the int16 value 32740 is decoded with a clear mask
    entry; 32741 is the first value that is flagged. *)
Lemma int16_32740_not_flagged :
  Fixture.session int16_boundary_file [-1]
  = Ok [[mkSeries "h" (Int16s [32739; 32740; 32741]) [false; false; true]]].
Proof. by vm_compute. Qed.

(** ** Category labels *)

(** The code 1 has a label, the code 5 has none; the key 196615 is that of
    the text record and the key 77 is in no record. *)
Lemma labelled_118_read :
  Fixture.session labelled_118 [-1]
  = Ok [[mkSeries "x" (Strings ["one"; "5"]) [false; false];
         mkSeries "s" (Strings ["hello"; ""]) [false; false];
         mkSeries "h" (Int16s [32740; -32768]) [false; true]]].
Proof. by vm_compute. Qed.

Lemma Sprint_int_examples :
  Sprint_int 5 = "5" ∧ Sprint_int 0 = "0" ∧ Sprint_int 100 = "100"
  ∧ Sprint_int (-128) = "-128".
Proof. by vm_compute. Qed.

(** C8: a byte cell decoded under category-label substitution, in a frame
    whose column [j] is the string slice that Read allocated.  The cell
    decodes without error to the label of the code when the column's label
    set exists and has the code, and to the decimal text of the code when the
    set or the entry is absent. *)
Theorem category_label_fallback i j data missing buf rdr (l : list string)
  (m : list bool) (labname : string) :
  VarTypes rdr !! j = Some 65530 →
  InsertCategoryLabels rdr = true →
  ValueLabelNames rdr !! j = Some labname →
  data !! j = Some (Strings l) → (i < length l)%nat →
  missing !! j = Some m → (i < length m)%nat →
  let x := default 0 (wrap_int 8 <$> (binary_Read (ByteOrder rdr) 1 (reader rdr)).1) in
  ∃ fr s,
    Read_cell i j (mkFrame data missing buf rdr) = Ok fr
    ∧ fr_data fr = <[j := Strings (<[i := s]> l)]> data
    ∧ (ValueLabels rdr !! labname = None → s = Sprint_int x)
    ∧ (∀ mp, ValueLabels rdr !! labname = Some mp → mp !! x = None → s = Sprint_int x)
    ∧ (∀ mp v, ValueLabels rdr !! labname = Some mp → mp !! x = Some v → s = v)
    ∧ Sprint_int 5 = "5".
Proof.
  intros Ht Hins Hname Hj Hi Hm Him x.
  eexists _, _. split; [by eapply Read_cell_category|].
  split; [reflexivity|]. fold x. unfold category_label.
  repeat split.
  - by intros ->.
  - by intros mp -> ->.
  - by intros mp v -> ->.
Qed.

Lemma category_label_fallback_witness :
  ∃ fr,
    Read_cell 0 0 (mkFrame [Strings [""]] [[false]] (replicate 2045 x00)
                     (Fixture.opened Fixture.ten_115)) = Ok fr
    ∧ fr_data fr = [Strings ["0"]].
Proof.
  destruct (category_label_fallback 0 0 [Strings [""]] [[false]] (replicate 2045 x00)
              (Fixture.opened Fixture.ten_115) [""] [false] "")
    as (fr & s & Hrun & Hdata & Hnone & _);
    [reflexivity | reflexivity | reflexivity | reflexivity | simpl; lia
    | reflexivity | simpl; lia |].
  exists fr. split; [exact Hrun|].
  rewrite Hdata, (Hnone eq_refl). reflexivity.
Defined.

(** ** Bytes of the fixtures, read back *)

Lemma byte_Z_of_Z z : byte_Z (Fixture.byte_of_Z z) = z mod 256.
Proof.
  unfold byte_Z, Fixture.byte_of_Z.
  assert (0 ≤ z mod 256 < 256) as Hz by (apply Z.mod_pos_bound; lia).
  destruct (Byte.of_N (Z.to_N (z mod 256))) as [b|] eqn:Hb.
  - apply Byte.to_of_N in Hb. simpl. rewrite Hb. lia.
  - apply Byte.of_N_None_iff in Hb. lia.
Qed.

Lemma le_bytes_length n z : length (Fixture.le_bytes n z) = n.
Proof. revert z. induction n as [|n IH]; intros z; simpl; [done|by rewrite IH]. Qed.

Lemma le_uint_le_bytes n : ∀ z, le_uint (Fixture.le_bytes n z) = z mod 2 ^ (8 * Z.of_nat n).
Proof.
  induction n as [|n IH]; intros z.
  - simpl. by rewrite Z.mod_1_r.
  - cbn [Fixture.le_bytes le_uint]. rewrite byte_Z_of_Z, IH.
    replace (8 * Z.of_nat (S n)) with (8 + 8 * Z.of_nat n) by lia.
    rewrite Z.pow_add_r by lia. change (2 ^ 8) with 256.
    rewrite Z.rem_mul_r by lia. lia.
Qed.

Lemma enc_length o n z : length (Fixture.enc o n z) = n.
Proof. destruct o; simpl; rewrite ?length_rev; apply le_bytes_length. Qed.

Lemma order_uint_enc o n z :
  0 ≤ z < 2 ^ (8 * Z.of_nat n) → order_uint o (Fixture.enc o n z) = z.
Proof.
  intros Hz. destruct o; simpl; rewrite ?rev_involutive, le_uint_le_bytes;
    by apply Z.mod_small.
Qed.

(** ** The byte source under reads *)

Lemma remaining_advance r n :
  0 ≤ pos r → remaining (advance n r) = drop n (remaining r).
Proof.
  intros Hp. unfold remaining, advance. simpl.
  assert ((pos r <? 0) = false) as -> by lia.
  assert ((pos r + Z.of_nat n <? 0) = false) as -> by (apply Z.ltb_ge; lia).
  rewrite drop_drop. f_equal. lia.
Qed.

Lemma binary_Read_app o bs rest r :
  remaining r = bs ++ rest →
  binary_Read o (length bs) r = (Some (order_uint o bs), advance (length bs) r).
Proof.
  intros Hr. unfold binary_Read. rewrite Hr, take_app_length.
  by rewrite decide_True.
Qed.

Lemma Read_prefix_app bs rest buf r :
  remaining r = bs ++ rest → length buf = length bs →
  Read_prefix (length bs) buf r = (bs, advance (length bs) r).
Proof.
  intros Hr Hlen. unfold Read_prefix, Reader_Read.
  rewrite length_take, Hlen, Nat.min_id, Hr, take_app_length.
  rewrite <- Hlen, !drop_ge by (rewrite ?length_take; lia).
  by rewrite !app_nil_r.
Qed.

Lemma skip_skip n k rdr : skip k (skip n rdr) = skip (n + k) rdr.
Proof.
  unfold skip. rewrite set_reader_set_reader. f_equal.
  unfold advance. cbn [reader set_reader content pos]. f_equal. lia.
Qed.

Lemma ByteOrder_skip n rdr : ByteOrder (skip n rdr) = ByteOrder rdr.
Proof. reflexivity. Qed.

Lemma remaining_skip n rdr bs rest :
  0 ≤ pos (reader rdr) → remaining (reader rdr) = bs ++ rest → length bs = n →
  remaining (reader (skip n rdr)) = rest ∧ 0 ≤ pos (reader (skip n rdr)).
Proof.
  intros Hp Hr Hn. unfold skip. cbn [reader set_reader].
  rewrite remaining_advance, Hr by done. subst n.
  rewrite drop_app_length. split; [done|]. simpl. lia.
Qed.

Lemma read_uvar_app o old rdr bs rest :
  remaining (reader rdr) = bs ++ rest →
  read_uvar o (length bs) old rdr = (order_uint o bs, skip (length bs) rdr).
Proof.
  intros Hr. rewrite read_uvar_eq, (binary_Read_app _ _ _ _ Hr). done.
Qed.

Lemma ReadBuf_app buf rdr bs rest :
  remaining (reader rdr) = bs ++ rest → length buf = length bs →
  ReadBuf (length bs) buf rdr = (bs, skip (length bs) rdr).
Proof.
  intros Hr Hlen. rewrite ReadBuf_eq, (Read_prefix_app _ _ _ _ Hr Hlen). done.
Qed.

(** ** The strl section *)

Lemma at_bytes_skip rdr bs rest n :
  at_bytes rdr (bs ++ rest) → length bs = n → at_bytes (skip n rdr) rest.
Proof.
  intros (Hp & Hr) Hn.
  destruct (remaining_skip n rdr bs rest Hp Hr Hn) as [Hr' Hp']. done.
Qed.

Lemma at_read_uvar rdr ord n z rest old :
  at_bytes rdr (Fixture.enc ord n z ++ rest) → 0 ≤ z < 2 ^ (8 * Z.of_nat n) →
  read_uvar ord n old rdr = (z, skip n rdr).
Proof.
  intros (Hp & Hr) Hz.
  pose proof (read_uvar_app ord old rdr _ _ Hr) as H.
  rewrite enc_length in H. rewrite H. by rewrite order_uint_enc.
Qed.

Lemma at_ReadBuf rdr bs rest buf :
  at_bytes rdr (bs ++ rest) → length buf = length bs →
  ReadBuf (length buf) buf rdr = (bs, skip (length bs) rdr).
Proof. intros (Hp & Hr) Hlen. rewrite Hlen. by apply ReadBuf_app with rest. Qed.

Lemma store_strl_skip ky t body n rdr :
  store_strl ky t body (skip n rdr) = skip n (store_strl ky t body rdr).
Proof. unfold store_strl. by repeat case_match. Qed.

Lemma at_bytes_store_strl ky t body rdr bs :
  at_bytes rdr bs → at_bytes (store_strl ky t body rdr) bs.
Proof. unfold store_strl, at_bytes. by repeat case_match. Qed.

Lemma store_records_skip records : ∀ n rdr,
  store_records records (skip n rdr) = skip n (store_records records rdr).
Proof.
  induction records as [|[[[v o] t] body] records IH]; intros n rdr; [done|].
  cbn [store_records foldl]. rewrite store_strl_skip. apply IH.
Qed.

(** One iteration on a record. *)
Lemma read_strls_loop_gso fuel buf3 v0 o0 t0 len0 rdr v o t body rest :
  length buf3 = 3%nat →
  at_bytes rdr (Fixture.gso_in (ByteOrder rdr) v o t body ++ rest) →
  gso_fits (v, o, t, body) →
  read_strls_loop (S fuel) buf3 v0 o0 t0 len0 rdr
  = read_strls_loop fuel (Fixture.text "GSO") v o t (Z.of_nat (length body))
      (skip (20 + length body) (store_strl (strl_key v o) t body rdr)).
Proof.
  intros Hb3 Hat (Hv & Ho & Ht & Hlen). unfold Fixture.gso_in in Hat.
  rewrite <- !app_assoc in Hat.
  cbn [read_strls_loop].
  replace 3%nat with (length buf3) at 1 by done.
  rewrite (at_ReadBuf rdr (Fixture.text "GSO") _ buf3 Hat Hb3).
  apply at_bytes_skip with (n := 3%nat) in Hat; [|done].
  change (string_of_list_byte (Fixture.text "GSO")) with "GSO"%string.
  cbn [String.eqb Ascii.eqb Bool.eqb negb]. cbv iota.
  change (length (Fixture.text "GSO")) with 3%nat.
  rewrite !ByteOrder_skip.
  rewrite (at_read_uvar _ _ 4 v _ v0 Hat Hv).
  apply at_bytes_skip with (n := 4%nat) in Hat; [|apply enc_length].
  rewrite !ByteOrder_skip.
  rewrite (at_read_uvar _ _ 8 o _ o0 Hat Ho).
  apply at_bytes_skip with (n := 8%nat) in Hat; [|apply enc_length].
  rewrite !ByteOrder_skip.
  rewrite (at_read_uvar _ _ 1 t _ t0 Hat Ht).
  apply at_bytes_skip with (n := 1%nat) in Hat; [|apply enc_length].
  rewrite !ByteOrder_skip.
  rewrite (at_read_uvar _ _ 4 (Z.of_nat (length body)) _ len0 Hat) by lia.
  apply at_bytes_skip with (n := 4%nat) in Hat; [|apply enc_length].
  rewrite (at_ReadBuf _ body rest _ Hat) by (rewrite length_replicate; lia).
  rewrite !skip_skip, store_strl_skip. do 2 f_equal.
Qed.

(** The iteration on the end of the section. *)
Lemma read_strls_loop_end fuel buf3 v0 o0 t0 len0 rdr rest :
  length buf3 = 3%nat → at_bytes rdr rest → (3 ≤ length rest)%nat →
  string_of_list_byte (take 3 rest) ≠ "GSO"%string →
  read_strls_loop (S fuel) buf3 v0 o0 t0 len0 rdr = Ok (skip 3 rdr).
Proof.
  intros Hb3 Hat Hlen Hend. cbn [read_strls_loop].
  rewrite <- (take_drop 3 rest) in Hat.
  replace 3%nat with (length buf3) at 1 by done.
  rewrite (at_ReadBuf rdr (take 3 rest) _ buf3 Hat) by (rewrite length_take; lia).
  apply String.eqb_neq in Hend. rewrite Hend. cbn [negb].
  rewrite length_take. by replace (3 `min` length rest)%nat with 3%nat by lia.
Qed.

(** The whole loop on a section of records: it returns, with one unit of
    fuel per record and one for the end, and has stored every record. *)
Lemma read_strls_loop_section records : ∀ fuel buf3 v0 o0 t0 len0 rdr rest,
  length buf3 = 3%nat →
  at_bytes rdr (mjoin (gso_bytes (ByteOrder rdr) <$> records) ++ rest) →
  Forall gso_fits records → (3 ≤ length rest)%nat →
  string_of_list_byte (take 3 rest) ≠ "GSO"%string →
  ∃ n, read_strls_loop (length records + S fuel) buf3 v0 o0 t0 len0 rdr
       = Ok (skip n (store_records records rdr)).
Proof.
  induction records as [|[[[v o] t] body] records IH];
    intros fuel buf3 v0 o0 t0 len0 rdr rest Hb3 Hat Hfit Hlen Hend.
  - exists 3%nat. by eapply read_strls_loop_end.
  - apply Forall_cons in Hfit as [Hrec Hfit].
    cbn [fmap list_fmap mjoin list_join gso_bytes] in Hat. rewrite <- app_assoc in Hat.
    cbn [length Nat.add].
    rewrite (read_strls_loop_gso _ _ _ _ _ _ _ v o t body _ Hb3 Hat Hrec).
    destruct (IH fuel (Fixture.text "GSO") v o t (Z.of_nat (length body))
                (skip (20 + length body) (store_strl (strl_key v o) t body rdr)) rest)
      as [n Hn]; try done.
    { assert (ByteOrder (skip (20 + length body)
                           (store_strl (strl_key v o) t body rdr)) = ByteOrder rdr)
        as -> by (unfold store_strl; by repeat case_match).
      eapply (at_bytes_skip _ (Fixture.gso_in (ByteOrder rdr) v o t body)).
      - apply at_bytes_store_strl. exact Hat.
      - unfold Fixture.gso_in. rewrite !length_app, !enc_length. simpl. lia. }
    rewrite Hn. cbn [store_records foldl].
    rewrite store_records_skip, skip_skip. by eexists.
Qed.

Lemma read_strls_start fuel rdr :
  read_strls fuel rdr = read_strls_loop fuel (replicate 3 x00) 0 0 0 0 (strls_start rdr)
  ∧ Strls (strls_start rdr) = {[0 := EmptyString]}
  ∧ StrlsBytes (strls_start rdr) = ∅.
Proof. done. Qed.

Lemma at_bytes_strls_start rdr bs :
  0 ≤ seek_strls rdr + 7 < 2 ^ 63 →
  drop (Z.to_nat (seek_strls rdr + 7)) (content (reader rdr)) = bs →
  at_bytes (strls_start rdr) bs.
Proof.
  intros Hs Hbs. unfold strls_start, at_bytes, Seek.
  cbn [reader ByteOrder set_Strls set_StrlsBytes set_reader].
  rewrite wrap_int_64_small by lia. unfold Reader_Seek, remaining.
  cbn [Z.eqb]. assert ((seek_strls rdr + 7 <? 0) = false) as -> by lia.
  cbn [pos content]. assert ((seek_strls rdr + 7 <? 0) = false) as -> by lia.
  repeat split; try done. lia.
Qed.

(** read_strls on a section of records followed by its closing tag. *)
Lemma read_strls_section rdr records rest fuel :
  0 ≤ seek_strls rdr + 7 < 2 ^ 63 →
  drop (Z.to_nat (seek_strls rdr + 7)) (content (reader rdr))
  = mjoin (gso_bytes (ByteOrder rdr) <$> records) ++ rest →
  Forall gso_fits records → (3 ≤ length rest)%nat →
  string_of_list_byte (take 3 rest) ≠ "GSO"%string →
  ∃ rdr', read_strls (length records + S fuel) rdr = Ok rdr'
          ∧ Strls rdr' = Strls (store_records records (strls_start rdr))
          ∧ StrlsBytes rdr' = StrlsBytes (store_records records (strls_start rdr)).
Proof.
  intros Hs Hbs Hfit Hlen Hend.
  destruct (read_strls_start (length records + S fuel) rdr) as [-> _].
  destruct (read_strls_loop_section records fuel (replicate 3 x00) 0 0 0 0
              (strls_start rdr) rest) as [n Hn]; try done.
  { by apply at_bytes_strls_start. }
  rewrite Hn. by eexists.
Qed.

Lemma strl_key_formula v o : strl_key v o = Z.lor v ((o * 2 ^ 16) mod 2 ^ 64).
Proof. unfold strl_key, wrap_uint. by rewrite Z.shiftl_mul_pow2. Qed.

Lemma Strls_store_strl ky t body rdr :
  Strls (store_strl ky t body rdr)
  = if t =? 130 then <[ky := string_of_list_byte (partition body)]> (Strls rdr)
    else Strls rdr.
Proof. unfold store_strl. by repeat case_match. Qed.

Lemma store_records_cons v o t body records rdr :
  store_records ((v, o, t, body) :: records) rdr
  = store_records records (store_strl (strl_key v o) t body rdr).
Proof. reflexivity. Qed.

Lemma store_records_app pre post rdr :
  store_records (pre ++ post) rdr = store_records post (store_records pre rdr).
Proof. apply foldl_app. Qed.

Lemma store_records_leaves k records : ∀ rdr,
  Forall (leaves_key k) records →
  Strls (store_records records rdr) !! k = Strls rdr !! k.
Proof.
  induction records as [|[[[v o] t] body] records IH]; intros rdr Hall; [done|].
  apply Forall_cons in Hall as [Hrec Hall].
  rewrite store_records_cons, IH, Strls_store_strl by done.
  destruct (Z.eqb_spec t 130) as [Ht|Ht]; [|done].
  rewrite lookup_insert_ne; [done|]. by apply Hrec.
Qed.

Lemma store_records_lookup pre post v o body rdr :
  Forall (leaves_key (strl_key v o)) post →
  Strls (store_records (pre ++ (v, o, 130, body) :: post) rdr) !! strl_key v o
  = Some (string_of_list_byte (partition body)).
Proof.
  intros Hpost. rewrite store_records_app, store_records_cons.
  rewrite store_records_leaves, Strls_store_strl by done.
  apply lookup_insert_eq.
Qed.

Lemma StrlsBytes_store_strl ky t body rdr :
  StrlsBytes (store_strl ky t body rdr)
  = if t =? 130 then StrlsBytes rdr
    else if t =? 129 then <[ky := body]> (StrlsBytes rdr) else StrlsBytes rdr.
Proof. unfold store_strl. by repeat case_match. Qed.

Lemma store_records_leaves_blob k records : ∀ rdr,
  Forall (leaves_blob k) records →
  StrlsBytes (store_records records rdr) !! k = StrlsBytes rdr !! k.
Proof.
  induction records as [|[[[v o] t] body] records IH]; intros rdr Hall; [done|].
  apply Forall_cons in Hall as [Hrec Hall].
  rewrite store_records_cons, IH, StrlsBytes_store_strl by done.
  destruct (Z.eqb_spec t 130) as [Ht|Ht]; [done|].
  destruct (Z.eqb_spec t 129) as [Hb|Hb]; [|done].
  rewrite lookup_insert_ne; [done|]. by apply Hrec.
Qed.

Lemma store_records_lookup_blob pre post v o body rdr :
  Forall (leaves_blob (strl_key v o)) post →
  StrlsBytes (store_records (pre ++ (v, o, 129, body) :: post) rdr) !! strl_key v o
  = Some body.
Proof.
  intros Hpost. rewrite store_records_app, store_records_cons.
  rewrite store_records_leaves_blob, StrlsBytes_store_strl by done.
  apply lookup_insert_eq.
Qed.

(** Every text entry is the one that was there or the text of a record of
    type 130 under the key of that record. *)
Lemma store_records_texts k s records : ∀ rdr,
  Strls (store_records records rdr) !! k = Some s →
  Strls rdr !! k = Some s
  ∨ ∃ v o body, (v, o, 130, body) ∈ records ∧ k = strl_key v o
                ∧ s = string_of_list_byte (partition body).
Proof.
  induction records as [|[[[v o] t] body] records IH]; intros rdr Hk; [by left|].
  rewrite store_records_cons in Hk. apply IH in Hk as [Hk|(v' & o' & b' & Hin & ? & ?)].
  - rewrite Strls_store_strl in Hk. destruct (Z.eqb_spec t 130) as [->|Ht]; [|by left].
    destruct (decide (k = strl_key v o)) as [->|Hne].
    + rewrite lookup_insert_eq in Hk. injection Hk as <-.
      right. exists v, o, body. split; [apply list_elem_of_here|done].
    + rewrite lookup_insert_ne in Hk by done. by left.
  - right. exists v', o', b'. split; [by apply list_elem_of_further|done].
Qed.

(** Every binary entry is the one that was there or the body of a record of
    type 129 under the key of that record. *)
Lemma store_records_blobs k b records : ∀ rdr,
  StrlsBytes (store_records records rdr) !! k = Some b →
  StrlsBytes rdr !! k = Some b
  ∨ ∃ v o, (v, o, 129, b) ∈ records ∧ k = strl_key v o.
Proof.
  induction records as [|[[[v o] t] body] records IH]; intros rdr Hk; [by left|].
  rewrite store_records_cons in Hk. apply IH in Hk as [Hk|(v' & o' & Hin & ?)].
  - rewrite StrlsBytes_store_strl in Hk.
    destruct (Z.eqb_spec t 130) as [->|Ht]; [by left|].
    destruct (Z.eqb_spec t 129) as [->|Hb]; [|by left].
    destruct (decide (k = strl_key v o)) as [->|Hne].
    + rewrite lookup_insert_eq in Hk. injection Hk as <-.
      right. exists v, o. split; [apply list_elem_of_here|done].
    + rewrite lookup_insert_ne in Hk by done. by left.
  - right. exists v', o'. split; [by apply list_elem_of_further|done].
Qed.

(** C6: a strl section of GSO records, read by read_strls.  A record with
    vertex field [v] and offset field [o] is stored under the key
    [v | (o << 16)] in 64 bits (196615 for v=7, o=3): its text in Strls when
    its type is 130, its bytes in StrlsBytes when its type is 129, and the
    two dictionaries hold nothing else but the empty text under the key 0.
    A tag-32768 cell whose eight bytes are the key of a text record decodes,
    under strl substitution, to that text. *)
Theorem strl_key_resolves (rdr : StataReader) (fuel : nat)
  (pre post : list (Z * Z * Z * list byte)) (v o t : Z) (body rest : list byte) :
  let records := pre ++ (v, o, t, body) :: post in
  0 ≤ seek_strls rdr + 7 < 2 ^ 63 →
  drop (Z.to_nat (seek_strls rdr + 7)) (content (reader rdr))
  = mjoin (gso_bytes (ByteOrder rdr) <$> records) ++ rest →
  Forall gso_fits records →
  (3 ≤ length rest)%nat → string_of_list_byte (take 3 rest) ≠ "GSO"%string →
  ∃ rdr',
    read_strls (length records + S fuel) rdr = Ok rdr'
    ∧ strl_key v o = Z.lor v ((o * 2 ^ 16) mod 2 ^ 64)
    ∧ strl_key 7 3 = 196615
    ∧ (t = 130 → Forall (leaves_key (strl_key v o)) post →
       Strls rdr' !! strl_key v o = Some (string_of_list_byte (partition body))
       ∧ ∀ i j data missing buf rdr2 (l : list string),
           Strls rdr2 = Strls rdr' →
           VarTypes rdr2 !! j = Some 32768 → InsertStrls rdr2 = true →
           data !! j = Some (Strings l) → (i < length l)%nat →
           (binary_Read (ByteOrder rdr2) 8 (reader rdr2)).1 = Some (strl_key v o) →
           ∃ fr,
             Read_cell i j (mkFrame data missing buf rdr2) = Ok fr
             ∧ fr_data fr
               = <[j := Strings (<[i := string_of_list_byte (partition body)]> l)]>
                   data)
    ∧ (t = 129 → Forall (leaves_blob (strl_key v o)) post →
       StrlsBytes rdr' !! strl_key v o = Some body)
    ∧ (∀ k s, Strls rdr' !! k = Some s →
         (k = 0 ∧ s = EmptyString)
         ∨ ∃ v' o' body', (v', o', 130, body') ∈ records ∧ k = strl_key v' o'
                          ∧ s = string_of_list_byte (partition body'))
    ∧ (∀ k b, StrlsBytes rdr' !! k = Some b →
         ∃ v' o', (v', o', 129, b) ∈ records ∧ k = strl_key v' o').
Proof.
  intros records Hs Hbs Hfit Hlen Hend.
  destruct (read_strls_section rdr records rest fuel Hs Hbs Hfit Hlen Hend)
    as (rdr' & Hrun & Hstrls & Hblobs).
  exists rdr'. split; [done|]. split; [apply strl_key_formula|].
  split; [done|]. split; [|split; [|split]].
  - intros -> Hpost.
    assert (Strls rdr' !! strl_key v o = Some (string_of_list_byte (partition body)))
      as Hkey by (rewrite Hstrls; by apply store_records_lookup).
    split; [done|].
    intros i j data missing buf rdr2 l Heq Ht Hins Hj Hi Hptr.
    eexists. split; [by eapply Read_cell_strl_text|].
    cbn [fr_data]. rewrite Hptr. cbn [from_option id]. by rewrite Heq, Hkey.
  - intros -> Hpost. rewrite Hblobs. by apply store_records_lookup_blob.
  - intros k s Hk. rewrite Hstrls in Hk.
    apply store_records_texts in Hk as [Hk|Hk]; [left|by right].
    destruct (read_strls_start 0 rdr) as (_ & Hseed & _). rewrite Hseed in Hk.
    apply lookup_singleton_Some in Hk as [<- <-]. done.
  - intros k b Hk. rewrite Hblobs in Hk.
    apply store_records_blobs in Hk as [Hk|Hk]; [|done].
    destruct (read_strls_start 0 rdr) as (_ & _ & Hseed). rewrite Hseed in Hk.
    by rewrite lookup_empty in Hk.
Qed.

Lemma strl_key_resolves_witness :
  ∃ rdr',
    read_strls 3 (Fixture.opened labelled_118) = Ok rdr'
    ∧ Strls rdr' !! 196615 = Some "hello"%string
    ∧ StrlsBytes rdr' !! 65537 = Some (Fixture.text "bin").
Proof.
  destruct (strl_key_resolves (Fixture.opened labelled_118) 0
              [] [(1, 1, 129, Fixture.text "bin")] 7 3 130
              (Fixture.text "hello" ++ [x00])
              (drop (Z.to_nat (seek_strls (Fixture.opened labelled_118) + 7) + 49)
                 labelled_118))
    as (rdr' & Hrun & _ & _ & Hkey & _).
  - vm_compute. split; congruence.
  - vm_compute. reflexivity.
  - repeat (apply List.Forall_cons; [vm_compute; repeat split; congruence|]).
    apply List.Forall_nil.
  - vm_compute. lia.
  - vm_compute. congruence.
  - destruct (strl_key_resolves (Fixture.opened labelled_118) 0
                [(7, 3, 130, Fixture.text "hello" ++ [x00])] [] 1 1 129
                (Fixture.text "bin")
                (drop (Z.to_nat (seek_strls (Fixture.opened labelled_118) + 7) + 49)
                   labelled_118))
      as (rdr2 & Hrun2 & _ & _ & _ & Hblob & _).
    + vm_compute. split; congruence.
    + vm_compute. reflexivity.
    + repeat (apply List.Forall_cons; [vm_compute; repeat split; congruence|]).
      apply List.Forall_nil.
    + vm_compute. lia.
    + vm_compute. congruence.
    + exists rdr'. split; [exact Hrun|]. split.
      * apply Hkey; [reflexivity|].
        apply List.Forall_cons; [|apply List.Forall_nil]. intros H. discriminate H.
      * cbn [app length] in Hrun, Hrun2. rewrite Hrun in Hrun2.
        injection Hrun2 as <-. apply Hblob; [reflexivity|apply List.Forall_nil].
Defined.

(** ** Unresolved strl keys *)

Lemma read_strls_loop_keeps_zero fuel : ∀ buf3 v o t len rdr rdr',
  is_Some (Strls rdr !! 0) →
  read_strls_loop fuel buf3 v o t len rdr = Ok rdr' →
  is_Some (Strls rdr' !! 0).
Proof.
  induction fuel as [|fuel IH]; intros buf3 v o t len rdr rdr' H0; [done|].
  cbn [read_strls_loop]. rewrite ReadBuf_eq.
  destruct (negb _); [by intros [= <-]|].
  rewrite !read_uvar_eq, ReadBuf_eq. apply IH.
  rewrite Strls_store_strl. cbn [Strls set_reader].
  destruct (_ =? 130); [|done].
  match goal with |- is_Some (<[?k := _]> _ !! 0) => destruct (decide (k = 0)) as [->|] end.
  - rewrite lookup_insert_eq. by eexists.
  - by rewrite lookup_insert_ne.
Qed.

(** A section without a record leaves the seed alone in the dictionary. *)
Lemma read_strls_empty_section rdr rest fuel :
  0 ≤ seek_strls rdr + 7 < 2 ^ 63 →
  drop (Z.to_nat (seek_strls rdr + 7)) (content (reader rdr)) = rest →
  (3 ≤ length rest)%nat → string_of_list_byte (take 3 rest) ≠ "GSO"%string →
  ∃ rdr', read_strls (S fuel) rdr = Ok rdr' ∧ Strls rdr' = {[0 := EmptyString]}.
Proof.
  intros Hs Hbs Hlen Hend.
  destruct (read_strls_section rdr [] rest fuel Hs Hbs) as (rdr' & Hrun & Hstrls & _);
    try done.
  by exists rdr'.
Qed.

(** C7: under strl substitution a tag-32768 cell whose key has no entry in
    the dictionary decodes to the empty string, without error; read_strls
    enters its loop with the empty string under the key 0 as the only entry,
    and the key 0 has an entry whenever read_strls returns. *)
Theorem strl_unresolved_is_empty i j data missing buf rdr (l : list string) :
  VarTypes rdr !! j = Some 32768 → InsertStrls rdr = true →
  data !! j = Some (Strings l) → (i < length l)%nat →
  Strls rdr !! default 0 (binary_Read (ByteOrder rdr) 8 (reader rdr)).1 = None →
  (∃ fr, Read_cell i j (mkFrame data missing buf rdr) = Ok fr
         ∧ fr_data fr = <[j := Strings (<[i := EmptyString]> l)]> data)
  ∧ (∀ fuel rdr0,
       read_strls fuel rdr0
       = read_strls_loop fuel (replicate 3 x00) 0 0 0 0 (strls_start rdr0)
       ∧ Strls (strls_start rdr0) = {[0 := EmptyString]})
  ∧ (∀ fuel rdr0 rdr', read_strls fuel rdr0 = Ok rdr' → is_Some (Strls rdr' !! 0)).
Proof.
  intros Ht Hins Hj Hi Hnone. split; [|split].
  - eexists. split; [by eapply Read_cell_strl_text|].
    cbn [fr_data]. by rewrite Hnone.
  - intros fuel rdr0. by destruct (read_strls_start fuel rdr0) as (? & ? & _).
  - intros fuel rdr0 rdr' Hrun.
    destruct (read_strls_start fuel rdr0) as (Heq & Hseed & _).
    rewrite Heq in Hrun. eapply read_strls_loop_keeps_zero; [|exact Hrun].
    rewrite Hseed, lookup_singleton_eq. by eexists.
Qed.

Lemma strl_unresolved_is_empty_witness :
  ∃ fr,
    Read_cell 0 0
      (mkFrame [Strings ["?"]] [[false]] []
         (set_VarTypes [32768] (new_reader (Fixture.le_bytes 8 77)))) = Ok fr
    ∧ fr_data fr = [Strings [""]].
Proof.
  destruct (strl_unresolved_is_empty 0 0 [Strings ["?"]] [[false]] []
              (set_VarTypes [32768] (new_reader (Fixture.le_bytes 8 77))) ["?"])
    as [(fr & Hrun & Hdata) _];
    [reflexivity | reflexivity | reflexivity | simpl; lia | reflexivity |].
  exists fr. split; [exact Hrun|exact Hdata].
Defined.

(** ** Outcomes of the row decoder *)

Lemma no_error_bind {A B} (c : result A) (f : A → result B) :
  no_error c → (∀ a, no_error (f a)) → no_error (c ≫= f).
Proof. destruct c; simpl; auto. Qed.

Lemma for_rangeM_no_error {St} (body : nat → St → result St) n :
  (∀ k s, no_error (body k s)) → ∀ k s, no_error (for_rangeM n k body s).
Proof.
  intros Hbody. induction n as [|n IH]; intros k s; [done|].
  rewrite for_rangeM_S. apply no_error_bind; auto.
Qed.

Lemma assign_no_error {A} proj inj j i (x : A) data :
  no_error (assign proj inj j i x data).
Proof. unfold assign. by repeat case_match. Qed.

Lemma flag_if_no_error b j i missing : no_error (flag_if b j i missing).
Proof. unfold flag_if, flag. by repeat case_match. Qed.

Lemma Read_cell_no_error i j fr : no_error (Read_cell i j fr).
Proof.
  unfold Read_cell.
  repeat first
    [ done
    | apply no_error_bind; [apply assign_no_error || apply flag_if_no_error|intros ?]
    | case_match ].
Qed.

Lemma Read_rows_no_error n : ∀ i fr, no_error (Read_rows n i fr).
Proof.
  induction n as [|n IH]; intros i fr; [done|].
  cbn [Read_rows]. case_match; [done|].
  apply no_error_bind; [|by intros ?].
  apply for_rangeM_no_error. intros. apply Read_cell_no_error.
Qed.

Lemma make_no_error {A} (zero : A) n : no_error (make zero n).
Proof. unfold make. by case_match. Qed.

Lemma alloc_column_no_error rdr nval t : no_error (alloc_column rdr nval t).
Proof.
  unfold alloc_column.
  repeat first
    [ done | apply no_error_bind; [apply make_no_error|intros ?] | case_match ].
Qed.

Lemma do_convert_dates_no_error v f : no_error (do_convert_dates v f).
Proof. unfold do_convert_dates. by repeat case_match. Qed.

Lemma convert_column_no_error rdr j data : no_error (convert_column rdr j data).
Proof.
  unfold convert_column.
  repeat first
    [ done | apply no_error_bind; [apply do_convert_dates_no_error|intros ?]
    | case_match ].
Qed.

(** ** Kinds along a call *)

Lemma for_rangeM_pres {St} (P : St → Prop) (body : nat → St → result St) n :
  (∀ k s s', P s → body k s = Ok s' → P s') →
  ∀ k s s', P s → for_rangeM n k body s = Ok s' → P s'.
Proof.
  intros Hbody. induction n as [|n IH]; intros k s s' HP.
  - by intros [= <-].
  - rewrite for_rangeM_S. intros (s1 & Hs1 & Hrest)%bind_Ok. eauto.
Qed.

Lemma assign_kinds {A} (proj : column → option (list A)) inj j i x data data' :
  (∀ c l l', proj c = Some l → kind_of (inj l') = kind_of c) →
  assign proj inj j i x data = Ok data' →
  kind_of <$> data' = kind_of <$> data.
Proof.
  intros Hinj. unfold assign.
  destruct (data !! j) as [c|] eqn:Hj; [|done].
  destruct (proj c) as [l|] eqn:Hc; [|done].
  case_decide; [|done]. intros [= <-].
  rewrite list_fmap_insert. apply list_insert_id.
  rewrite list_lookup_fmap, Hj. simpl. f_equal. symmetry. by eapply Hinj.
Qed.

(** A cell leaves the kinds of all columns and the static part of the
    reader as they are, whatever the frame. *)
Lemma Read_cell_pres i j fr fr' :
  Read_cell i j fr = Ok fr' →
  kind_of <$> fr_data fr' = kind_of <$> fr_data fr
  ∧ static (fr_rdr fr) (fr_rdr fr').
Proof.
  unfold Read_cell.
  destruct (VarTypes (fr_rdr fr) !! j) as [t|]; [|done].
  rewrite ?ReadBuf_eq, ?read_uvar_eq, ?read_ivar_eq.
  repeat match goal with
  | |- context [read_uvar ?o ?n ?old ?r] => rewrite (read_uvar_eq o n old r)
  | |- (_ ≫= _) = Ok _ → _ =>
    let H := fresh in intros (? & ? & H)%bind_Ok; revert H
  | |- (if ?b then _ else _) = Ok _ → _ => destruct b
  | |- match ?e with _ => _ end = Ok _ → _ => destruct e
  | |- Panic _ = Ok _ → _ => intros [=]
  | |- Ok _ = Ok _ → _ => intros [= <-]
  end;
  cbn [fr_data fr_rdr]; (split; [|done]); try done;
  match goal with
  | H : assign _ _ _ _ _ _ = Ok _ |- _ =>
    eapply assign_kinds; [|exact H]; by intros [] ? ? [=]
  end.
Qed.

Lemma Read_rows_pres n : ∀ i fr fr',
  Read_rows n i fr = Ok fr' →
  kind_of <$> fr_data fr' = kind_of <$> fr_data fr
  ∧ static (fr_rdr fr) (fr_rdr fr').
Proof.
  induction n as [|n IH]; intros i fr fr'.
  - by intros [= <-].
  - cbn [Read_rows]. case_match.
    + by intros [= <-].
    + intros (fr1 & Hrow & Hrest)%bind_Ok.
      apply IH in Hrest as [Hk Hs].
      eapply (for_rangeM_pres
        (λ f, kind_of <$> fr_data f = kind_of <$> fr_data fr
              ∧ static (fr_rdr fr) (fr_rdr f))) in Hrow.
      * destruct Hrow as [Hk1 Hs1]. split; [congruence|].
        unfold static in *. congruence.
      * intros k s s' [Hk0 Hs0] [Hk1 Hs1]%Read_cell_pres. split; [congruence|].
        unfold static in *. congruence.
      * done.
Qed.

Lemma alloc_column_not_int32 rdr nval t c :
  t ≠ 65528 → alloc_column rdr nval t = Ok (Some c) → kind_of c ≠ KInt32s.
Proof.
  intros Ht. unfold alloc_column, make.
  repeat case_match; simpl; try done; try lia; by intros [= <-].
Qed.

(** A column whose tag is not that of int32 is not an int32 slice after the
    allocation loop. *)
Lemma alloc_data_not_int32 rdr nval j n : ∀ k data data',
  VarTypes rdr !! j ≠ Some 65528 →
  (∀ c, data !! j = Some c → kind_of c ≠ KInt32s) →
  (k + n ≤ length (VarTypes rdr))%nat →
  for_rangeM n k (alloc_data rdr nval) data = Ok data' →
  length data' = length data ∧ ∀ c, data' !! j = Some c → kind_of c ≠ KInt32s.
Proof.
  induction n as [|n IH]; intros k data data' Hj Hdata Hk.
  - by intros [= <-].
  - rewrite for_rangeM_S. intros (data1 & Hstep & Hrest)%bind_Ok.
    unfold alloc_data in Hstep.
    apply bind_Ok in Hstep as (oc & Hoc & Hstep).
    destruct (lookup_lt_is_Some_2 (VarTypes rdr) k ltac:(lia)) as [t Ht].
    rewrite (list_lookup_total_correct _ _ _ Ht) in Hoc.
    destruct oc as [c|].
    + case_decide; [|done]. injection Hstep as <-.
      apply IH in Hrest as [Hl Hc]; try done || lia.
      * by rewrite length_insert in Hl.
      * intros c0. destruct (decide (j = k)) as [->|Hne].
        -- rewrite list_lookup_insert_eq by done. intros [= <-].
           eapply alloc_column_not_int32; [|exact Hoc]. congruence.
        -- rewrite list_lookup_insert_ne by done. apply Hdata.
    + injection Hstep as <-. apply IH in Hrest; try done || lia.
Qed.

(** The date pass panics on a flagged column that is not an int32 slice. *)
Lemma date_pass_panics rdr j c n : ∀ k data,
  (k ≤ j < k + n)%nat → is_date rdr !! j = Some true →
  data !! j = Some c → kind_of c ≠ KInt32s →
  ∃ msg, for_rangeM n k (convert_column rdr) data = Panic msg.
Proof.
  induction n as [|n IH]; intros k data Hk Hdate Hc Hkind; [lia|].
  rewrite for_rangeM_S. destruct (decide (k = j)) as [->|Hne].
  - unfold convert_column at 2. rewrite Hdate, Hc.
    destruct (Formats rdr !! j); [|by eexists].
    destruct c; try (by destruct Hkind); by eexists.
  - pose proof (convert_column_no_error rdr k data) as Hne'.
    destruct (convert_column rdr k data) as [data1| |msg|] eqn:Hstep;
      try done; [|by eexists].
    cbn [mbind result_bind]. apply IH; try done || lia.
    unfold convert_column in Hstep.
    repeat case_match; try done; try (by injection Hstep as <-).
    apply bind_Ok in Hstep as (v' & _ & [= <-]).
    by rewrite list_lookup_insert_ne.
Qed.

(** ** Date flags *)

Lemma for_range_pres {St} (P : St → Prop) (body : nat → St → St) n :
  (∀ k s, P s → P (body k s)) → ∀ k s, P s → P (for_range n k body s).
Proof.
  intros Hbody. induction n as [|n IH]; intros k s HP; [done|].
  rewrite for_range_S. auto.
Qed.

(** do_read_formats flags exactly the columns whose format begins with %td
    or %tc. *)
Lemma do_read_formats_is_date bufsize seek rdr rdr' :
  do_read_formats bufsize seek rdr = Ok rdr' →
  is_date rdr' = date_format <$> Formats rdr'
  ∧ length (Formats rdr') = Z.to_nat (Nvar rdr').
Proof.
  unfold do_read_formats.
  intros (buf & _ & Hrun)%bind_Ok. revert Hrun.
  set (rdr1 := if seek then _ else rdr).
  intros (formats & Hmk & Hrun)%bind_Ok. revert Hrun.
  unfold make in Hmk. destruct (Nvar rdr1 <? 0) eqn:HN; [done|].
  injection Hmk as <-.
  set (rdr2 := read_strings _ buf _).
  assert (length (Formats rdr2) = Z.to_nat (Nvar rdr1) ∧ Nvar rdr2 = Nvar rdr1)
    as [Hlen HN2].
  { unfold rdr2, read_strings.
    apply (for_range_pres
      (λ s : list byte * StataReader,
         length (Formats s.2) = Z.to_nat (Nvar rdr1) ∧ Nvar s.2 = Nvar rdr1)).
    - intros k [b r] [Hl Hn]. rewrite ReadBuf_eq. cbn [snd Formats Nvar set_Formats].
      cbn [Formats Nvar set_reader] in *. by rewrite length_insert.
    - cbn [snd Formats Nvar set_Formats]. by rewrite length_replicate. }
  unfold make. rewrite HN2, HN. cbn [mbind result_bind].
  change (Nvar (set_is_date ?d rdr2)) with (Nvar rdr2). rewrite HN2.
  intros Hloop.
  destruct (for_rangeM_ok
    (λ k r,
       Formats r = Formats rdr2 ∧ Nvar r = Nvar rdr2
       ∧ is_date r = (date_format <$> take k (Formats rdr2))
                     ++ replicate (Z.to_nat (Nvar rdr1) - k) false)
    flag_date (Z.to_nat (Nvar rdr1)) 0%nat
    (set_is_date (replicate (Z.to_nat (Nvar rdr1)) false) rdr2))
    as (r & Hr & HF & HNr & Hd).
  - cbn [Formats Nvar is_date set_is_date]. rewrite take_0, Nat.sub_0_r. done.
  - intros k r Hk (HF & HNr & Hd).
    destruct (lookup_lt_is_Some_2 (Formats rdr2) k ltac:(lia)) as [f Hf].
    unfold flag_date. rewrite HF, Hf. eexists. split; [done|].
    assert (take (S k) (Formats rdr2) = take k (Formats rdr2) ++ [f]) as ->
      by by apply take_S_r.
    rewrite fmap_app. cbn [fmap list_fmap].
    assert (length (date_format <$> take k (Formats rdr2)) = k) as Hlk
      by (rewrite length_fmap, length_take; lia).
    replace (Z.to_nat (Nvar rdr1) - k)%nat with (S (Z.to_nat (Nvar rdr1) - S k)) in Hd
      by lia.
    destruct (date_format f) eqn:Hdf; cbn [Formats Nvar is_date set_is_date];
      (split; [done|]); (split; [done|]); rewrite Hd, <- app_assoc.
    + rewrite insert_app_r_alt by lia. by rewrite Hlk, Nat.sub_diag.
    + done.
  - rewrite Hr in Hloop. injection Hloop as <-.
    rewrite HF, HNr, HN2, Hd, Nat.add_0_l, Nat.sub_diag, take_ge by lia.
    split; [by rewrite app_nil_r|done].
Qed.

Lemma alloc_mask_no_error nval j missing : no_error (alloc_mask nval j missing).
Proof. unfold alloc_mask. apply no_error_bind; [apply make_no_error|done]. Qed.

Lemma alloc_data_no_error rdr nval j data : no_error (alloc_data rdr nval j data).
Proof.
  unfold alloc_data. apply no_error_bind; [apply alloc_column_no_error|].
  intros [c|]; [|done]. by case_decide.
Qed.

Lemma Read_columns_date_panics rows rdr j f :
  ConvertDates rdr = true →
  is_date rdr = date_format <$> Formats rdr →
  Formats rdr !! j = Some f → date_format f = true →
  VarTypes rdr !! j ≠ Some 65528 →
  (j < Z.to_nat (Nvar rdr))%nat →
  ∃ msg, Read_columns rows rdr = Panic msg.
Proof.
  intros Hconv Hflags Hf Hdf Htag Hj.
  assert (is_date rdr !! j = Some true) as Hdate.
  { rewrite Hflags, list_lookup_fmap, Hf. simpl. by rewrite Hdf. }
  unfold Read_columns, make.
  assert ((Nvar rdr <? 0) = false) as -> by lia. cbn [mbind result_bind].
  set (nval := Read_nval rows rdr).
  pose proof (for_rangeM_no_error (alloc_mask nval) (Z.to_nat (Nvar rdr))
                (alloc_mask_no_error nval) 0%nat
                (replicate (Z.to_nat (Nvar rdr)) [])) as Hne.
  destruct (for_rangeM _ _ (alloc_mask nval) _) as [missing| |msg|];
    try done; [|by eexists]. clear Hne. cbn [mbind result_bind].
  pose proof (for_rangeM_no_error (alloc_data rdr nval) (length (VarTypes rdr))
                (alloc_data_no_error rdr nval) 0%nat
                (replicate (Z.to_nat (Nvar rdr)) NilColumn)) as Hne.
  destruct (for_rangeM _ _ (alloc_data rdr nval) _) as [data| |msg|] eqn:Hdata;
    try done; [|by eexists]. clear Hne. cbn [mbind result_bind].
  apply (alloc_data_not_int32 rdr nval j) in Hdata as [Hlen Hkind]; [|done| |lia].
  2:{ intros c [-> _]%lookup_replicate. done. }
  rewrite length_replicate in Hlen.
  set (rdr1 := if 117 <=? FormatVersion rdr then _ else rdr).
  assert (static rdr rdr1) as Hst1 by (unfold rdr1; by destruct (117 <=? _)).
  pose proof (Read_rows_no_error (Z.to_nat nval) 0
                (mkFrame data missing (replicate 2045 x00) rdr1)) as Hne.
  destruct (Read_rows _ _ _) as [fr| |msg|] eqn:Hrows; try done; [|by eexists].
  clear Hne. cbn [mbind result_bind].
  apply Read_rows_pres in Hrows as [Hkinds Hst]. cbn [fr_data fr_rdr] in Hkinds, Hst.
  assert (static rdr (fr_rdr fr)) as Hst' by (unfold static in *; congruence).
  rewrite (static_field ConvertDates _ _ (λ _, eq_refl) Hst'), Hconv.
  assert (length (fr_data fr) = Z.to_nat (Nvar rdr)) as Hlen'.
  { rewrite <- Hlen, <- (length_fmap kind_of (fr_data fr)), Hkinds.
    apply length_fmap. }
  destruct (lookup_lt_is_Some_2 (fr_data fr) j ltac:(lia)) as [c Hc].
  destruct (date_pass_panics (fr_rdr fr) j c (length (fr_data fr)) 0%nat (fr_data fr))
    as [msg Hmsg]; try done || lia.
  { by rewrite (static_field is_date _ _ (λ _, eq_refl) Hst'). }
  { assert ((kind_of <$> fr_data fr) !! j = Some (kind_of c)) as Hk
      by (by rewrite list_lookup_fmap, Hc).
    rewrite Hkinds, list_lookup_fmap in Hk.
    destruct (data !! j) as [c0|] eqn:Hc0; [|done].
    injection Hk as Hk. rewrite <- Hk. by apply Hkind. }
  rewrite Hmsg. by eexists.
Qed.

(** C10: with date conversion enabled, a column whose format begins with
    %td or %tc (and which the initialisation pass has therefore flagged) but
    whose tag is not that of int32 makes every Read call panic, whatever the
    container. *)
Theorem Read_date_column_panics {S : Type}
  (NewS : string → column → list bool → result S) (rows : Z) (rdr : StataReader)
  (j : nat) (f : string) :
  ConvertDates rdr = true →
  is_date rdr = date_format <$> Formats rdr →
  Formats rdr !! j = Some f →
  strings_Index f "%td" = 0 ∨ strings_Index f "%tc" = 0 →
  VarTypes rdr !! j ≠ Some 65528 →
  (j < Z.to_nat (Nvar rdr))%nat →
  ∃ msg, Read NewS rows rdr = Panic msg.
Proof.
  intros Hconv Hflags Hf Hprefix Htag Hj.
  destruct (Read_columns_date_panics rows rdr j f) as [msg Hmsg]; try done.
  { unfold date_format. destruct Hprefix as [-> | ->]; [done|].
    by destruct (_ =? 0). }
  exists msg. unfold Read. by rewrite Hmsg.
Qed.

Lemma Read_date_column_panics_witness :
  ∃ msg, Read NewSeries (-1) (Fixture.opened date_on_string_file) = Panic msg.
Proof.
  apply (Read_date_column_panics NewSeries (-1)
           (Fixture.opened date_on_string_file) 0 "%td").
  - vm_compute. reflexivity.
  - vm_compute. reflexivity.
  - vm_compute. reflexivity.
  - left. vm_compute. reflexivity.
  - vm_compute. intros H. discriminate H.
  - vm_compute. lia.
Defined.

(** The message of that panic on the file above. *)
Lemma date_on_string_read :
  Fixture.session date_on_string_file [-1]
  = Panic "unable to handle raw type in date vector".
Proof. by vm_compute. Qed.

(** ** Every file of format 114 *)

Lemma for_rangeM_keeps_version (body : nat → StataReader → result StataReader) n k :
  (∀ j rdr, no_error (body j rdr)) →
  (∀ j rdr rdr', body j rdr = Ok rdr' → FormatVersion rdr' = FormatVersion rdr) →
  keeps_version (for_rangeM n k body).
Proof.
  intros Hne Hpres rdr.
  pose proof (for_rangeM_no_error body n Hne k rdr) as Hrun.
  destruct (for_rangeM n k body rdr) as [rdr'| |msg|] eqn:Hloop; try done.
  - right. exists rdr'. split; [done|].
    eapply (for_rangeM_pres (λ r, FormatVersion r = FormatVersion rdr));
      [|reflexivity|exact Hloop].
    intros j s s' Hs Hstep. rewrite <- Hs. by eapply Hpres.
  - left. by eexists.
Qed.

Lemma read_strings_version store buf rdr :
  (∀ k s r, FormatVersion (store k s r) = FormatVersion r) →
  FormatVersion (read_strings store buf rdr) = FormatVersion rdr.
Proof.
  intros Hstore. unfold read_strings.
  apply (for_range_pres (λ s : list byte * StataReader,
                           FormatVersion s.2 = FormatVersion rdr)); [|done].
  intros k [b r] Hr. rewrite ReadBuf_eq. cbn [snd] in *. by rewrite Hstore.
Qed.

Lemma read_vartypes_8_keeps : keeps_version read_vartypes_8.
Proof.
  intros rdr. unfold read_vartypes_8, make.
  destruct (Nvar rdr <? 0); [left; by eexists|right].
  cbn [mbind result_bind]. eexists. split; [done|].
  apply (for_range_pres (λ s : Z * StataReader,
                           FormatVersion s.2 = FormatVersion rdr)); [|done].
  intros k [b r] Hr. by rewrite read_uvar_eq.
Qed.

Lemma translate_vartypes_keeps : keeps_version translate_vartypes.
Proof.
  intros rdr. unfold translate_vartypes. apply for_rangeM_keeps_version.
  - intros j r. unfold translate_step, translate_vartype.
    by repeat case_match.
  - intros j r r'. unfold translate_step.
    destruct (VarTypes r !! j); [|done].
    by intros (? & _ & [= <-])%bind_Ok.
Qed.

Lemma do_read_varnames_keeps bufsize seek : keeps_version (do_read_varnames bufsize seek).
Proof.
  intros rdr. unfold do_read_varnames, make.
  destruct (bufsize <? 0); [left; by eexists|]. cbn [mbind result_bind].
  set (rdr1 := if seek then _ else rdr).
  assert (FormatVersion rdr1 = FormatVersion rdr) as H1
    by (unfold rdr1; by destruct seek).
  destruct (Nvar rdr1 <? 0); [left; by eexists|right]. cbn [mbind result_bind].
  eexists. split; [done|]. by rewrite read_strings_version.
Qed.

Lemma flag_date_keeps n k : keeps_version (for_rangeM n k flag_date).
Proof.
  apply for_rangeM_keeps_version.
  - intros j r. unfold flag_date. by repeat case_match.
  - intros j r r'. unfold flag_date. destruct (Formats r !! j); [|done].
    intros [= <-]. by destruct (date_format _).
Qed.

Lemma do_read_formats_keeps bufsize seek : keeps_version (do_read_formats bufsize seek).
Proof.
  intros rdr. unfold do_read_formats, make.
  destruct (bufsize <? 0); [left; by eexists|]. cbn [mbind result_bind].
  set (rdr1 := if seek then _ else rdr).
  assert (FormatVersion rdr1 = FormatVersion rdr) as H1
    by (unfold rdr1; by destruct seek).
  destruct (Nvar rdr1 <? 0); [left; by eexists|]. cbn [mbind result_bind].
  set (rdr2 := read_strings _ _ _).
  assert (FormatVersion rdr2 = FormatVersion rdr) as H2
    by (unfold rdr2; by rewrite read_strings_version).
  destruct (Nvar rdr2 <? 0); [left; by eexists|]. cbn [mbind result_bind].
  match goal with
  | |- context [for_rangeM ?n ?k flag_date ?r] =>
    destruct (flag_date_keeps n k r) as [[msg ->]|(r' & -> & Hr')]
  end.
  - left. by eexists.
  - right. eexists. split; [done|]. by rewrite Hr'.
Qed.

Lemma read_uvar_version o n old rdr :
  FormatVersion (read_uvar o n old rdr).2 = FormatVersion rdr.
Proof. by rewrite read_uvar_eq. Qed.

Lemma read_ivar_version o n old rdr :
  FormatVersion (read_ivar o n old rdr).2 = FormatVersion rdr.
Proof. by rewrite read_ivar_eq. Qed.

Lemma ReadBuf_version n buf rdr :
  FormatVersion (ReadBuf n buf rdr).2 = FormatVersion rdr.
Proof. by rewrite ReadBuf_eq. Qed.

(** The legacy header on a file whose first byte is 114. *)
Lemma read_old_header_114 rest :
  ∃ rdr', read_old_header (new_reader ("r"%byte :: rest)) = Ok rdr'
          ∧ FormatVersion rdr' = 114.
Proof.
  unfold read_old_header.
  pose proof (read_uvar_app LittleEndian 0 (new_reader ("r"%byte :: rest))
                ["r"%byte] rest eq_refl) as Hfirst.
  cbn [length] in Hfirst. rewrite Hfirst. clear Hfirst.
  change (order_uint LittleEndian ["r"%byte]) with 114.
  set (r1 := set_FormatVersion 114 _).
  assert (FormatVersion r1 = 114) as H1 by reflexivity.
  assert (supported_version r1 = true) as -> by reflexivity.
  clearbody r1. cbn [negb].
  pose proof (read_uvar_version LittleEndian 1 0 r1) as H2.
  destruct (read_uvar LittleEndian 1 0 r1) as [bo r2]. cbn [snd] in H2.
  set (r3 := Seek 2 1 _).
  assert (FormatVersion r3 = 114) as H3 by (change (FormatVersion r2 = 114); congruence).
  clearbody r3. rewrite H3.
  change (index0 nvar_width 114) with 2.
  change (read_int 2 r3) with (Ok (read_ivar (ByteOrder r3) 2 0 r3)).
  cbn [mbind result_bind].
  pose proof (read_ivar_version (ByteOrder r3) 2 0 r3) as H4.
  destruct (read_ivar (ByteOrder r3) 2 0 r3) as [n r4]. cbn [snd] in H4.
  set (r5 := set_Nvar n r4).
  assert (FormatVersion r5 = 114) as H5 by (change (FormatVersion r4 = 114); congruence).
  clearbody r5. rewrite H5.
  change (index0 row_count_width 114) with 4.
  change (read_int 4 r5) with (Ok (read_ivar (ByteOrder r5) 4 0 r5)).
  cbn [mbind result_bind].
  pose proof (read_ivar_version (ByteOrder r5) 4 0 r5) as H6.
  destruct (read_ivar (ByteOrder r5) 4 0 r5) as [n' r6]. cbn [snd] in H6.
  set (r7 := set_RowCount n' r6).
  assert (FormatVersion r7 = 114) as H7 by (change (FormatVersion r6 = 114); congruence).
  clearbody r7.
  pose proof (ReadBuf_version 81 (replicate 81 x00) r7) as H8.
  destruct (ReadBuf 81 (replicate 81 x00) r7) as [buf r8]. cbn [snd] in H8.
  set (r9 := set_DatasetLabel _ r8).
  assert (FormatVersion r9 = 114) as H9 by (change (FormatVersion r8 = 114); congruence).
  clearbody r9.
  pose proof (ReadBuf_version 18 buf r9) as H10.
  destruct (ReadBuf 18 buf r9) as [buf' r10]. cbn [snd] in H10.
  eexists. split; [reflexivity|].
  change (FormatVersion r10 = 114). congruence.
Qed.

(** Every file that begins with the version byte 114 makes the
    initialisation pass panic, whatever follows the byte. *)
Lemma init_114_always_panics fuel file :
  file !! 0%nat = Some "r"%byte →
  ∃ msg, init fuel (new_reader file) = Panic msg.
Proof.
  destruct file as [|b rest]; [done|]. intros [= ->].
  unfold init.
  assert (ReadBuf 1 (replicate 1 x00) (new_reader ("r"%byte :: rest))
          = (["r"%byte], skip 1 (new_reader ("r"%byte :: rest)))) as ->.
  { by apply (ReadBuf_app [x00] (new_reader ("r"%byte :: rest)) ["r"%byte] rest). }
  change (Seek 0 0 (skip 1 (new_reader ("r"%byte :: rest))))
    with (new_reader ("r"%byte :: rest)).
  change (String.eqb (string_of_list_byte ["r"%byte]) "<") with false. cbv iota.
  destruct (read_old_header_114 rest) as (r1 & -> & H1). cbn [mbind result_bind].
  unfold read_vartypes. rewrite H1. cbn [Z.eqb Pos.eqb].
  destruct (read_vartypes_8_keeps r1) as [[msg ->]|(r2 & -> & H2)]; [by eexists|].
  cbn [mbind result_bind]. rewrite H1 in H2. rewrite H2. cbn [Z.ltb Z.compare Pos.compare Pos.compare_cont].
  destruct (translate_vartypes_keeps r2) as [[msg ->]|(r3 & -> & H3)]; [by eexists|].
  cbn [mbind result_bind]. rewrite H2 in H3.
  unfold read_varnames. rewrite H3. cbn [Z.eqb Pos.eqb].
  destruct (do_read_varnames_keeps 33 false r3) as [[msg ->]|(r4 & -> & H4)];
    [by eexists|].
  cbn [mbind result_bind]. rewrite H3 in H4. rewrite H4.
  cbn [Z.ltb Z.compare Pos.compare Pos.compare_cont].
  unfold read_formats.
  change (FormatVersion (Seek ?a ?b r4)) with (FormatVersion r4). rewrite H4.
  cbn [Z.eqb Pos.eqb].
  match goal with
  | |- context [do_read_formats 49 false ?r] =>
    destruct (do_read_formats_keeps 49 false r) as [[msg ->]|(r5 & -> & H5)]
  end; [by eexists|].
  cbn [mbind result_bind].
  change (FormatVersion (Seek ?a ?b r4)) with (FormatVersion r4) in H5.
  rewrite H4 in H5.
  unfold read_value_label_names. rewrite H5. cbn [Z.eqb Pos.eqb].
  cbn [mbind result_bind]. by eexists.
Qed.

(** ** The cursor and the data section *)

Lemma Seek_start_same_content x r rdr :
  0 ≤ x → content r = content (reader rdr) →
  Seek x 0 (set_reader r rdr) = Seek x 0 rdr.
Proof.
  intros Hx Hc. unfold Seek, Reader_Seek. cbn [Z.eqb reader set_reader].
  assert ((x <? 0) = false) as -> by lia. by rewrite Hc.
Qed.

(** From format 117 on, what a call decodes does not depend on where the
    calls before it left the byte cursor: every call starts at the first
    row of the data section. *)
Lemma Read_columns_ignores_cursor rows rdr r :
  117 ≤ FormatVersion rdr → 0 ≤ wrap_int 64 (seek_data rdr + 6) →
  content r = content (reader rdr) →
  Read_columns rows (set_reader r rdr) = Read_columns rows rdr.
Proof.
  intros Hv Hx Hc. unfold Read_columns.
  change (FormatVersion (set_reader r rdr)) with (FormatVersion rdr).
  change (seek_data (set_reader r rdr)) with (seek_data rdr).
  assert ((117 <=? FormatVersion rdr) = true) as -> by lia.
  rewrite (Seek_start_same_content _ r rdr Hx Hc). reflexivity.
Qed.

(** ** partition *)

Lemma partition_app_null (s junk : list byte) :
  x00 ∉ s → partition (s ++ x00 :: junk) = s.
Proof.
  induction s as [|v s IH]; intros Hs; [done|].
  apply not_elem_of_cons in Hs as [Hv Hs]. cbn [app partition].
  destruct (Byte.eqb v x00) eqn:E.
  - apply Byte.byte_dec_bl in E. congruence.
  - by rewrite IH.
Qed.

Lemma partition_no_null (s : list byte) : x00 ∉ s → partition s = s.
Proof.
  induction s as [|v s IH]; intros Hs; [done|].
  apply not_elem_of_cons in Hs as [Hv Hs]. cbn [partition].
  destruct (Byte.eqb v x00) eqn:E.
  - apply Byte.byte_dec_bl in E. congruence.
  - by rewrite IH.
Qed.

(** X1: partition returns exactly the bytes of its argument that stand before
    the first null byte: the result holds no null byte, and the argument is
    the result followed either by nothing or by a null byte and whatever comes
    after it. *)
Theorem partition_before_first_null (b : list byte) :
  (x00 ∉ partition b)
  ∧ ∃ rest, b = partition b ++ rest ∧ (rest = [] ∨ ∃ rest', rest = x00 :: rest').
Proof.
  induction b as [|v b [IH1 (rest & IH2 & IH3)]].
  - split; [apply not_elem_of_nil|]. exists []. auto.
  - cbn [partition]. destruct (Byte.eqb v x00) eqn:E.
    + apply Byte.byte_dec_bl in E. subst v. split; [apply not_elem_of_nil|].
      exists (x00 :: b). split; [done|]. right. by eexists.
    + split.
      * apply not_elem_of_cons. split; [|done]. intros <-. by vm_compute in E.
      * exists rest. split; [|done]. cbn [app]. by rewrite <- IH2.
Qed.

(** ** Integer fields *)

Lemma order_uint_enc_mod o n z :
  order_uint o (Fixture.enc o n z) = z mod 2 ^ (8 * Z.of_nat n).
Proof. destruct o; simpl; by rewrite ?rev_involutive, le_uint_le_bytes. Qed.

Lemma wrap_int_mod w z :
  0 < w → - 2 ^ (w - 1) ≤ z < 2 ^ (w - 1) → wrap_int w (z mod 2 ^ w) = z.
Proof.
  intros Hw Hz. unfold wrap_int.
  assert (2 ^ w = 2 * 2 ^ (w - 1)) as Hp.
  { rewrite <- Z.pow_succ_r by lia. f_equal. lia. }
  rewrite Zplus_mod_idemp_l. rewrite Z.mod_small; lia.
Qed.

Lemma at_read_ivar rdr ord n z rest old :
  (0 < n)%nat →
  at_bytes rdr (Fixture.enc ord n z ++ rest) →
  - 2 ^ (8 * Z.of_nat n - 1) ≤ z < 2 ^ (8 * Z.of_nat n - 1) →
  read_ivar ord n old rdr = (z, skip n rdr).
Proof.
  intros Hn (Hp & Hr) Hz. rewrite read_ivar_eq.
  pose proof (binary_Read_app ord _ _ _ Hr) as H. rewrite enc_length in H.
  rewrite H. cbn [fst snd fmap option_fmap option_map default from_option id].
  rewrite order_uint_enc_mod, wrap_int_mod by lia. done.
Qed.

Lemma read_ivar_short o n old rdr :
  0 ≤ pos (reader rdr) → (length (remaining (reader rdr)) < n)%nat →
  ∃ rdr', read_ivar o n old rdr = (old, rdr') ∧ at_bytes rdr' [].
Proof.
  intros Hp Hlen. rewrite read_ivar_eq. unfold binary_Read.
  rewrite take_ge by lia. rewrite decide_False by lia.
  eexists. split; [reflexivity|]. split.
  - cbn [reader set_reader advance pos snd]. lia.
  - cbn [reader set_reader snd]. rewrite remaining_advance by done.
    by rewrite drop_all.
Qed.

Lemma read_uvar_short o n old rdr :
  0 ≤ pos (reader rdr) → (length (remaining (reader rdr)) < n)%nat →
  ∃ rdr', read_uvar o n old rdr = (old, rdr') ∧ at_bytes rdr' [].
Proof.
  intros Hp Hlen. rewrite read_uvar_eq. unfold binary_Read.
  rewrite take_ge by lia. rewrite decide_False by lia.
  eexists. split; [reflexivity|]. split.
  - cbn [reader set_reader advance pos snd]. lia.
  - cbn [reader set_reader snd]. rewrite remaining_advance by done.
    by rewrite drop_all.
Qed.

(** X2: An integer written in 1, 2, 4 or 8 bytes in the byte order of the
    reader is read back: read_int returns it when it fits the signed width,
    and read_uint returns it when it is not negative and fits the width,
    except that an 8-byte value from 2^63 on comes back as the negative number
    of the conversion to int. Either call leaves the reader just after those
    bytes. *)
Theorem read_int_round_trip (w : nat) (z : Z) (rdr : StataReader) (rest : list byte) :
  w ∈ [1; 2; 4; 8]%nat →
  at_bytes rdr (Fixture.enc (ByteOrder rdr) w z ++ rest) →
  (- 2 ^ (8 * Z.of_nat w - 1) ≤ z < 2 ^ (8 * Z.of_nat w - 1) →
   read_int (Z.of_nat w) rdr = Ok (z, skip w rdr))
  ∧ (0 ≤ z < 2 ^ (8 * Z.of_nat w) →
     read_uint (Z.of_nat w) rdr
     = Ok (if bool_decide (2 ^ 63 ≤ z) then z - 2 ^ 64 else z, skip w rdr))
  ∧ at_bytes (skip w rdr) rest.
Proof.
  intros Hw Hat. split; [|split].
  - intros Hz. unfold read_int.
    set_unfold in Hw.
    destruct Hw as [->|[->|[->|[->|[]]]]];
      [change (Z.of_nat 1) with 1|change (Z.of_nat 2) with 2
      |change (Z.of_nat 4) with 4|change (Z.of_nat 8) with 8];
      cbn [Z.eqb Pos.eqb];
      by rewrite (at_read_ivar _ _ _ z rest 0) by (done || lia).
  - intros Hz. unfold read_uint.
    set_unfold in Hw.
    destruct Hw as [->|[->|[->|[->|[]]]]];
      [change (Z.of_nat 1) with 1|change (Z.of_nat 2) with 2
      |change (Z.of_nat 4) with 4|change (Z.of_nat 8) with 8];
      cbn [Z.eqb Pos.eqb];
      rewrite (at_read_uvar _ _ _ z rest 0) by done.
    1-3: rewrite bool_decide_eq_false_2; [done|].
    1-3: cbn in Hz; lia.
    f_equal. f_equal. case_bool_decide as Hbig.
    + unfold wrap_int. change (2 ^ (64 - 1)) with (2 ^ 63).
      change (2 ^ (8 * Z.of_nat 8)) with (2 ^ 64) in Hz.
      assert (2 ^ 64 = 2 * 2 ^ 63) as Hp by done.
      replace (z + 2 ^ 63) with (z - 2 ^ 63 + 1 * 2 ^ 64) by lia.
      rewrite Z.mod_add by lia. rewrite Z.mod_small; lia.
    + apply wrap_int_64_small. lia.
  - eapply at_bytes_skip; [exact Hat|apply enc_length].
Qed.

Lemma read_int_round_trip_witness :
  read_int 2 (new_reader (Fixture.enc LittleEndian 2 (-3) ++ [x07]))
  = Ok (-3, skip 2 (new_reader (Fixture.enc LittleEndian 2 (-3) ++ [x07]))).
Proof.
  apply (proj1 (read_int_round_trip 2 (-3)
                  (new_reader (Fixture.enc LittleEndian 2 (-3) ++ [x07])) [x07]
                  ltac:(set_solver) ltac:(split; [simpl; lia|reflexivity]))).
  simpl. lia.
Defined.

(** X3: When fewer bytes are left in the source than the width asks for,
    read_int and read_uint of a width 1, 2, 4 or 8 report nothing: they return
    0 and leave the source exhausted. For any other width, the width 0
    included and whatever is left in the source, read_int panics with an
    empty message and read_uint with "unsupported width in read_int". *)
Theorem read_int_short_input (w : Z) (rdr : StataReader) :
  (w ∈ [1; 2; 4; 8] →
   0 ≤ pos (reader rdr) →
   Z.of_nat (length (remaining (reader rdr))) < w →
   ∃ rdr1 rdr2,
     read_int w rdr = Ok (0, rdr1) ∧ at_bytes rdr1 []
     ∧ read_uint w rdr = Ok (0, rdr2) ∧ at_bytes rdr2 [])
  ∧ (w ∉ [1; 2; 4; 8] →
     read_int w rdr = Panic "" ∧ read_uint w rdr = Panic "unsupported width in read_int").
Proof.
  split.
  - intros Hw Hp Hlen. unfold read_int, read_uint.
    set_unfold in Hw. destruct Hw as [->|[->|[->|[->|[]]]]]; cbn [Z.eqb Pos.eqb].
    all: match goal with
         | |- context [read_ivar ?o ?n ?old ?r] =>
           destruct (read_ivar_short o n old r Hp ltac:(lia)) as (r1 & -> & H1);
           destruct (read_uvar_short o n old r Hp ltac:(lia)) as (r2 & -> & H2)
         end.
    all: by eexists _, _.
  - intros Hw. unfold read_int, read_uint.
    set_unfold in Hw.
    destruct (Z.eqb_spec w 1); [tauto|]. destruct (Z.eqb_spec w 2); [tauto|].
    destruct (Z.eqb_spec w 4); [tauto|]. destruct (Z.eqb_spec w 8); [tauto|]. done.
Qed.

Lemma read_int_short_input_witness :
  (∃ rdr1, read_int 4 (new_reader [x01; x02]) = Ok (0, rdr1) ∧ at_bytes rdr1 [])
  ∧ read_uint 0 (new_reader [x01; x02]) = Panic "unsupported width in read_int"
  ∧ read_int 3 (new_reader [x01; x02; x03; x04]) = Panic "".
Proof.
  split; [|split].
  - destruct (proj1 (read_int_short_input 4 (new_reader [x01; x02]))
                ltac:(set_solver) ltac:(simpl; lia) ltac:(simpl; lia))
      as (rdr1 & rdr2 & H1 & H2 & _).
    exists rdr1. split; [exact H1|exact H2].
  - apply (proj2 (read_int_short_input 0 (new_reader [x01; x02]))).
    intros H. apply list_elem_of_In in H. simpl in H. lia.
  - apply (proj2 (read_int_short_input 3 (new_reader [x01; x02; x03; x04]))).
    intros H. apply list_elem_of_In in H. simpl in H. lia.
Defined.

(** ** Headers that are refused *)

Lemma supported_version_iff rdr :
  supported_version rdr = true ↔ FormatVersion rdr ∈ supported_dta_versions.
Proof.
  unfold supported_version, supported_dta_versions. cbn [foldl].
  generalize (FormatVersion rdr) as v. intros v.
  rewrite !elem_of_cons, elem_of_nil.
  destruct (Z.eqb_spec v 114), (Z.eqb_spec v 115), (Z.eqb_spec v 117),
    (Z.eqb_spec v 118); split; intros; try done; try lia; tauto.
Qed.

Lemma first_byte_tag b :
  String.eqb (string_of_list_byte [b]) "<" = (byte_Z b =? 60).
Proof. by destruct b. Qed.

Lemma init_first_byte file :
  ∃ r, ReadBuf 1 (replicate 1 x00) (new_reader file)
       = (take 1 (file ++ [x00]), set_reader r (new_reader file))
       ∧ content r = file.
Proof.
  rewrite ReadBuf_eq.
  exists (Read_prefix 1 (replicate 1 x00) (reader (new_reader file))).2.
  split; [|reflexivity]. f_equal. by destruct file.
Qed.

Lemma init_rewind r file :
  content r = file → Seek 0 0 (set_reader r (new_reader file)) = new_reader file.
Proof. intros <-. reflexivity. Qed.

(** X4: NewStataReader returns the error "Invalid Stata dta format version" on
    every file whose first byte is neither '<' nor one of the versions 114,
    115, 117, 118; the empty file is one of them. *)
Theorem NewStataReader_refuses_version (fuel : nat) (file : list byte) :
  (∀ b, file !! 0%nat = Some b → byte_Z b ∉ 60 :: supported_dta_versions) →
  NewStataReader fuel file = Err "Invalid Stata dta format version".
Proof.
  intros Hfirst. unfold NewStataReader, init.
  destruct (init_first_byte file) as (r & -> & Hr). rewrite (init_rewind r file Hr).
  assert (String.eqb (string_of_list_byte (take 1 (file ++ [x00]))) "<" = false) as ->.
  { destruct file as [|b rest]; [done|]. cbn [app take]. rewrite first_byte_tag.
    apply Z.eqb_neq. by apply (proj1 (not_elem_of_cons _ _ _) (Hfirst b eq_refl)). }
  assert (read_old_header (new_reader file) = Err "Invalid Stata dta format version")
    as ->; [|done].
  unfold read_old_header. rewrite read_uvar_eq.
  set (format := default 0 _). set (r1 := set_FormatVersion format _).
  assert (supported_version r1 = false) as ->; [|done].
  apply not_true_is_false. rewrite supported_version_iff.
  change (FormatVersion r1) with format. unfold format.
  destruct file as [|b rest].
  - change (default 0 _) with 0. unfold supported_dta_versions.
    rewrite !elem_of_cons, elem_of_nil. lia.
  - change (default 0 _) with (byte_Z b + 256 * 0). rewrite Z.mul_0_r, Z.add_0_r.
    by apply (proj1 (not_elem_of_cons _ _ _) (Hfirst b eq_refl)).
Qed.

Lemma NewStataReader_refuses_version_witness :
  NewStataReader 0 [] = Err "Invalid Stata dta format version"
  ∧ NewStataReader 0 [x74; x02; x01; x00] = Err "Invalid Stata dta format version".
Proof.
  split.
  - apply NewStataReader_refuses_version. intros b Hb. discriminate Hb.
  - apply NewStataReader_refuses_version. intros b Hb. injection Hb as <-.
    vm_compute. intros Hin. repeat (apply elem_of_cons in Hin as [Hin|Hin]; [discriminate Hin|]).
    by apply elem_of_nil in Hin.
Defined.

Lemma Read_prefix_front bs rest buf r :
  remaining r = bs ++ rest → (length bs ≤ length buf)%nat →
  Read_prefix (length bs) buf r = (bs ++ drop (length bs) buf, advance (length bs) r).
Proof.
  intros Hr Hlen. unfold Read_prefix, Reader_Read.
  rewrite length_take, Hr. replace (length bs `min` length buf)%nat with (length bs) by lia.
  rewrite take_app_length. rewrite drop_ge by (rewrite length_take; lia).
  by rewrite app_nil_r.
Qed.

Lemma ReadBuf_front buf rdr bs rest :
  remaining (reader rdr) = bs ++ rest → (length bs ≤ length buf)%nat →
  ReadBuf (length bs) buf rdr = (bs ++ drop (length bs) buf, skip (length bs) rdr).
Proof.
  intros Hr Hlen. rewrite ReadBuf_eq, (Read_prefix_front _ _ _ _ Hr Hlen). done.
Qed.

(** The first eleven bytes of the header buffer after its first read. *)
Lemma header_magic_bytes file :
  take 11 (Read_prefix 28 (replicate 500 x00) (mkReadSeeker file 0)).1
  = take 11 (file ++ replicate 11 x00).
Proof.
  unfold Read_prefix, Reader_Read, remaining. cbn [pos content Z.ltb Z.compare fst].
  change (drop (Z.to_nat 0) file) with file.
  change (take 28 (replicate 500 x00)) with (replicate 28 x00).
  rewrite length_replicate.
  destruct (decide (11 ≤ length file)%nat) as [Hlong|Hshort].
  - rewrite <- app_assoc.
    rewrite !(take_app_le _ _ 11) by (rewrite ?length_take; lia).
    rewrite take_take. by replace (11 `min` 28)%nat with 11%nat by lia.
  - rewrite (take_ge file 28) by lia. rewrite <- app_assoc.
    rewrite !(take_app_ge file) by lia. f_equal.
    rewrite !drop_replicate, take_app_le by (rewrite length_replicate; lia).
    rewrite !take_replicate. f_equal. lia.
Qed.

(** X5: NewStataReader returns the error "Invalid Stata file" on every file
    that begins with '<' and whose first eleven bytes are not "<stata_dta>",
    files shorter than eleven bytes included. *)
Theorem NewStataReader_refuses_magic (fuel : nat) (file : list byte) :
  file !! 0%nat = Some "<"%byte →
  take 11 file ≠ Fixture.text "<stata_dta>" →
  NewStataReader fuel file = Err "Invalid Stata file".
Proof.
  intros Hfirst Hmagic. unfold NewStataReader, init.
  destruct (init_first_byte file) as (r & -> & Hr). rewrite (init_rewind r file Hr).
  destruct file as [|b rest]; [done|]. injection Hfirst as ->.
  change (String.eqb (string_of_list_byte (take 1 (("<"%byte :: rest) ++ [x00]))) "<")
    with true. cbv iota.
  assert (read_new_header (new_reader ("<"%byte :: rest)) = Err "Invalid Stata file")
    as ->; [|done].
  unfold read_new_header. rewrite ReadBuf_eq.
  change (reader (new_reader ?f)) with (mkReadSeeker f 0).
  rewrite header_magic_bytes.
  destruct (String.eqb _ "<stata_dta>") eqn:Heq; [exfalso|done].
  apply String.eqb_eq in Heq. apply (f_equal list_byte_of_string) in Heq.
  rewrite list_byte_of_string_of_list_byte in Heq.
  change (list_byte_of_string "<stata_dta>") with (Fixture.text "<stata_dta>") in Heq.
  destruct (decide (11 ≤ length ("<"%byte :: rest))%nat) as [Hlong|Hshort].
  - rewrite take_app_le in Heq by done. done.
  - rewrite take_app_ge in Heq by lia.
    apply (f_equal (λ l, l !! length ("<"%byte :: rest))) in Heq.
    rewrite lookup_app_r, Nat.sub_diag in Heq by done.
    rewrite take_replicate in Heq.
    rewrite lookup_replicate_2 in Heq by lia.
    remember (length ("<"%byte :: rest)) as n eqn:Hn. clear Hn.
    do 11 (destruct n as [|n]; [discriminate Heq|]). lia.
Qed.

Lemma NewStataReader_refuses_magic_witness :
  NewStataReader 0 (Fixture.text "<stata>") = Err "Invalid Stata file".
Proof.
  apply NewStataReader_refuses_magic; [reflexivity|].
  intros H. discriminate H.
Defined.

Lemma read_int_version w rdr n rdr' :
  read_int w rdr = Ok (n, rdr') → FormatVersion rdr' = FormatVersion rdr.
Proof.
  unfold read_int. repeat case_match; try done;
    rewrite read_ivar_eq; by intros [= _ <-].
Qed.

Lemma read_int_supported_width (m : gmap Z Z) v rdr :
  index0 m v ∈ [1; 2; 4; 8] → ∃ n rdr', read_int (index0 m v) rdr = Ok (n, rdr').
Proof.
  intros Hw. unfold read_int. rewrite !elem_of_cons, elem_of_nil in Hw.
  destruct Hw as [->|[->|[->|[->|[]]]]]; cbn [Z.eqb Pos.eqb];
    rewrite read_ivar_eq; by eexists _, _.
Qed.

(** X6: A tagged header whose release is 114 or 115 passes the version check
    (both are in supported_dta_versions) and then makes NewStataReader panic
    with "unsupported width in read_int", whatever follows the release:
    dataset_label_width has no entry for these versions, so read_uint is
    called with the width 0. *)
Theorem NewStataReader_tagged_legacy_release (fuel : nat) (release : string)
  (rest : list byte) :
  release = "114"%string ∨ release = "115"%string →
  NewStataReader fuel
    (Fixture.text "<stata_dta><header><release>" ++ Fixture.text release ++ rest)
  = Panic "unsupported width in read_int".
Proof.
  intros Hrel. unfold NewStataReader, init.
  set (file := _ ++ _ ++ rest).
  destruct (init_first_byte file) as (r & -> & Hr). rewrite (init_rewind r file Hr).
  change (String.eqb (string_of_list_byte (take 1 (file ++ [x00]))) "<") with true.
  cbv iota.
  assert (read_new_header (new_reader file) = Panic "unsupported width in read_int")
    as ->; [|done].
  unfold read_new_header.
  pose proof (ReadBuf_front (replicate 500 x00) (new_reader file)
                (Fixture.text "<stata_dta><header><release>")
                (Fixture.text release ++ rest) eq_refl ltac:(vm_compute; lia)) as Hread.
  change (length (Fixture.text "<stata_dta><header><release>")) with 28%nat in Hread.
  rewrite Hread. clear Hread.
  set (buf1 := _ ++ drop _ (replicate 500 x00)).
  change (String.eqb (string_of_list_byte (take 11 buf1)) "<stata_dta>") with true.
  cbn [negb]. cbv iota.
  set (v := if decide (release = "114"%string) then 114 else 115).
  assert (∃ buf2 r2, ReadBuf 3 buf1 (skip 28 (new_reader file)) = (buf2, r2)
          ∧ ParseUint (string_of_list_byte (take 3 buf2)) = Some v
          ∧ FormatVersion r2 = 0) as (buf2 & r2 & -> & -> & H2).
  { eexists _, _. split; [|split].
    - assert (length (Fixture.text release) = 3%nat) as Hl
        by (by destruct Hrel as [-> | ->]).
      pose proof (ReadBuf_front buf1 (skip 28 (new_reader file))
                    (Fixture.text release) rest eq_refl) as Hread.
      rewrite Hl in Hread. apply Hread. vm_compute. lia.
    - destruct Hrel as [-> | ->]; reflexivity.
    - reflexivity. }
  assert (wrap_int 64 v = v) as -> by (unfold v; by case_decide).
  set (r3 := set_FormatVersion v r2).
  assert (FormatVersion r3 = v) as H3 by reflexivity.
  assert (supported_version r3 = true) as ->.
  { apply supported_version_iff. rewrite H3. unfold v, supported_dta_versions.
    rewrite !elem_of_cons. case_decide; auto. }
  clearbody r3. clear H2 r2. cbn [negb]. cbv iota.
  rewrite ReadBuf_eq.
  set (r4 := Seek 15 1 _).
  assert (FormatVersion r4 = v) as H4 by exact H3. clearbody r4.
  rewrite H4.
  destruct (read_int_supported_width nvar_width v r4) as (n & r5 & Hrun5).
  { unfold v. case_decide; set (w := index0 _ _); vm_compute in w; subst w;
      rewrite !elem_of_cons; auto. }
  rewrite Hrun5. cbn [mbind result_bind].
  apply read_int_version in Hrun5. rewrite H4 in Hrun5.
  set (r6 := Seek 7 1 _).
  assert (FormatVersion r6 = v) as H6 by exact Hrun5. clearbody r6. rewrite H6.
  destruct (read_int_supported_width row_count_width v r6) as (n' & r7 & Hrun7).
  { unfold v. case_decide; set (w := index0 _ _); vm_compute in w; subst w;
      rewrite !elem_of_cons; auto. }
  rewrite Hrun7. cbn [mbind result_bind].
  apply read_int_version in Hrun7. rewrite H6 in Hrun7.
  set (r8 := Seek 11 1 _).
  assert (FormatVersion r8 = v) as H8 by exact Hrun7. clearbody r8. rewrite H8.
  assert (index0 dataset_label_width v = 0) as -> by (unfold v; by case_decide).
  reflexivity.
Qed.

Lemma NewStataReader_tagged_legacy_release_witness :
  NewStataReader 0 (Fixture.text "<stata_dta><header><release>" ++ Fixture.text "115" ++ [])
  = Panic "unsupported width in read_int".
Proof.
  apply (NewStataReader_tagged_legacy_release 0 "115" []). right. reflexivity.
Defined.

(** ** Steps on the byte source *)

Lemma read_uvar_moved o n old r :
  ∃ x rd, read_uvar o n old r = (x, set_reader rd r) ∧ content rd = content (reader r).
Proof. rewrite read_uvar_eq. by eexists _, _. Qed.

Lemma read_ivar_moved o n old r :
  ∃ x rd, read_ivar o n old r = (x, set_reader rd r) ∧ content rd = content (reader r).
Proof. rewrite read_ivar_eq. by eexists _, _. Qed.

Lemma ReadBuf_moved n buf r :
  ∃ buf' rd, ReadBuf n buf r = (buf', set_reader rd r)
             ∧ content rd = content (reader r) ∧ length buf' = length buf.
Proof.
  rewrite ReadBuf_eq. eexists _, _. split; [done|]. split; [done|].
  apply Read_prefix_length.
Qed.

Lemma Seek_moved x w r :
  ∃ rd, Seek x w r = set_reader rd r ∧ content rd = content (reader r).
Proof.
  unfold Seek. eexists. split; [done|]. unfold Reader_Seek. by case_match.
Qed.

Lemma wrap_int_range w x : 0 < w → - 2 ^ (w - 1) ≤ wrap_int w x < 2 ^ (w - 1).
Proof.
  intros Hw. unfold wrap_int.
  assert (2 ^ w = 2 * 2 ^ (w - 1)) as Hp.
  { rewrite <- Z.pow_succ_r by lia. f_equal. lia. }
  pose proof (Z.mod_pos_bound (x + 2 ^ (w - 1)) (2 ^ w) ltac:(lia)). lia.
Qed.

Lemma read_int_cases w r :
  (∃ msg, read_int w r = Panic msg)
  ∨ ∃ x rd, read_int w r = Ok (x, set_reader rd r)
            ∧ content rd = content (reader r) ∧ - 2 ^ 63 ≤ x < 2 ^ 63.
Proof.
  unfold read_int.
  repeat case_match; try (left; by eexists); right; rewrite read_ivar_eq;
    eexists _, _; (split; [done|]); (split; [done|]);
    unfold binary_Read; cbn [fst]; case_decide; cbn [fmap option_fmap option_map default from_option id];
    try (cbn; lia).
  - pose proof (wrap_int_range (8 * Z.of_nat 1) (order_uint (ByteOrder r) (take 1 (remaining (reader r)))) ltac:(lia)) as H'.
    change (8 * Z.of_nat 1 - 1) with 7 in H'. change (2 ^ 7) with 128 in H'. lia.
  - pose proof (wrap_int_range (8 * Z.of_nat 2) (order_uint (ByteOrder r) (take 2 (remaining (reader r)))) ltac:(lia)) as H'.
    change (8 * Z.of_nat 2 - 1) with 15 in H'. change (2 ^ 15) with 32768 in H'. lia.
  - pose proof (wrap_int_range (8 * Z.of_nat 4) (order_uint (ByteOrder r) (take 4 (remaining (reader r)))) ltac:(lia)) as H'.
    change (8 * Z.of_nat 4 - 1) with 31 in H'. change (2 ^ 31) with 2147483648 in H'. lia.
  - pose proof (wrap_int_range (8 * Z.of_nat 8) (order_uint (ByteOrder r) (take 8 (remaining (reader r)))) ltac:(lia)) as H'.
    change (8 * Z.of_nat 8 - 1) with 63 in H'. lia.
Qed.

Lemma read_uint_cases w r :
  (∃ msg, read_uint w r = Panic msg)
  ∨ ∃ x rd, read_uint w r = Ok (x, set_reader rd r)
            ∧ content rd = content (reader r).
Proof.
  unfold read_uint.
  repeat case_match; try (left; by eexists); right; rewrite ?read_uvar_eq;
    try (eexists _, _; by split).
  rewrite read_uvar_eq in *. simplify_eq. by eexists _, _.
Qed.

(** One step of a straight-line reader: the next read, seek or integer field
    is replaced by its outcome on a byte source [rd] of the same content. *)
Ltac chain_source Hc :=
  match goal with
  | Hsrc : content _ = ?c |- _ =>
    let H := fresh "Hsrc" in
    assert (H : content _ = c) by (etrans; [exact Hc|exact Hsrc]);
    clear Hsrc Hc
  end.

Ltac step :=
  cbv beta iota zeta;
  first
  [ match goal with
    | |- context [Seek ?x ?w ?r] =>
      let rd := fresh "rd" in let Hc := fresh "Hc" in
      destruct (Seek_moved x w r) as (rd & -> & Hc); chain_source Hc
    end
  | match goal with
    | |- context [read_uvar ?o ?n ?old ?r] =>
      let x := fresh "x" in let rd := fresh "rd" in let Hc := fresh "Hc" in
      destruct (read_uvar_moved o n old r) as (x & rd & -> & Hc); chain_source Hc
    end
  | match goal with
    | |- context [read_ivar ?o ?n ?old ?r] =>
      let x := fresh "x" in let rd := fresh "rd" in let Hc := fresh "Hc" in
      destruct (read_ivar_moved o n old r) as (x & rd & -> & Hc); chain_source Hc
    end
  | match goal with
    | |- context [ReadBuf ?n ?buf ?r] =>
      let b := fresh "buf" in let rd := fresh "rd" in let Hc := fresh "Hc" in
      let Hl := fresh "Hl" in
      destruct (ReadBuf_moved n buf r) as (b & rd & -> & Hc & Hl); chain_source Hc
    end ].

Lemma bind_Ok_l {A B} (a : A) (f : A → result B) : Ok a ≫= f = f a.
Proof. reflexivity. Qed.

Lemma bind_Panic_l {A B} msg (f : A → result B) : Panic msg ≫= f = Panic msg.
Proof. reflexivity. Qed.

Ltac fields :=
  lazy [erase header_fields
        set_DatasetLabel set_TimeStamp set_Nvar set_RowCount set_VarTypes
        set_column_names set_ColumnNamesLong set_ValueLabels set_ValueLabelNames
        set_Formats set_Strls set_StrlsBytes set_FormatVersion set_ByteOrder
        set_rows_read set_seek_vartypes set_seek_varnames set_seek_sortlist
        set_seek_formats set_seek_value_label_names set_seek_variable_labels
        set_seek_characteristics set_seek_data set_seek_strls set_seek_value_labels
        set_is_date set_reader
        InsertStrls InsertCategoryLabels ConvertDates DatasetLabel TimeStamp Nvar
        RowCount VarTypes column_names ColumnNamesLong ValueLabels ValueLabelNames
        Formats Strls StrlsBytes FormatVersion ByteOrder rows_read seek_vartypes
        seek_varnames seek_sortlist seek_formats seek_value_label_names
        seek_variable_labels seek_characteristics seek_data seek_strls
        seek_value_labels is_date reader].

Ltac fields_in H :=
  cbn [erase header_fields
        set_DatasetLabel set_TimeStamp set_Nvar set_RowCount set_VarTypes
        set_column_names set_ColumnNamesLong set_ValueLabels set_ValueLabelNames
        set_Formats set_Strls set_StrlsBytes set_FormatVersion set_ByteOrder
        set_rows_read set_seek_vartypes set_seek_varnames set_seek_sortlist
        set_seek_formats set_seek_value_label_names set_seek_variable_labels
        set_seek_characteristics set_seek_data set_seek_strls set_seek_value_labels
        set_is_date set_reader
        InsertStrls InsertCategoryLabels ConvertDates DatasetLabel TimeStamp Nvar
        RowCount VarTypes column_names ColumnNamesLong ValueLabels ValueLabelNames
        Formats Strls StrlsBytes FormatVersion ByteOrder rows_read seek_vartypes
        seek_varnames seek_sortlist seek_formats seek_value_label_names
        seek_variable_labels seek_characteristics seek_data seek_strls
        seek_value_labels is_date reader] in H.

Lemma read_old_header_read a b : read_old_header a = Ok b → header_read a b.
Proof.
  unfold read_old_header.
  assert (Hsrc : content (reader a) = content (reader a)) by done.
  step.
  destruct (supported_version _) eqn:Hsup; [|done].
  cbn [negb].
  apply supported_version_iff in Hsup.
  change (FormatVersion (set_FormatVersion x _)) with x in Hsup.
  step.
  step.
  match goal with
  | |- context [read_int ?w ?r] =>
    destruct (read_int_cases w r) as [[msg ->]|(n & rd2 & -> & Hc & Hn)]
  end.
  { rewrite bind_Panic_l. intros [=]. }
  chain_source Hc.
  rewrite bind_Ok_l. 
  cbv beta iota zeta.
  match goal with
  | |- context [read_int ?w ?r] =>
    destruct (read_int_cases w r) as [[msg ->]|(rc & rd3 & -> & Hc & Hrc)]
  end.
  { rewrite bind_Panic_l. intros [=]. }
  chain_source Hc. 
  rewrite bind_Ok_l.
  step. 
  step. 
  cbv beta iota zeta.
  intros [= <-].
  split; [vm_compute; reflexivity|].
  split; [exact Hsrc0|].
  split; [exact Hsup|exact Hrc].
Qed.

Ltac step_int n rd Hn :=
  cbv beta iota zeta;
  match goal with
  | |- context [read_int ?w ?r] =>
    let msg := fresh "msg" in let Hc := fresh "Hc" in
    destruct (read_int_cases w r) as [[msg ->]|(n & rd & -> & Hc & Hn)];
    [rewrite bind_Panic_l; intros [=]|chain_source Hc; rewrite bind_Ok_l]
  end.

Lemma read_new_header_read a b : read_new_header a = Ok b → header_read a b.
Proof.
  unfold read_new_header.
  assert (Hsrc : content (reader a) = content (reader a)) by done.
  step.
  destruct (negb (String.eqb _ "<stata_dta>")); [done|].
  step.
  destruct (ParseUint _) as [v|]; [|done].
  cbv beta iota zeta.
  destruct (supported_version _) eqn:Hsup; [|done].
  change (negb true) with false. cbv beta iota.
  apply supported_version_iff in Hsup.
  change (FormatVersion (set_FormatVersion ?x _)) with x in Hsup.
  step.
  step.
  step.
  step_int n rd' Hn.
  step.
  step_int rc rd'' Hrc.
  step.
  cbv beta iota zeta.
  match goal with
  | |- context [read_uint ?w ?r] =>
    destruct (read_uint_cases w r) as [[msg ->]|(w' & rdw & -> & Hc)];
    [rewrite bind_Panic_l; intros [=]|chain_source Hc; rewrite bind_Ok_l]
  end.
  cbv beta iota zeta.
  destruct (slice_to _ _) as [w''| | |].
  2-4: rewrite ?bind_Panic_l; intros [=].
  rewrite bind_Ok_l.
  step.
  step.
  step.
  step.
  step.
  step.
  step.
  step.
  repeat step.
  cbv beta iota zeta.
  intros [= <-].
  split.
  fields. reflexivity.
  split.
  fields. exact Hsrc0.
  split.
  fields. exact Hsup.
  fields. exact Hrc.
Qed.

(** ** The sections, on any input *)

Lemma make_Ok {A} (zero : A) n l :
  make zero n = Ok l → 0 ≤ n ∧ l = replicate (Z.to_nat n) zero.
Proof. unfold make. case_match; [done|]. intros [= <-]. split; [lia|done]. Qed.

Lemma Ok_inj {A} (x y : A) : Ok x = Ok y → x = y.
Proof. by intros [= ->]. Qed.

Lemma read_vartypes_16_read a b :
  read_vartypes_16 a = Ok b →
  ∃ vt, section_read set_VarTypes vt a b
        ∧ 0 ≤ Nvar a ∧ length vt = Z.to_nat (Nvar a).
Proof.
  unfold read_vartypes_16.
  destruct (Seek_moved (wrap_int 64 (seek_vartypes a + 16)) 0 a) as (rd0 & -> & Hc0).
  cbv zeta. change (Nvar (set_reader rd0 a)) with (Nvar a).
  destruct (make 0 (Nvar a)) as [vt0| | |] eqn:Hmk; try (intros [=]; fail).
  apply make_Ok in Hmk as [HN ->]. rewrite bind_Ok_l. intros <-%Ok_inj.
  match goal with
  | |- context [for_range ?n ?k ?body ?s] =>
    assert (∃ vt rd, for_range n k body s = set_VarTypes vt (set_reader rd a)
                     ∧ length vt = Z.to_nat (Nvar a)
                     ∧ content rd = content (reader a)) as (vt & rd & -> & Hlen & Hc)
  end.
  { apply (for_range_pres
      (λ r, ∃ vt rd, r = set_VarTypes vt (set_reader rd a)
                     ∧ length vt = Z.to_nat (Nvar a)
                     ∧ content rd = content (reader a))).
    - intros k r (vt & rd & -> & Hlen & Hc).
      destruct (read_uvar_moved (ByteOrder (set_VarTypes vt (set_reader rd a))) 2
                  (VarTypes (set_VarTypes vt (set_reader rd a)) !!! k)
                  (set_VarTypes vt (set_reader rd a))) as (x & rd' & -> & Hc').
      exists (<[k := x]> vt), rd'. split; [reflexivity|].
      rewrite length_insert. split; [done|]. etrans; [exact Hc'|exact Hc].
    - exists (replicate (Z.to_nat (Nvar a)) 0), rd0.
      split; [reflexivity|]. by rewrite length_replicate. }
  exists vt. split; [split; [reflexivity|exact Hc]|done].
Qed.

Lemma read_vartypes_8_read a b :
  read_vartypes_8 a = Ok b →
  ∃ vt, section_read set_VarTypes vt a b
        ∧ 0 ≤ Nvar a ∧ length vt = Z.to_nat (Nvar a).
Proof.
  unfold read_vartypes_8.
  destruct (make 0 (Nvar a)) as [vt0| | |] eqn:Hmk; try (intros [=]; fail).
  apply make_Ok in Hmk as [HN ->]. rewrite bind_Ok_l. cbv zeta. intros <-%Ok_inj.
  change (Nvar (set_VarTypes ?v a)) with (Nvar a).
  match goal with
  | |- context [for_range ?n ?k ?body ?s] =>
    assert (∃ vt rd, (for_range n k body s).2 = set_VarTypes vt (set_reader rd a)
                     ∧ length vt = Z.to_nat (Nvar a)
                     ∧ content rd = content (reader a)) as (vt & rd & -> & Hlen & Hc)
  end.
  { apply (for_range_pres
      (λ s : Z * StataReader,
         ∃ vt rd, s.2 = set_VarTypes vt (set_reader rd a)
                  ∧ length vt = Z.to_nat (Nvar a)
                  ∧ content rd = content (reader a))).
    - intros k [x0 r] (vt & rd & Hr & Hlen & Hc). cbn [snd] in Hr. subst r.
      destruct (read_uvar_moved (ByteOrder (set_VarTypes vt (set_reader rd a))) 1 x0
                  (set_VarTypes vt (set_reader rd a))) as (x & rd' & -> & Hc').
      exists (<[k := x]> vt), rd'. split; [reflexivity|].
      rewrite length_insert. split; [done|]. etrans; [exact Hc'|exact Hc].
    - exists (replicate (Z.to_nat (Nvar a)) 0), (reader a).
      split; [cbn [snd]; by destruct a|]. by rewrite length_replicate. }
  exists vt. split; [split; [reflexivity|exact Hc]|done].
Qed.

Lemma read_vartypes_read a b :
  read_vartypes a = Ok b →
  ∃ vt, section_read set_VarTypes vt a b
        ∧ 0 ≤ Nvar a ∧ length vt = Z.to_nat (Nvar a).
Proof.
  unfold read_vartypes.
  repeat case_match; try done; auto using read_vartypes_16_read, read_vartypes_8_read.
Qed.

(** The tags that translate_vartypes lets through. *)
Lemma translate_vartype_valid t t' :
  translate_vartype t = Ok t' → t' ≤ 244 ∨ 65526 ≤ t' ≤ 65530.
Proof.
  unfold translate_vartype. repeat case_match; intros [= <-]; lia.
Qed.

Lemma translate_loop_read n : ∀ k a b,
  for_rangeM n k translate_step a = Ok b →
  ∃ vt, b = set_VarTypes vt a ∧ length vt = length (VarTypes a)
        ∧ (∀ j, (j < k)%nat → vt !! j = VarTypes a !! j)
        ∧ (∀ j t, (k ≤ j < k + n)%nat → vt !! j = Some t →
             t ≤ 244 ∨ 65526 ≤ t ≤ 65530).
Proof.
  induction n as [|n IH]; intros k a b.
  - intros <-%Ok_inj. exists (VarTypes a). split; [by destruct a|].
    split; [done|]. split; [done|]. intros j t Hj. lia.
  - rewrite for_rangeM_S. intros (a1 & Hstep & Hrest)%bind_Ok.
    unfold translate_step in Hstep.
    destruct (VarTypes a !! k) as [t|] eqn:Hk; [|done].
    apply bind_Ok in Hstep as (t' & Ht' & <-%Ok_inj).
    apply IH in Hrest as (vt & -> & Hlen & Hlow & Hvalid).
    cbn [VarTypes set_VarTypes] in Hlen, Hlow.
    rewrite length_insert in Hlen.
    exists vt. split; [reflexivity|]. split; [done|]. split.
    + intros j Hj. rewrite Hlow by lia. by rewrite list_lookup_insert_ne by lia.
    + intros j t0 Hj Hvt. destruct (decide (j = k)) as [->|Hne].
      * rewrite Hlow in Hvt by lia.
        rewrite list_lookup_insert_eq in Hvt by (by eapply lookup_lt_Some).
        injection Hvt as <-. by eapply translate_vartype_valid.
      * eapply Hvalid; [|exact Hvt]. lia.
Qed.

(** The loop of the string sections: the field of the section gets a slice
    of the same length, and nothing else changes but the source. *)
Lemma read_strings_read (get : StataReader → list string)
  (set : list string → StataReader → StataReader) buf a :
  (∀ v rd r, set v (set_reader rd r) = set_reader rd (set v r)) →
  (∀ v w r, set v (set w r) = set v r) →
  (∀ v r, get (set v r) = v) →
  (∀ rd r, get (set_reader rd r) = get r) →
  (∀ r, set (get r) r = r) →
  (∀ v r, Nvar (set v r) = Nvar r) →
  ∃ l rd,
    read_strings (λ k s r, set (<[k := s]> (get r)) r) buf a = set l (set_reader rd a)
    ∧ length l = length (get a) ∧ content rd = content (reader a).
Proof.
  intros Hcomm Hidem Hget Hget' Hid HN. unfold read_strings.
  match goal with
  | |- context [for_range ?n ?k ?body ?s] =>
    assert (∃ l rd, (for_range n k body s).2 = set l (set_reader rd a)
                    ∧ length l = length (get a)
                    ∧ content rd = content (reader a)) as (l & rd & -> & Hlen & Hc)
  end.
  { apply (for_range_pres
      (λ s : list byte * StataReader,
         ∃ l rd, s.2 = set l (set_reader rd a)
                 ∧ length l = length (get a) ∧ content rd = content (reader a))).
    - intros k [bf r] (l & rd & Hr & Hlen & Hc). cbn [snd] in Hr. subst r.
      destruct (ReadBuf_moved (length bf) bf (set l (set_reader rd a)))
        as (bf' & rd' & -> & Hc' & _).
      cbn [snd]. exists (<[k := string_of_list_byte (partition bf')]> l), rd'.
      rewrite Hget', Hget, Hcomm, Hidem, <- Hcomm.
      split; [reflexivity|]. rewrite length_insert. split; [done|].
      etrans; [exact Hc'|]. rewrite Hcomm. exact Hc.
    - exists (get a), (reader a). cbn [snd].
      split; [|done]. rewrite Hcomm, Hid. by destruct a. }
  by exists l, rd.
Qed.

Ltac setter_laws := intros; first [reflexivity | by destruct_all StataReader].

Lemma section_strings_read (get : StataReader → list string)
  (set : list string → StataReader → StataReader) bufsize (a0 a : StataReader) b :
  (∀ v rd r, set v (set_reader rd r) = set_reader rd (set v r)) →
  (∀ v w r, set v (set w r) = set v r) →
  (∀ v r, get (set v r) = v) →
  (∀ rd r, get (set_reader rd r) = get r) →
  (∀ r, set (get r) r = r) →
  (∀ v r, Nvar (set v r) = Nvar r) →
  (∀ v r, erase (set v r) = set v (erase r)) →
  (∀ v r, content (reader (set v r)) = content (reader r)) →
  (∃ rd, a = set_reader rd a0 ∧ content rd = content (reader a0)) →
  (buf ← make x00 bufsize;
   names ← make EmptyString (Nvar a);
   Ok (read_strings (λ k s r, set (<[k := s]> (get r)) r) buf (set names a))) = Ok b →
  ∃ l, section_read set l a0 b ∧ 0 ≤ Nvar a0 ∧ length l = Z.to_nat (Nvar a0).
Proof.
  intros Hcomm Hidem Hget Hget' Hid HN Herase Hcont (rd0 & -> & Hc0).
  destruct (make x00 bufsize) as [buf| | |]; try (intros [=]; fail).
  rewrite bind_Ok_l. change (Nvar (set_reader rd0 a0)) with (Nvar a0).
  destruct (make EmptyString (Nvar a0)) as [names| | |] eqn:Hmk; try (intros [=]; fail).
  apply make_Ok in Hmk as [HNv ->]. rewrite bind_Ok_l. intros <-%Ok_inj.
  destruct (read_strings_read get set buf
              (set (replicate (Z.to_nat (Nvar a0)) EmptyString) (set_reader rd0 a0))
              Hcomm Hidem Hget Hget' Hid HN) as (l & rd & -> & Hlen & Hc).
  rewrite Hget, length_replicate in Hlen. rewrite Hcont in Hc.
  exists l. split; [split|done].
  - rewrite Herase. change (erase (set_reader rd ?x)) with (erase x).
    rewrite Herase, Hidem. reflexivity.
  - rewrite Hcont. etrans; [exact Hc|exact Hc0].
Qed.

Lemma moved_if_seek (seek : bool) x a :
  ∃ rd, (if seek then Seek x 0 a else a) = set_reader rd a
        ∧ content rd = content (reader a).
Proof.
  destruct seek; [apply Seek_moved|]. exists (reader a). split; [by destruct a|done].
Qed.

Lemma do_read_varnames_read bufsize seek a b :
  do_read_varnames bufsize seek a = Ok b →
  ∃ l, section_read set_column_names l a b ∧ 0 ≤ Nvar a ∧ length l = Z.to_nat (Nvar a).
Proof.
  intros H.
  eapply (section_strings_read column_names set_column_names bufsize a
            (if seek then Seek (wrap_int 64 (seek_varnames a + 10)) 0 a else a));
    [setter_laws..|apply moved_if_seek|exact H].
Qed.

Lemma do_read_value_label_names_read bufsize seek a b :
  do_read_value_label_names bufsize seek a = Ok b →
  ∃ l, section_read set_ValueLabelNames l a b
       ∧ 0 ≤ Nvar a ∧ length l = Z.to_nat (Nvar a).
Proof.
  intros H.
  eapply (section_strings_read ValueLabelNames set_ValueLabelNames bufsize a
            (if seek then Seek (wrap_int 64 (seek_value_label_names a + 19)) 0 a else a));
    [setter_laws..|apply moved_if_seek|exact H].
Qed.

Lemma do_read_variable_labels_read bufsize seek a b :
  do_read_variable_labels bufsize seek a = Ok b →
  ∃ l, section_read set_ColumnNamesLong l a b
       ∧ 0 ≤ Nvar a ∧ length l = Z.to_nat (Nvar a).
Proof.
  intros H.
  eapply (section_strings_read ColumnNamesLong set_ColumnNamesLong bufsize a
            (if seek then Seek (wrap_int 64 (seek_variable_labels a + 17)) 0 a else a));
    [setter_laws..|apply moved_if_seek|exact H].
Qed.

Lemma read_varnames_read a b :
  read_varnames a = Ok b →
  ∃ l, section_read set_column_names l a b ∧ 0 ≤ Nvar a ∧ length l = Z.to_nat (Nvar a).
Proof.
  unfold read_varnames. repeat case_match; try done; apply do_read_varnames_read.
Qed.

Lemma read_value_label_names_read a b :
  read_value_label_names a = Ok b →
  FormatVersion a ≠ 114
  ∧ ∃ l, section_read set_ValueLabelNames l a b
         ∧ 0 ≤ Nvar a ∧ length l = Z.to_nat (Nvar a).
Proof.
  unfold read_value_label_names.
  repeat case_match; try done; intros Hrun; (split; [lia|]);
    by eapply do_read_value_label_names_read.
Qed.

Lemma read_variable_labels_read a b :
  read_variable_labels a = Ok b →
  FormatVersion a ∈ supported_dta_versions →
  ∃ l, section_read set_ColumnNamesLong l a b
       ∧ 0 ≤ Nvar a ∧ length l = Z.to_nat (Nvar a).
Proof.
  unfold read_variable_labels, supported_dta_versions.
  rewrite !elem_of_cons, elem_of_nil.
  repeat case_match; try lia; intros Hrun _; by eapply do_read_variable_labels_read.
Qed.

Lemma flag_date_loop_read n : ∀ k a b,
  for_rangeM n k flag_date a = Ok b → ∃ d, b = set_is_date d a.
Proof.
  induction n as [|n IH]; intros k a b.
  - intros <-%Ok_inj. exists (is_date a). by destruct a.
  - rewrite for_rangeM_S. intros (a1 & Hstep & Hrest)%bind_Ok.
    apply IH in Hrest as [d ->]. unfold flag_date in Hstep.
    destruct (Formats a !! k); [|done]. apply Ok_inj in Hstep. subst a1.
    destruct (date_format _); eexists; reflexivity.
Qed.

Lemma do_read_formats_read bufsize seek a b :
  do_read_formats bufsize seek a = Ok b →
  ∃ fs, erase b = set_is_date (date_format <$> fs) (set_Formats fs (erase a))
        ∧ content (reader b) = content (reader a)
        ∧ 0 ≤ Nvar a ∧ length fs = Z.to_nat (Nvar a).
Proof.
  intros H. destruct (do_read_formats_is_date _ _ _ _ H) as [Hdates Hlen].
  revert H. unfold do_read_formats.
  destruct (make x00 bufsize) as [buf| | |]; try (intros [=]; fail).
  rewrite bind_Ok_l. cbv zeta.
  destruct (moved_if_seek seek (wrap_int 64 (seek_formats a + 9)) a) as (rd0 & -> & Hc0).
  change (Nvar (set_reader rd0 a)) with (Nvar a).
  destruct (make EmptyString (Nvar a)) as [names| | |] eqn:Hmk; try (intros [=]; fail).
  apply make_Ok in Hmk as [HNv ->]. rewrite bind_Ok_l.
  destruct (read_strings_read Formats set_Formats buf
              (set_Formats (replicate (Z.to_nat (Nvar a)) EmptyString) (set_reader rd0 a)))
    as (l & rd & -> & Hl & Hc); [setter_laws..|].
  cbn [Formats set_Formats] in Hl. rewrite length_replicate in Hl.
  change (Nvar (set_Formats ?v ?r)) with (Nvar r).
  change (Nvar (set_reader ?v ?r)) with (Nvar r).
  change (Nvar (set_Formats ?v ?r)) with (Nvar r).
  change (Nvar (set_reader ?v ?r)) with (Nvar r).
  destruct (make false (Nvar a)) as [dates| | |]; try (intros [=]; fail).
  rewrite bind_Ok_l. change (Nvar (set_is_date ?v ?r)) with (Nvar r).
  change (Nvar (set_Formats ?v ?r)) with (Nvar r).
  change (Nvar (set_reader ?v ?r)) with (Nvar r).
  change (Nvar (set_Formats ?v ?r)) with (Nvar r).
  change (Nvar (set_reader ?v ?r)) with (Nvar r).
  intros [d ->]%flag_date_loop_read.
  cbn [is_date set_is_date Formats set_Formats] in Hdates. subst d.
  exists l. split; [reflexivity|]. split; [|done].
  etrans; [exact Hc|exact Hc0].
Qed.

Lemma read_formats_read a b :
  read_formats a = Ok b →
  ∃ fs, erase b = set_is_date (date_format <$> fs) (set_Formats fs (erase a))
        ∧ content (reader b) = content (reader a)
        ∧ 0 ≤ Nvar a ∧ length fs = Z.to_nat (Nvar a).
Proof.
  unfold read_formats. repeat case_match; try done; apply do_read_formats_read.
Qed.

(** ** The scans, on any input *)

Ltac same_source :=
  repeat first
    [ match goal with H : content _ = _ |- _ => exact H end
    | etrans; [match goal with H : content _ = _ |- _ => exact H end|] ].

Lemma read_expansion_fields_loop_read fuel : ∀ x i a b,
  read_expansion_fields_loop fuel x i a = Ok b →
  ∃ rd, b = set_reader rd a ∧ content rd = content (reader a).
Proof.
  induction fuel as [|fuel IH]; intros x i a b; [done|].
  cbn [read_expansion_fields_loop].
  assert (Hsrc : content (reader a) = content (reader a)) by done.
  step. step. destruct (_ && _).
  - intros <-%Ok_inj. by eexists.
  - step. intros (rd' & -> & Hc)%IH. exists rd'. split; [fields; reflexivity|].
    same_source.
Qed.

Lemma read_strls_loop_read fuel : ∀ buf3 v o t len a b,
  read_strls_loop fuel buf3 v o t len a = Ok b →
  ∃ s sb rd, b = set_StrlsBytes sb (set_Strls s (set_reader rd a))
             ∧ content rd = content (reader a).
Proof.
  induction fuel as [|fuel IH]; intros buf3 v o t len a b; [done|].
  cbn [read_strls_loop].
  assert (Hsrc : content (reader a) = content (reader a)) by done.
  step. destruct (negb _).
  - intros <-%Ok_inj. exists (Strls a), (StrlsBytes a), rd. split; [|done].
    by destruct a.
  - do 5 step. cbv beta iota zeta.
    intros (s & sb & rd' & -> & Hc)%IH. unfold store_strl in *.
    repeat case_match; exists s, sb, rd'; (split; [fields; reflexivity|]);
      same_source.
Qed.

Lemma read_strls_read fuel a b :
  read_strls fuel a = Ok b →
  ∃ s sb, erase b = set_StrlsBytes sb (set_Strls s (erase a))
          ∧ content (reader b) = content (reader a).
Proof.
  unfold read_strls.
  destruct (Seek_moved (wrap_int 64 (seek_strls a + 7)) 0 a) as (rd0 & -> & Hc0).
  cbv zeta. intros (s & sb & rd & -> & Hc)%read_strls_loop_read.
  exists s, sb. split; [fields; reflexivity|]. etrans; [exact Hc|exact Hc0].
Qed.

Lemma read_int32s_moved n a xs b :
  read_int32s n a = Ok (xs, b) →
  ∃ rd, b = set_reader rd a ∧ content rd = content (reader a).
Proof.
  unfold read_int32s.
  destruct (make 0 n) as [xs0| | |]; try (intros [=]; fail).
  rewrite bind_Ok_l. intros Hrun%Ok_inj.
  match type of Hrun with
  | for_range ?m ?k ?body ?s = _ =>
    assert (∃ rd, (for_range m k body s).2 = set_reader rd a
                  ∧ content rd = content (reader a)) as (rd & Hb & Hc)
  end.
  { apply (for_range_pres
      (λ s : list Z * StataReader,
         ∃ rd, s.2 = set_reader rd a ∧ content rd = content (reader a))).
    - intros k [l r] (rd & Hr & Hc). cbn [snd] in Hr. subst r.
      destruct (read_ivar_moved (ByteOrder (set_reader rd a)) 4 (l !!! k)
                  (set_reader rd a)) as (x & rd' & -> & Hc').
      exists rd'. split; [fields; reflexivity|]. etrans; [exact Hc'|exact Hc].
    - exists (reader a). split; [cbn [snd]; by destruct a|done]. }
  rewrite Hrun in Hb. cbn [snd] in Hb. by exists rd.
Qed.

Lemma read_value_labels_loop_read fuel : ∀ buf n textlen vl a vl' b,
  read_value_labels_loop fuel buf n textlen vl a = Ok (vl', b) →
  ∃ rd, b = set_reader rd a ∧ content rd = content (reader a).
Proof.
  induction fuel as [|fuel IH]; intros buf n textlen vl a vl' b; [done|].
  cbn [read_value_labels_loop].
  assert (Hsrc : content (reader a) = content (reader a)) by done.
  intros (? & _ & Hrun)%bind_Ok. revert Hrun.
  step. destruct (negb _).
  - intros [= _ <-]. by eexists.
  - step. intros (? & _ & Hrun)%bind_Ok. revert Hrun.
    do 4 step. cbv beta iota zeta.
    intros ([off r1] & Hoff & Hrest)%bind_Ok.
    apply read_int32s_moved in Hoff as (rd5 & -> & Hc5). revert Hrest.
    intros ([val r2] & Hval & Hrest)%bind_Ok.
    apply read_int32s_moved in Hval as (rd6 & -> & Hc6). revert Hrest.
    intros (buf4 & _ & Hrun)%bind_Ok. revert Hrun.
    step. intros (vk & _ & Hrun)%bind_Ok. revert Hrun.
    step.
    intros (rd' & -> & Hc)%IH. exists rd'. split; [fields; reflexivity|].
    same_source.
Qed.

Lemma read_value_labels_read fuel a b :
  read_value_labels fuel a = Ok b →
  ∃ vl, section_read set_ValueLabels vl a b.
Proof.
  unfold read_value_labels.
  destruct (Seek_moved (wrap_int 64 (seek_value_labels a + 14)) 0 a) as (rd0 & -> & Hc0).
  cbv zeta. intros ([vl r] & Hloop & <-%Ok_inj)%bind_Ok.
  apply read_value_labels_loop_read in Hloop as (rd & -> & Hc).
  exists vl. split; [fields; reflexivity|]. etrans; [exact Hc|exact Hc0].
Qed.

(** ** The reader that NewStataReader returns *)

Lemma translate_stage_read (c : bool) a b :
  (if c then translate_vartypes a else Ok a) = Ok b →
  ∃ vt, b = set_VarTypes vt a ∧ length vt = length (VarTypes a)
        ∧ (c = true → ∀ j t, (j < Z.to_nat (Nvar a))%nat → vt !! j = Some t →
             t ≤ 244 ∨ 65526 ≤ t ≤ 65530).
Proof.
  destruct c.
  - unfold translate_vartypes. intros (vt & -> & Hlen & _ & Hvalid)%translate_loop_read.
    exists vt. split; [done|]. split; [done|]. intros _ j t Hj. apply Hvalid. lia.
  - intros <-%Ok_inj. exists (VarTypes a). split; [by destruct a|]. done.
Qed.

Lemma expansion_stage_read (c : bool) fuel a b :
  (if c then read_expansion_fields fuel a else Ok a) = Ok b →
  ∃ rd, b = set_reader rd a ∧ content rd = content (reader a).
Proof.
  destruct c.
  - apply read_expansion_fields_loop_read.
  - intros <-%Ok_inj. exists (reader a). split; [by destruct a|done].
Qed.

Lemma moved_if_skip (c : bool) x a :
  ∃ rd, (if c then Seek x 1 a else a) = set_reader rd a
        ∧ content rd = content (reader a).
Proof.
  destruct c; [apply Seek_moved|]. exists (reader a). split; [by destruct a|done].
Qed.

Lemma tagged_stage_read (c : bool) fuel a b :
  (if c then rdr ← read_strls fuel a; read_value_labels fuel rdr else Ok a) = Ok b →
  (c = false ∧ b = a)
  ∨ (c = true
     ∧ ∃ s sb vl, erase b = set_ValueLabels vl (set_StrlsBytes sb (set_Strls s (erase a)))
                  ∧ content (reader b) = content (reader a)).
Proof.
  destruct c.
  - intros (r & (s & sb & He & Hc)%read_strls_read
              & (vl & He' & Hc')%read_value_labels_read)%bind_Ok.
    right. split; [done|]. exists s, sb, vl. rewrite He', He. split; [reflexivity|].
    etrans; [exact Hc'|exact Hc].
  - intros <-%Ok_inj. by left.
Qed.

(** Projects an equation between readers on a field. *)
Ltac field_of f H Hf :=
  pose proof (f_equal f H) as Hf; fields_in Hf.

Lemma init_shape fuel file rdr :
  init fuel (new_reader file) = Ok rdr → opened_shape file rdr.
Proof.
  unfold init.
  destruct (init_first_byte file) as (r & -> & Hr). rewrite (init_rewind r file Hr).
  intros (r1 & Hhdr & Hrun)%bind_Ok.
  assert (header_read (new_reader file) r1) as (He1 & Hc1 & Hv1 & Hrc1).
  { destruct (String.eqb _ "<");
      [by apply read_new_header_read|by apply read_old_header_read]. }
  clear Hhdr. revert Hrun.
  (* the type codes *)
  intros (r2 & (vt & [He2 Hc2] & HN & Hvt)%read_vartypes_read & Hrun)%bind_Ok.
  revert Hrun.
  intros (r3 & (vt' & -> & Hvt' & Hvalid)%translate_stage_read & Hrun)%bind_Ok.
  revert Hrun.
  (* the names, the sort list, the formats *)
  intros (r4 & (names & [He4 Hc4] & _ & Hnames)%read_varnames_read & Hrun)%bind_Ok.
  revert Hrun. cbv zeta.
  match goal with
  | |- context [if ?c then Seek ?x 1 r4 else r4] =>
    destruct (moved_if_skip c x r4) as (rd4 & -> & Hcs)
  end.
  intros (r5 & (fs & He5 & Hc5 & _ & Hfs)%read_formats_read & Hrun)%bind_Ok.
  revert Hrun.
  (* the label-set names and the long labels *)
  intros (r6 & (H114 & lbls & [He6 Hc6] & _ & Hlbls)%read_value_label_names_read
             & Hrun)%bind_Ok.
  revert Hrun.
  intros (r7 & Hlong & Hrun)%bind_Ok. revert Hrun.
  (* the fields of the readers so far *)
  change (erase (set_VarTypes vt' r2)) with (set_VarTypes vt' (erase r2)) in He4.
  rewrite He2, He1 in He4.
  change (erase (set_reader rd4 r4)) with (erase r4) in He5. rewrite He4 in He5.
  rewrite He5 in He6.
  field_of FormatVersion He2 HV2. field_of Nvar He2 HN2.
  field_of VarTypes He2 HVT2. rewrite HVT2, Hvt in Hvt'.
  field_of FormatVersion He4 HV4. field_of Nvar He4 HN4.
  field_of FormatVersion He5 HV5. field_of Nvar He5 HN5.
  field_of FormatVersion He6 HV6. field_of Nvar He6 HN6.
  apply read_variable_labels_read in Hlong as (long & [He7 Hc7] & _ & Hlong);
    [|by rewrite HV6].
  rewrite He6 in He7. field_of FormatVersion He7 HV7.
  cbn [Nvar set_VarTypes set_reader] in Hnames, Hfs.
  rewrite HN2 in Hnames. rewrite HN4 in Hfs. rewrite HN5 in Hlbls. rewrite HN6 in Hlong.
  intros (r8 & (rd8 & -> & Hc8)%expansion_stage_read & Hrun)%bind_Ok. revert Hrun.
  change (FormatVersion (set_reader rd8 r7)) with (FormatVersion r7).
  intros Hlast%tagged_stage_read.
  assert (FormatVersion r1 ∈ [115; 117; 118]) as Hv.
  { rewrite HV5 in H114. unfold supported_dta_versions in Hv1.
    rewrite !elem_of_cons, elem_of_nil in Hv1. rewrite !elem_of_cons, elem_of_nil. lia. }
  assert (∀ j t, FormatVersion r1 < 117 → vt' !! j = Some t → valid_tag t) as Htags.
  { intros j t Hlt Hj. unfold valid_tag.
    assert (j < Z.to_nat (Nvar r2))%nat as Hlt'.
    { apply lookup_lt_Some in Hj. rewrite HN2, <- Hvt'. done. }
    assert ((FormatVersion r2 <? 117) = true) as Hold
      by (rewrite HV2; apply Z.ltb_lt; lia).
    destruct (Hvalid Hold j t Hlt' Hj); lia. }
  assert (content rd8 = file) as Hsrc.
  { etrans; [exact Hc8|]. etrans; [exact Hc7|]. etrans; [exact Hc6|].
    etrans; [exact Hc5|]. etrans; [exact Hcs|]. etrans; [exact Hc4|].
    etrans; [exact Hc2|]. exact Hc1. }
  destruct Hlast as [[Hc Hrdr]|(Hc & s & sb & vl & He9 & Hc9)].
  - (* a legacy file *)
    apply Z.leb_gt in Hc. rewrite HV7 in Hc.
    assert (erase rdr = erase r7) as He9 by (by rewrite Hrdr).
    assert (content (reader rdr) = content rd8) as Hc9 by (by rewrite Hrdr).
    clear Hrdr. rewrite He7 in He9.
    field_of FormatVersion He9 HV. field_of Nvar He9 HNv. field_of RowCount He9 HRC.
    field_of VarTypes He9 HVT. field_of column_names He9 HCN.
    field_of ColumnNamesLong He9 HCL. field_of Formats He9 HF.
    field_of ValueLabelNames He9 HL. field_of is_date He9 HD.
    field_of InsertStrls He9 HO1. field_of InsertCategoryLabels He9 HO2.
    field_of ConvertDates He9 HO3. field_of rows_read He9 HRR.
    field_of ValueLabels He9 HVL. field_of Strls He9 HS.
    constructor; unfold ColumnNames;
      rewrite ?HV, ?HNv, ?HRC, ?HVT, ?HCN, ?HCL, ?HF, ?HL, ?HD, ?HO1, ?HO2, ?HO3,
        ?HRR, ?HVL, ?HS; try done; try lia.
    + by rewrite Hc9.
    + intros Hlt. split; [|done]. apply Forall_lookup. intros j t. by apply Htags.
  - (* a tagged file *)
    apply Z.leb_le in Hc. rewrite HV7 in Hc.
    change (erase (set_reader rd8 r7)) with (erase r7) in He9. rewrite He7 in He9.
    field_of FormatVersion He9 HV. field_of Nvar He9 HNv. field_of RowCount He9 HRC.
    field_of VarTypes He9 HVT. field_of column_names He9 HCN.
    field_of ColumnNamesLong He9 HCL. field_of Formats He9 HF.
    field_of ValueLabelNames He9 HL. field_of is_date He9 HD.
    field_of InsertStrls He9 HO1. field_of InsertCategoryLabels He9 HO2.
    field_of ConvertDates He9 HO3. field_of rows_read He9 HRR.
    constructor; unfold ColumnNames;
      rewrite ?HV, ?HNv, ?HRC, ?HVT, ?HCN, ?HCL, ?HF, ?HL, ?HD, ?HO1, ?HO2, ?HO3,
        ?HRR; try done; try lia.
    by rewrite Hc9.
Qed.

(** X7: Every reader that NewStataReader returns, on any file, has format
    version 115, 117 or 118 (never 114), a variable count that is not
    negative, one type code, name, long label, format, label-set name and date
    flag per variable, the date flag of a column set exactly when its format
    begins with %td or %tc, the three options switched on, no row read yet,
    and the file untouched as its source. For a legacy file every type code is
    one that Read handles and no value label or strl was loaded. *)
Theorem NewStataReader_shape (fuel : nat) (file : list byte) (rdr : StataReader) :
  NewStataReader fuel file = Ok rdr → opened_shape file rdr.
Proof. apply init_shape. Qed.

Lemma NewStataReader_shape_witness :
  opened_shape Fixture.ten_115 (Fixture.opened Fixture.ten_115).
Proof.
  apply (NewStataReader_shape (length Fixture.ten_115)). vm_compute. reflexivity.
Defined.



(** ** Expansion fields *)

Lemma Seek_forward (i : Z) rdr :
  0 ≤ pos (reader rdr) → 0 ≤ i → pos (reader rdr) + i < 2 ^ 63 →
  Seek i 1 rdr = skip (Z.to_nat i) rdr.
Proof.
  intros Hp Hi Hlt. unfold Seek, skip, Reader_Seek, advance. cbn [Z.eqb].
  rewrite wrap_int_64_small by lia.
  assert ((pos (reader rdr) + i <? 0) = false) as -> by lia.
  by rewrite Z2Nat.id by lia.
Qed.

Lemma pos_skip n rdr : pos (reader (skip n rdr)) = pos (reader rdr) + Z.of_nat n.
Proof. reflexivity. Qed.

(** One iteration of the loop on a field. *)
Lemma read_expansion_fields_loop_field fuel b0 i0 rdr f rest :
  at_bytes rdr (expansion_field (ByteOrder rdr) f ++ rest) → field_fits f →
  pos (reader rdr) + 5 + Z.of_nat (length f.2) < 2 ^ 63 →
  read_expansion_fields_loop (S fuel) b0 i0 rdr
  = read_expansion_fields_loop fuel f.1 (Z.of_nat (length f.2))
      (skip (5 + length f.2) rdr)
  ∧ at_bytes (skip (5 + length f.2) rdr) rest.
Proof.
  destruct f as [typ body]. cbn [fst snd]. intros Hat (Ht & Hlen & Hnt) Hpos.
  cbn [fst snd] in Ht, Hlen, Hnt.
  unfold expansion_field in Hat. cbn [fst snd] in Hat. rewrite <- !app_assoc in Hat.
  cbn [read_expansion_fields_loop].
  rewrite (at_read_uvar _ _ 1 typ _ b0 Hat Ht).
  pose proof Hat as [Hp0 _].
  apply at_bytes_skip with (n := 1%nat) in Hat; [|apply enc_length].
  rewrite ByteOrder_skip.
  rewrite (at_read_ivar _ _ 4 (Z.of_nat (length body)) _ i0 ltac:(lia) Hat).
  2:{ change (8 * Z.of_nat 4 - 1) with 31. change (2 ^ 31) with 2147483648 in *. lia. }
  apply at_bytes_skip with (n := 4%nat) in Hat; [|apply enc_length].
  assert ((typ =? 0) && (Z.of_nat (length body) =? 0) = false) as ->.
  { apply andb_false_iff. destruct Hnt as [Hne|Hne]; [left; lia|right].
    apply Z.eqb_neq. destruct body; [done|simpl; lia]. }
  rewrite skip_skip in *. 
  rewrite Seek_forward; rewrite ?pos_skip; try lia.
  rewrite Nat2Z.id, skip_skip. split; [done|].
  replace (5 + length body)%nat with (1 + 4 + length body)%nat by lia.
  rewrite <- skip_skip. by eapply at_bytes_skip.
Qed.

(** The iteration on the terminator. *)
Lemma read_expansion_fields_loop_end fuel b0 i0 rdr rest :
  at_bytes rdr (replicate 5 x00 ++ rest) →
  read_expansion_fields_loop (S fuel) b0 i0 rdr = Ok (skip 5 rdr)
  ∧ at_bytes (skip 5 rdr) rest.
Proof.
  intros Hat. cbn [read_expansion_fields_loop].
  assert (replicate 5 x00
          = Fixture.enc (ByteOrder rdr) 1 0 ++ Fixture.enc (ByteOrder rdr) 4 0) as Hz
    by (by destruct (ByteOrder rdr)).
  rewrite Hz, <- app_assoc in Hat.
  rewrite (at_read_uvar _ _ 1 0 _ b0 Hat) by (simpl; lia).
  apply at_bytes_skip with (n := 1%nat) in Hat; [|apply enc_length].
  rewrite ByteOrder_skip.
  rewrite (at_read_ivar _ _ 4 0 _ i0 ltac:(lia) Hat)
    by (change (8 * Z.of_nat 4 - 1) with 31; change (2 ^ 31) with 2147483648; lia).
  apply at_bytes_skip with (n := 4%nat) in Hat; [|apply enc_length].
  rewrite skip_skip in *. done.
Qed.

Lemma expansion_field_length ord f :
  length (expansion_field ord f) = (5 + length f.2)%nat.
Proof. unfold expansion_field. rewrite !length_app, !enc_length. lia. Qed.

Lemma read_expansion_fields_loop_chain fields : ∀ fuel b0 i0 rdr rest,
  at_bytes rdr (mjoin (expansion_field (ByteOrder rdr) <$> fields)
                ++ replicate 5 x00 ++ rest) →
  Forall field_fits fields →
  pos (reader rdr)
  + Z.of_nat (length (mjoin (expansion_field (ByteOrder rdr) <$> fields))) < 2 ^ 63 →
  ∃ n, read_expansion_fields_loop (length fields + S fuel) b0 i0 rdr = Ok (skip n rdr)
       ∧ at_bytes (skip n rdr) rest.
Proof.
  induction fields as [|f fields IH]; intros fuel b0 i0 rdr rest Hat Hfit Hpos.
  - exists 5%nat. by apply read_expansion_fields_loop_end.
  - apply Forall_cons in Hfit as [Hf Hfit].
    change (mjoin (expansion_field (ByteOrder rdr) <$> f :: fields))
      with (expansion_field (ByteOrder rdr) f
            ++ mjoin (expansion_field (ByteOrder rdr) <$> fields)) in Hat, Hpos.
    rewrite <- app_assoc in Hat.
    rewrite length_app, expansion_field_length in Hpos.
    cbn [length Nat.add].
    assert (pos (reader rdr) + 5 + Z.of_nat (length f.2) < 2 ^ 63) as Hpos' by lia.
    destruct (read_expansion_fields_loop_field (length fields + S fuel) b0 i0 rdr f _
                Hat Hf Hpos') as [-> Hat'].
    destruct (IH fuel f.1 (Z.of_nat (length f.2)) (skip (5 + length f.2) rdr) rest)
      as (n & -> & Hn).
    { exact Hat'. }
    { done. }
    { rewrite pos_skip, ByteOrder_skip.
      lia. }
    rewrite skip_skip in *. by eexists.
Qed.

(** At the end of the source the variables keep their values, and the loop
    goes on for ever when they are not those of the terminator. *)
Lemma at_end_advance r :
  0 ≤ pos r → remaining r = [] → pos r < 2 ^ 63 →
  0 ≤ pos (advance 0 r) ∧ remaining (advance 0 r) = [] ∧ pos (advance 0 r) < 2 ^ 63.
Proof.
  intros Hp Hr Hlt. split; [simpl; lia|]. split; [|simpl; lia].
  rewrite remaining_advance by done. by rewrite Hr.
Qed.

Lemma at_end_read_uvar o n old rdr :
  at_end rdr → (0 < n)%nat →
  ∃ rdr', read_uvar o n old rdr = (old, rdr') ∧ at_end rdr'
          ∧ erase rdr' = erase rdr.
Proof.
  intros [[Hp Hr] Hlt] Hn. rewrite read_uvar_eq. unfold binary_Read. rewrite Hr.
  rewrite take_nil, decide_False by (simpl; lia).
  eexists. split; [reflexivity|]. split; [|done].
  destruct (at_end_advance _ Hp Hr Hlt) as (? & ? & ?). by repeat split.
Qed.

Lemma at_end_read_ivar o n old rdr :
  at_end rdr → (0 < n)%nat →
  ∃ rdr', read_ivar o n old rdr = (old, rdr') ∧ at_end rdr'
          ∧ erase rdr' = erase rdr.
Proof.
  intros [[Hp Hr] Hlt] Hn. rewrite read_ivar_eq. unfold binary_Read. rewrite Hr.
  rewrite take_nil, decide_False by (simpl; lia).
  eexists. split; [reflexivity|]. split; [|done].
  destruct (at_end_advance _ Hp Hr Hlt) as (? & ? & ?). by repeat split.
Qed.

Lemma at_end_ReadBuf n buf rdr :
  at_end rdr → (n ≤ length buf)%nat →
  ∃ rdr', ReadBuf n buf rdr = (buf, rdr') ∧ at_end rdr' ∧ erase rdr' = erase rdr.
Proof.
  intros [[Hp Hr] Hlt] Hn. rewrite ReadBuf_eq. unfold Read_prefix, Reader_Read.
  rewrite Hr, take_nil. cbn [app length fst snd]. rewrite drop_0, take_drop.
  eexists. split; [reflexivity|]. split; [|done].
  destruct (at_end_advance _ Hp Hr Hlt) as (? & ? & ?). by repeat split.
Qed.

Lemma at_end_Seek i rdr :
  at_end rdr → 0 ≤ i < 2 ^ 63 → at_end (Seek i 1 rdr) ∧ erase (Seek i 1 rdr) = erase rdr.
Proof.
  intros [[Hp Hr] Hlt] Hi. split; [|done]. unfold Seek, Reader_Seek. cbn [Z.eqb].
  case_match eqn:Hneg; [done|]. apply Z.ltb_ge in Hneg.
  assert (wrap_int 64 (pos (reader rdr) + i) = pos (reader rdr) + i) as Hw.
  { destruct (decide (pos (reader rdr) + i < 2 ^ 63)) as [?|Hbig].
    - apply wrap_int_64_small. lia.
    - exfalso. revert Hneg. unfold wrap_int. change (2 ^ (64 - 1)) with (2 ^ 63).
      assert (2 ^ 64 = 2 * 2 ^ 63) as Hpw by done.
      replace (pos (reader rdr) + i + 2 ^ 63)
        with (pos (reader rdr) + i - 2 ^ 63 + 1 * 2 ^ 64) by lia.
      rewrite Z.mod_add by lia. rewrite Z.mod_small; lia. }
  rewrite Hw in *. 
  assert (pos (reader rdr) + i < 2 ^ 63) as Hlt'.
  { pose proof (wrap_int_range 64 (pos (reader rdr) + i) ltac:(lia)) as Hrg.
    rewrite Hw in Hrg. change (64 - 1) with 63 in Hrg. lia. }
  repeat split; cbn [reader set_reader pos]; try lia.
  unfold remaining in *. cbn [pos content].
  assert ((pos (reader rdr) + i <? 0) = false) as -> by lia.
  assert ((pos (reader rdr) <? 0) = false) as Hp' by lia. rewrite Hp' in Hr.
  apply drop_ge. apply (f_equal length) in Hr. rewrite length_drop in Hr.
  simpl in Hr. lia.
Qed.

(** At the end of the source the two variables of the loop keep their
    values; when these are not the terminator's, the loop never ends. *)
Lemma read_expansion_fields_loop_at_end fuel : ∀ b i rdr,
  at_end rdr → b ≠ 0 ∨ i ≠ 0 → 0 ≤ i < 2 ^ 63 →
  read_expansion_fields_loop fuel b i rdr = OutOfFuel.
Proof.
  induction fuel as [|fuel IH]; intros b i rdr Hend Hnt Hi; [done|].
  cbn [read_expansion_fields_loop].
  destruct (at_end_read_uvar (ByteOrder rdr) 1 b rdr Hend ltac:(lia))
    as (r1 & -> & Hend1 & _).
  destruct (at_end_read_ivar (ByteOrder r1) 4 i r1 Hend1 ltac:(lia))
    as (r2 & -> & Hend2 & _).
  assert ((b =? 0) && (i =? 0) = false) as ->.
  { apply andb_false_iff. destruct Hnt; [left|right]; lia. }
  apply IH; [|done|done]. by apply at_end_Seek.
Qed.

Lemma read_expansion_fields_loop_truncated fields : ∀ fuel b i rdr,
  at_bytes rdr (mjoin (expansion_field (ByteOrder rdr) <$> fields)) →
  Forall field_fits fields →
  (fields = [] → b ≠ 0 ∨ i ≠ 0) → 0 ≤ i < 2 ^ 63 →
  pos (reader rdr)
  + Z.of_nat (length (mjoin (expansion_field (ByteOrder rdr) <$> fields))) < 2 ^ 63 →
  read_expansion_fields_loop fuel b i rdr = OutOfFuel.
Proof.
  induction fields as [|f fields IH]; intros fuel b i rdr Hat Hfit Hnt Hi Hpos.
  - apply read_expansion_fields_loop_at_end; [|auto|done].
    split; [done|]. simpl in Hpos. lia.
  - destruct fuel as [|fuel]; [done|].
    apply Forall_cons in Hfit as [Hf Hfit].
    change (mjoin (expansion_field (ByteOrder rdr) <$> f :: fields))
      with (expansion_field (ByteOrder rdr) f
            ++ mjoin (expansion_field (ByteOrder rdr) <$> fields)) in Hat, Hpos.
    rewrite length_app, expansion_field_length in Hpos.
    assert (pos (reader rdr) + 5 + Z.of_nat (length f.2) < 2 ^ 63) as Hpos' by lia.
    destruct (read_expansion_fields_loop_field fuel b i rdr f _ Hat Hf Hpos')
      as [-> Hat'].
    apply IH; [exact Hat'|done| |destruct Hf as (_ & ? & _);
      change (2 ^ 31) with 2147483648 in *; change (2 ^ 63) with 9223372036854775808; lia
      |rewrite pos_skip, ByteOrder_skip; lia].
    intros _. destruct Hf as (_ & _ & [?|Hne]); [by left|right].
    destruct f.2; [done|simpl; lia].
Qed.

(** X10: On a chain of expansion fields (a type byte, a 4-byte length and that
    many bytes each, lengths below 2^31) closed by the five null bytes of the
    terminator, read_expansion_fields returns after one iteration per field
    plus one, leaves the reader just after the terminator and changes no other
    field of it. *)
Theorem read_expansion_fields_returns (rdr : StataReader)
  (fields : list (Z * list byte)) (rest : list byte) (fuel : nat) :
  at_bytes rdr (mjoin (expansion_field (ByteOrder rdr) <$> fields)
                ++ replicate 5 x00 ++ rest) →
  Forall field_fits fields →
  pos (reader rdr)
  + Z.of_nat (length (mjoin (expansion_field (ByteOrder rdr) <$> fields))) < 2 ^ 63 →
  ∃ rdr', read_expansion_fields (length fields + S fuel) rdr = Ok rdr'
          ∧ at_bytes rdr' rest ∧ erase rdr' = erase rdr.
Proof.
  intros Hat Hfit Hpos.
  destruct (read_expansion_fields_loop_chain fields fuel 0 0 rdr rest Hat Hfit Hpos)
    as (n & Hrun & Hn).
  exists (skip n rdr). done.
Qed.

Lemma read_expansion_fields_returns_witness :
  ∃ rdr',
    read_expansion_fields 2
      (new_reader (expansion_field LittleEndian (1, [x07; x08]) ++ replicate 5 x00 ++ [x09]))
    = Ok rdr'
    ∧ at_bytes rdr' [x09].
Proof.
  destruct (read_expansion_fields_returns
              (new_reader (expansion_field LittleEndian (1, [x07; x08])
                           ++ replicate 5 x00 ++ [x09]))
              [(1, [x07; x08])] [x09] 0) as (rdr' & Hrun & Hat & _).
  - split; [simpl; lia|reflexivity].
  - apply List.Forall_cons; [|apply List.Forall_nil].
    unfold field_fits. cbn [fst snd length]. change (2 ^ 8) with 256.
    change (2 ^ 31) with 2147483648. split; [lia|]. split; [lia|]. left. lia.
  - simpl. lia.
  - exists rdr'. split; [exact Hrun|exact Hat].
Defined.

(** X11: When the source ends after a chain of expansion fields without the
    terminator, read_expansion_fields never returns if the chain is not empty:
    the failed reads leave the type and the length of the last field in their
    variables, so the test for the terminator fails for ever. With an empty
    chain it returns at once, the variables being zero. *)
Theorem read_expansion_fields_never_returns (rdr : StataReader)
  (fields : list (Z * list byte)) :
  at_bytes rdr (mjoin (expansion_field (ByteOrder rdr) <$> fields)) →
  Forall field_fits fields →
  pos (reader rdr)
  + Z.of_nat (length (mjoin (expansion_field (ByteOrder rdr) <$> fields))) < 2 ^ 63 →
  (fields = [] → ∀ fuel, ∃ rdr', read_expansion_fields (S fuel) rdr = Ok rdr')
  ∧ (fields ≠ [] → ∀ fuel, read_expansion_fields fuel rdr = OutOfFuel).
Proof.
  intros Hat Hfit Hpos. split.
  - intros -> fuel. unfold read_expansion_fields. cbn [read_expansion_fields_loop].
    assert (at_end rdr) as Hend by (split; [done|simpl in Hpos; lia]).
    destruct (at_end_read_uvar (ByteOrder rdr) 1 0 rdr Hend ltac:(lia))
      as (r1 & -> & Hend1 & _).
    destruct (at_end_read_ivar (ByteOrder r1) 4 0 r1 Hend1 ltac:(lia))
      as (r2 & -> & Hend2 & _).
    by eexists.
  - intros Hne fuel. unfold read_expansion_fields.
    apply (read_expansion_fields_loop_truncated fields); try done.
Qed.

Lemma read_expansion_fields_never_returns_witness :
  read_expansion_fields 1000
    (new_reader (expansion_field LittleEndian (1, [x07; x08])))
  = OutOfFuel.
Proof.
  refine (proj2 (read_expansion_fields_never_returns
                   (new_reader (expansion_field LittleEndian (1, [x07; x08])))
                   [(1, [x07; x08])] _ _ _) _ 1000%nat).
  - split; [simpl; lia|reflexivity].
  - apply List.Forall_cons; [|apply List.Forall_nil].
    unfold field_fits. cbn [fst snd length]. change (2 ^ 8) with 256.
    change (2 ^ 31) with 2147483648. split; [lia|]. split; [lia|]. left. lia.
  - simpl. lia.
  - intros H. discriminate H.
Defined.

(** ** The strl section cut short *)

Lemma at_end_store_strl ky t body rdr : at_end rdr → at_end (store_strl ky t body rdr).
Proof. unfold store_strl, at_end, at_bytes. by repeat case_match. Qed.

(** With the source exhausted and the marker of the record before still in
    the buffer, the loop goes on for ever. *)
Lemma read_strls_loop_at_end fuel : ∀ v o t len rdr,
  at_end rdr →
  read_strls_loop fuel (Fixture.text "GSO") v o t len rdr = OutOfFuel.
Proof.
  induction fuel as [|fuel IH]; intros v o t len rdr Hend; [done|].
  cbn [read_strls_loop].
  destruct (at_end_ReadBuf 3 (Fixture.text "GSO") rdr Hend ltac:(simpl; lia))
    as (r1 & -> & Hend1 & _).
  change (negb (String.eqb (string_of_list_byte (Fixture.text "GSO")) "GSO")) with false.
  cbv iota.
  destruct (at_end_read_uvar (ByteOrder r1) 4 v r1 Hend1 ltac:(lia))
    as (r2 & -> & Hend2 & _).
  destruct (at_end_read_uvar (ByteOrder r2) 8 o r2 Hend2 ltac:(lia))
    as (r3 & -> & Hend3 & _).
  destruct (at_end_read_uvar (ByteOrder r3) 1 t r3 Hend3 ltac:(lia))
    as (r4 & -> & Hend4 & _).
  destruct (at_end_read_uvar (ByteOrder r4) 4 len r4 Hend4 ltac:(lia))
    as (r5 & -> & Hend5 & _).
  cbv zeta.
  destruct (at_end_ReadBuf (length (replicate (Z.to_nat len) x00))
              (replicate (Z.to_nat len) x00) r5 Hend5 ltac:(lia))
    as (r6 & -> & Hend6 & _).
  apply IH. by apply at_end_store_strl.
Qed.

Lemma gso_bytes_length ord rec :
  length (gso_bytes ord rec) = (20 + length rec.2)%nat.
Proof.
  destruct rec as [[[v o] t] body]. unfold gso_bytes, Fixture.gso_in.
  rewrite !length_app, !enc_length. simpl. lia.
Qed.

Lemma read_strls_loop_truncated records : ∀ fuel buf3 v o t len rdr,
  length buf3 = 3%nat →
  at_bytes rdr (mjoin (gso_bytes (ByteOrder rdr) <$> records)) →
  Forall gso_fits records →
  (records = [] → buf3 = Fixture.text "GSO") →
  pos (reader rdr)
  + Z.of_nat (length (mjoin (gso_bytes (ByteOrder rdr) <$> records))) < 2 ^ 63 →
  read_strls_loop fuel buf3 v o t len rdr = OutOfFuel.
Proof.
  induction records as [|[[[v1 o1] t1] body] records IH];
    intros fuel buf3 v o t len rdr Hb3 Hat Hfit Hlast Hpos.
  - rewrite (Hlast eq_refl). apply read_strls_loop_at_end.
    split; [done|]. simpl in Hpos. lia.
  - destruct fuel as [|fuel]; [done|].
    apply Forall_cons in Hfit as [Hrec Hfit].
    change (mjoin (gso_bytes (ByteOrder rdr) <$> (v1, o1, t1, body) :: records))
      with (Fixture.gso_in (ByteOrder rdr) v1 o1 t1 body
            ++ mjoin (gso_bytes (ByteOrder rdr) <$> records)) in Hat, Hpos.
    rewrite (read_strls_loop_gso _ _ _ _ _ _ _ v1 o1 t1 body _ Hb3 Hat Hrec).
    assert (ByteOrder (skip (20 + length body)
                         (store_strl (strl_key v1 o1) t1 body rdr)) = ByteOrder rdr)
      as Hbo by (unfold store_strl; by repeat case_match).
    assert (pos (reader (skip (20 + length body)
                           (store_strl (strl_key v1 o1) t1 body rdr)))
            = pos (reader rdr) + Z.of_nat (20 + length body)) as Hps
      by (unfold store_strl; by repeat case_match).
    rewrite length_app in Hpos.
    pose proof (gso_bytes_length (ByteOrder rdr) (v1, o1, t1, body)) as Hgl.
    cbn [gso_bytes snd] in Hgl. rewrite Hgl in Hpos.
    apply IH; try done.
    + rewrite Hbo.
      eapply (at_bytes_skip _ (Fixture.gso_in (ByteOrder rdr) v1 o1 t1 body)).
      * apply at_bytes_store_strl. exact Hat.
      * exact Hgl.
    + rewrite Hbo, Hps. lia.
Qed.

(** X12: When the source ends after one or more GSO records of the strl
    section, read_strls never returns: the failed read leaves "GSO" in the
    three-byte buffer, so the loop condition holds for ever. *)
Theorem read_strls_never_returns (rdr : StataReader)
  (records : list (Z * Z * Z * list byte)) :
  records ≠ [] →
  0 ≤ seek_strls rdr + 7 →
  drop (Z.to_nat (seek_strls rdr + 7)) (content (reader rdr))
  = mjoin (gso_bytes (ByteOrder rdr) <$> records) →
  Forall gso_fits records →
  seek_strls rdr + 7
  + Z.of_nat (length (mjoin (gso_bytes (ByteOrder rdr) <$> records))) < 2 ^ 63 →
  ∀ fuel, read_strls fuel rdr = OutOfFuel.
Proof.
  intros Hne Hs Hbs Hfit Hpos fuel.
  destruct (read_strls_start fuel rdr) as [-> _].
  apply (read_strls_loop_truncated records); try done.
  - apply at_bytes_strls_start; [lia|done].
  - unfold strls_start, Seek, Reader_Seek. cbn [reader set_Strls set_StrlsBytes set_reader
      ByteOrder Z.eqb]. rewrite wrap_int_64_small by lia.
    assert ((seek_strls rdr + 7 <? 0) = false) as -> by lia. done.
Qed.

Lemma read_strls_never_returns_witness :
  read_strls 1000
    (set_seek_strls (-7) (new_reader (Fixture.gso 1 1 130 [x61; x00])))
  = OutOfFuel.
Proof.
  refine (read_strls_never_returns
            (set_seek_strls (-7) (new_reader (Fixture.gso 1 1 130 [x61; x00])))
            [(1, 1, 130, [x61; x00])] _ _ _ _ _ 1000%nat).
  - intros H. discriminate H.
  - simpl. lia.
  - reflexivity.
  - apply List.Forall_cons; [|apply List.Forall_nil].
    unfold gso_fits. cbn [length]. change (2 ^ 32) with 4294967296.
    change (2 ^ 64) with 18446744073709551616. change (2 ^ 8) with 256. lia.
  - simpl. lia.
Defined.

(** ** Value labels, read back *)

Lemma skip_0 rdr : skip 0 rdr = rdr.
Proof.
  unfold skip, advance. destruct rdr as [? ? ? ? ? ? ? ? ? ? ? ? ? ? ? ? ? ? ? ? ? ? ? ? ? ? ? ? ? [c p]].
  cbn [reader set_reader content pos Z.of_nat]. by rewrite Z.add_0_r.
Qed.

Lemma read_int32s_list xs ord : ∀ rdr rest,
  ByteOrder rdr = ord →
  at_bytes rdr (mjoin (Fixture.enc ord 4 <$> xs) ++ rest) →
  Forall (λ v, - 2 ^ 31 ≤ v < 2 ^ 31) xs →
  read_int32s (Z.of_nat (length xs)) rdr = Ok (xs, skip (4 * length xs) rdr)
  ∧ at_bytes (skip (4 * length xs) rdr) rest.
Proof.
  intros rdr rest <- Hat Hxs. unfold read_int32s, make.
  assert ((Z.of_nat (length xs) <? 0) = false) as -> by (apply Z.ltb_ge; lia).
  rewrite bind_Ok_l, Nat2Z.id.
  assert (∀ m k l r,
    (k + m = length xs)%nat → l = take k xs ++ replicate m 0 →
    ByteOrder r = ByteOrder rdr →
    at_bytes r (mjoin (Fixture.enc (ByteOrder rdr) 4 <$> drop k xs) ++ rest) →
    for_range m k (λ j '(xs0, rdr0),
        let (x, rdr1) := read_ivar (ByteOrder rdr0) 4 (xs0 !!! j) rdr0 in
        (<[j := x]> xs0, rdr1)) (l, r)
    = (xs, skip (4 * m) r) ∧ at_bytes (skip (4 * m) r) rest) as Hloop.
  { induction m as [|m IH]; intros k l r Hk Hl Hbo Hr.
    - rewrite drop_ge in Hr by lia. rewrite take_ge in Hl by lia. simpl in Hl.
      rewrite app_nil_r in Hl. subst l. cbn [for_range].
      change (4 * 0)%nat with 0%nat. by rewrite skip_0.
    - rewrite for_range_S.
      destruct (lookup_lt_is_Some_2 xs k ltac:(lia)) as [x Hx].
      rewrite (drop_S _ _ _ Hx) in Hr.
      change (mjoin (Fixture.enc (ByteOrder rdr) 4 <$> x :: drop (S k) xs))
        with (Fixture.enc (ByteOrder rdr) 4 x
              ++ mjoin (Fixture.enc (ByteOrder rdr) 4 <$> drop (S k) xs)) in Hr.
      rewrite <- app_assoc in Hr. rewrite <- Hbo in Hr at 1.
      rewrite (at_read_ivar _ _ 4 x _ (l !!! k) ltac:(lia) Hr).
      2:{ change (8 * Z.of_nat 4 - 1) with 31. exact (Forall_lookup_1 _ _ _ _ Hxs Hx). }
      apply at_bytes_skip with (n := 4%nat) in Hr; [|apply enc_length].
      destruct (IH (S k) (<[k := x]> l) (skip 4 r)) as [Hrun Hat']; try done; try lia.
      + subst l. rewrite insert_app_r_alt by (rewrite length_take; lia).
        rewrite length_take. replace (k - k `min` length xs)%nat with 0%nat by lia.
        cbn [replicate]. rewrite (take_S_r _ _ _ Hx), <- app_assoc. done.
      + rewrite Hrun. rewrite skip_skip in *.
        replace (4 + 4 * m)%nat with (4 * S m)%nat in * by lia. done. }
  destruct (Hloop (length xs) 0%nat (replicate (length xs) 0) rdr) as [Hrun Hat'];
    try done.
  by rewrite Hrun.
Qed.

Lemma label_entries_map off val txt :
  length val = length off →
  Forall (λ o, 0 ≤ o ≤ Z.of_nat (length txt)) off →
  label_entries (Z.of_nat (length off)) off val txt
  = Ok (foldl (λ vk '(o, v),
                 <[v := string_of_list_byte (partition (drop (Z.to_nat o) txt))]> vk)
              ∅ (zip off val)).
Proof.
  intros Hlen Hoff. unfold label_entries. rewrite Nat2Z.id.
  assert (∀ m k (vk : gmap Z string),
    (k + m = length off)%nat →
    for_rangeM m k (λ j (vk0 : gmap Z string),
        let o := off !!! j in
        if (o <? 0) || (Z.of_nat (length txt) <? o)
        then Panic "slice bounds out of range"
        else Ok (<[val !!! j := string_of_list_byte (partition (drop (Z.to_nat o) txt))]>
                   vk0)) vk
    = Ok (foldl (λ vk '(o, v),
                   <[v := string_of_list_byte (partition (drop (Z.to_nat o) txt))]> vk)
                vk (zip (drop k off) (drop k val)))) as Hloop.
  { induction m as [|m IH]; intros k vk Hk.
    - rewrite !drop_ge by lia. done.
    - rewrite for_rangeM_S. cbv zeta.
      destruct (lookup_lt_is_Some_2 off k ltac:(lia)) as [o Ho].
      destruct (lookup_lt_is_Some_2 val k ltac:(lia)) as [v Hv].
      rewrite (list_lookup_total_correct _ _ _ Ho), (list_lookup_total_correct _ _ _ Hv).
      pose proof (Forall_lookup_1 _ _ _ _ Hoff Ho) as Hrange. cbv beta in Hrange.
      assert ((o <? 0) || (Z.of_nat (length txt) <? o) = false) as ->.
      { apply orb_false_iff. split; [apply Z.ltb_ge|apply Z.ltb_ge]; lia. }
      rewrite bind_Ok_l, IH by lia.
      by rewrite (drop_S _ _ _ Ho), (drop_S _ _ _ Hv). }
  rewrite Hloop by lia. by rewrite !drop_0.
Qed.

Lemma text_string s : string_of_list_byte (Fixture.text s) = s.
Proof. apply string_of_list_byte_of_string. Qed.

(** The name of a padded field, read back. *)
Lemma partition_padded n s :
  (length (Fixture.text s) ≤ n)%nat → x00 ∉ Fixture.text s →
  string_of_list_byte (partition (Fixture.padded n s)) = s.
Proof.
  intros Hlen Hclean. unfold Fixture.padded.
  rewrite take_app_ge by done. rewrite take_replicate.
  destruct (n - length (Fixture.text s))%nat as [|m] eqn:Hm.
  - replace (0 `min` n)%nat with 0%nat by lia. cbn [replicate].
    rewrite app_nil_r, partition_no_null by done. apply text_string.
  - replace (S m `min` n)%nat with (S (S m `min` n - 1))%nat by lia.
    cbn [replicate]. rewrite partition_app_null by done. apply text_string.
Qed.

Lemma padded_length n s : length (Fixture.padded n s) = n.
Proof.
  unfold Fixture.padded. rewrite length_take, length_app, length_replicate. lia.
Qed.

Lemma lbl_bytes_length ord s :
  length (ls_val s) = length (ls_off s) →
  length (lbl_bytes ord s)
  = (155 + 8 * length (ls_off s) + length (ls_txt s))%nat.
Proof.
  intros Hlen. unfold lbl_bytes.
  rewrite !length_app, padded_length, !enc_length, !length_replicate.
  assert (∀ xs, length (mjoin (Fixture.enc ord 4 <$> xs)) = (4 * length xs)%nat) as Hj.
  { induction xs as [|x xs IH]; [done|].
    change (mjoin (Fixture.enc ord 4 <$> x :: xs))
      with (Fixture.enc ord 4 x ++ mjoin (Fixture.enc ord 4 <$> xs)).
    rewrite length_app, enc_length, IH. simpl. lia. }
  rewrite !Hj, Hlen. simpl. lia.
Qed.

(** One iteration of the loop on a label set. *)
Lemma read_value_labels_loop_set fuel buf n0 tl0 vl rdr s rest :
  (129 ≤ length buf)%nat →
  at_bytes rdr (lbl_bytes (ByteOrder rdr) s ++ rest) → lbl_fits s →
  pos (reader rdr) + Z.of_nat (length (lbl_bytes (ByteOrder rdr) s)) < 2 ^ 63 →
  read_value_labels_loop (S fuel) buf n0 tl0 vl rdr
  = read_value_labels_loop fuel (ls_txt s) (Z.of_nat (length (ls_off s)))
      (Z.of_nat (length (ls_txt s))) (<[ls_name s := lbl_map s]> vl)
      (skip (length (lbl_bytes (ByteOrder rdr) s)) rdr)
  ∧ at_bytes (skip (length (lbl_bytes (ByteOrder rdr) s)) rdr) rest.
Proof.
  intros Hbuf Hat (Hname & Hclean & Hlen & Hn & Htl & Hoff & Hval) Hpos.
  rewrite lbl_bytes_length in * by done.
  pose proof Hat as [Hp0 _].
  unfold lbl_bytes in Hat. rewrite <- !app_assoc in Hat.
  cbn [read_value_labels_loop]. unfold slice_to.
  assert ((5 <? 0) || (Z.of_nat (length buf) <? 5) = false) as ->.
  { apply orb_false_iff. split; [done|apply Z.ltb_ge; lia]. }
  rewrite bind_Ok_l. change (Z.to_nat 5) with 5%nat.
  pose proof (ReadBuf_front buf rdr (Fixture.text "<lbl>") _ (proj2 Hat)
                ltac:(simpl; lia)) as Hread.
  change (length (Fixture.text "<lbl>")) with 5%nat in Hread. rewrite Hread. clear Hread.
  apply at_bytes_skip with (n := 5%nat) in Hat; [|done].
  change (take 5 (Fixture.text "<lbl>" ++ drop 5 buf)) with (Fixture.text "<lbl>").
  change (negb (String.eqb (string_of_list_byte (Fixture.text "<lbl>")) "<lbl>"))
    with false. cbv iota zeta.
  rewrite Seek_forward by (rewrite ?pos_skip; lia).
  apply at_bytes_skip with (n := 4%nat) in Hat; [|apply enc_length].
  change (Z.to_nat 4) with 4%nat.
  rewrite skip_skip in *.
  assert ((129 <? 0) || (Z.of_nat (length (Fixture.text "<lbl>" ++ drop 5 buf)) <? 129)
          = false) as ->.
  { apply orb_false_iff. split; [done|]. apply Z.ltb_ge.
    rewrite length_app, length_drop. simpl. lia. }
  rewrite bind_Ok_l. change (Z.to_nat 129) with 129%nat.
  pose proof (ReadBuf_front (Fixture.text "<lbl>" ++ drop 5 buf) _
                (Fixture.padded 129 (ls_name s)) _ (proj2 Hat)) as Hread.
  rewrite padded_length in Hread. rewrite Hread.
  2:{ rewrite length_app, length_drop. simpl. lia. }
  clear Hread.
  apply at_bytes_skip with (n := 129%nat) in Hat; [|apply padded_length].
  rewrite take_app_length' by (by rewrite padded_length).
  rewrite partition_padded by done.
  rewrite Seek_forward by (rewrite ?pos_skip; lia).
  apply at_bytes_skip with (n := 3%nat) in Hat; [|done]. change (Z.to_nat 3) with 3%nat.
  rewrite !skip_skip in *. rewrite !ByteOrder_skip.
  rewrite (at_read_ivar _ _ 4 (Z.of_nat (length (ls_off s))) _ n0 ltac:(lia) Hat).
  2:{ change (8 * Z.of_nat 4 - 1) with 31. change (2 ^ 31) with 2147483648 in *. lia. }
  apply at_bytes_skip with (n := 4%nat) in Hat; [|apply enc_length].
  rewrite !ByteOrder_skip.
  rewrite (at_read_ivar _ _ 4 (Z.of_nat (length (ls_txt s))) _ tl0 ltac:(lia) Hat).
  2:{ change (8 * Z.of_nat 4 - 1) with 31. change (2 ^ 31) with 2147483648 in *. lia. }
  apply at_bytes_skip with (n := 4%nat) in Hat; [|apply enc_length].
  rewrite !skip_skip in *.
  match type of Hat with
  | at_bytes ?r _ =>
    destruct (read_int32s_list (ls_off s) (ByteOrder rdr) r _ eq_refl Hat) as [-> Hat1]
  end.
  { eapply Forall_impl; [exact Hoff|]. intros o Ho. cbv beta in Ho.
    change (2 ^ 31) with 2147483648 in *. lia. }
  rewrite bind_Ok_l.
  match type of Hat1 with
  | at_bytes ?r _ =>
    destruct (read_int32s_list (ls_val s) (ByteOrder rdr) r _ eq_refl Hat1 Hval)
      as [Hrun Hat2]
  end.
  rewrite Hlen in Hrun, Hat2. rewrite Hrun. clear Hrun.
  rewrite bind_Ok_l. unfold make.
  assert ((Z.of_nat (length (ls_txt s)) <? 0) = false) as -> by (apply Z.ltb_ge; lia).
  rewrite bind_Ok_l, Nat2Z.id.
  rewrite (at_ReadBuf _ (ls_txt s) _ _ Hat2) by apply length_replicate.
  apply at_bytes_skip with (n := length (ls_txt s)) in Hat2; [|done].
  rewrite label_entries_map by done. rewrite bind_Ok_l.
  rewrite !skip_skip in *.
  rewrite Seek_forward by (rewrite ?pos_skip; lia).
  apply at_bytes_skip with (n := 6%nat) in Hat2; [|done]. change (Z.to_nat 6) with 6%nat.
  rewrite !skip_skip in *.
  match goal with
  | |- context [skip ?n rdr] =>
    replace n with (155 + 8 * length (ls_off s) + length (ls_txt s))%nat in * by lia
  end.
  done.
Qed.

Lemma string_of_list_byte_text bs s :
  String.eqb (string_of_list_byte bs) s = true → bs = Fixture.text s.
Proof.
  intros <-%String.eqb_eq. unfold Fixture.text.
  by rewrite list_byte_of_string_of_list_byte.
Qed.

(** The read that leaves the loop: five bytes that are not the marker. *)
Lemma read_value_labels_loop_end fuel buf n0 tl0 vl rdr rest :
  (5 ≤ length buf)%nat → at_bytes rdr rest → (5 ≤ length rest)%nat →
  take 5 rest ≠ Fixture.text "<lbl>" →
  read_value_labels_loop (S fuel) buf n0 tl0 vl rdr = Ok (vl, skip 5 rdr).
Proof.
  intros Hbuf [Hp0 Hat] Hrest Hmark.
  cbn [read_value_labels_loop]. unfold slice_to.
  assert ((5 <? 0) || (Z.of_nat (length buf) <? 5) = false) as ->.
  { apply orb_false_iff. split; [done|apply Z.ltb_ge; lia]. }
  rewrite bind_Ok_l. change (Z.to_nat 5) with 5%nat.
  rewrite <- (take_drop 5 rest) in Hat.
  pose proof (ReadBuf_front buf rdr (take 5 rest) _ Hat) as Hread.
  rewrite length_take in Hread. replace (5 `min` length rest)%nat with 5%nat in Hread by lia.
  rewrite Hread by lia. clear Hread.
  rewrite take_app_length' by (rewrite length_take; lia).
  destruct (String.eqb (string_of_list_byte (take 5 rest)) "<lbl>") eqn:Heq; [|done].
  by apply string_of_list_byte_text in Heq.
Qed.

(** A buffer shorter than the marker cannot be sliced. *)
Lemma read_value_labels_loop_short_marker fuel buf n0 tl0 vl rdr :
  (length buf < 5)%nat →
  read_value_labels_loop (S fuel) buf n0 tl0 vl rdr = Panic "slice bounds out of range".
Proof.
  intros Hbuf. cbn [read_value_labels_loop]. unfold slice_to.
  assert ((5 <? 0) || (Z.of_nat (length buf) <? 5) = true) as ->.
  { apply orb_true_iff. right. apply Z.ltb_lt. lia. }
  apply bind_Panic_l.
Qed.

(** A buffer shorter than a name cannot be sliced once a marker was read. *)
Lemma read_value_labels_loop_short_name fuel buf n0 tl0 vl rdr rest :
  (5 ≤ length buf < 129)%nat → at_bytes rdr rest →
  take 5 rest = Fixture.text "<lbl>" →
  read_value_labels_loop (S fuel) buf n0 tl0 vl rdr = Panic "slice bounds out of range".
Proof.
  intros Hbuf [Hp0 Hat] Hmark.
  cbn [read_value_labels_loop]. unfold slice_to.
  assert ((5 <? 0) || (Z.of_nat (length buf) <? 5) = false) as ->.
  { apply orb_false_iff. split; [done|apply Z.ltb_ge; lia]. }
  rewrite bind_Ok_l. change (Z.to_nat 5) with 5%nat.
  rewrite <- (take_drop 5 rest), Hmark in Hat.
  pose proof (ReadBuf_front buf rdr (Fixture.text "<lbl>") _ Hat ltac:(simpl; lia))
    as Hread.
  change (length (Fixture.text "<lbl>")) with 5%nat in Hread. rewrite Hread. clear Hread.
  change (take 5 (Fixture.text "<lbl>" ++ drop 5 buf)) with (Fixture.text "<lbl>").
  change (negb (String.eqb (string_of_list_byte (Fixture.text "<lbl>")) "<lbl>"))
    with false. cbv iota zeta.
  assert ((129 <? 0) || (Z.of_nat (length (Fixture.text "<lbl>" ++ drop 5 buf)) <? 129)
          = true) as ->.
  { apply orb_true_iff. right. apply Z.ltb_lt.
    rewrite length_app, length_drop. simpl. lia. }
  apply bind_Panic_l.
Qed.

Lemma lbl_sets_cons ord s sets :
  mjoin (lbl_bytes ord <$> s :: sets) = lbl_bytes ord s ++ mjoin (lbl_bytes ord <$> sets).
Proof. done. Qed.

(** The loop over a section of label sets. *)
Lemma read_value_labels_loop_sets sets : ∀ fuel buf n0 tl0 vl rdr rest,
  (5 ≤ length buf)%nat → (sets ≠ [] → (129 ≤ length buf)%nat) →
  at_bytes rdr (mjoin (lbl_bytes (ByteOrder rdr) <$> sets) ++ rest) →
  Forall lbl_fits sets → texts_hold sets →
  (5 ≤ length rest)%nat → take 5 rest ≠ Fixture.text "<lbl>" →
  pos (reader rdr)
  + Z.of_nat (length (mjoin (lbl_bytes (ByteOrder rdr) <$> sets))) + 5 < 2 ^ 63 →
  read_value_labels_loop (length sets + S fuel) buf n0 tl0 vl rdr
  = Ok (lbl_dict sets vl,
        skip (length (mjoin (lbl_bytes (ByteOrder rdr) <$> sets)) + 5) rdr).
Proof.
  induction sets as [|s sets IH];
    intros fuel buf n0 tl0 vl rdr rest Hb5 Hb129 Hat Hfit Hhold Hrest Hmark Hpos.
  - change (mjoin (lbl_bytes (ByteOrder rdr) <$> [])) with (@nil byte) in *.
    cbn [app length Nat.add] in *.
    by apply read_value_labels_loop_end with (rest := rest).
  - apply Forall_cons in Hfit as [Hs Hfit]. destruct Hhold as (Ht5 & Ht129 & Hhold).
    rewrite lbl_sets_cons in *. rewrite <- app_assoc in Hat. rewrite length_app in Hpos.
    change (length (s :: sets) + S fuel)%nat with (S (length sets + S fuel)).
    destruct (read_value_labels_loop_set (length sets + S fuel) buf n0 tl0 vl rdr s _
                (Hb129 ltac:(done)) Hat Hs ltac:(lia)) as [-> Hat'].
    rewrite <- (ByteOrder_skip (length (lbl_bytes (ByteOrder rdr) s)) rdr) in Hat' at 2.
    rewrite (IH fuel _ _ _ _ _ rest Ht5 Ht129 Hat' Hfit Hhold Hrest Hmark).
    + rewrite ByteOrder_skip, skip_skip, length_app. cbn [lbl_dict foldl].
      do 2 f_equal. f_equal. lia.
    + rewrite ByteOrder_skip, pos_skip. lia.
Qed.

Lemma erase_skip n rdr : erase (skip n rdr) = erase rdr.
Proof. done. Qed.

(** The reader at the start of the label sets. *)
Lemma value_labels_start rdr bs :
  0 ≤ seek_value_labels rdr + 14 < 2 ^ 63 →
  drop (Z.to_nat (seek_value_labels rdr + 14)) (content (reader rdr)) = bs →
  at_bytes (Seek (wrap_int 64 (seek_value_labels rdr + 14)) 0 rdr) bs
  ∧ pos (reader (Seek (wrap_int 64 (seek_value_labels rdr + 14)) 0 rdr))
    = seek_value_labels rdr + 14
  ∧ ByteOrder (Seek (wrap_int 64 (seek_value_labels rdr + 14)) 0 rdr) = ByteOrder rdr
  ∧ erase (Seek (wrap_int 64 (seek_value_labels rdr + 14)) 0 rdr) = erase rdr.
Proof.
  intros Hs Hbs. unfold at_bytes, Seek. cbn [reader ByteOrder set_reader].
  rewrite wrap_int_64_small by lia. unfold Reader_Seek, remaining. cbn [Z.eqb].
  assert ((seek_value_labels rdr + 14 <? 0) = false) as -> by lia.
  cbn [pos content]. assert ((seek_value_labels rdr + 14 <? 0) = false) as -> by lia.
  repeat split; try done. lia.
Qed.

(** X14: On a section of well-formed label sets in the byte order of the
    reader, each text block holding at least 5 bytes (129 when another set
    follows), followed by at least five bytes that are not "<lbl>",
    read_value_labels returns after one iteration per set plus one with
    ValueLabels equal to the dictionary of the sets (name to value to the text
    at the offset, later entries replacing earlier ones), changes no other
    field and leaves the reader five bytes after the section. *)
Theorem read_value_labels_round_trip (rdr : StataReader) (sets : list label_set)
  (rest : list byte) (fuel : nat) :
  0 ≤ seek_value_labels rdr + 14 →
  drop (Z.to_nat (seek_value_labels rdr + 14)) (content (reader rdr))
  = mjoin (lbl_bytes (ByteOrder rdr) <$> sets) ++ rest →
  Forall lbl_fits sets → texts_hold sets →
  (5 ≤ length rest)%nat → take 5 rest ≠ Fixture.text "<lbl>" →
  Z.of_nat (length (content (reader rdr))) < 2 ^ 63 →
  ∃ rdr',
    read_value_labels (length sets + S fuel) rdr = Ok rdr'
    ∧ ValueLabels rdr' = lbl_dict sets ∅
    ∧ erase rdr' = set_ValueLabels (lbl_dict sets ∅) (erase rdr)
    ∧ at_bytes rdr' (drop 5 rest).
Proof.
  intros Hs Hbs Hfit Hhold Hrest Hmark Hsize.
  assert (seek_value_labels rdr + 14
          + Z.of_nat (length (mjoin (lbl_bytes (ByteOrder rdr) <$> sets))) + 5 < 2 ^ 63)
    as Hpos.
  { pose proof (f_equal length Hbs) as Hl. rewrite length_drop, length_app in Hl. lia. }
  destruct (value_labels_start rdr _ ltac:(lia) Hbs) as (Hat & Hp & Hbo & Her).
  unfold read_value_labels. cbv zeta.
  set (r0 := Seek (wrap_int 64 (seek_value_labels rdr + 14)) 0 rdr) in *.
  rewrite <- Hbo in Hat, Hpos.
  rewrite (read_value_labels_loop_sets sets fuel _ 0 0 ∅ r0 rest); try done.
  - rewrite bind_Ok_l. eexists. split; [done|]. split; [done|]. split.
    + rewrite <- Her. done.
    + pose proof Hat as [Hp0 _].
      apply at_bytes_skip
        with (n := length (mjoin (lbl_bytes (ByteOrder r0) <$> sets))) in Hat; [|done].
      rewrite <- (take_drop 5 rest) in Hat at 1.
      apply at_bytes_skip with (n := 5%nat) in Hat; [|rewrite length_take; lia].
      rewrite skip_skip in Hat. destruct Hat as [Hq Hat]. split; [exact Hq|exact Hat].
  - rewrite length_replicate. lia.
  - intros _. rewrite length_replicate. lia.
  - lia.
Qed.

(** X13: read_value_labels panics with a slice bound error after a well-formed
    label set whose text block is shorter than 5 bytes, and after one whose
    text block is shorter than 129 bytes when another set follows: the text
    block replaces the buffer into which the next marker and the next name are
    read. *)
Theorem read_value_labels_short_text (rdr : StataReader) (s : label_set)
  (rest : list byte) (fuel : nat) :
  0 ≤ seek_value_labels rdr + 14 →
  drop (Z.to_nat (seek_value_labels rdr + 14)) (content (reader rdr))
  = lbl_bytes (ByteOrder rdr) s ++ rest →
  lbl_fits s →
  Z.of_nat (length (content (reader rdr))) < 2 ^ 63 →
  (length (ls_txt s) < 5)%nat
  ∨ (length (ls_txt s) < 129)%nat ∧ take 5 rest = Fixture.text "<lbl>" →
  read_value_labels (S (S fuel)) rdr = Panic "slice bounds out of range".
Proof.
  intros Hs Hbs Hfit Hsize Hshort.
  assert (seek_value_labels rdr + 14
          + Z.of_nat (length (lbl_bytes (ByteOrder rdr) s)) < 2 ^ 63) as Hpos.
  { pose proof (f_equal length Hbs) as Hl. rewrite length_drop, length_app in Hl.
    rewrite lbl_bytes_length in * by apply Hfit. lia. }
  destruct (value_labels_start rdr _ ltac:(lia) Hbs) as (Hat & Hp & Hbo & Her).
  unfold read_value_labels. cbv zeta.
  set (r0 := Seek (wrap_int 64 (seek_value_labels rdr + 14)) 0 rdr) in *.
  rewrite <- Hbo in Hat, Hpos.
  destruct (read_value_labels_loop_set (S fuel) (replicate 321 x00) 0 0 ∅ r0 s rest)
    as [-> Hat']; try done.
  - rewrite length_replicate. lia.
  - lia.
  - destruct (decide (length (ls_txt s) < 5)%nat) as [Hlt|Hge].
    + by rewrite read_value_labels_loop_short_marker.
    + destruct Hshort as [?|[Hlt Hmark]]; [lia|].
      rewrite (read_value_labels_loop_short_name _ _ _ _ _ _ rest); try done. lia.
Qed.

Ltac no_null :=
  match goal with
  | |- _ ∉ ?l => let l' := eval vm_compute in l in change l with l'
  end;
  rewrite ?not_elem_of_cons; repeat split; try discriminate; apply not_elem_of_nil.

Ltac concrete_fits :=
  unfold lbl_fits; change (2 ^ 31) with 2147483648;
  repeat match goal with |- _ ∧ _ => split end;
  [ simpl; lia | no_null | reflexivity | simpl; lia | simpl; lia
  | repeat (apply List.Forall_cons; [simpl; lia|]); apply List.Forall_nil
  | repeat (apply List.Forall_cons; [simpl; lia|]); apply List.Forall_nil ].

Lemma read_value_labels_short_text_witness :
  read_value_labels 2
    (set_seek_value_labels (-14)
       (new_reader (lbl_bytes LittleEndian yes_set ++ Fixture.text "</value_labels>")))
  = Panic "slice bounds out of range".
Proof.
  apply (read_value_labels_short_text
           (set_seek_value_labels (-14)
              (new_reader (lbl_bytes LittleEndian yes_set
                           ++ Fixture.text "</value_labels>")))
           yes_set (Fixture.text "</value_labels>") 0).
  - simpl. lia.
  - reflexivity.
  - concrete_fits.
  - vm_compute. reflexivity.
  - left. simpl. lia.
Defined.

Lemma read_value_labels_round_trip_witness :
  ∃ rdr',
    read_value_labels 3
      (set_seek_value_labels (-14)
         (new_reader (lbl_bytes LittleEndian long_set ++ Fixture.lbl "lab" [(1, "one"); (2, "two")]
                      ++ Fixture.text "</value_labels>"))) = Ok rdr'
    ∧ ValueLabels rdr'
      = {[ "long" := {[ 1 := "one"; 2 := "two" ]};
           "lab" := {[ 1 := "one"; 2 := "two" ]} ]}.
Proof.
  destruct (read_value_labels_round_trip
           (set_seek_value_labels (-14)
              (new_reader (lbl_bytes LittleEndian long_set
                           ++ Fixture.lbl "lab" [(1, "one"); (2, "two")]
                           ++ Fixture.text "</value_labels>")))
           [long_set; one_two_set] (Fixture.text "</value_labels>") 0)
    as (rdr' & Hrun & Hvl & _).
  - simpl. lia.
  - reflexivity.
  - apply List.Forall_cons; [|apply List.Forall_cons; [|apply List.Forall_nil]];
      concrete_fits.
  - simpl. repeat split; try lia. done.
  - simpl. lia.
  - intros H. discriminate H.
  - vm_compute. reflexivity.
  - exists rdr'. split; [exact Hrun|]. rewrite Hvl. apply map_eq. intros k.
    vm_compute. reflexivity.
Defined.

(** ** Negative counts and sequences of calls *)

Lemma do_convert_dates_in_range_witness :
  do_convert_dates (Int32s [0; 366; -1]) "%td"
  = Ok (Times [time_Date 1960 1 1 0 0 0 0; time_Date 1961 1 1 0 0 0 0;
               time_Date 1959 12 31 0 0 0 0]).
Proof.
  destruct (do_convert_dates_in_range [0; 366; -1] "%td") as [Htd _].
  - repeat (apply List.Forall_cons; [lia|]). apply List.Forall_nil.
  - rewrite Htd.
    + vm_compute. reflexivity.
    + vm_compute. reflexivity.
    + repeat (apply List.Forall_cons; [lia|]). apply List.Forall_nil.
Defined.

(** X15: Read panics with "makeslice: len out of range" whenever the reader
    has at least one variable and fewer rows in RowCount than in rows_read,
    whatever count is asked for; a legacy file whose header gives a negative
    number of observations opens without error and then panics in this way. *)
Theorem Read_negative_count (rows : Z) (rdr : StataReader) :
  0 < Nvar rdr →
  - 2 ^ 63 ≤ RowCount rdr - rows_read rdr < 0 →
  Read NewSeries rows rdr = Panic "makeslice: len out of range".
Proof.
  intros HN Hneg. unfold Read, Read_columns, make.
  assert ((Nvar rdr <? 0) = false) as -> by lia.
  rewrite !bind_Ok_l. cbv zeta.
  assert (Read_nval rows rdr = RowCount rdr - rows_read rdr) as ->.
  { unfold Read_nval. rewrite wrap_int_64_small by lia.
    destruct (Z.leb_spec 0 rows), (Z.ltb_spec rows (RowCount rdr - rows_read rdr));
      simpl; try done; lia. }
  destruct (Z.to_nat (Nvar rdr)) as [|n] eqn:Hn; [lia|].
  rewrite for_rangeM_S.
  assert (alloc_mask (RowCount rdr - rows_read rdr) 0 (replicate (S n) [])
          = Panic "makeslice: len out of range") as ->; [|done].
  unfold alloc_mask, make.
  by assert ((RowCount rdr - rows_read rdr <? 0) = true) as -> by lia.
Qed.

Lemma Read_negative_count_witness :
  NewStataReader 9 negative_count_file = Ok (Fixture.opened negative_count_file)
  ∧ Read NewSeries 5 (Fixture.opened negative_count_file)
    = Panic "makeslice: len out of range".
Proof.
  split; [vm_compute; reflexivity|].
  apply (Read_negative_count 5 (Fixture.opened negative_count_file)).
  - vm_compute. reflexivity.
  - vm_compute. split; [discriminate|reflexivity].
Defined.



(** ** Values of the cells *)

Lemma binary_Read_front o n r bs rest :
  remaining r = bs ++ rest → length bs = n →
  binary_Read o n r = (Some (order_uint o bs), advance n r).
Proof. intros Hr <-. by apply binary_Read_app with rest. Qed.

(** A cell whose bytes are in the source stores the entry they stand for. *)
Lemma Read_cell_value i j data missing buf rdr t c m bs rest :
  VarTypes rdr !! j = Some t → valid_tag t →
  data !! j = Some c → kind_of c = kind_for rdr t → (i < column_len c)%nat →
  missing !! j = Some m → (i < length m)%nat →
  (j < length (ValueLabelNames rdr))%nat →
  at_bytes rdr (bs ++ rest) → length bs = cell_width t →
  (cell_width t ≤ length buf)%nat →
  ∃ c' missing' buf',
    Read_cell i j (mkFrame data missing buf rdr)
    = Ok (mkFrame (<[j := c']> data) missing' buf' (skip (cell_width t) rdr))
    ∧ column_entry c' i = Some (decode_cell rdr j t bs)
    ∧ (∀ i', i' ≠ i → column_entry c' i' = column_entry c i')
    ∧ length buf' = length buf.
Proof.
  intros Ht Hvalid Hj Hkind Hi Hm Him Hname [Hp Hat] Hbs Hbuf.
  destruct (lookup_lt_is_Some_2 _ _ Hname) as [labname Hlab].
  unfold kind_for in Hkind. unfold decode_cell, cell_width in *.
  destruct (Z.leb_spec t 2045) as [Hle|Hgt].
  { destruct c; try discriminate. simpl in Hi.
    rewrite (Read_cell_strf i j data missing buf rdr t l Ht Hle Hj Hi). cbv zeta.
    pose proof (Read_prefix_front bs rest buf (reader rdr) Hat ltac:(lia)) as Hread.
    rewrite Hbs in Hread. rewrite Hread. cbn [fst snd].
    eexists _, _, _. split; [done|].
    rewrite <- Hbs at 1. rewrite take_app_length.
    cbn [column_entry]. rewrite list_lookup_insert_eq by done.
    split; [done|]. split.
    - intros i' Hne. by rewrite list_lookup_insert_ne.
    - rewrite length_app, length_drop. lia. }
  assert (t = 32768 ∨ t = 65526 ∨ t = 65527 ∨ t = 65528 ∨ t = 65529 ∨ t = 65530)
    as Hcases by (unfold valid_tag in Hvalid; lia).
  destruct Hcases as [->|[->|[->|[->|[->| ->]]]]]; simpl in Hkind, Hbs |- *.
  - destruct (InsertStrls rdr) eqn:Hins; destruct c; try discriminate; simpl in Hi.
    + rewrite (Read_cell_strl_text i j data missing buf rdr l Ht Hins Hj Hi).
      rewrite (binary_Read_front _ _ _ bs rest Hat Hbs). cbn [fst snd default].
      eexists _, _, _. split; [done|].
      cbn [column_entry]. rewrite list_lookup_insert_eq by done.
      split; [done|]. split; [|done].
      intros i' Hne. by rewrite list_lookup_insert_ne.
    + rewrite (Read_cell_strl_key i j data missing buf rdr l Ht Hins Hj Hi).
      rewrite (binary_Read_front _ _ _ bs rest Hat Hbs). cbn [fst snd default].
      eexists _, _, _. split; [done|].
      cbn [column_entry]. rewrite list_lookup_insert_eq by done.
      split; [done|]. split; [|done].
      intros i' Hne. by rewrite list_lookup_insert_ne.
  - destruct c; try discriminate; simpl in Hi.
    rewrite (Read_cell_float64 i j data missing buf rdr m Hm Him l Ht Hj Hi). cbv zeta.
    rewrite (binary_Read_front _ _ _ bs rest Hat Hbs). cbn [fst snd default].
    eexists _, _, _. split; [done|].
    cbn [column_entry]. rewrite list_lookup_insert_eq by done.
    split; [done|]. split; [|done].
    intros i' Hne. by rewrite list_lookup_insert_ne.
  - destruct c; try discriminate; simpl in Hi.
    rewrite (Read_cell_float32 i j data missing buf rdr m Hm Him l Ht Hj Hi). cbv zeta.
    rewrite (binary_Read_front _ _ _ bs rest Hat Hbs). cbn [fst snd default].
    eexists _, _, _. split; [done|].
    cbn [column_entry]. rewrite list_lookup_insert_eq by done.
    split; [done|]. split; [|done].
    intros i' Hne. by rewrite list_lookup_insert_ne.
  - destruct c; try discriminate; simpl in Hi.
    rewrite (Read_cell_int32 i j data missing buf rdr m Hm Him l Ht Hj Hi). cbv zeta.
    rewrite (binary_Read_front _ _ _ bs rest Hat Hbs).
    cbn [fst snd default fmap option_fmap option_map].
    eexists _, _, _. split; [done|].
    cbn [column_entry]. rewrite list_lookup_insert_eq by done.
    split; [done|]. split; [|done].
    intros i' Hne. by rewrite list_lookup_insert_ne.
  - destruct c; try discriminate; simpl in Hi.
    rewrite (Read_cell_int16 i j data missing buf rdr m Hm Him l Ht Hj Hi). cbv zeta.
    rewrite (binary_Read_front _ _ _ bs rest Hat Hbs).
    cbn [fst snd default fmap option_fmap option_map].
    eexists _, _, _. split; [done|].
    cbn [column_entry]. rewrite list_lookup_insert_eq by done.
    split; [done|]. split; [|done].
    intros i' Hne. by rewrite list_lookup_insert_ne.
  - destruct (InsertCategoryLabels rdr) eqn:Hins; destruct c; try discriminate;
      simpl in Hi.
    + rewrite (Read_cell_category i j data missing buf rdr m Hm Him l labname
                 Ht Hins Hlab Hj Hi). cbv zeta.
      rewrite (binary_Read_front _ _ _ bs rest Hat Hbs).
      cbn [fst snd default fmap option_fmap option_map].
      eexists _, _, _. split; [done|].
      cbn [column_entry]. rewrite list_lookup_insert_eq by done.
      rewrite (list_lookup_total_correct _ _ _ Hlab).
      split; [done|]. split; [|done].
      intros i' Hne. by rewrite list_lookup_insert_ne.
    + rewrite (Read_cell_int8 i j data missing buf rdr m Hm Him l Ht Hins Hj Hi). cbv zeta.
      rewrite (binary_Read_front _ _ _ bs rest Hat Hbs).
      cbn [fst snd default fmap option_fmap option_map].
      eexists _, _, _. split; [done|].
      cbn [column_entry]. rewrite list_lookup_insert_eq by done.
      split; [done|]. split; [|done].
      intros i' Hne. by rewrite list_lookup_insert_ne.
Qed.

Lemma row_width_take_S types j t :
  types !! j = Some t →
  row_width (take (S j) types) = (row_width (take j types) + cell_width t)%nat.
Proof.
  intros Ht. unfold row_width. rewrite (take_S_r _ _ _ Ht), sum_list_with_app.
  simpl. lia.
Qed.

Lemma row_width_take_le types j : (row_width (take j types) ≤ row_width types)%nat.
Proof.
  unfold row_width. rewrite <- (take_drop j types) at 2.
  rewrite sum_list_with_app. lia.
Qed.

Lemma cell_width_le t : valid_tag t → (cell_width t ≤ 2045)%nat.
Proof. unfold valid_tag, cell_width. intros Ht. repeat case_match; lia. Qed.

Lemma decode_cell_static a b j t bs :
  static a b → decode_cell b j t bs = decode_cell a j t bs.
Proof.
  intros H.
  apply (static_field (λ r, decode_cell r j t bs) a b (λ _, eq_refl) H).
Qed.

Lemma Vals_cell rdr0 src N i j fr :
  Forall valid_tag (VarTypes rdr0) →
  length (ValueLabelNames rdr0) = length (VarTypes rdr0) →
  (N * row_width (VarTypes rdr0) ≤ length src)%nat →
  Inv rdr0 N i j fr → Vals rdr0 src i j fr →
  (i < N)%nat → (j < length (VarTypes rdr0))%nat →
  ∃ fr', Read_cell i j fr = Ok fr' ∧ Inv rdr0 N i (S j) fr' ∧ Vals rdr0 src i (S j) fr'
         ∧ rows_read (fr_rdr fr') = rows_read (fr_rdr fr).
Proof.
  intros Htags Hnames Hsrc Hinv [Hat Hbuf Hdone] Hi Hj.
  destruct (Inv_cell rdr0 N i j fr Htags Hnames Hinv Hi Hj) as (fr' & Hrun & Hinv' & Hrr).
  exists fr'. split; [done|]. split; [done|]. split; [|done].
  destruct Hinv as [Hst Hld Hlm Hcols Hmasks Hflags].
  destruct fr as [data missing buf rdr]. cbn [fr_data fr_missing fr_rdr fr_buf] in *.
  use_static Hst.
  destruct (lookup_lt_is_Some_2 (VarTypes rdr0) j Hj) as [t Ht].
  destruct (Hcols j t Ht) as (c & Hc & Hkind & Hclen).
  destruct (lookup_lt_is_Some_2 missing j ltac:(lia)) as [m Hm].
  pose proof (Hmasks j m Hm) as Hmlen.
  pose proof (Forall_lookup_1 _ _ _ _ Htags Ht) as Hvalid.
  pose proof (row_width_take_S _ _ _ Ht) as HS.
  pose proof (row_width_take_le (VarTypes rdr0) (S j)) as Hle.
  set (off := (i * row_width (VarTypes rdr0) + row_width (take j (VarTypes rdr0)))%nat)
    in *.
  assert (off + cell_width t ≤ length src)%nat as Hroom by (unfold off; nia).
  rewrite <- (take_drop (cell_width t) (drop off src)) in Hat.
  destruct (Read_cell_value i j data missing buf rdr t c m
              (take (cell_width t) (drop off src)) (drop (cell_width t) (drop off src))
              ltac:(congruence) Hvalid Hc)
    as (c' & missing' & buf' & Hrun' & Hval & Hother & Hbuf');
    try done || lia || congruence.
  { rewrite Hkind. symmetry. by apply kind_for_static. }
  { rewrite length_take, length_drop. lia. }
  { pose proof (cell_width_le t Hvalid). lia. }
  rewrite Hrun' in Hrun. injection Hrun as <-.
  constructor; cbn [fr_data fr_missing fr_rdr fr_buf].
  - apply at_bytes_skip with (n := cell_width t) in Hat.
    + rewrite drop_drop in Hat. rewrite HS.
      replace (i * row_width (VarTypes rdr0)
               + (row_width (take j (VarTypes rdr0)) + cell_width t))%nat
        with (off + cell_width t)%nat by (unfold off; lia). done.
    + rewrite length_take, length_drop. lia.
  - congruence.
  - intros j' i' c0 t0 Hc0 Ht0 Hbefore.
    destruct (decide (j' = j)) as [->|Hne].
    + rewrite list_lookup_insert_eq in Hc0 by lia. injection Hc0 as <-.
      assert (t0 = t) as -> by congruence.
      destruct (decide (i' = i)) as [->|Hnei].
      * rewrite Hval. f_equal. rewrite (decode_cell_static rdr0 rdr) by done.
        f_equal. unfold cell_bytes. by rewrite (list_lookup_total_correct _ _ _ Ht).
      * rewrite (Hother i' Hnei). apply (Hdone j i' c t Hc Ht).
        unfold done_before in *. lia.
    + rewrite list_lookup_insert_ne in Hc0 by done. apply (Hdone j' i' c0 t0 Hc0 Ht0).
      unfold done_before in *. lia.
Qed.

Lemma Vals_row rdr0 src N i fr :
  Forall valid_tag (VarTypes rdr0) →
  length (ValueLabelNames rdr0) = length (VarTypes rdr0) →
  (N * row_width (VarTypes rdr0) ≤ length src)%nat →
  Inv rdr0 N i 0 fr → Vals rdr0 src i 0 fr → (i < N)%nat →
  ∃ fr', for_rangeM (length (VarTypes rdr0)) 0 (Read_cell i) fr = Ok fr'
         ∧ Inv rdr0 N (S i) 0 fr' ∧ Vals rdr0 src (S i) 0 fr'
         ∧ rows_read (fr_rdr fr') = rows_read (fr_rdr fr).
Proof.
  intros Htags Hnames Hsrc Hinv Hvals Hi.
  destruct (Inv_row rdr0 N i fr Htags Hnames Hinv Hi) as (fr0 & Hrun0 & Hinv0 & Hrr0).
  destruct (for_rangeM_ok
    (λ j fr', Inv rdr0 N i j fr' ∧ Vals rdr0 src i j fr')
    (Read_cell i) (length (VarTypes rdr0)) 0%nat fr) as (fr' & Hrun & Hinv' & Hvals').
  - done.
  - intros j fr1 Hj [Hinv1 Hvals1].
    destruct (Vals_cell rdr0 src N i j fr1 Htags Hnames Hsrc Hinv1 Hvals1 Hi ltac:(lia))
      as (fr2 & Hrun2 & Hinv2 & Hvals2 & _).
    exists fr2. done.
  - rewrite Hrun in Hrun0. injection Hrun0 as <-.
    exists fr'. split; [done|]. split; [done|]. split; [|done].
    destruct Hvals' as [Hat Hbuf Hdone]. cbn [Nat.add] in *.
    constructor; try done.
    + rewrite take_ge in Hat by lia. rewrite take_0.
      change (row_width []) with 0%nat.
      replace (S i * row_width (VarTypes rdr0) + 0)%nat
        with (i * row_width (VarTypes rdr0) + row_width (VarTypes rdr0))%nat by lia.
      done.
    + intros j' i' c t Hc Ht Hbefore. apply (Hdone j' i' c t Hc Ht).
      apply lookup_lt_Some in Ht. unfold done_before in *. lia.
Qed.

Lemma Read_rows_values rdr0 src N n : ∀ i fr,
  Forall valid_tag (VarTypes rdr0) →
  length (ValueLabelNames rdr0) = length (VarTypes rdr0) →
  length (VarTypes rdr0) = Z.to_nat (Nvar rdr0) →
  RowCount rdr0 < 2 ^ 63 →
  (N * row_width (VarTypes rdr0) ≤ length src)%nat →
  Inv rdr0 N i 0 fr → Vals rdr0 src i 0 fr → (i + n ≤ N)%nat →
  0 ≤ rows_read (fr_rdr fr) → rows_read (fr_rdr fr) + Z.of_nat n ≤ RowCount rdr0 →
  ∃ fr', Read_rows n i fr = Ok fr' ∧ Inv rdr0 N (i + n) 0 fr'
         ∧ Vals rdr0 src (i + n) 0 fr'
         ∧ rows_read (fr_rdr fr') = rows_read (fr_rdr fr) + Z.of_nat n.
Proof.
  induction n as [|n IH]; intros i fr Htags Hnames Hlen Hcount Hsrc Hinv Hvals Hin Hr0 Hr.
  - exists fr. simpl. rewrite Nat.add_0_r, Z.add_0_r. done.
  - destruct fr as [data missing buf rdr]. cbn [fr_rdr] in *.
    pose proof (inv_static _ _ _ _ _ Hinv) as Hst. cbn [fr_rdr] in Hst.
    use_static Hst.
    cbn [Read_rows fr_rdr fr_data fr_missing fr_buf].
    change (RowCount (set_rows_read ?x rdr)) with (RowCount rdr).
    change (Nvar (set_rows_read ?x rdr)) with (Nvar rdr).
    change (rows_read (set_rows_read ?x rdr)) with x.
    rewrite wrap_int_64_small by lia.
    assert ((RowCount rdr <? rows_read rdr + 1) = false) as -> by lia.
    replace (Z.to_nat (Nvar rdr)) with (length (VarTypes rdr0)) by congruence.
    destruct (Vals_row rdr0 src N i
                (mkFrame data missing buf (set_rows_read (rows_read rdr + 1) rdr)))
      as (fr1 & Hrun1 & Hinv1 & Hvals1 & Hrr1); try done || lia.
    { destruct Hinv. constructor; done. }
    { destruct Hvals. constructor; done. }
    rewrite Hrun1, bind_Ok_l. cbn [fr_rdr] in Hrr1.
    change (rows_read (set_rows_read ?x rdr)) with x in Hrr1.
    destruct (IH (S i) fr1) as (fr' & Hrun & Hinv' & Hvals' & Hrr); try done || lia.
    exists fr'. split; [done|]. replace (i + S n)%nat with (S i + n)%nat by lia.
    split; [done|]. split; [done|]. lia.
Qed.

Lemma for_rangeM_inv {St} (P : nat → St → Prop) (body : nat → St → result St) n :
  ∀ k s s',
  P k s →
  (∀ k' s1 s2, (k ≤ k' < k + n)%nat → P k' s1 → body k' s1 = Ok s2 → P (S k') s2) →
  for_rangeM n k body s = Ok s' → P (k + n)%nat s'.
Proof.
  induction n as [|n IH]; intros k s s' HP Hbody.
  - intros <-%Ok_inj. by rewrite Nat.add_0_r.
  - rewrite for_rangeM_S. intros (s1 & Hs1 & Hrest)%bind_Ok.
    replace (k + S n)%nat with (S k + n)%nat by lia.
    apply (IH (S k) s1 s'); [|intros k' ????; apply (Hbody k'); try done; lia|done].
    apply (Hbody k s s1); [lia|done|done].
Qed.

(** The date pass leaves the other columns alone and replaces a date column
    by its conversion. *)
Lemma date_pass_columns rdr (data data' : list column) :
  for_rangeM (length data) 0 (convert_column rdr) data = Ok data' →
  length data' = length data
  ∧ ∀ j c, data !! j = Some c →
      (is_date rdr !! j = Some false → data' !! j = Some c)
      ∧ (is_date rdr !! j = Some true →
         ∃ f c', Formats rdr !! j = Some f ∧ do_convert_dates c f = Ok c'
                 ∧ data' !! j = Some c').
Proof.
  intros Hrun.
  pose proof (for_rangeM_inv
    (λ k (d : list column),
       length d = length data
       ∧ (∀ j, (k ≤ j)%nat → d !! j = data !! j)
       ∧ ∀ j c, (j < k)%nat → data !! j = Some c →
           (is_date rdr !! j = Some false → d !! j = Some c)
           ∧ (is_date rdr !! j = Some true →
              ∃ f c', Formats rdr !! j = Some f ∧ do_convert_dates c f = Ok c'
                      ∧ d !! j = Some c'))
    (convert_column rdr) (length data) 0%nat data data') as Hinv.
  destruct Hinv as (Hlen & _ & Hall).
  - split; [done|]. split; [done|]. intros j c Hj. lia.
  - intros k d d' Hk (Hl & Hrest & Hdone) Hstep. unfold convert_column in Hstep.
    destruct (is_date rdr !! k) as [[|]|] eqn:Hdate; [| |done].
    + rewrite (Hrest k ltac:(lia)) in Hstep.
      destruct (data !! k) as [v|] eqn:Hv; [|done].
      destruct (Formats rdr !! k) as [f|] eqn:Hf; [|done].
      apply bind_Ok in Hstep as (v' & Hconv & <-%Ok_inj).
      rewrite length_insert. split; [done|]. split.
      * intros j Hj. rewrite list_lookup_insert_ne by lia. apply Hrest. lia.
      * intros j c Hj Hc. destruct (decide (j = k)) as [->|Hne].
        -- rewrite list_lookup_insert_eq by lia.
           assert (c = v) as -> by congruence. split; [congruence|].
           intros _. by exists f, v'.
        -- rewrite list_lookup_insert_ne by done. apply Hdone; [lia|done].
    + apply Ok_inj in Hstep as <-. split; [done|]. split.
      * intros j Hj. apply Hrest. lia.
      * intros j c Hj Hc. destruct (decide (j = k)) as [->|Hne].
        -- split; [|congruence]. intros _. rewrite Hrest by lia. done.
        -- apply Hdone; [lia|done].
  - done.
  - split; [done|]. intros j c Hc. apply Hall; [|done]. by apply lookup_lt_Some in Hc.
Qed.

Lemma Read_columns_values rows rdr src :
  ready rdr →
  at_bytes (data_start rdr) src →
  (Z.to_nat (rows_due rows rdr) * row_width (VarTypes rdr) ≤ length src)%nat →
  ∃ data missing rdr',
    Read_columns rows rdr = Ok (data, missing, rdr')
    ∧ at_bytes rdr' (drop (Z.to_nat (rows_due rows rdr) * row_width (VarTypes rdr)) src)
    ∧ ∀ j c t, data !! j = Some c → VarTypes rdr !! j = Some t →
        ∃ raw, raw_of rdr j raw c
          ∧ ∀ i, (i < Z.to_nat (rows_due rows rdr))%nat →
              column_entry raw i
              = Some (decode_cell rdr j t (cell_bytes (VarTypes rdr) src i j)).
Proof.
  intros Hready Hsrc Hroom.
  pose proof Hready as [HN Hty Htags Hnames Hlabels Hdates Hcur Hcnt Hdc].
  destruct (Read_nval_due rows rdr Hcur Hcnt) as [Hnval [Hdue0 Hdue]].
  unfold rows_left in Hdue.
  set (N := Z.to_nat (rows_due rows rdr)) in *.
  unfold Read_columns, make. assert ((Nvar rdr <? 0) = false) as -> by lia.
  rewrite !bind_Ok_l. cbv zeta. rewrite Hnval.
  rewrite alloc_mask_loop by (rewrite ?length_replicate; lia).
  rewrite bind_Ok_l. rewrite take_0, app_nil_l. fold N.
  destruct (alloc_data_loop rdr (rows_due rows rdr) Hdue0 Htags
              (replicate (Z.to_nat (Nvar rdr)) NilColumn))
    as (data0 & Halloc & Hlen0 & Hcols0).
  { rewrite length_replicate. lia. }
  rewrite Halloc, bind_Ok_l. fold (data_start rdr).
  assert (static rdr (data_start rdr)) as Hst1
    by (unfold data_start; by destruct (117 <=? _)).
  assert (rows_read (data_start rdr) = rows_read rdr) as Hrr1
    by (unfold data_start; by destruct (117 <=? _)).
  destruct (Read_rows_values rdr src N N 0
              (mkFrame data0 (replicate (Z.to_nat (Nvar rdr)) (replicate N false))
                 (replicate 2045 x00) (data_start rdr)))
    as (fr & Hrows & Hinv & Hvals & Hrr); cbn [fr_rdr]; try done || lia.
  { constructor; cbn [fr_data fr_missing fr_rdr]; try done.
    - rewrite length_replicate. lia.
    - intros j t Ht. destruct (Hcols0 j t Ht) as (c & ? & ? & ? & _). by exists c.
    - intros j m [-> _]%lookup_replicate. apply length_replicate.
    - intros j i c m _ [-> _]%lookup_replicate Hi. unfold done_before.
      split; [lia|]. intros _. by apply lookup_replicate_2. }
  { constructor; cbn [fr_data fr_rdr fr_buf].
    - by rewrite take_0.
    - apply length_replicate.
    - intros j' i' c t _ _ Hbefore. unfold done_before in Hbefore. lia. }
  rewrite Hrows, bind_Ok_l. cbv zeta.
  destruct Hinv as [Hst Hld Hlm Hcols Hmasks Hflags].
  destruct Hvals as [Hat Hbuf Hdone]. cbn [Nat.add] in Hat, Hdone.
  rewrite take_0 in Hat. change (row_width []) with 0%nat in Hat.
  rewrite Nat.add_0_r in Hat.
  pose proof (static_field ConvertDates _ _ (λ _, eq_refl) Hst) as HCD.
  pose proof (static_field is_date _ _ (λ _, eq_refl) Hst) as Hisd.
  pose proof (static_field Formats _ _ (λ _, eq_refl) Hst) as Hfmt.
  assert (∀ j c t, fr_data fr !! j = Some c → VarTypes rdr !! j = Some t →
            ∀ i, (i < N)%nat →
              column_entry c i
              = Some (decode_cell rdr j t (cell_bytes (VarTypes rdr) src i j))) as Hraw.
  { intros j c t Hc Ht i Hi. apply (Hdone j i c t Hc Ht). unfold done_before. lia. }
  unfold raw_of.
  destruct (ConvertDates (fr_rdr fr)) eqn:Hconv.
  - destruct (date_pass_ok (fr_rdr fr) N (fr_data fr) (fr_missing fr))
      as (data' & Hpass & Hl' & _); try done.
    { rewrite Hisd. lia. }
    { intros j Hj. rewrite Hisd in Hj.
      destruct (Hdc (eq_sym HCD) j Hj) as [Ht Hf]. rewrite Hfmt. split; [|done].
      destruct (Hcols j _ Ht) as (c & Hc & Hk & _).
      destruct c; try discriminate. by eexists. }
    { intros j c Hc. destruct (lookup_lt_is_Some_2 (VarTypes rdr) j) as [t Ht].
      { apply lookup_lt_Some in Hc. lia. }
      destruct (Hcols j t Ht) as (c' & Hc' & _ & Hl). congruence. }
    { intros j i c m b Hc Hm Hb.
      assert (i < N)%nat as Hi.
      { destruct (lookup_lt_is_Some_2 (VarTypes rdr) j) as [t Ht].
        { apply lookup_lt_Some in Hc. lia. }
        destruct (Hcols j t Ht) as (c' & Hc' & _ & Hl).
        assert (c' = c) as -> by congruence. rewrite <- Hl.
        destruct c; try discriminate; simpl in Hb |- *;
          apply fmap_Some in Hb as (x & Hx & _); by apply lookup_lt_Some in Hx. }
      destruct (Hflags j i c m Hc Hm Hi) as [Hd _]. apply Hd; [|done].
      unfold done_before. lia. }
    rewrite Hpass, bind_Ok_l.
    destruct (date_pass_columns _ _ _ Hpass) as [_ Hcolumns].
    eexists _, _, _. split; [done|]. split; [done|].
    intros j c t Hc Ht. rewrite <- HCD. cbn [andb].
    destruct (lookup_lt_is_Some_2 (fr_data fr) j) as [raw Hrawj].
    { apply lookup_lt_Some in Ht. lia. }
    exists raw. split; [|by apply (Hraw j raw t)].
    destruct (Hcolumns j raw Hrawj) as [Hsame Hdate]. rewrite Hisd in Hsame, Hdate.
    destruct (lookup_lt_is_Some_2 (is_date rdr) j) as [[|] Hd].
    { apply lookup_lt_Some in Ht. lia. }
    + rewrite Hd. cbn [default]. destruct (Hdate Hd) as (f & c' & Hf & Hcv & Hc').
      exists f. rewrite <- Hfmt. split; [done|]. congruence.
    + rewrite Hd. cbn [default]. specialize (Hsame Hd). congruence.
  - rewrite bind_Ok_l.
    eexists _, _, _. split; [done|]. split; [done|].
    intros j c t Hc Ht. rewrite <- HCD. cbn [andb].
    exists c. split; [done|]. by apply (Hraw j c t).
Qed.

Lemma Read_values_ready rows rdr src :
  ready rdr →
  at_bytes (data_start rdr) src →
  (Z.to_nat (rows_due rows rdr) * row_width (VarTypes rdr) ≤ length src)%nat →
  ∃ rdata rdr',
    Read NewSeries rows rdr = Ok (rdata, rdr')
    ∧ ready rdr' ∧ static rdr rdr'
    ∧ rows_read rdr' = rows_read rdr + rows_due rows rdr
    ∧ at_bytes rdr' (drop (Z.to_nat (rows_due rows rdr) * row_width (VarTypes rdr)) src)
    ∧ ∀ j s t, rdata !! j = Some s → VarTypes rdr !! j = Some t →
        ∃ raw, raw_of rdr j raw (Data s)
          ∧ ∀ i, (i < Z.to_nat (rows_due rows rdr))%nat →
              column_entry raw i
              = Some (decode_cell rdr j t (cell_bytes (VarTypes rdr) src i j)).
Proof.
  intros Hready Hsrc Hroom.
  destruct (Read_columns_values rows rdr src Hready Hsrc Hroom)
    as (data & missing & rdr1 & Hcols & Hat & Hvals).
  destruct (Read_ok rows rdr Hready) as (rdata & rdr' & Hrun & Hready' & Hst & Hrr & _).
  exists rdata, rdr'. split; [done|].
  unfold Read in Hrun. rewrite Hcols, bind_Ok_l in Hrun. cbv beta iota in Hrun.
  apply bind_Ok in Hrun as (rd & Hloop & [= -> ->]%Ok_inj).
  do 4 (split; [done|]).
  pose proof (for_rangeM_inv
    (λ k (rd : list Series),
       length rd = k ∧ ∀ j s, rd !! j = Some s → data !! j = Some (Data s))
    (to_series NewSeries rdr' data missing) (length data) 0%nat [] rdata) as Hinv.
  destruct Hinv as [_ Hser]; [done| |done|].
  - intros k r1 r2 Hk [Hl Hs] Hstep. unfold to_series, NewSeries in Hstep.
    destruct (data !! k) as [v|] eqn:Hv; [|done].
    destruct (column_names rdr' !! k) as [name|]; [|done].
    destruct (missing !! k) as [m|]; [|done].
    rewrite bind_Ok_l in Hstep. apply Ok_inj in Hstep as <-.
    rewrite length_app. simpl. split; [lia|].
    intros j s. destruct (decide (j < k)%nat) as [Hlt|Hge].
    + rewrite lookup_app_l by lia. apply Hs.
    + intros Hj. assert (j = k) as ->.
      { apply lookup_lt_Some in Hj. rewrite length_app in Hj. simpl in Hj. lia. }
      rewrite lookup_app_r in Hj by lia. rewrite Hl, Nat.sub_diag in Hj.
      by injection Hj as <-.
  - intros j s t Hs Ht. apply (Hvals j (Data s) t); [|done]. by apply Hser.
Qed.

(** X17: When the rows due are all in the source, Read returns their values:
    entry i of column j is decoded from the bytes of cell (i, j) of the row
    layout (widths: the type code for a fixed string, 8 for a strl, 8, 4, 4,
    2, 1 for double, float, long, int, byte), as the text before the first
    null byte, the strl text of the key, the bit pattern of a float, the two's
    complement integer, or the label of a byte value (its decimal digits when
    it has none); a date column is the do_convert_dates image of the raw int32
    column. The reader is left just after those rows. *)
Theorem Read_values (rows : Z) (rdr : StataReader) (src : list byte) :
  ready rdr →
  at_bytes (data_start rdr) src →
  (Z.to_nat (rows_due rows rdr) * row_width (VarTypes rdr) ≤ length src)%nat →
  ∃ rdata rdr',
    Read NewSeries rows rdr = Ok (rdata, rdr')
    ∧ at_bytes rdr' (drop (Z.to_nat (rows_due rows rdr) * row_width (VarTypes rdr)) src)
    ∧ ∀ j s t, rdata !! j = Some s → VarTypes rdr !! j = Some t →
        ∃ raw, raw_of rdr j raw (Data s)
          ∧ ∀ i, (i < Z.to_nat (rows_due rows rdr))%nat →
              column_entry raw i
              = Some (decode_cell rdr j t (cell_bytes (VarTypes rdr) src i j)).
Proof.
  intros Hready Hsrc Hroom.
  destruct (Read_values_ready rows rdr src Hready Hsrc Hroom)
    as (rdata & rdr' & Hrun & _ & _ & _ & Hat & Hvals).
  by exists rdata, rdr'.
Qed.

Lemma ready_labelled_118 : ready (Fixture.opened labelled_118).
Proof.
  constructor; try (vm_compute; done).
  - set (l := VarTypes _). vm_compute in l. subst l.
    repeat (apply List.Forall_cons; [unfold valid_tag; lia|]). apply List.Forall_nil.
  - intros _ j. set (l := is_date _). vm_compute in l. subst l.
    by destruct j as [|[|[|[|j]]]].
Qed.

Lemma Read_values_witness :
  ∃ rdata rdr',
    Read NewSeries (-1) (Fixture.opened labelled_118) = Ok (rdata, rdr')
    ∧ ∀ s, rdata !! 2%nat = Some s →
        ∃ raw, raw_of (Fixture.opened labelled_118) 2 raw (Data s)
          ∧ column_entry raw 0 = Some (Number 32740)
          ∧ column_entry raw 1 = Some (Number (-32768)).
Proof.
  destruct (Read_values (-1) (Fixture.opened labelled_118)
              (remaining (reader (data_start (Fixture.opened labelled_118))))
              ready_labelled_118)
    as (rdata & rdr' & Hrun & _ & Hvals).
  - split; [vm_compute; discriminate|reflexivity].
  - vm_compute. lia.
  - exists rdata, rdr'. split; [exact Hrun|]. intros s Hs.
    destruct (Hvals 2%nat s 65529 Hs eq_refl) as (raw & Hraw & Hentries).
    exists raw. split; [exact Hraw|]. split.
    + rewrite (Hentries 0%nat); [vm_compute; reflexivity|vm_compute; lia].
    + rewrite (Hentries 1%nat); [vm_compute; reflexivity|vm_compute; lia].
Defined.

Lemma raw_of_static a b j raw c : static a b → raw_of b j raw c → raw_of a j raw c.
Proof.
  intros Hst. unfold raw_of.
  rewrite (static_field ConvertDates _ _ (λ _, eq_refl) Hst).
  rewrite (static_field is_date _ _ (λ _, eq_refl) Hst).
  by rewrite (static_field Formats _ _ (λ _, eq_refl) Hst).
Qed.

Lemma cell_bytes_drop types src n i j :
  cell_bytes types (drop (n * row_width types) src) i j
  = cell_bytes types src (n + i) j.
Proof. unfold cell_bytes. rewrite drop_drop. do 2 f_equal. lia. Qed.

(** X18: On a legacy file two successive calls of Read return consecutive
    rows: the second call decodes the rows that start where the first one
    stopped. *)
Theorem Read_legacy_consecutive (rows1 rows2 : Z) (rdr : StataReader)
  (src : list byte) :
  ready rdr → FormatVersion rdr < 117 →
  at_bytes rdr src →
  (Z.to_nat (rows_left rdr) * row_width (VarTypes rdr) ≤ length src)%nat →
  ∃ rdata1 rdr1 rdata2 rdr2,
    Read NewSeries rows1 rdr = Ok (rdata1, rdr1)
    ∧ Read NewSeries rows2 rdr1 = Ok (rdata2, rdr2)
    ∧ rows_read rdr1 = rows_read rdr + rows_due rows1 rdr
    ∧ ∀ j s t, rdata2 !! j = Some s → VarTypes rdr !! j = Some t →
        ∃ raw, raw_of rdr j raw (Data s)
          ∧ ∀ i,
              Z.of_nat i
              < rows_due rows2 (set_rows_read (rows_read rdr + rows_due rows1 rdr) rdr) →
              column_entry raw i
              = Some (decode_cell rdr j t
                        (cell_bytes (VarTypes rdr) src
                           (Z.to_nat (rows_due rows1 rdr) + i) j)).
Proof.
  intros Hready Hold Hsrc Hroom.
  pose proof (Read_nval_due rows1 rdr (ready_cursor _ Hready) (ready_count _ Hready))
    as [_ [Hdue0 Hdue]].
  assert (data_start rdr = rdr) as Hstart.
  { unfold data_start. by assert ((117 <=? FormatVersion rdr) = false) as -> by lia. }
  destruct (Read_values_ready rows1 rdr src Hready)
    as (rdata1 & rdr1 & Hrun1 & Hready1 & Hst & Hrr & Hat1 & _).
  { by rewrite Hstart. }
  { nia. }
  pose proof (static_field VarTypes _ _ (λ _, eq_refl) Hst) as HVT.
  pose proof (static_field FormatVersion _ _ (λ _, eq_refl) Hst) as HFV.
  pose proof (static_field RowCount _ _ (λ _, eq_refl) Hst) as HRC.
  pose proof (Read_nval_due rows2 rdr1 (ready_cursor _ Hready1) (ready_count _ Hready1))
    as [_ [Hdue0' Hdue']].
  unfold rows_left in *.
  assert (data_start rdr1 = rdr1) as Hstart1.
  { unfold data_start. by assert ((117 <=? FormatVersion rdr1) = false) as -> by lia. }
  destruct (Read_values_ready rows2 rdr1
              (drop (Z.to_nat (rows_due rows1 rdr) * row_width (VarTypes rdr)) src)
              Hready1)
    as (rdata2 & rdr2 & Hrun2 & _ & _ & _ & _ & Hvals).
  { by rewrite Hstart1. }
  { rewrite length_drop, HVT. nia. }
  exists rdata1, rdr1, rdata2, rdr2. split; [done|]. split; [done|]. split; [done|].
  intros j s t Hs Ht. rewrite <- HVT in Ht.
  destruct (Hvals j s t Hs Ht) as (raw & Hraw & Hentries).
  exists raw. split; [by eapply raw_of_static|].
  intros i Hi.
  assert (rows_due rows2 (set_rows_read (rows_read rdr + rows_due rows1 rdr) rdr)
          = rows_due rows2 rdr1) as Hsame.
  { unfold rows_due, rows_left. cbn [RowCount rows_read set_rows_read].
    by rewrite HRC, Hrr. }
  rewrite Hsame in Hi.
  rewrite (Hentries i ltac:(lia)), HVT, cell_bytes_drop.
  by rewrite (decode_cell_static rdr rdr1).
Qed.

Lemma Read_legacy_consecutive_witness :
  ∃ rdata1 rdr1 rdata2 rdr2,
    Read NewSeries 3 (Fixture.opened Fixture.ten_115) = Ok (rdata1, rdr1)
    ∧ Read NewSeries 4 rdr1 = Ok (rdata2, rdr2)
    ∧ ∀ s, rdata2 !! 0%nat = Some s →
        ∃ raw, raw_of (Fixture.opened Fixture.ten_115) 0 raw (Data s)
          ∧ column_entry raw 0 = Some (Text "3")
          ∧ column_entry raw 3 = Some (Text "6").
Proof.
  destruct (Read_legacy_consecutive 3 4 (Fixture.opened Fixture.ten_115)
              Fixture.ten_rows ready_ten_115)
    as (rdata1 & rdr1 & rdata2 & rdr2 & Hrun1 & Hrun2 & _ & Hvals).
  - vm_compute. reflexivity.
  - split; [vm_compute; discriminate|reflexivity].
  - vm_compute. lia.
  - exists rdata1, rdr1, rdata2, rdr2. split; [exact Hrun1|]. split; [exact Hrun2|].
    intros s Hs. destruct (Hvals 0%nat s 65530 Hs eq_refl) as (raw & Hraw & Hentries).
    exists raw. split; [exact Hraw|]. split.
    + rewrite (Hentries 0%nat); vm_compute; reflexivity.
    + rewrite (Hentries 3%nat); vm_compute; reflexivity.
Defined.

(** ** Masks of the cells *)

(** A read of [n] bytes leaves the reader [n] bytes further, or at the end
    of the source. *)
Lemma at_bytes_binary_Read o n rdr rem :
  at_bytes rdr rem →
  at_bytes (set_reader (binary_Read o n (reader rdr)).2 rdr) (drop n rem).
Proof.
  intros [Hp Hr]. unfold binary_Read. split; cbn [snd reader set_reader].
  - cbn [advance pos]. lia.
  - rewrite remaining_advance, Hr, length_take by done.
    destruct (decide (n ≤ length rem)%nat).
    + by replace (n `min` length rem)%nat with n by lia.
    + replace (n `min` length rem)%nat with (length rem) by lia.
      by rewrite !drop_ge by lia.
Qed.

Lemma at_bytes_Read_prefix n buf rdr rem :
  at_bytes rdr rem → (n ≤ length buf)%nat →
  at_bytes (set_reader (Read_prefix n buf (reader rdr)).2 rdr) (drop n rem).
Proof.
  intros [Hp Hr] Hn. unfold Read_prefix, Reader_Read.
  split; cbn [snd reader set_reader].
  - cbn [advance pos]. lia.
  - rewrite remaining_advance, Hr, !length_take by done.
    replace (n `min` length buf)%nat with n by lia.
    destruct (decide (n ≤ length rem)%nat).
    + by replace (n `min` length rem)%nat with n by lia.
    + replace (n `min` length rem)%nat with (length rem) by lia.
      by rewrite !drop_ge by lia.
Qed.

(** What a read of [n] bytes assigns. *)
Lemma binary_Read_value o n r :
  (binary_Read o n r).1
  = if decide (length (take n (remaining r)) = n)
    then Some (order_uint o (take n (remaining r))) else None.
Proof. reflexivity. Qed.

Ltac short_cell :=
  case_decide; cbn [default from_option id fmap option_fmap option_map];
  repeat match goal with
  | |- context [float_missing ?c (SF64 0)] =>
    replace (float_missing c (SF64 0)) with false by (vm_compute; reflexivity)
  | |- context [float_missing ?c (SF32 0)] =>
    replace (float_missing c (SF32 0)) with false by (vm_compute; reflexivity)
  end;
  (eexists _, _, _; split; [reflexivity|split; [by apply at_bytes_binary_Read|done]]).

(** A cell raises the flag of the rule on the bytes that the source holds
    for it, and leaves the reader after them. *)
Lemma Read_cell_mask i j data missing buf rdr t c m rem :
  VarTypes rdr !! j = Some t → valid_tag t →
  data !! j = Some c → kind_of c = kind_for rdr t → (i < column_len c)%nat →
  missing !! j = Some m → (i < length m)%nat →
  (j < length (ValueLabelNames rdr))%nat →
  at_bytes rdr rem → (cell_width t ≤ length buf)%nat →
  ∃ data' buf' rdr',
    Read_cell i j (mkFrame data missing buf rdr)
    = Ok (mkFrame data'
            (if cell_missing (ByteOrder rdr) t (take (cell_width t) rem)
             then <[j := <[i := true]> m]> missing else missing)
            buf' rdr')
    ∧ at_bytes rdr' (drop (cell_width t) rem)
    ∧ length buf' = length buf.
Proof.
  intros Ht Hvalid Hj Hkind Hi Hm Him Hname Hat Hbuf.
  destruct (lookup_lt_is_Some_2 _ _ Hname) as [labname Hlab].
  unfold kind_for in Hkind.
  destruct (Z.leb_spec t 2045) as [Hle|Hgt].
  { destruct c; try discriminate. simpl in Hi.
    rewrite (Read_cell_strf i j data missing buf rdr t l Ht Hle Hj Hi). cbv zeta.
    assert (cell_missing (ByteOrder rdr) t (take (cell_width t) rem) = false) as ->.
    { unfold cell_missing. case_decide; [|done].
      assert ((t =? 65526) = false) as -> by lia.
      assert ((t =? 65527) = false) as -> by lia.
      assert ((t =? 65528) = false) as -> by lia.
      assert ((t =? 65529) = false) as -> by lia.
      assert ((t =? 65530) = false) as -> by lia. done. }
    assert (cell_width t = Z.to_nat t) as Hw
      by (unfold cell_width; by assert ((t <=? 2045) = true) as -> by lia).
    rewrite Hw in *.
    eexists _, _, _. split; [done|]. split.
    - by apply at_bytes_Read_prefix.
    - apply Read_prefix_length. }
  assert (t = 32768 ∨ t = 65526 ∨ t = 65527 ∨ t = 65528 ∨ t = 65529 ∨ t = 65530)
    as Hcases by (unfold valid_tag in Hvalid; lia).
  pose proof Hat as [_ Hrem].
  destruct Hcases as [->|[->|[->|[->|[->| ->]]]]]; simpl in Hkind;
    unfold cell_missing;
    [change (cell_width 32768) with 8%nat|change (cell_width 65526) with 8%nat
    |change (cell_width 65527) with 4%nat|change (cell_width 65528) with 4%nat
    |change (cell_width 65529) with 2%nat|change (cell_width 65530) with 1%nat];
    cbn [Z.eqb Pos.eqb].
  - assert ((if decide (length (take 8 rem) = 8%nat) then false else false) = false)
      as -> by (by case_decide).
    destruct (InsertStrls rdr) eqn:Hins; destruct c; try discriminate; simpl in Hi.
    + rewrite (Read_cell_strl_text i j data missing buf rdr l Ht Hins Hj Hi).
      eexists _, _, _. split; [done|]. split; [by apply at_bytes_binary_Read|done].
    + rewrite (Read_cell_strl_key i j data missing buf rdr l Ht Hins Hj Hi).
      eexists _, _, _. split; [done|]. split; [by apply at_bytes_binary_Read|done].
  - destruct c; try discriminate; simpl in Hi.
    rewrite (Read_cell_float64 i j data missing buf rdr m Hm Him l Ht Hj Hi). cbv zeta.
    rewrite binary_Read_value, Hrem.
    short_cell.
  - destruct c; try discriminate; simpl in Hi.
    rewrite (Read_cell_float32 i j data missing buf rdr m Hm Him l Ht Hj Hi). cbv zeta.
    rewrite binary_Read_value, Hrem.
    short_cell.
  - destruct c; try discriminate; simpl in Hi.
    rewrite (Read_cell_int32 i j data missing buf rdr m Hm Him l Ht Hj Hi). cbv zeta.
    rewrite binary_Read_value, Hrem.
    short_cell.
  - destruct c; try discriminate; simpl in Hi.
    rewrite (Read_cell_int16 i j data missing buf rdr m Hm Him l Ht Hj Hi). cbv zeta.
    rewrite binary_Read_value, Hrem.
    short_cell.
  - destruct (InsertCategoryLabels rdr) eqn:Hins; destruct c; try discriminate;
      simpl in Hi.
    + rewrite (Read_cell_category i j data missing buf rdr m Hm Him l labname
                 Ht Hins Hlab Hj Hi). cbv zeta.
      rewrite binary_Read_value, Hrem.
      short_cell.
    + rewrite (Read_cell_int8 i j data missing buf rdr m Hm Him l Ht Hins Hj Hi). cbv zeta.
      rewrite binary_Read_value, Hrem.
      short_cell.
Qed.

Lemma Masks_cell rdr0 src N i j fr :
  Forall valid_tag (VarTypes rdr0) →
  length (ValueLabelNames rdr0) = length (VarTypes rdr0) →
  Inv rdr0 N i j fr → Masks rdr0 src i j fr →
  (i < N)%nat → (j < length (VarTypes rdr0))%nat →
  ∃ fr', Read_cell i j fr = Ok fr' ∧ Inv rdr0 N i (S j) fr'
         ∧ Masks rdr0 src i (S j) fr'
         ∧ rows_read (fr_rdr fr') = rows_read (fr_rdr fr).
Proof.
  intros Htags Hnames Hinv [Hat Hbuf Hmsk] Hi Hj.
  destruct (Inv_cell rdr0 N i j fr Htags Hnames Hinv Hi Hj) as (fr' & Hrun & Hinv' & Hrr).
  exists fr'. split; [done|]. split; [done|]. split; [|done].
  destruct Hinv as [Hst Hld Hlm Hcols Hmasks Hflags].
  destruct fr as [data missing buf rdr]. cbn [fr_data fr_missing fr_rdr fr_buf] in *.
  use_static Hst.
  pose proof (static_field ByteOrder _ _ (λ _, eq_refl) Hst) as Hord.
  destruct (lookup_lt_is_Some_2 (VarTypes rdr0) j Hj) as [t Ht].
  destruct (Hcols j t Ht) as (c & Hc & Hkind & Hclen).
  destruct (lookup_lt_is_Some_2 missing j ltac:(lia)) as [m Hm].
  pose proof (Hmasks j m Hm) as Hmlen.
  pose proof (Forall_lookup_1 _ _ _ _ Htags Ht) as Hvalid.
  pose proof (row_width_take_S _ _ _ Ht) as HS.
  set (off := (i * row_width (VarTypes rdr0) + row_width (take j (VarTypes rdr0)))%nat)
    in *.
  destruct (Read_cell_mask i j data missing buf rdr t c m (drop off src)
              ltac:(congruence) Hvalid Hc)
    as (data' & buf' & rdr' & Hrun' & Hat' & Hbuf'); try done || lia || congruence.
  { rewrite Hkind. symmetry. by apply kind_for_static. }
  { pose proof (cell_width_le t Hvalid). lia. }
  rewrite Hrun' in Hrun. injection Hrun as <-. clear Hrun'.
  assert (cell_bytes (VarTypes rdr0) src i j = take (cell_width t) (drop off src))
    as Hcell by (unfold cell_bytes; by rewrite (list_lookup_total_correct _ _ _ Ht)).
  rewrite <- Hcell, Hord.
  set (b := cell_missing (ByteOrder rdr0) t (cell_bytes (VarTypes rdr0) src i j)).
  constructor; cbn [fr_data fr_missing fr_rdr fr_buf].
  - rewrite drop_drop in Hat'. rewrite HS.
    replace (i * row_width (VarTypes rdr0)
             + (row_width (take j (VarTypes rdr0)) + cell_width t))%nat
      with (off + cell_width t)%nat by (unfold off; lia). done.
  - congruence.
  - intros j' i' m0 t0 Hm0 Ht0 Hbefore.
    destruct (decide (j' = j ∧ i' = i)) as [[-> ->]|Hne].
    + assert (t0 = t) as -> by congruence. fold b.
      destruct b eqn:Hb.
      * rewrite list_lookup_insert_eq in Hm0 by lia. injection Hm0 as <-.
        apply list_lookup_insert_eq. lia.
      * assert (m0 = m) as -> by congruence.
        destruct (Hflags j i c m Hc Hm ltac:(lia)) as [_ Htodo].
        apply Htodo. unfold done_before. lia.
    + assert (∃ m1, missing !! j' = Some m1 ∧ m0 !! i' = m1 !! i') as (m1 & Hm1 & ->).
      { destruct b; [|by exists m0].
        destruct (decide (j' = j)) as [->|Hnj].
        - rewrite list_lookup_insert_eq in Hm0 by lia. injection Hm0 as <-.
          exists m. split; [done|]. apply list_lookup_insert_ne. intros ->. tauto.
        - rewrite list_lookup_insert_ne in Hm0 by done. by exists m0. }
      apply (Hmsk j' i' m1 t0 Hm1 Ht0). unfold done_before in *. lia.
Qed.

Lemma Masks_row rdr0 src N i fr :
  Forall valid_tag (VarTypes rdr0) →
  length (ValueLabelNames rdr0) = length (VarTypes rdr0) →
  Inv rdr0 N i 0 fr → Masks rdr0 src i 0 fr → (i < N)%nat →
  ∃ fr', for_rangeM (length (VarTypes rdr0)) 0 (Read_cell i) fr = Ok fr'
         ∧ Inv rdr0 N (S i) 0 fr' ∧ Masks rdr0 src (S i) 0 fr'
         ∧ rows_read (fr_rdr fr') = rows_read (fr_rdr fr).
Proof.
  intros Htags Hnames Hinv Hmsk Hi.
  destruct (Inv_row rdr0 N i fr Htags Hnames Hinv Hi) as (fr0 & Hrun0 & Hinv0 & Hrr0).
  destruct (for_rangeM_ok
    (λ j fr', Inv rdr0 N i j fr' ∧ Masks rdr0 src i j fr')
    (Read_cell i) (length (VarTypes rdr0)) 0%nat fr) as (fr' & Hrun & _ & Hmsk').
  - done.
  - intros j fr1 Hj (Hinv1 & Hmsk1).
    destruct (Masks_cell rdr0 src N i j fr1 Htags Hnames Hinv1 Hmsk1 Hi ltac:(lia))
      as (fr2 & Hrun2 & Hinv2 & Hmsk2 & _).
    exists fr2. done.
  - rewrite Hrun in Hrun0. injection Hrun0 as <-.
    exists fr'. do 2 (split; [done|]). split; [|done].
    destruct Hmsk' as [Hat Hbuf Hdone]. cbn [Nat.add] in *.
    constructor; try done.
    + rewrite take_ge in Hat by lia. rewrite take_0.
      change (row_width []) with 0%nat.
      replace (S i * row_width (VarTypes rdr0) + 0)%nat
        with (i * row_width (VarTypes rdr0) + row_width (VarTypes rdr0))%nat by lia.
      done.
    + intros j' i' m t Hm Ht Hbefore. apply (Hdone j' i' m t Hm Ht).
      apply lookup_lt_Some in Ht. unfold done_before in *. lia.
Qed.

Lemma Read_rows_masks rdr0 src N n : ∀ i fr,
  Forall valid_tag (VarTypes rdr0) →
  length (ValueLabelNames rdr0) = length (VarTypes rdr0) →
  length (VarTypes rdr0) = Z.to_nat (Nvar rdr0) →
  RowCount rdr0 < 2 ^ 63 →
  Inv rdr0 N i 0 fr → Masks rdr0 src i 0 fr →
  (i + n ≤ N)%nat →
  0 ≤ rows_read (fr_rdr fr) → rows_read (fr_rdr fr) + Z.of_nat n ≤ RowCount rdr0 →
  ∃ fr', Read_rows n i fr = Ok fr' ∧ Inv rdr0 N (i + n) 0 fr'
         ∧ Masks rdr0 src (i + n) 0 fr'
         ∧ rows_read (fr_rdr fr') = rows_read (fr_rdr fr) + Z.of_nat n.
Proof.
  induction n as [|n IH];
    intros i fr Htags Hnames Hlen Hcount Hinv Hmsk Hin Hr0 Hr.
  - exists fr. simpl. rewrite Nat.add_0_r, Z.add_0_r. done.
  - destruct fr as [data missing buf rdr]. cbn [fr_rdr] in *.
    pose proof (inv_static _ _ _ _ _ Hinv) as Hst. cbn [fr_rdr] in Hst.
    use_static Hst.
    cbn [Read_rows fr_rdr fr_data fr_missing fr_buf].
    change (RowCount (set_rows_read ?x rdr)) with (RowCount rdr).
    change (Nvar (set_rows_read ?x rdr)) with (Nvar rdr).
    change (rows_read (set_rows_read ?x rdr)) with x.
    rewrite wrap_int_64_small by lia.
    assert ((RowCount rdr <? rows_read rdr + 1) = false) as -> by lia.
    replace (Z.to_nat (Nvar rdr)) with (length (VarTypes rdr0)) by congruence.
    destruct (Masks_row rdr0 src N i
                (mkFrame data missing buf (set_rows_read (rows_read rdr + 1) rdr)))
      as (fr1 & Hrun1 & Hinv1 & Hmsk1 & Hrr1); try done || lia.
    { destruct Hinv. constructor; done. }
    { destruct Hmsk. constructor; done. }
    rewrite Hrun1, bind_Ok_l. cbn [fr_rdr] in Hrr1.
    change (rows_read (set_rows_read ?x rdr)) with x in Hrr1.
    destruct (IH (S i) fr1) as (fr' & Hrun & Hinv' & Hmsk' & Hrr);
      try done || lia.
    exists fr'. split; [done|]. replace (i + S n)%nat with (S i + n)%nat by lia.
    do 2 (split; [done|]). lia.
Qed.

Lemma Read_columns_masks rows rdr src :
  ready rdr →
  at_bytes (data_start rdr) src →
  ∃ data missing rdr',
    Read_columns rows rdr = Ok (data, missing, rdr')
    ∧ ∀ j m t i, missing !! j = Some m → VarTypes rdr !! j = Some t →
        (i < Z.to_nat (rows_due rows rdr))%nat →
        m !! i
        = Some (cell_missing (ByteOrder rdr) t (cell_bytes (VarTypes rdr) src i j)).
Proof.
  intros Hready Hsrc.
  pose proof Hready as [HN Hty Htags Hnames Hlabels Hdates Hcur Hcnt Hdc].
  destruct (Read_nval_due rows rdr Hcur Hcnt) as [Hnval [Hdue0 Hdue]].
  unfold rows_left in Hdue.
  set (N := Z.to_nat (rows_due rows rdr)) in *.
  unfold Read_columns, make. assert ((Nvar rdr <? 0) = false) as -> by lia.
  rewrite !bind_Ok_l. cbv zeta. rewrite Hnval.
  rewrite alloc_mask_loop by (rewrite ?length_replicate; lia).
  rewrite bind_Ok_l. rewrite take_0, app_nil_l. fold N.
  destruct (alloc_data_loop rdr (rows_due rows rdr) Hdue0 Htags
              (replicate (Z.to_nat (Nvar rdr)) NilColumn))
    as (data0 & Halloc & Hlen0 & Hcols0).
  { rewrite length_replicate. lia. }
  rewrite Halloc, bind_Ok_l. fold (data_start rdr).
  assert (static rdr (data_start rdr)) as Hst1
    by (unfold data_start; by destruct (117 <=? _)).
  assert (rows_read (data_start rdr) = rows_read rdr) as Hrr1
    by (unfold data_start; by destruct (117 <=? _)).
  destruct (Read_rows_masks rdr src N N 0
              (mkFrame data0 (replicate (Z.to_nat (Nvar rdr)) (replicate N false))
                 (replicate 2045 x00) (data_start rdr)))
    as (fr & Hrows & Hinv & Hmsk & Hrr); cbn [fr_rdr]; try done || lia.
  { constructor; cbn [fr_data fr_missing fr_rdr]; try done.
    - rewrite length_replicate. lia.
    - intros j t Ht. destruct (Hcols0 j t Ht) as (c & ? & ? & ? & _). by exists c.
    - intros j m [-> _]%lookup_replicate. apply length_replicate.
    - intros j i c m _ [-> _]%lookup_replicate Hi. unfold done_before.
      split; [lia|]. intros _. by apply lookup_replicate_2. }
  { constructor; cbn [fr_missing fr_rdr fr_buf].
    - by rewrite take_0.
    - apply length_replicate.
    - intros j' i' m t _ _ Hbefore. unfold done_before in Hbefore. lia. }
  rewrite Hrows, bind_Ok_l. cbv zeta.
  destruct Hinv as [Hst Hld Hlm Hcols Hmasks Hflags].
  destruct Hmsk as [_ _ Hmsk]. cbn [Nat.add] in Hmsk.
  pose proof (static_field ConvertDates _ _ (λ _, eq_refl) Hst) as HCD.
  pose proof (static_field is_date _ _ (λ _, eq_refl) Hst) as Hisd.
  pose proof (static_field Formats _ _ (λ _, eq_refl) Hst) as Hfmt.
  assert (∀ j m t i, fr_missing fr !! j = Some m → VarTypes rdr !! j = Some t →
            (i < N)%nat →
            m !! i
            = Some (cell_missing (ByteOrder rdr) t (cell_bytes (VarTypes rdr) src i j)))
    as Hall.
  { intros j m t i Hm Ht Hi. apply (Hmsk j i m t Hm Ht). unfold done_before. lia. }
  destruct (ConvertDates (fr_rdr fr)) eqn:Hconv.
  - destruct (date_pass_ok (fr_rdr fr) N (fr_data fr) (fr_missing fr))
      as (data' & Hpass & _); try done.
    { rewrite Hisd. lia. }
    { intros j Hj. rewrite Hisd in Hj.
      destruct (Hdc (eq_sym HCD) j Hj) as [Ht Hf]. rewrite Hfmt. split; [|done].
      destruct (Hcols j _ Ht) as (c & Hc & Hk & _).
      destruct c; try discriminate. by eexists. }
    { intros j c Hc. destruct (lookup_lt_is_Some_2 (VarTypes rdr) j) as [t Ht].
      { apply lookup_lt_Some in Hc. lia. }
      destruct (Hcols j t Ht) as (c' & Hc' & _ & Hl). congruence. }
    { intros j i c m b Hc Hm Hb.
      assert (i < N)%nat as Hi.
      { destruct (lookup_lt_is_Some_2 (VarTypes rdr) j) as [t Ht].
        { apply lookup_lt_Some in Hc. lia. }
        destruct (Hcols j t Ht) as (c' & Hc' & _ & Hl).
        assert (c' = c) as -> by congruence. rewrite <- Hl.
        destruct c; try discriminate; simpl in Hb |- *;
          apply fmap_Some in Hb as (x & Hx & _); by apply lookup_lt_Some in Hx. }
      destruct (Hflags j i c m Hc Hm Hi) as [Hd _]. apply Hd; [|done].
      unfold done_before. lia. }
    rewrite Hpass, bind_Ok_l. by eexists _, _, _.
  - rewrite bind_Ok_l. by eexists _, _, _.
Qed.

(** The masks that Read returns, whatever the source holds. *)
Lemma Read_masks_ready rows rdr src :
  ready rdr →
  at_bytes (data_start rdr) src →
  ∃ rdata rdr',
    Read NewSeries rows rdr = Ok (rdata, rdr')
    ∧ ∀ j s t i, rdata !! j = Some s → VarTypes rdr !! j = Some t →
        (i < Z.to_nat (rows_due rows rdr))%nat →
        Missing s !! i
        = Some (cell_missing (ByteOrder rdr) t (cell_bytes (VarTypes rdr) src i j)).
Proof.
  intros Hready Hsrc.
  destruct (Read_columns_masks rows rdr src Hready Hsrc)
    as (data & missing & rdr1 & Hcols & Hmasks).
  destruct (Read_ok rows rdr Hready) as (rdata & rdr' & Hrun & _).
  exists rdata, rdr'. split; [done|].
  unfold Read in Hrun. rewrite Hcols, bind_Ok_l in Hrun. cbv beta iota in Hrun.
  apply bind_Ok in Hrun as (rd & Hloop & [= -> ->]%Ok_inj).
  pose proof (for_rangeM_inv
    (λ k (rd : list Series),
       length rd = k ∧ ∀ j s, rd !! j = Some s → missing !! j = Some (Missing s))
    (to_series NewSeries rdr' data missing) (length data) 0%nat [] rdata) as Hinv.
  destruct Hinv as [_ Hser]; [done| |done|].
  - intros k r1 r2 Hk [Hl Hs] Hstep. unfold to_series, NewSeries in Hstep.
    destruct (data !! k) as [v|] eqn:Hv; [|done].
    destruct (column_names rdr' !! k) as [name|]; [|done].
    destruct (missing !! k) as [m|] eqn:Hmk; [|done].
    rewrite bind_Ok_l in Hstep. apply Ok_inj in Hstep as <-.
    rewrite length_app. simpl. split; [lia|].
    intros j s. destruct (decide (j < k)%nat) as [Hlt|Hge].
    + rewrite lookup_app_l by lia. apply Hs.
    + intros Hj. assert (j = k) as ->.
      { apply lookup_lt_Some in Hj. rewrite length_app in Hj. simpl in Hj. lia. }
      rewrite lookup_app_r in Hj by lia. rewrite Hl, Nat.sub_diag in Hj.
      by injection Hj as <-.
  - intros j s t i Hs Ht Hi. apply (Hmasks j (Missing s) t i); [|done|done].
    by apply Hser.
Qed.

Lemma ready_int8_boundary : ready (Fixture.opened int8_boundary_file).
Proof.
  constructor; try (vm_compute; done).
  - set (l := VarTypes _). vm_compute in l. subst l.
    repeat (apply List.Forall_cons; [unfold valid_tag; lia|]). apply List.Forall_nil.
  - intros _ j. set (l := is_date _). vm_compute in l. subst l.
    by destruct j as [|[|j]].
Qed.

(** C3, amended: in what Read returns on a ready reader, the mask entry of
    every value of an int16 column is set exactly when the value is greater
    than 32740 or less than -32767, so that 32741 is flagged and 32740 and
    32739 are not; likewise with 2147483620 and -2147483647 for int32, with
    100 and -127 for int8, and with the strict comparisons against 8.988e307
    and 1.701e38 and their negations for float64 and float32.  Whatever the
    source holds from the first row on, the mask entry of every cell is that
    rule on the value that the bytes of the cell stand for, whatever the
    column is returned as (the labels of a byte column, the dates of an int32
    column); the entry of a text cell is clear, and so is the entry of a cell
    that the end of the source cuts short. *)
Theorem Read_missing_rule (rows : Z) (rdr : StataReader) :
  ready rdr →
  ∃ rdata rdr',
    Read NewSeries rows rdr = Ok (rdata, rdr')
    ∧ (∀ s i x, s ∈ rdata →
        (∀ l, Data s = Int16s l → l !! i = Some x →
           Missing s !! i = Some (bool_decide (32740 < x ∨ x < -32767)))
        ∧ (∀ l, Data s = Int32s l → l !! i = Some x →
             Missing s !! i = Some (bool_decide (2147483620 < x ∨ x < -2147483647)))
        ∧ (∀ l, Data s = Int8s l → l !! i = Some x →
             Missing s !! i = Some (bool_decide (100 < x ∨ x < -127)))
        ∧ (∀ l, Data s = Float64s l → l !! i = Some x →
             Missing s !! i
             = Some (SFltb f64_8_988e307 (SF64 x)
                     || SFltb (SF64 x) (SFopp f64_8_988e307)))
        ∧ (∀ l, Data s = Float32s l → l !! i = Some x →
             Missing s !! i
             = Some (SFltb f32_1_701e38 (SF32 x)
                     || SFltb (SF32 x) (SFopp f32_1_701e38))))
    ∧ (∀ src,
         at_bytes (data_start rdr) src →
         ∀ j s t i, rdata !! j = Some s → VarTypes rdr !! j = Some t →
           (i < Z.to_nat (rows_due rows rdr))%nat →
           let bs := cell_bytes (VarTypes rdr) src i j in
           let u := order_uint (ByteOrder rdr) bs in
           (length bs = cell_width t →
            (t = 65529 →
             Missing s !! i
             = Some (bool_decide (32740 < wrap_int 16 u ∨ wrap_int 16 u < -32767)))
            ∧ (t = 65528 →
               Missing s !! i
               = Some (bool_decide (2147483620 < wrap_int 32 u
                                    ∨ wrap_int 32 u < -2147483647)))
            ∧ (t = 65530 →
               Missing s !! i
               = Some (bool_decide (100 < wrap_int 8 u ∨ wrap_int 8 u < -127)))
            ∧ (t = 65526 →
               Missing s !! i
               = Some (SFltb f64_8_988e307 (SF64 u)
                       || SFltb (SF64 u) (SFopp f64_8_988e307)))
            ∧ (t = 65527 →
               Missing s !! i
               = Some (SFltb f32_1_701e38 (SF32 u)
                       || SFltb (SF32 u) (SFopp f32_1_701e38)))
            ∧ (t ≤ 2045 ∨ t = 32768 → Missing s !! i = Some false))
           ∧ (length bs ≠ cell_width t → Missing s !! i = Some false)).
Proof.
  intros Hready.
  destruct (Read_ok rows rdr Hready)
    as (rdata & rdr' & Hrun & _ & _ & _ & _ & _ & Hser).
  exists rdata, rdr'. split; [done|]. split.
  - intros s i x Hs. destruct (Hser s Hs) as (_ & _ & Hflag).
    repeat split; intros l Hl Hx; apply Hflag; rewrite Hl; cbn [cell_flag];
      rewrite Hx; cbn [fmap option_fmap option_map];
      by rewrite <- ?int16_missing_iff, <- ?int32_missing_iff, <- ?int8_missing_iff.
  - intros src Hsrc j s t i Hs Ht Hi bs u.
    destruct (Read_masks_ready rows rdr src Hready Hsrc)
      as (rdata2 & rdr2 & Hrun2 & Hmasks).
    rewrite Hrun in Hrun2. injection Hrun2 as <- <-.
    rewrite (Hmasks j s t i Hs Ht Hi). fold bs. unfold cell_missing. fold u.
    split; intros Hwhole; [|by rewrite decide_False].
    rewrite decide_True by done.
    repeat split; intros Hcase.
    + subst t. cbn [Z.eqb Pos.eqb]. by rewrite <- int16_missing_iff.
    + subst t. cbn [Z.eqb Pos.eqb]. by rewrite <- int32_missing_iff.
    + subst t. cbn [Z.eqb Pos.eqb]. by rewrite <- int8_missing_iff.
    + subst t. done.
    + subst t. done.
    + assert ((t =? 65526) = false) as -> by lia.
      assert ((t =? 65527) = false) as -> by lia.
      assert ((t =? 65528) = false) as -> by lia.
      assert ((t =? 65529) = false) as -> by lia.
      assert ((t =? 65530) = false) as -> by lia. done.
Qed.

Lemma Read_missing_rule_witness :
  ∃ rdata rdr',
    Read NewSeries (-1) (Fixture.opened int8_boundary_file) = Ok (rdata, rdr')
    ∧ ∀ s, rdata !! 0%nat = Some s →
        Missing s !! 0%nat = Some false ∧ Missing s !! 1%nat = Some false
        ∧ Missing s !! 2%nat = Some true.
Proof.
  destruct (Read_missing_rule (-1) (Fixture.opened int8_boundary_file)
              ready_int8_boundary) as (rdata & rdr' & Hrun & _ & Hrule).
  exists rdata, rdr'. split; [exact Hrun|]. intros s Hs.
  assert (at_bytes (data_start (Fixture.opened int8_boundary_file))
            (remaining (reader (data_start (Fixture.opened int8_boundary_file)))))
    as Hat by (split; [vm_compute; discriminate|reflexivity]).
  split; [|split].
  - rewrite (proj1 (proj2 (proj2 (proj1
               (Hrule _ Hat 0%nat s 65530 0%nat Hs eq_refl ltac:(vm_compute; lia))
               eq_refl))) eq_refl).
    vm_compute. reflexivity.
  - rewrite (proj1 (proj2 (proj2 (proj1
               (Hrule _ Hat 0%nat s 65530 1%nat Hs eq_refl ltac:(vm_compute; lia))
               eq_refl))) eq_refl).
    vm_compute. reflexivity.
  - rewrite (proj1 (proj2 (proj2 (proj1
               (Hrule _ Hat 0%nat s 65530 2%nat Hs eq_refl ltac:(vm_compute; lia))
               eq_refl))) eq_refl).
    vm_compute. reflexivity.
Defined.

(** ** The observations of a call *)




(** ** A legacy file, read back *)

(** Reads a field through the writes and the reads that follow it. *)
Ltac project :=
  cbn [set_DatasetLabel set_TimeStamp set_Nvar set_RowCount set_VarTypes
       set_column_names set_ColumnNamesLong set_ValueLabels set_ValueLabelNames
       set_Formats set_Strls set_StrlsBytes set_FormatVersion set_ByteOrder
       set_rows_read set_seek_vartypes set_seek_varnames set_seek_sortlist
       set_seek_formats set_seek_value_label_names set_seek_variable_labels
       set_seek_characteristics set_seek_data set_seek_strls set_seek_value_labels
       set_is_date set_reader skip
       InsertStrls InsertCategoryLabels ConvertDates DatasetLabel TimeStamp Nvar
       RowCount VarTypes column_names ColumnNamesLong ValueLabels ValueLabelNames
       Formats Strls StrlsBytes FormatVersion ByteOrder rows_read seek_vartypes
       seek_varnames seek_sortlist seek_formats seek_value_label_names
       seek_variable_labels seek_characteristics seek_data seek_strls
       seek_value_labels is_date].

(** A write to a field other than the source leaves the reader where it
    stands. *)
Lemma at_bytes_preserved (f : StataReader → StataReader) r bs :
  (∀ x, reader (f x) = reader x) → at_bytes r bs → at_bytes (f r) bs.
Proof. intros Hf [Hp Hr]. unfold at_bytes. by rewrite Hf. Qed.

Ltac stands :=
  match goal with
  | H : at_bytes ?r1 _ |- at_bytes ?r2 _ => constr_eq r1 r2; exact H
  | |- at_bytes (?f ?v ?y) _ =>
    apply (at_bytes_preserved (f v)); [intros ?; reflexivity|stands]
  end.

Ltac stands_at H r :=
  match type of H with
  | at_bytes _ ?bs =>
    let H' := fresh in
    assert (at_bytes r bs) as H' by stands;
    clear H; rename H' into H
  end.

(** The header of a legacy file in either byte order. *)
Lemma read_old_header_in a bo gap nvar nobs label stamp rest :
  at_bytes a ([Fixture.byte_of_Z 115; Fixture.byte_of_Z bo] ++ gap
              ++ Fixture.enc (legacy_order bo) 2 nvar
              ++ Fixture.enc (legacy_order bo) 4 nobs
              ++ Fixture.padded 81 label ++ Fixture.padded 18 stamp ++ rest) →
  pos (reader a) + 4 < 2 ^ 63 →
  0 ≤ bo < 256 → length gap = 2%nat →
  - 2 ^ 15 ≤ nvar < 2 ^ 15 → - 2 ^ 31 ≤ nobs < 2 ^ 31 →
  fits 81 label → fits 18 stamp →
  ∃ b, read_old_header a = Ok b
       ∧ FormatVersion b = 115 ∧ ByteOrder b = legacy_order bo
       ∧ Nvar b = nvar ∧ RowCount b = nobs
       ∧ DatasetLabel b = label ∧ TimeStamp b = stamp
       ∧ rows_read b = rows_read a
       ∧ content (reader b) = content (reader a)
       ∧ at_bytes b rest.
Proof.
  intros Hat Hpos Hbo Hgap Hnvar Hnobs [Hl1 Hl2] [Hs1 Hs2]. pose proof Hat as [Hp0 _].
  unfold read_old_header. cbv zeta.
  change ([Fixture.byte_of_Z 115; Fixture.byte_of_Z bo] ++ ?l)
    with (Fixture.enc LittleEndian 1 115 ++ Fixture.enc LittleEndian 1 bo ++ l) in Hat.
  rewrite (at_read_uvar _ _ 1 115 _ 0 Hat) by (simpl; lia).
  apply at_bytes_skip with (n := 1%nat) in Hat; [|done].
  change (negb (supported_version (set_FormatVersion 115 (skip 1 a)))) with false.
  cbv iota.
  stands_at Hat (set_FormatVersion 115 (skip 1 a)).
  rewrite (at_read_uvar (set_FormatVersion 115 (skip 1 a)) _ 1 bo _ 0 Hat)
    by (simpl; lia).
  fold (legacy_order bo). set (ord := legacy_order bo) in *. clearbody ord.
  apply at_bytes_skip with (n := 1%nat) in Hat; [|done].
  match goal with
  | |- context [Seek 2 1 ?r] =>
    stands_at Hat r;
    rewrite (Seek_forward 2 r) by (simpl; lia);
    apply (at_bytes_skip r gap) with (n := 2%nat) in Hat; [|done]
  end.
  change (Z.to_nat 2) with 2%nat.
  match goal with
  | |- context [read_int ?w ?r] =>
    stands_at Hat r;
    let x := fresh "w" in
    set (x := w); vm_compute in x; subst x;
    change (read_int 2 r) with (Ok (A := Z * StataReader) (read_ivar ord 2 0 r));
    rewrite bind_Ok_l;
    rewrite (at_read_ivar r ord 2 nvar _ 0 ltac:(lia) Hat)
      by (change (8 * Z.of_nat 2 - 1) with 15; lia);
    apply (at_bytes_skip r (Fixture.enc ord 2 nvar)) with (n := 2%nat) in Hat;
      [|apply enc_length]
  end.
  cbv beta iota.
  match goal with
  | |- context [read_int ?w ?r] =>
    stands_at Hat r;
    let x := fresh "w" in
    set (x := w); vm_compute in x; subst x;
    change (read_int 4 r) with (Ok (A := Z * StataReader) (read_ivar ord 4 0 r));
    rewrite bind_Ok_l;
    rewrite (at_read_ivar r ord 4 nobs _ 0 ltac:(lia) Hat)
      by (change (8 * Z.of_nat 4 - 1) with 31; lia);
    apply (at_bytes_skip r (Fixture.enc ord 4 nobs)) with (n := 4%nat) in Hat;
      [|apply enc_length]
  end.
  cbv beta iota.
  match goal with
  | |- context [ReadBuf 81 ?buf ?r] =>
    stands_at Hat r;
    pose proof (at_ReadBuf r (Fixture.padded 81 label) _ buf Hat) as Hread;
    rewrite length_replicate, !padded_length in Hread; rewrite Hread by done; clear Hread;
    apply (at_bytes_skip r (Fixture.padded 81 label)) with (n := 81%nat) in Hat;
      [|apply padded_length]
  end.
  rewrite (take_ge (Fixture.padded 81 label)) by (by rewrite padded_length).
  rewrite partition_padded by done.
  match goal with
  | |- context [ReadBuf 18 ?buf ?r] =>
    stands_at Hat r;
    pose proof (ReadBuf_front buf r (Fixture.padded 18 stamp) _ (proj2 Hat)) as Hread;
    rewrite !padded_length in Hread; rewrite Hread by lia; clear Hread;
    apply (at_bytes_skip r (Fixture.padded 18 stamp)) with (n := 18%nat) in Hat;
      [|apply padded_length]
  end.
  rewrite take_app_length' by (by rewrite padded_length).
  rewrite partition_padded by done.
  eexists. split; [reflexivity|].
  do 7 (split; [project; reflexivity|]).
  split; [cbn [content reader advance set_reader]; project; reflexivity|].
  match goal with |- at_bytes ?r _ => stands_at Hat r end. exact Hat.
Qed.

Lemma for_range_inv {St} (P : nat → St → Prop) (body : nat → St → St) n :
  ∀ k s,
  P k s →
  (∀ k' s', (k ≤ k' < k + n)%nat → P k' s' → P (S k') (body k' s')) →
  P (k + n)%nat (for_range n k body s).
Proof.
  induction n as [|n IH]; intros k s HP Hbody.
  - by rewrite Nat.add_0_r.
  - rewrite for_range_S. replace (k + S n)%nat with (S k + n)%nat by lia.
    apply IH; [apply Hbody; [lia|done]|]. intros k' s' Hk'. apply Hbody. lia.
Qed.

Lemma enc_1 ord t : Fixture.enc ord 1 t = [Fixture.byte_of_Z t].
Proof. by destruct ord. Qed.

(** The type codes of a legacy file, one byte each. *)
Lemma read_vartypes_8_at a types rest :
  at_bytes a ((Fixture.byte_of_Z <$> types) ++ rest) →
  Nvar a = Z.of_nat (length types) →
  Forall (λ t, 0 ≤ t < 256) types →
  read_vartypes_8 a = Ok (set_VarTypes types (skip (length types) a))
  ∧ at_bytes (skip (length types) a) rest.
Proof.
  intros Hat HN Htypes. split.
  2:{ apply (at_bytes_skip a (Fixture.byte_of_Z <$> types)); [done|].
      by rewrite length_fmap. }
  unfold read_vartypes_8, make. rewrite HN.
  assert ((Z.of_nat (length types) <? 0) = false) as -> by lia.
  rewrite bind_Ok_l, Nat2Z.id. cbv zeta.
  change (Nvar (set_VarTypes ?v a)) with (Nvar a). rewrite HN, Nat2Z.id. f_equal.
  match goal with
  | |- (for_range ?n _ ?body ?s0).2 = _ =>
    pose proof (for_range_inv
      (λ j (s : Z * StataReader),
         ∃ l, s.2 = set_VarTypes l (skip j a) ∧ length l = length types
              ∧ take j l = take j types)
      body n 0%nat s0) as Hinv
  end.
  destruct Hinv as (l & -> & Hlen & Htake).
  - exists (replicate (length types) 0). cbn [snd]. rewrite skip_0, length_replicate.
    done.
  - intros k [b0 r] Hk (l & Hr & Hlen & Htake). cbn [snd] in Hr. subst r.
    destruct (lookup_lt_is_Some_2 types k ltac:(lia)) as [t Ht].
    pose proof (Forall_lookup_1 _ _ _ _ Htypes Ht) as Hrange. cbv beta in Hrange.
    assert (at_bytes (set_VarTypes l (skip k a))
              (Fixture.enc (ByteOrder (set_VarTypes l (skip k a))) 1 t
               ++ (Fixture.byte_of_Z <$> drop (S k) types) ++ rest)) as Hk_at.
    { rewrite enc_1. apply (at_bytes_preserved (set_VarTypes l)); [done|].
      apply (at_bytes_skip a (Fixture.byte_of_Z <$> take k types)).
      - rewrite <- (take_drop k types) in Hat at 1.
        rewrite fmap_app, <- app_assoc, (drop_S _ _ _ Ht) in Hat. exact Hat.
      - rewrite length_fmap, length_take. lia. }
    rewrite (at_read_uvar _ _ 1 t _ b0 Hk_at) by (simpl; lia).
    cbn [snd]. exists (<[k := t]> l).
    change (VarTypes (skip 1 (set_VarTypes l (skip k a)))) with l.
    split; [|split].
    + change (skip 1 (set_VarTypes l (skip k a)))
        with (set_VarTypes l (skip 1 (skip k a))).
      rewrite set_VarTypes_set_VarTypes, skip_skip. do 2 f_equal. lia.
    + by rewrite length_insert.
    + rewrite (take_S_r types k t Ht).
      rewrite (take_S_r (<[k := t]> l) k t) by (apply list_lookup_insert_eq; lia).
      rewrite take_insert_ge by lia. by rewrite Htake.
  - rewrite Nat.add_0_l in *. do 2 f_equal.
    rewrite <- (take_ge l (length types)) by lia.
    rewrite Htake. apply take_ge. lia.
Qed.

(** A section of [Nvar] texts of [w] bytes each, read back. *)
Lemma read_strings_at (get : StataReader → list string)
  (set : list string → StataReader → StataReader) w names : ∀ a l0 buf rest,
  (∀ v n r, skip n (set v r) = set v (skip n r)) →
  (∀ v v' r, set v (set v' r) = set v r) →
  (∀ v r, get (set v r) = v) →
  (∀ v r, reader (set v r) = reader r) →
  (∀ v r, Nvar (set v r) = Nvar r) →
  length buf = w →
  at_bytes a (mjoin (Fixture.padded w <$> names) ++ rest) →
  Nvar a = Z.of_nat (length names) → length l0 = length names →
  Forall (fits w) names →
  read_strings (λ k s r, set (<[k := s]> (get r)) r) buf (set l0 a)
  = set names (skip (w * length names) a)
  ∧ at_bytes (skip (w * length names) a) rest.
Proof.
  intros a l0 buf rest Hcomm Hidem Hget Hreader HNvar Hbuf Hat HN Hl0 Hfits.
  assert (∀ l : list string,
            length (mjoin (Fixture.padded w <$> l)) = (w * length l)%nat) as Hjoin.
  { induction l as [|x l IH]; [simpl; lia|].
    change (mjoin (Fixture.padded w <$> x :: l))
      with (Fixture.padded w x ++ mjoin (Fixture.padded w <$> l)).
    rewrite length_app, padded_length, IH. simpl. lia. }
  split.
  2:{ apply (at_bytes_skip a (mjoin (Fixture.padded w <$> names))); [done|].
      apply Hjoin. }
  unfold read_strings. rewrite HNvar, HN, Nat2Z.id.
  match goal with
  | |- (for_range ?n _ ?body ?s0).2 = _ =>
    pose proof (for_range_inv
      (λ j (s : list byte * StataReader),
         ∃ l, s.2 = set l (skip (w * j) a) ∧ length s.1 = w
              ∧ length l = length names ∧ take j l = take j names)
      body n 0%nat s0) as Hinv
  end.
  destruct Hinv as (l & -> & _ & Hlen & Htake).
  - exists l0. cbn [fst snd]. rewrite Nat.mul_0_r, skip_0. done.
  - intros k [bf r] Hk (l & Hr & Hbf & Hlen & Htake). cbn [fst snd] in Hr, Hbf. subst r.
    destruct (lookup_lt_is_Some_2 names k ltac:(lia)) as [s Hs].
    pose proof (Forall_lookup_1 _ _ _ _ Hfits Hs) as [Hs1 Hs2].
    assert (at_bytes (set l (skip (w * k) a))
              (Fixture.padded w s
               ++ mjoin (Fixture.padded w <$> drop (S k) names) ++ rest)) as Hk_at.
    { apply (at_bytes_preserved (set l)); [apply Hreader|].
      apply (at_bytes_skip a (mjoin (Fixture.padded w <$> take k names))).
      - rewrite <- (take_drop k names) in Hat at 1.
        rewrite fmap_app, join_app, <- app_assoc, (drop_S _ _ _ Hs) in Hat.
        change (mjoin (Fixture.padded w <$> s :: drop (S k) names))
          with (Fixture.padded w s ++ mjoin (Fixture.padded w <$> drop (S k) names))
          in Hat.
        rewrite <- app_assoc in Hat. exact Hat.
      - rewrite Hjoin, length_take. f_equal. lia. }
    pose proof (at_ReadBuf _ (Fixture.padded w s) _ bf Hk_at) as Hread.
    rewrite padded_length in Hread. rewrite Hread by done. clear Hread.
    cbn [fst snd]. rewrite partition_padded by done.
    exists (<[k := s]> l). rewrite Hcomm, Hget, Hidem, skip_skip.
    split; [|split; [|split]].
    + do 2 f_equal. lia.
    + apply padded_length.
    + by rewrite length_insert.
    + rewrite (take_S_r names k s Hs).
      rewrite (take_S_r (<[k := s]> l) k s) by (apply list_lookup_insert_eq; lia).
      rewrite take_insert_ge by lia. by rewrite Htake.
  - rewrite Nat.add_0_l in *. f_equal.
    rewrite <- (take_ge l (length names)) by lia.
    rewrite Htake. apply take_ge. lia.
Qed.

Lemma read_varnames_at a names rest :
  FormatVersion a = 115 →
  at_bytes a (mjoin (Fixture.padded 33 <$> names) ++ rest) →
  Nvar a = Z.of_nat (length names) → Forall (fits 33) names →
  read_varnames a = Ok (set_column_names names (skip (33 * length names) a))
  ∧ at_bytes (skip (33 * length names) a) rest.
Proof.
  intros HV Hat HN Hfits. unfold read_varnames. rewrite HV. cbn [Z.eqb Pos.eqb].
  unfold do_read_varnames, make. cbn [Z.ltb Z.compare]. rewrite bind_Ok_l. cbv zeta.
  rewrite HN. assert ((Z.of_nat (length names) <? 0) = false) as -> by lia.
  rewrite bind_Ok_l, Nat2Z.id.
  destruct (read_strings_at column_names set_column_names 33 names a
              (replicate (length names) EmptyString) (replicate (Z.to_nat 33) x00) rest)
    as [-> Hat']; try done.
  by rewrite length_replicate.
Qed.

Lemma read_value_label_names_at a names rest :
  FormatVersion a = 115 →
  at_bytes a (mjoin (Fixture.padded 33 <$> names) ++ rest) →
  Nvar a = Z.of_nat (length names) → Forall (fits 33) names →
  read_value_label_names a
  = Ok (set_ValueLabelNames names (skip (33 * length names) a))
  ∧ at_bytes (skip (33 * length names) a) rest.
Proof.
  intros HV Hat HN Hfits. unfold read_value_label_names. rewrite HV. cbn [Z.eqb Pos.eqb].
  unfold do_read_value_label_names, make. cbn [Z.ltb Z.compare]. rewrite bind_Ok_l.
  cbv zeta.
  rewrite HN. assert ((Z.of_nat (length names) <? 0) = false) as -> by lia.
  rewrite bind_Ok_l, Nat2Z.id.
  destruct (read_strings_at ValueLabelNames set_ValueLabelNames 33 names a
              (replicate (length names) EmptyString) (replicate (Z.to_nat 33) x00) rest)
    as [-> Hat']; try done.
  by rewrite length_replicate.
Qed.

Lemma read_variable_labels_at a names rest :
  FormatVersion a = 115 →
  at_bytes a (mjoin (Fixture.padded 81 <$> names) ++ rest) →
  Nvar a = Z.of_nat (length names) → Forall (fits 81) names →
  read_variable_labels a
  = Ok (set_ColumnNamesLong names (skip (81 * length names) a))
  ∧ at_bytes (skip (81 * length names) a) rest.
Proof.
  intros HV Hat HN Hfits. unfold read_variable_labels. rewrite HV. cbn [Z.eqb Pos.eqb].
  unfold do_read_variable_labels, make. cbn [Z.ltb Z.compare]. rewrite bind_Ok_l.
  cbv zeta.
  rewrite HN. assert ((Z.of_nat (length names) <? 0) = false) as -> by lia.
  rewrite bind_Ok_l, Nat2Z.id.
  destruct (read_strings_at ColumnNamesLong set_ColumnNamesLong 81 names a
              (replicate (length names) EmptyString) (replicate (Z.to_nat 81) x00) rest)
    as [-> Hat']; try done.
  by rewrite length_replicate.
Qed.

(** The second loop of do_read_formats on flags that are clear from [k]
    on. *)
Lemma flag_date_loop_at m : ∀ k l r,
  (k + m)%nat = length (Formats r) → length l = k →
  for_rangeM m k flag_date (set_is_date (l ++ replicate m false) r)
  = Ok (set_is_date (l ++ (date_format <$> drop k (Formats r))) r).
Proof.
  induction m as [|m IH]; intros k l r Hk Hl.
  - rewrite drop_ge by lia. done.
  - rewrite for_rangeM_S.
    destruct (lookup_lt_is_Some_2 (Formats r) k ltac:(lia)) as [f Hf].
    assert (flag_date k (set_is_date (l ++ replicate (S m) false) r)
            = Ok (set_is_date ((l ++ [date_format f]) ++ replicate m false) r)) as ->.
    { unfold flag_date. change (Formats (set_is_date ?d r)) with (Formats r).
      rewrite Hf. change (is_date (set_is_date ?d r)) with d. f_equal.
      rewrite <- app_assoc. cbn [replicate app].
      destruct (date_format f); [|done].
      rewrite insert_app_r_alt by lia. rewrite Hl, Nat.sub_diag. done. }
    rewrite bind_Ok_l.
    rewrite IH by (rewrite ?length_app; simpl; lia).
    rewrite (drop_S _ _ _ Hf), <- app_assoc. done.
Qed.

Lemma read_formats_at a formats rest :
  FormatVersion a = 115 →
  at_bytes a (mjoin (Fixture.padded 49 <$> formats) ++ rest) →
  Nvar a = Z.of_nat (length formats) → Forall (fits 49) formats →
  read_formats a
  = Ok (set_is_date (date_format <$> formats)
          (set_Formats formats (skip (49 * length formats) a)))
  ∧ at_bytes (skip (49 * length formats) a) rest.
Proof.
  intros HV Hat HN Hfits. unfold read_formats. rewrite HV. cbn [Z.eqb Pos.eqb].
  unfold do_read_formats, make. cbn [Z.ltb Z.compare]. rewrite bind_Ok_l.
  cbv zeta.
  rewrite HN. assert ((Z.of_nat (length formats) <? 0) = false) as -> by lia.
  rewrite bind_Ok_l, Nat2Z.id.
  destruct (read_strings_at Formats set_Formats 49 formats a
              (replicate (length formats) EmptyString) (replicate (Z.to_nat 49) x00) rest)
    as [-> Hat']; try done.
  { by rewrite length_replicate. }
  split; [|done].
  change (Nvar (set_Formats ?v (skip ?n a))) with (Nvar a). rewrite HN.
  assert ((Z.of_nat (length formats) <? 0) = false) as -> by lia.
  rewrite bind_Ok_l, Nat2Z.id.
  change (Nvar (set_is_date ?d (set_Formats ?v (skip ?n a)))) with (Nvar a).
  rewrite HN, Nat2Z.id.
  pose proof (flag_date_loop_at (length formats) 0 []
                (set_Formats formats (skip (49 * length formats) a))) as Hloop.
  cbn [app] in Hloop. rewrite Hloop by done. by rewrite drop_0.
Qed.

Lemma at_bytes_room r bs :
  at_bytes r bs → bs ≠ [] →
  pos (reader r) + Z.of_nat (length bs) = Z.of_nat (length (content (reader r))).
Proof.
  intros [Hp Hr] Hne. unfold remaining in Hr.
  assert ((pos (reader r) <? 0) = false) as Hpos by lia. rewrite Hpos in Hr.
  pose proof (f_equal length Hr) as Hl. rewrite length_drop in Hl.
  destruct bs; [done|]. simpl in *. lia.
Qed.

Lemma mjoin_padded_length w (l : list string) :
  length (mjoin (Fixture.padded w <$> l)) = (w * length l)%nat.
Proof.
  induction l as [|x l IH]; [simpl; lia|].
  change (mjoin (Fixture.padded w <$> x :: l))
    with (Fixture.padded w x ++ mjoin (Fixture.padded w <$> l)).
  rewrite length_app, padded_length, IH. simpl. lia.
Qed.

Lemma fits_le w w' s : (w ≤ w')%nat → fits w s → fits w' s.
Proof. intros Hle [Hl Hn]. split; [lia|done]. Qed.

(** X19: NewStataReader reads back a well-formed format-115 file in either
    byte order (the second byte of the header: 1 for big-endian, any other
    value for little-endian), whatever its label, time stamp and long labels:
    the variable and observation counts, the dataset label and the time stamp
    of the header, the type codes (translated by the table of
    translate_vartypes), the names, formats, label-set names and long labels
    of the variables and the date flags of the formats; it skips the two
    unused bytes of the header, the sort list and a chain of expansion fields
    with its terminator, and leaves the reader at the first byte of the rows. *)
Theorem NewStataReader_legacy_round_trip (fuel : nat) (bo nvar nobs : Z)
  (gap sortlist : list byte) (label stamp : string) (types : list Z)
  (names formats lblnames longs : list string) (fields : list (Z * list byte))
  (rows : list byte) :
  0 ≤ bo < 256 → length gap = 2%nat →
  0 ≤ nvar < 2 ^ 15 → - 2 ^ 31 ≤ nobs < 2 ^ 31 →
  fits 81 label → fits 18 stamp →
  length types = Z.to_nat nvar → length names = Z.to_nat nvar →
  length sortlist = (2 * (Z.to_nat nvar + 1))%nat →
  length formats = Z.to_nat nvar → length lblnames = Z.to_nat nvar →
  length longs = Z.to_nat nvar →
  Forall (λ t, 0 ≤ t ≤ 244 ∨ 251 ≤ t ≤ 255) types →
  Forall (fits 33) names → Forall (fits 49) formats → Forall (fits 33) lblnames →
  Forall (fits 81) longs → Forall field_fits fields →
  Z.of_nat (length (legacy_file bo gap nvar nobs label stamp types names sortlist
                      formats lblnames longs fields rows)) < 2 ^ 63 →
  ∃ rdr,
    NewStataReader (length fields + S fuel)
      (legacy_file bo gap nvar nobs label stamp types names sortlist formats
         lblnames longs fields rows) = Ok rdr
    ∧ FormatVersion rdr = 115 ∧ ByteOrder rdr = legacy_order bo
    ∧ Nvar rdr = nvar ∧ RowCount rdr = nobs
    ∧ DatasetLabel rdr = label ∧ TimeStamp rdr = stamp
    ∧ VarTypes rdr = spec_translate <$> types
    ∧ ColumnNames rdr = names ∧ ColumnNamesLong rdr = longs
    ∧ Formats rdr = formats ∧ is_date rdr = date_format <$> formats
    ∧ ValueLabelNames rdr = lblnames
    ∧ rows_read rdr = 0
    ∧ at_bytes rdr rows.
Proof.
  intros Hbo Hgap Hnvar Hnobs Hlabel Hstamp Htl Hnl Hsl Hfl Hll Hgl Htypes Hnames
    Hformats Hlbls Hlongs Hfields Hsize.
  set (file := legacy_file bo gap nvar nobs label stamp types names sortlist formats
                 lblnames longs fields rows) in *.
  unfold NewStataReader, init.
  destruct (init_first_byte file) as (r & -> & Hr). rewrite (init_rewind r file Hr).
  assert (String.eqb (string_of_list_byte (take 1 (file ++ [x00]))) "<" = false) as ->
    by done.
  assert (at_bytes (new_reader file) file) as Hat by (split; [done|apply drop_0]).
  unfold file at 2 in Hat. unfold legacy_file in Hat.
  destruct (read_old_header_in (new_reader file) bo gap nvar nobs label stamp _ Hat)
    as (b & -> & HV & HBO & HNv & HRC & HDL & HTS & HRR & Hsrc & Hat1);
    [done|done|done|lia|done|done|done|].
  clear Hat. rewrite bind_Ok_l.
  assert (Nvar b = Z.of_nat (length types)) as HNt by lia.
  (* the type codes *)
  unfold read_vartypes. rewrite HV. cbn [Z.eqb Pos.eqb].
  destruct (read_vartypes_8_at b types _ Hat1 HNt) as [-> Hat2].
  { eapply Forall_impl; [exact Htypes|]. intros t Ht. cbv beta in Ht. lia. }
  rewrite bind_Ok_l. clear Hat1.
  change (FormatVersion (set_VarTypes ?v (skip ?n b))) with (FormatVersion b).
  rewrite HV. cbn [Z.ltb Z.compare Pos.compare Pos.compare_cont].
  unfold translate_vartypes.
  change (Nvar (set_VarTypes ?v (skip ?n b))) with (Nvar b). rewrite HNt, Nat2Z.id.
  rewrite translate_loop_ok.
  2:{ done. }
  2:{ rewrite drop_0. change (VarTypes (set_VarTypes ?v ?x)) with v.
      eapply Forall_impl; [exact Htypes|]. intros t Ht. cbv beta in Ht. lia. }
  rewrite bind_Ok_l, take_0, drop_0, app_nil_l.
  change (VarTypes (set_VarTypes ?v ?x)) with v.
  rewrite set_VarTypes_set_VarTypes.
  (* the names *)
  match goal with
  | |- context [read_varnames ?x] =>
    stands_at Hat2 x;
    destruct (read_varnames_at x names _ ltac:(project; exact HV) Hat2
                ltac:(project; lia) Hnames) as [-> Hat3]
  end.
  rewrite bind_Ok_l. clear Hat2. cbv zeta.
  (* the sort list *)
  match goal with
  | |- context [Seek ?off 1 ?x] =>
    stands_at Hat3 x;
    assert (off = 2 * (nvar + 1)) as ->
      by (project; rewrite HNv; apply wrap_int_64_small; lia);
    pose proof (at_bytes_room x _ Hat3) as Hroom;
    assert (content (reader x) = file) as Hsrc3
      by (cbn [content reader advance set_reader]; project; exact Hsrc);
    rewrite Hsrc3, !length_app in Hroom;
    rewrite (Seek_forward (2 * (nvar + 1)) x);
      [|apply Hat3|lia|];
      [|rewrite <- Hroom in Hsize;
        [lia|intros Hnil; apply (f_equal length) in Hnil;
             rewrite length_app in Hnil; simpl in Hnil; lia]];
    apply (at_bytes_skip x sortlist)
      with (n := Z.to_nat (2 * (nvar + 1))) in Hat3;
      [|lia]
  end.
  clear Hroom Hsrc3.
  assert ((FormatVersion
             (set_column_names names
                (skip (33 * length names)
                   (set_VarTypes (spec_translate <$> types) (skip (length types) b))))
           <? 117) = true) as -> by (project; by rewrite HV).
  (* the formats *)
  match goal with
  | |- context [read_formats ?x] =>
    destruct (read_formats_at x formats _ ltac:(project; exact HV) Hat3
                ltac:(project; lia) Hformats) as [-> Hat4]
  end.
  rewrite bind_Ok_l. clear Hat3.
  (* the names of the label sets, the long labels *)
  match goal with
  | |- context [read_value_label_names ?x] =>
    stands_at Hat4 x;
    destruct (read_value_label_names_at x lblnames _ ltac:(project; exact HV) Hat4
                ltac:(project; lia) Hlbls) as [-> Hat5]
  end.
  rewrite bind_Ok_l. clear Hat4.
  match goal with
  | |- context [read_variable_labels ?x] =>
    stands_at Hat5 x;
    destruct (read_variable_labels_at x longs _ ltac:(project; exact HV) Hat5
                ltac:(project; lia) Hlongs) as [-> Hat6]
  end.
  rewrite bind_Ok_l. clear Hat5.
  (* the expansion fields *)
  match goal with
  | |- context [if FormatVersion ?x <? 117 then _ else _] =>
    assert (FormatVersion x = 115) as HV6 by (project; exact HV);
    rewrite HV6; cbn [Z.ltb Z.leb Z.compare Pos.compare Pos.compare_cont];
    stands_at Hat6 x;
    assert (ByteOrder x = legacy_order bo) as HBO6 by (project; exact HBO);
    pose proof (at_bytes_room x _ Hat6) as Hroom;
    assert (content (reader x) = file) as Hsrc6
      by (cbn [content reader advance set_reader]; project; exact Hsrc);
    rewrite Hsrc6, !length_app, length_replicate in Hroom;
    rewrite <- HBO6 in Hat6;
    destruct (read_expansion_fields_loop_chain fields fuel 0 0 x rows Hat6 Hfields)
      as (n & Hexp & Hat7)
  end.
  { rewrite HBO6. rewrite <- Hroom in Hsize.
    - change (2 ^ 63) with 9223372036854775808 in *. lia.
    - intros Hnil. apply (f_equal length) in Hnil.
      rewrite !length_app, length_replicate in Hnil. simpl in Hnil. lia. }
  unfold read_expansion_fields. rewrite Hexp, bind_Ok_l.
  match goal with
  | |- context [117 <=? FormatVersion ?x] =>
    assert (FormatVersion x = 115) as -> by (project; exact HV)
  end.
  cbn [Z.leb Z.compare Pos.compare Pos.compare_cont].
  eexists. split; [reflexivity|].
  unfold ColumnNames.
  split; [project; exact HV|]. split; [project; exact HBO|].
  split; [project; exact HNv|]. split; [project; exact HRC|].
  split; [project; exact HDL|]. split; [project; exact HTS|].
  do 6 (split; [project; reflexivity|]).
  split; [project; exact HRR|]. exact Hat7.
Qed.

Lemma NewStataReader_legacy_round_trip_witness :
  ∃ rdr,
    NewStataReader 2
      (legacy_file 1 [x00; x00] 2 1 "survey" "01 Jan 2020 09:30" [253; 20]
         ["d"; "s"] (replicate 6 x00) ["%td"; "%20s"] [""; ""]
         ["day of visit"; "remark"] [(1, [x07; x08])]
         (Fixture.enc BigEndian 4 366 ++ Fixture.padded 20 "text")) = Ok rdr
    ∧ ByteOrder rdr = BigEndian
    ∧ DatasetLabel rdr = "survey"%string
    ∧ VarTypes rdr = [65528; 20]
    ∧ ColumnNames rdr = ["d"; "s"]%string
    ∧ ColumnNamesLong rdr = ["day of visit"; "remark"]%string
    ∧ is_date rdr = [true; false]
    ∧ at_bytes rdr (Fixture.enc BigEndian 4 366 ++ Fixture.padded 20 "text").
Proof.
  destruct (NewStataReader_legacy_round_trip 0 1 2 1 [x00; x00] (replicate 6 x00)
              "survey" "01 Jan 2020 09:30" [253; 20] ["d"; "s"]%string
              ["%td"; "%20s"]%string [""; ""]%string
              ["day of visit"; "remark"]%string [(1, [x07; x08])]
              (Fixture.enc BigEndian 4 366 ++ Fixture.padded 20 "text"))
    as (rdr & Hrun & _ & Hbo & _ & _ & Hdl & _ & Hvt & Hcn & Hcl & _ & Hd & _ & _ & Hat).
  - lia.
  - reflexivity.
  - lia.
  - lia.
  - split; [simpl; lia|no_null].
  - split; [simpl; lia|no_null].
  - reflexivity.
  - reflexivity.
  - reflexivity.
  - reflexivity.
  - reflexivity.
  - reflexivity.
  - repeat (apply List.Forall_cons; [lia|]). apply List.Forall_nil.
  - repeat (apply List.Forall_cons; [split; [simpl; lia|no_null]|]). apply List.Forall_nil.
  - repeat (apply List.Forall_cons; [split; [simpl; lia|no_null]|]). apply List.Forall_nil.
  - repeat (apply List.Forall_cons; [split; [simpl; lia|no_null]|]). apply List.Forall_nil.
  - repeat (apply List.Forall_cons; [split; [simpl; lia|no_null]|]). apply List.Forall_nil.
  - apply List.Forall_cons; [|apply List.Forall_nil].
    split; [simpl; lia|]. split; [simpl; lia|]. left. simpl. lia.
  - vm_compute. reflexivity.
  - exists rdr. split; [exact Hrun|]. split; [exact Hbo|]. split; [exact Hdl|].
    split; [exact Hvt|]. split; [exact Hcn|]. split; [exact Hcl|].
    split; [exact Hd|exact Hat].
Defined.

(** ** An exhausted source *)











(** ** A tagged file, read back *)


























